(** * Mux Sweeper: capture and muxing core

    A shallow embedding of the muxer (encoder.c), the two audio sources
    (system.c, microphone.c), the screen source (screen.c) and the capture
    orchestrator (engine.c), with the properties of the specification
    stated over it.

    Conventions.
    - C integers are [Z]; every place where the C type truncates is written
      with [u32], [u64] or [s64].
    - A pointer argument that the C code tests against NULL is an [option].
    - Module-level [static] variables are fields of explicit state records
      that every function takes and returns.
    - Each call into the operating system whose HRESULT the code tests is
      answered by an oracle argument, so a definition covers every
      success/failure combination the OS can produce.
    - Behaviour the C standard leaves undefined (division by zero, a call
      through a NULL pointer) is the outcome [Crash]. *)

From Stdlib Require Import ZArith List Lia Bool.
From Stdlib Require String.
Import String.StringSyntax.
Import ListNotations.
Abbreviation string := String.string.
Local Open Scope Z_scope.

(** ** Machine integers *)

Definition u32 (x : Z) : Z := x mod 2 ^ 32.
Definition u64 (x : Z) : Z := x mod 2 ^ 64.

(** Conversion of a 64-bit pattern to LONGLONG. *)
Definition s64 (x : Z) : Z :=
  let y := x mod 2 ^ 64 in if y <? 2 ^ 63 then y else y - 2 ^ 64.

(** ** Outcomes of a call *)

(** [Ret a]: the call returns [a].  [Crash]: the C program has undefined
    behaviour on this path.  [Pending]: the supplied trace of loop
    iterations ended while the capture loop was still running. *)
Inductive run (A : Type) : Type :=
| Ret (a : A)
| Crash
| Pending.
Arguments Ret {A} a.
Arguments Crash {A}.
Arguments Pending {A}.

Definition bind {A B} (m : run A) (k : A -> run B) : run B :=
  match m with
  | Ret a => k a
  | Crash => Crash
  | Pending => Pending
  end.

Notation "x <- m ;; k" := (bind m (fun x => k))
  (at level 61, m at next level, right associativity).
Notation "' p <- m ;; k" := (bind m (fun p => k))
  (at level 61, p pattern, m at next level, right associativity).

(** C division of non-negative operands; a zero divisor is undefined. *)
Definition c_div (a b : Z) : run Z :=
  if b =? 0 then Crash else Ret (a / b).

Definition byte := Byte.byte.

(** * Part I: the program *)

(** ** The sink writer (Media Foundation), as the muxer sees it *)

(** Output media types declared with [IMFSinkWriter_AddStream]. *)
Inductive media_type : Type :=
| VideoH264 (avg_bitrate frame_size frame_rate interlace_mode : Z)
| AudioAAC (samples_per_second num_channels bits_per_sample avg_bitrate : Z).

Record IMFSample : Type := {
  sample_time : Z;
  sample_duration : Z;
  sample_bytes : list byte }.

(** What the sink writer has accepted so far, oldest first. *)
Inductive sink_event : Type :=
| BeginWriting
| WriteSample (stream : Z) (s : IMFSample)
| Flush
| SendStreamTick (stream : Z) (timestamp : Z)
| Finalize.

Record IMFSinkWriter : Type := {
  sw_streams : list media_type;
  sw_events : list sink_event }.

(** A fresh writer, as [MFCreateSinkWriterFromURL] returns it. *)
Definition new_sink_writer : IMFSinkWriter :=
  {| sw_streams := []; sw_events := [] |}.

(** [IMFSinkWriter_AddStream]: the new stream gets the next index. *)
Definition add_stream (sw : IMFSinkWriter) (mt : media_type) : IMFSinkWriter * Z :=
  ({| sw_streams := sw_streams sw ++ [mt]; sw_events := sw_events sw |},
   Z.of_nat (length (sw_streams sw))).

Definition sink_accept (sw : IMFSinkWriter) (e : sink_event) : IMFSinkWriter :=
  {| sw_streams := sw_streams sw; sw_events := sw_events sw ++ [e] |}.

(** ** encoder.h / encoder.c: state *)

Record encoder_context_t : Type := {
  ec_output_filename : option string;
  ec_dual_track_mode : bool;
  ec_audio_only_mode : bool;
  ec_is_recording : bool;
  ec_input_sample_rate : Z;
  ec_input_channels : Z;
  ec_input_bits_per_sample : Z;
  ec_video_width : Z;
  ec_video_height : Z;
  ec_video_fps : Z }.

(** [memset(context, 0, sizeof(encoder_context_t))]. *)
Definition zero_encoder_context : encoder_context_t :=
  {| ec_output_filename := None; ec_dual_track_mode := false;
     ec_audio_only_mode := false; ec_is_recording := false;
     ec_input_sample_rate := 0; ec_input_channels := 0;
     ec_input_bits_per_sample := 0; ec_video_width := 0;
     ec_video_height := 0; ec_video_fps := 0 |}.

Definition set_ec_is_recording (v : bool) (c : encoder_context_t) : encoder_context_t :=
  {| ec_output_filename := ec_output_filename c;
     ec_dual_track_mode := ec_dual_track_mode c;
     ec_audio_only_mode := ec_audio_only_mode c; ec_is_recording := v;
     ec_input_sample_rate := ec_input_sample_rate c;
     ec_input_channels := ec_input_channels c;
     ec_input_bits_per_sample := ec_input_bits_per_sample c;
     ec_video_width := ec_video_width c; ec_video_height := ec_video_height c;
     ec_video_fps := ec_video_fps c |}.

(** The context as the four init functions fill it after the memset. *)
Definition init_encoder_context (filename : string)
    (sample_rate channels bits_per_sample : Z) (dual : bool) : encoder_context_t :=
  {| ec_output_filename := Some filename; ec_dual_track_mode := dual;
     ec_audio_only_mode := false; ec_is_recording := false;
     ec_input_sample_rate := sample_rate; ec_input_channels := channels;
     ec_input_bits_per_sample := bits_per_sample; ec_video_width := 0;
     ec_video_height := 0; ec_video_fps := 0 |}.

(** The module-level statics of encoder.c, one field per variable, and the
    function-static [samples_at_last_log] of [encoder_add_audio_frame]. *)
Record encoder_globals : Type := {
  g_sink_writer : option IMFSinkWriter;
  g_video_stream_index : Z;
  g_audio_stream_index : Z;
  g_system_audio_stream_index : Z;
  g_mic_audio_stream_index : Z;
  g_dual_track_mode : bool;
  g_video_frame_count : Z;
  g_audio_sample_count : Z;
  g_system_audio_sample_count : Z;
  g_mic_audio_sample_count : Z;
  g_video_width : Z;
  g_video_height : Z;
  g_video_fps : Z;
  g_audio_sample_rate : Z;
  g_recording_start_time : Z;
  g_last_video_timestamp : Z;
  g_container_timescale : Z;
  samples_at_last_log : Z }.

(** The initializers written in the source. *)
Definition initial_encoder_globals : encoder_globals :=
  {| g_sink_writer := None; g_video_stream_index := 0;
     g_audio_stream_index := 0; g_system_audio_stream_index := 0;
     g_mic_audio_stream_index := 0; g_dual_track_mode := false;
     g_video_frame_count := 0; g_audio_sample_count := 0;
     g_system_audio_sample_count := 0; g_mic_audio_sample_count := 0;
     g_video_width := 0; g_video_height := 0; g_video_fps := 30;
     g_audio_sample_rate := 44100; g_recording_start_time := 0;
     g_last_video_timestamp := 0; g_container_timescale := 30000;
     samples_at_last_log := 0 |}.

(** Assignment to one global. *)
Definition set_g_sink_writer (v : option IMFSinkWriter) (g : encoder_globals) : encoder_globals :=
  {| g_sink_writer := v; g_video_stream_index := g_video_stream_index g;
     g_audio_stream_index := g_audio_stream_index g;
     g_system_audio_stream_index := g_system_audio_stream_index g;
     g_mic_audio_stream_index := g_mic_audio_stream_index g;
     g_dual_track_mode := g_dual_track_mode g; g_video_frame_count :=
     g_video_frame_count g; g_audio_sample_count := g_audio_sample_count g;
     g_system_audio_sample_count := g_system_audio_sample_count g;
     g_mic_audio_sample_count := g_mic_audio_sample_count g; g_video_width
     := g_video_width g; g_video_height := g_video_height g; g_video_fps :=
     g_video_fps g; g_audio_sample_rate := g_audio_sample_rate g;
     g_recording_start_time := g_recording_start_time g;
     g_last_video_timestamp := g_last_video_timestamp g;
     g_container_timescale := g_container_timescale g; samples_at_last_log
     := samples_at_last_log g |}.
Definition set_g_video_stream_index (v : Z) (g : encoder_globals) : encoder_globals :=
  {| g_sink_writer := g_sink_writer g; g_video_stream_index := v;
     g_audio_stream_index := g_audio_stream_index g;
     g_system_audio_stream_index := g_system_audio_stream_index g;
     g_mic_audio_stream_index := g_mic_audio_stream_index g;
     g_dual_track_mode := g_dual_track_mode g; g_video_frame_count :=
     g_video_frame_count g; g_audio_sample_count := g_audio_sample_count g;
     g_system_audio_sample_count := g_system_audio_sample_count g;
     g_mic_audio_sample_count := g_mic_audio_sample_count g; g_video_width
     := g_video_width g; g_video_height := g_video_height g; g_video_fps :=
     g_video_fps g; g_audio_sample_rate := g_audio_sample_rate g;
     g_recording_start_time := g_recording_start_time g;
     g_last_video_timestamp := g_last_video_timestamp g;
     g_container_timescale := g_container_timescale g; samples_at_last_log
     := samples_at_last_log g |}.
Definition set_g_audio_stream_index (v : Z) (g : encoder_globals) : encoder_globals :=
  {| g_sink_writer := g_sink_writer g; g_video_stream_index :=
     g_video_stream_index g; g_audio_stream_index := v;
     g_system_audio_stream_index := g_system_audio_stream_index g;
     g_mic_audio_stream_index := g_mic_audio_stream_index g;
     g_dual_track_mode := g_dual_track_mode g; g_video_frame_count :=
     g_video_frame_count g; g_audio_sample_count := g_audio_sample_count g;
     g_system_audio_sample_count := g_system_audio_sample_count g;
     g_mic_audio_sample_count := g_mic_audio_sample_count g; g_video_width
     := g_video_width g; g_video_height := g_video_height g; g_video_fps :=
     g_video_fps g; g_audio_sample_rate := g_audio_sample_rate g;
     g_recording_start_time := g_recording_start_time g;
     g_last_video_timestamp := g_last_video_timestamp g;
     g_container_timescale := g_container_timescale g; samples_at_last_log
     := samples_at_last_log g |}.
Definition set_g_system_audio_stream_index (v : Z) (g : encoder_globals) : encoder_globals :=
  {| g_sink_writer := g_sink_writer g; g_video_stream_index :=
     g_video_stream_index g; g_audio_stream_index := g_audio_stream_index g;
     g_system_audio_stream_index := v; g_mic_audio_stream_index :=
     g_mic_audio_stream_index g; g_dual_track_mode := g_dual_track_mode g;
     g_video_frame_count := g_video_frame_count g; g_audio_sample_count :=
     g_audio_sample_count g; g_system_audio_sample_count :=
     g_system_audio_sample_count g; g_mic_audio_sample_count :=
     g_mic_audio_sample_count g; g_video_width := g_video_width g;
     g_video_height := g_video_height g; g_video_fps := g_video_fps g;
     g_audio_sample_rate := g_audio_sample_rate g; g_recording_start_time :=
     g_recording_start_time g; g_last_video_timestamp :=
     g_last_video_timestamp g; g_container_timescale :=
     g_container_timescale g; samples_at_last_log := samples_at_last_log g |}.
Definition set_g_mic_audio_stream_index (v : Z) (g : encoder_globals) : encoder_globals :=
  {| g_sink_writer := g_sink_writer g; g_video_stream_index :=
     g_video_stream_index g; g_audio_stream_index := g_audio_stream_index g;
     g_system_audio_stream_index := g_system_audio_stream_index g;
     g_mic_audio_stream_index := v; g_dual_track_mode := g_dual_track_mode
     g; g_video_frame_count := g_video_frame_count g; g_audio_sample_count
     := g_audio_sample_count g; g_system_audio_sample_count :=
     g_system_audio_sample_count g; g_mic_audio_sample_count :=
     g_mic_audio_sample_count g; g_video_width := g_video_width g;
     g_video_height := g_video_height g; g_video_fps := g_video_fps g;
     g_audio_sample_rate := g_audio_sample_rate g; g_recording_start_time :=
     g_recording_start_time g; g_last_video_timestamp :=
     g_last_video_timestamp g; g_container_timescale :=
     g_container_timescale g; samples_at_last_log := samples_at_last_log g |}.
Definition set_g_dual_track_mode (v : bool) (g : encoder_globals) : encoder_globals :=
  {| g_sink_writer := g_sink_writer g; g_video_stream_index :=
     g_video_stream_index g; g_audio_stream_index := g_audio_stream_index g;
     g_system_audio_stream_index := g_system_audio_stream_index g;
     g_mic_audio_stream_index := g_mic_audio_stream_index g;
     g_dual_track_mode := v; g_video_frame_count := g_video_frame_count g;
     g_audio_sample_count := g_audio_sample_count g;
     g_system_audio_sample_count := g_system_audio_sample_count g;
     g_mic_audio_sample_count := g_mic_audio_sample_count g; g_video_width
     := g_video_width g; g_video_height := g_video_height g; g_video_fps :=
     g_video_fps g; g_audio_sample_rate := g_audio_sample_rate g;
     g_recording_start_time := g_recording_start_time g;
     g_last_video_timestamp := g_last_video_timestamp g;
     g_container_timescale := g_container_timescale g; samples_at_last_log
     := samples_at_last_log g |}.
Definition set_g_video_frame_count (v : Z) (g : encoder_globals) : encoder_globals :=
  {| g_sink_writer := g_sink_writer g; g_video_stream_index :=
     g_video_stream_index g; g_audio_stream_index := g_audio_stream_index g;
     g_system_audio_stream_index := g_system_audio_stream_index g;
     g_mic_audio_stream_index := g_mic_audio_stream_index g;
     g_dual_track_mode := g_dual_track_mode g; g_video_frame_count := v;
     g_audio_sample_count := g_audio_sample_count g;
     g_system_audio_sample_count := g_system_audio_sample_count g;
     g_mic_audio_sample_count := g_mic_audio_sample_count g; g_video_width
     := g_video_width g; g_video_height := g_video_height g; g_video_fps :=
     g_video_fps g; g_audio_sample_rate := g_audio_sample_rate g;
     g_recording_start_time := g_recording_start_time g;
     g_last_video_timestamp := g_last_video_timestamp g;
     g_container_timescale := g_container_timescale g; samples_at_last_log
     := samples_at_last_log g |}.
Definition set_g_audio_sample_count (v : Z) (g : encoder_globals) : encoder_globals :=
  {| g_sink_writer := g_sink_writer g; g_video_stream_index :=
     g_video_stream_index g; g_audio_stream_index := g_audio_stream_index g;
     g_system_audio_stream_index := g_system_audio_stream_index g;
     g_mic_audio_stream_index := g_mic_audio_stream_index g;
     g_dual_track_mode := g_dual_track_mode g; g_video_frame_count :=
     g_video_frame_count g; g_audio_sample_count := v;
     g_system_audio_sample_count := g_system_audio_sample_count g;
     g_mic_audio_sample_count := g_mic_audio_sample_count g; g_video_width
     := g_video_width g; g_video_height := g_video_height g; g_video_fps :=
     g_video_fps g; g_audio_sample_rate := g_audio_sample_rate g;
     g_recording_start_time := g_recording_start_time g;
     g_last_video_timestamp := g_last_video_timestamp g;
     g_container_timescale := g_container_timescale g; samples_at_last_log
     := samples_at_last_log g |}.
Definition set_g_system_audio_sample_count (v : Z) (g : encoder_globals) : encoder_globals :=
  {| g_sink_writer := g_sink_writer g; g_video_stream_index :=
     g_video_stream_index g; g_audio_stream_index := g_audio_stream_index g;
     g_system_audio_stream_index := g_system_audio_stream_index g;
     g_mic_audio_stream_index := g_mic_audio_stream_index g;
     g_dual_track_mode := g_dual_track_mode g; g_video_frame_count :=
     g_video_frame_count g; g_audio_sample_count := g_audio_sample_count g;
     g_system_audio_sample_count := v; g_mic_audio_sample_count :=
     g_mic_audio_sample_count g; g_video_width := g_video_width g;
     g_video_height := g_video_height g; g_video_fps := g_video_fps g;
     g_audio_sample_rate := g_audio_sample_rate g; g_recording_start_time :=
     g_recording_start_time g; g_last_video_timestamp :=
     g_last_video_timestamp g; g_container_timescale :=
     g_container_timescale g; samples_at_last_log := samples_at_last_log g |}.
Definition set_g_mic_audio_sample_count (v : Z) (g : encoder_globals) : encoder_globals :=
  {| g_sink_writer := g_sink_writer g; g_video_stream_index :=
     g_video_stream_index g; g_audio_stream_index := g_audio_stream_index g;
     g_system_audio_stream_index := g_system_audio_stream_index g;
     g_mic_audio_stream_index := g_mic_audio_stream_index g;
     g_dual_track_mode := g_dual_track_mode g; g_video_frame_count :=
     g_video_frame_count g; g_audio_sample_count := g_audio_sample_count g;
     g_system_audio_sample_count := g_system_audio_sample_count g;
     g_mic_audio_sample_count := v; g_video_width := g_video_width g;
     g_video_height := g_video_height g; g_video_fps := g_video_fps g;
     g_audio_sample_rate := g_audio_sample_rate g; g_recording_start_time :=
     g_recording_start_time g; g_last_video_timestamp :=
     g_last_video_timestamp g; g_container_timescale :=
     g_container_timescale g; samples_at_last_log := samples_at_last_log g |}.
Definition set_g_video_width (v : Z) (g : encoder_globals) : encoder_globals :=
  {| g_sink_writer := g_sink_writer g; g_video_stream_index :=
     g_video_stream_index g; g_audio_stream_index := g_audio_stream_index g;
     g_system_audio_stream_index := g_system_audio_stream_index g;
     g_mic_audio_stream_index := g_mic_audio_stream_index g;
     g_dual_track_mode := g_dual_track_mode g; g_video_frame_count :=
     g_video_frame_count g; g_audio_sample_count := g_audio_sample_count g;
     g_system_audio_sample_count := g_system_audio_sample_count g;
     g_mic_audio_sample_count := g_mic_audio_sample_count g; g_video_width
     := v; g_video_height := g_video_height g; g_video_fps := g_video_fps g;
     g_audio_sample_rate := g_audio_sample_rate g; g_recording_start_time :=
     g_recording_start_time g; g_last_video_timestamp :=
     g_last_video_timestamp g; g_container_timescale :=
     g_container_timescale g; samples_at_last_log := samples_at_last_log g |}.
Definition set_g_video_height (v : Z) (g : encoder_globals) : encoder_globals :=
  {| g_sink_writer := g_sink_writer g; g_video_stream_index :=
     g_video_stream_index g; g_audio_stream_index := g_audio_stream_index g;
     g_system_audio_stream_index := g_system_audio_stream_index g;
     g_mic_audio_stream_index := g_mic_audio_stream_index g;
     g_dual_track_mode := g_dual_track_mode g; g_video_frame_count :=
     g_video_frame_count g; g_audio_sample_count := g_audio_sample_count g;
     g_system_audio_sample_count := g_system_audio_sample_count g;
     g_mic_audio_sample_count := g_mic_audio_sample_count g; g_video_width
     := g_video_width g; g_video_height := v; g_video_fps := g_video_fps g;
     g_audio_sample_rate := g_audio_sample_rate g; g_recording_start_time :=
     g_recording_start_time g; g_last_video_timestamp :=
     g_last_video_timestamp g; g_container_timescale :=
     g_container_timescale g; samples_at_last_log := samples_at_last_log g |}.
Definition set_g_video_fps (v : Z) (g : encoder_globals) : encoder_globals :=
  {| g_sink_writer := g_sink_writer g; g_video_stream_index :=
     g_video_stream_index g; g_audio_stream_index := g_audio_stream_index g;
     g_system_audio_stream_index := g_system_audio_stream_index g;
     g_mic_audio_stream_index := g_mic_audio_stream_index g;
     g_dual_track_mode := g_dual_track_mode g; g_video_frame_count :=
     g_video_frame_count g; g_audio_sample_count := g_audio_sample_count g;
     g_system_audio_sample_count := g_system_audio_sample_count g;
     g_mic_audio_sample_count := g_mic_audio_sample_count g; g_video_width
     := g_video_width g; g_video_height := g_video_height g; g_video_fps :=
     v; g_audio_sample_rate := g_audio_sample_rate g; g_recording_start_time
     := g_recording_start_time g; g_last_video_timestamp :=
     g_last_video_timestamp g; g_container_timescale :=
     g_container_timescale g; samples_at_last_log := samples_at_last_log g |}.
Definition set_g_audio_sample_rate (v : Z) (g : encoder_globals) : encoder_globals :=
  {| g_sink_writer := g_sink_writer g; g_video_stream_index :=
     g_video_stream_index g; g_audio_stream_index := g_audio_stream_index g;
     g_system_audio_stream_index := g_system_audio_stream_index g;
     g_mic_audio_stream_index := g_mic_audio_stream_index g;
     g_dual_track_mode := g_dual_track_mode g; g_video_frame_count :=
     g_video_frame_count g; g_audio_sample_count := g_audio_sample_count g;
     g_system_audio_sample_count := g_system_audio_sample_count g;
     g_mic_audio_sample_count := g_mic_audio_sample_count g; g_video_width
     := g_video_width g; g_video_height := g_video_height g; g_video_fps :=
     g_video_fps g; g_audio_sample_rate := v; g_recording_start_time :=
     g_recording_start_time g; g_last_video_timestamp :=
     g_last_video_timestamp g; g_container_timescale :=
     g_container_timescale g; samples_at_last_log := samples_at_last_log g |}.
Definition set_g_recording_start_time (v : Z) (g : encoder_globals) : encoder_globals :=
  {| g_sink_writer := g_sink_writer g; g_video_stream_index :=
     g_video_stream_index g; g_audio_stream_index := g_audio_stream_index g;
     g_system_audio_stream_index := g_system_audio_stream_index g;
     g_mic_audio_stream_index := g_mic_audio_stream_index g;
     g_dual_track_mode := g_dual_track_mode g; g_video_frame_count :=
     g_video_frame_count g; g_audio_sample_count := g_audio_sample_count g;
     g_system_audio_sample_count := g_system_audio_sample_count g;
     g_mic_audio_sample_count := g_mic_audio_sample_count g; g_video_width
     := g_video_width g; g_video_height := g_video_height g; g_video_fps :=
     g_video_fps g; g_audio_sample_rate := g_audio_sample_rate g;
     g_recording_start_time := v; g_last_video_timestamp :=
     g_last_video_timestamp g; g_container_timescale :=
     g_container_timescale g; samples_at_last_log := samples_at_last_log g |}.
Definition set_g_last_video_timestamp (v : Z) (g : encoder_globals) : encoder_globals :=
  {| g_sink_writer := g_sink_writer g; g_video_stream_index :=
     g_video_stream_index g; g_audio_stream_index := g_audio_stream_index g;
     g_system_audio_stream_index := g_system_audio_stream_index g;
     g_mic_audio_stream_index := g_mic_audio_stream_index g;
     g_dual_track_mode := g_dual_track_mode g; g_video_frame_count :=
     g_video_frame_count g; g_audio_sample_count := g_audio_sample_count g;
     g_system_audio_sample_count := g_system_audio_sample_count g;
     g_mic_audio_sample_count := g_mic_audio_sample_count g; g_video_width
     := g_video_width g; g_video_height := g_video_height g; g_video_fps :=
     g_video_fps g; g_audio_sample_rate := g_audio_sample_rate g;
     g_recording_start_time := g_recording_start_time g;
     g_last_video_timestamp := v; g_container_timescale :=
     g_container_timescale g; samples_at_last_log := samples_at_last_log g |}.
Definition set_samples_at_last_log (v : Z) (g : encoder_globals) : encoder_globals :=
  {| g_sink_writer := g_sink_writer g; g_video_stream_index :=
     g_video_stream_index g; g_audio_stream_index := g_audio_stream_index g;
     g_system_audio_stream_index := g_system_audio_stream_index g;
     g_mic_audio_stream_index := g_mic_audio_stream_index g;
     g_dual_track_mode := g_dual_track_mode g; g_video_frame_count :=
     g_video_frame_count g; g_audio_sample_count := g_audio_sample_count g;
     g_system_audio_sample_count := g_system_audio_sample_count g;
     g_mic_audio_sample_count := g_mic_audio_sample_count g; g_video_width
     := g_video_width g; g_video_height := g_video_height g; g_video_fps :=
     g_video_fps g; g_audio_sample_rate := g_audio_sample_rate g;
     g_recording_start_time := g_recording_start_time g;
     g_last_video_timestamp := g_last_video_timestamp g;
     g_container_timescale := g_container_timescale g; samples_at_last_log
     := v |}.

(** ** encoder.c: initialization *)

Inductive audio_track : Type := CombinedTrack | SystemTrack | MicTrack.

(** The fallible Media Foundation calls of the init functions.  One
    constructor stands for a run of consecutive calls that the source
    handles identically on failure (for instance creating a media type and
    setting its attributes one by one, each followed by the same goto).
    The calls whose failure the source only reports, and then goes on,
    have no constructor, since their result does not reach the control
    flow: the IMFAttributes_SetGUID and IMFAttributes_SetUINT32 calls on
    the attributes of the writer in each init function, and the
    MF_MT_VIDEO_NOMINAL_RANGE call of encoder_init. *)
Inductive init_call : Type :=
| MFStartup
| AllocWideFilename
| MFCreateAttributes
| MFCreateSinkWriterFromURL
| ConfigureVideoOut
| AddStreamVideo
| ConfigureVideoIn
| SetInputVideo
| ConfigureAudioOut (t : audio_track)
| AddStreamAudio (t : audio_track)
| ConfigureAudioIn (t : audio_track)
| SetInputAudio (t : audio_track)
| IMFSinkWriter_BeginWriting.

(** [os c = true] when the call (group) [c] succeeds. *)
Definition init_os : Type := init_call -> bool.

Definition FAILED {C} (os : C -> bool) (c : C) : bool := negb (os c).

Definition optimized_bitrate (width : Z) : Z :=
  if 1920 <=? width then 1200000
  else if 1280 <=? width then 800000
  else 500000.

(** [((UINT64)a << 32) | b] for [int] operands. *)
Definition pack64 (a b : Z) : Z := Z.lor (u64 (Z.shiftl (u64 a) 32)) (u64 b).

Definition video_type_out (width height fps : Z) : media_type :=
  VideoH264 (optimized_bitrate width) (pack64 width height) (pack64 fps 1) 2.

Definition include_audio (sample_rate channels bits_per_sample : Z) : bool :=
  (0 <? sample_rate) && (0 <? channels) && (0 <? bits_per_sample).

(** The label [cleanup] of the init functions: the writer is released and
    the global pointer cleared. *)
Definition init_cleanup (c : encoder_context_t) (g : encoder_globals)
  : Z * option encoder_context_t * encoder_globals :=
  (-1, Some c, set_g_sink_writer None g).

(** When [MFCreateSinkWriterFromURL] fails, [encoder_init] and
    [encoder_init_dual_track] return at once and [g_sink_writer] is what
    the call left in its out-parameter, taken to be NULL; the two
    audio-only functions go to their cleanup label, which clears it. *)
Definition encoder_init (context : option encoder_context_t) (filename : option string)
    (width height fps sample_rate channels bits_per_sample : Z)
    (os : init_os) (g : encoder_globals)
  : Z * option encoder_context_t * encoder_globals :=
  match context, filename with
  | Some _, Some name =>
    let c := init_encoder_context name sample_rate channels bits_per_sample false in
    if FAILED os MFStartup then (-1, Some c, g) else
    if FAILED os AllocWideFilename then (-1, Some c, g) else
    if FAILED os MFCreateAttributes then (-1, Some c, g) else
    if FAILED os MFCreateSinkWriterFromURL then (-1, Some c, set_g_sink_writer None g) else
    let sw := new_sink_writer in
    if FAILED os ConfigureVideoOut then init_cleanup c g else
    if FAILED os AddStreamVideo then init_cleanup c g else
    let '(sw, vi) := add_stream sw (video_type_out width height fps) in
    let g := set_g_video_stream_index vi g in
    if FAILED os ConfigureVideoIn then init_cleanup c g else
    if FAILED os SetInputVideo then init_cleanup c g else
    let audio :=
      if include_audio sample_rate channels bits_per_sample then
        if FAILED os (ConfigureAudioOut CombinedTrack) then None else
        if FAILED os (AddStreamAudio CombinedTrack) then None else
        (* the output type forces 44100 whatever the source rate is *)
        let '(sw, ai) := add_stream sw (AudioAAC 44100 (u32 channels) 16 96000) in
        let g := set_g_audio_stream_index ai g in
        if FAILED os (ConfigureAudioIn CombinedTrack) then Some (inl g) else
        if FAILED os (SetInputAudio CombinedTrack) then Some (inl g) else
        Some (inr (sw, g))
      else Some (inr (sw, set_g_audio_stream_index (u32 (-1)) g)) in
    match audio with
    | None => init_cleanup c g
    | Some (inl g) => init_cleanup c g
    | Some (inr (sw, g)) =>
      if FAILED os IMFSinkWriter_BeginWriting then init_cleanup c g else
      let sw := sink_accept sw BeginWriting in
      let g := set_g_sink_writer (Some sw) g in
      let g := set_g_video_width (u32 width) g in
      let g := set_g_video_height (u32 height) g in
      let g := set_g_video_fps (u32 fps) g in
      let g := set_g_audio_sample_rate (u32 sample_rate) g in
      let g := set_g_video_frame_count 0 g in
      let g := set_g_audio_sample_count 0 g in
      (0, Some (set_ec_is_recording true c), g)
    end
  | _, _ => (-1, context, g)
  end.

(** The two audio tracks of the dual-track variants: both output types,
    then both input types; [inl] is a failure after the state [g]. *)
Definition add_dual_audio_streams (os : init_os) (sample_rate channels : Z)
    (sw : IMFSinkWriter) (g : encoder_globals)
  : encoder_globals + IMFSinkWriter * encoder_globals :=
  if FAILED os (ConfigureAudioOut SystemTrack) then inl g else
  if FAILED os (AddStreamAudio SystemTrack) then inl g else
  let '(sw, si) := add_stream sw (AudioAAC (u32 sample_rate) (u32 channels) 16 96000) in
  let g := set_g_system_audio_stream_index si g in
  if FAILED os (ConfigureAudioOut MicTrack) then inl g else
  if FAILED os (AddStreamAudio MicTrack) then inl g else
  let '(sw, mi) := add_stream sw (AudioAAC (u32 sample_rate) (u32 channels) 16 96000) in
  let g := set_g_mic_audio_stream_index mi g in
  if FAILED os (ConfigureAudioIn SystemTrack) then inl g else
  if FAILED os (SetInputAudio SystemTrack) then inl g else
  if FAILED os (ConfigureAudioIn MicTrack) then inl g else
  if FAILED os (SetInputAudio MicTrack) then inl g else
  inr (sw, g).

Definition encoder_init_dual_track (context : option encoder_context_t)
    (filename : option string)
    (width height fps sample_rate channels bits_per_sample : Z)
    (os : init_os) (g : encoder_globals)
  : Z * option encoder_context_t * encoder_globals :=
  match context, filename with
  | Some _, Some name =>
    let c := init_encoder_context name sample_rate channels bits_per_sample true in
    let g := set_g_dual_track_mode true g in
    let g := set_g_video_frame_count 0 g in
    let g := set_g_system_audio_sample_count 0 g in
    let g := set_g_mic_audio_sample_count 0 g in
    let g := set_g_video_width (u32 width) g in
    let g := set_g_video_height (u32 height) g in
    let g := set_g_video_fps (u32 fps) g in
    if FAILED os MFStartup then (-1, Some c, g) else
    if FAILED os AllocWideFilename then (-1, Some c, g) else
    if FAILED os MFCreateAttributes then (-1, Some c, g) else
    if FAILED os MFCreateSinkWriterFromURL then (-1, Some c, set_g_sink_writer None g) else
    let sw := new_sink_writer in
    if FAILED os ConfigureVideoOut then init_cleanup c g else
    if FAILED os AddStreamVideo then init_cleanup c g else
    let '(sw, vi) := add_stream sw (video_type_out width height fps) in
    let g := set_g_video_stream_index vi g in
    if FAILED os ConfigureVideoIn then init_cleanup c g else
    if FAILED os SetInputVideo then init_cleanup c g else
    let audio :=
      if include_audio sample_rate channels bits_per_sample
      then add_dual_audio_streams os sample_rate channels sw g
      else inr (sw, g) in
    match audio with
    | inl g => init_cleanup c g
    | inr (sw, g) =>
      if FAILED os IMFSinkWriter_BeginWriting then init_cleanup c g else
      let sw := sink_accept sw BeginWriting in
      let g := set_g_sink_writer (Some sw) g in
      let g := set_g_audio_sample_rate (u32 sample_rate) g in
      (0, Some (set_ec_is_recording true c), g)
    end
  | _, _ => (-1, context, g)
  end.

Definition encoder_init_audio_only (context : option encoder_context_t)
    (filename : option string) (sample_rate channels bits_per_sample : Z)
    (os : init_os) (g : encoder_globals)
  : Z * option encoder_context_t * encoder_globals :=
  match context, filename with
  | Some _, Some name =>
    let c := init_encoder_context name sample_rate channels bits_per_sample false in
    let g := set_g_dual_track_mode false g in
    let g := set_g_audio_sample_count 0 g in
    if FAILED os MFStartup then (-1, Some c, g) else
    if FAILED os AllocWideFilename then (-1, Some c, g) else
    if FAILED os MFCreateAttributes then (-1, Some c, g) else
    if FAILED os MFCreateSinkWriterFromURL then init_cleanup c g else
    let sw := new_sink_writer in
    if FAILED os (ConfigureAudioOut CombinedTrack) then init_cleanup c g else
    if FAILED os (AddStreamAudio CombinedTrack) then init_cleanup c g else
    let '(sw, ai) := add_stream sw (AudioAAC (u32 sample_rate) (u32 channels) 16 96000) in
    let g := set_g_audio_stream_index ai g in
    if FAILED os (ConfigureAudioIn CombinedTrack) then init_cleanup c g else
    if FAILED os (SetInputAudio CombinedTrack) then init_cleanup c g else
    if FAILED os IMFSinkWriter_BeginWriting then init_cleanup c g else
    let sw := sink_accept sw BeginWriting in
    let g := set_g_sink_writer (Some sw) g in
    let g := set_g_audio_sample_rate (u32 sample_rate) g in
    (0, Some (set_ec_is_recording true c), g)
  | _, _ => (-1, context, g)
  end.

Definition encoder_init_audio_only_dual_track (context : option encoder_context_t)
    (filename : option string) (sample_rate channels bits_per_sample : Z)
    (os : init_os) (g : encoder_globals)
  : Z * option encoder_context_t * encoder_globals :=
  match context, filename with
  | Some _, Some name =>
    let c := init_encoder_context name sample_rate channels bits_per_sample true in
    let g := set_g_dual_track_mode true g in
    let g := set_g_system_audio_sample_count 0 g in
    let g := set_g_mic_audio_sample_count 0 g in
    if FAILED os MFStartup then (-1, Some c, g) else
    if FAILED os AllocWideFilename then (-1, Some c, g) else
    if FAILED os MFCreateAttributes then (-1, Some c, g) else
    if FAILED os MFCreateSinkWriterFromURL then init_cleanup c g else
    match add_dual_audio_streams os sample_rate channels new_sink_writer g with
    | inl g => init_cleanup c g
    | inr (sw, g) =>
      if FAILED os IMFSinkWriter_BeginWriting then init_cleanup c g else
      let sw := sink_accept sw BeginWriting in
      let g := set_g_sink_writer (Some sw) g in
      let g := set_g_audio_sample_rate (u32 sample_rate) g in
      (0, Some (set_ec_is_recording true c), g)
    end
  | _, _ => (-1, context, g)
  end.

Definition encoder_set_recording_start_time (start_time : Z) (g : encoder_globals)
  : encoder_globals :=
  set_g_recording_start_time start_time g.

(** ** encoder.c: ingestion *)

(** The fallible calls made while a sample is built and written. *)
Inductive sample_call : Type :=
| MFCreateSample
| MFCreateMemoryBuffer
| IMFMediaBuffer_Lock
| IMFMediaBuffer_Unlock
| IMFMediaBuffer_SetCurrentLength
| IMFSample_AddBuffer
| IMFSample_SetSampleTime
| IMFSample_SetSampleDuration
| IMFSinkWriter_WriteSample.

Definition sample_os : Type := sample_call -> bool.

(** The calls from [MFCreateSample] to [IMFSample_AddBuffer], in order;
    every failure among them returns -1 before any global is touched. *)
Definition sample_buffer_ready (os : sample_os) : bool :=
  os MFCreateSample && os MFCreateMemoryBuffer && os IMFMediaBuffer_Lock
  && os IMFMediaBuffer_Unlock && os IMFMediaBuffer_SetCurrentLength
  && os IMFSample_AddBuffer.

(** [memcpy(buffer_data, src, buffer_length)].  Of a [src] shorter than
    [buffer_length], past whose end the C code would read, the bytes that
    exist are taken; return codes, time stamps and counters do not depend
    on the payload. *)
Definition copy_payload (src : list byte) (buffer_length : Z) : list byte :=
  firstn (Z.to_nat buffer_length) src.

Definition write_sample (stream : Z) (s : IMFSample) (sw : IMFSinkWriter)
    (g : encoder_globals) : encoder_globals :=
  set_g_sink_writer (Some (sink_accept sw (WriteSample stream s))) g.

Definition encoder_add_video_frame (context : option encoder_context_t)
    (frame_data : option (list byte)) (frame_size elapsed_ms : Z)
    (os : sample_os) (g : encoder_globals) : run (Z * encoder_globals) :=
  match context, frame_data, g_sink_writer g with
  | Some c, Some data, Some sw =>
    if negb (ec_is_recording c) then Ret (-1, g) else
    let buffer_length := u32 (g_video_width g * g_video_height g * 4) in
    if negb (sample_buffer_ready os) then Ret (-1, g) else
    q <- c_div (u64 (g_video_frame_count g * 10000000)) (g_video_fps g) ;;
    let timestamp := s64 q in
    if FAILED os IMFSample_SetSampleTime then Ret (-1, g) else
    duration <- c_div 10000000 (g_video_fps g) ;;
    if FAILED os IMFSample_SetSampleDuration then Ret (-1, g) else
    if FAILED os IMFSinkWriter_WriteSample then Ret (-1, g) else
    let s := {| sample_time := timestamp; sample_duration := duration;
                sample_bytes := copy_payload data buffer_length |} in
    let g := write_sample (g_video_stream_index g) s sw g in
    let g := set_g_video_frame_count (u64 (g_video_frame_count g + 1)) g in
    Ret (0, g)
  | _, _, _ => Ret (-1, g)
  end.

(** [num_frames * input_channels * (input_bits_per_sample / 8)] as a DWORD. *)
Definition audio_buffer_length (c : encoder_context_t) (num_frames : Z) : Z :=
  u32 (num_frames * ec_input_channels c * Z.quot (ec_input_bits_per_sample c) 8).

Definition encoder_add_audio_frame (context : option encoder_context_t)
    (audio_data : option (list byte)) (num_frames elapsed_ms : Z)
    (os : sample_os) (g : encoder_globals) : Z * encoder_globals :=
  match context, audio_data, g_sink_writer g with
  | Some c, Some data, Some sw =>
    if negb (ec_is_recording c) then (-1, g) else
    if g_audio_stream_index g =? u32 (-1) then (0, g) else
    let buffer_length := audio_buffer_length c num_frames in
    if negb (sample_buffer_ready os) then (-1, g) else
    let timestamp := s64 (u64 (g_audio_sample_count g * 10000000) / 44100) in
    if FAILED os IMFSample_SetSampleTime then (-1, g) else
    let g := set_g_audio_sample_count (u64 (g_audio_sample_count g + num_frames)) g in
    let current_sample_count := g_audio_sample_count g in
    let g :=
      if 44100 <=? u64 (current_sample_count - samples_at_last_log g)
      then set_samples_at_last_log current_sample_count g else g in
    let duration := s64 (num_frames * 10000000 / 44100) in
    if FAILED os IMFSample_SetSampleDuration then (-1, g) else
    if FAILED os IMFSinkWriter_WriteSample then (-1, g) else
    let s := {| sample_time := timestamp; sample_duration := duration;
                sample_bytes := copy_payload data buffer_length |} in
    (0, write_sample (g_audio_stream_index g) s sw g)
  | _, _, _ => (-1, g)
  end.

Definition encoder_add_system_audio_frame (context : option encoder_context_t)
    (audio_data : option (list byte)) (num_frames elapsed_ms : Z)
    (os : sample_os) (g : encoder_globals) : Z * encoder_globals :=
  match context, audio_data, g_sink_writer g with
  | Some c, Some data, Some sw =>
    if negb (ec_is_recording c) || negb (g_dual_track_mode g) then (-1, g) else
    let buffer_length := audio_buffer_length c num_frames in
    if negb (sample_buffer_ready os) then (-1, g) else
    let timestamp := s64 (u64 (g_system_audio_sample_count g * 10000000) / 44100) in
    if FAILED os IMFSample_SetSampleTime then (-1, g) else
    let g := set_g_system_audio_sample_count
               (u64 (g_system_audio_sample_count g + num_frames)) g in
    let duration := s64 (num_frames * 10000000 / 44100) in
    if FAILED os IMFSample_SetSampleDuration then (-1, g) else
    if FAILED os IMFSinkWriter_WriteSample then (-1, g) else
    let s := {| sample_time := timestamp; sample_duration := duration;
                sample_bytes := copy_payload data buffer_length |} in
    (0, write_sample (g_system_audio_stream_index g) s sw g)
  | _, _, _ => (-1, g)
  end.

Definition encoder_add_mic_audio_frame (context : option encoder_context_t)
    (audio_data : option (list byte)) (num_frames elapsed_ms : Z)
    (os : sample_os) (g : encoder_globals) : Z * encoder_globals :=
  match context, audio_data, g_sink_writer g with
  | Some c, Some data, Some sw =>
    if negb (ec_is_recording c) || negb (g_dual_track_mode g) then (-1, g) else
    let buffer_length := audio_buffer_length c num_frames in
    if negb (sample_buffer_ready os) then (-1, g) else
    let timestamp := s64 (u64 (g_mic_audio_sample_count g * 10000000) / 44100) in
    if FAILED os IMFSample_SetSampleTime then (-1, g) else
    let g := set_g_mic_audio_sample_count
               (u64 (g_mic_audio_sample_count g + num_frames)) g in
    let duration := s64 (num_frames * 10000000 / 44100) in
    if FAILED os IMFSample_SetSampleDuration then (-1, g) else
    if FAILED os IMFSinkWriter_WriteSample then (-1, g) else
    let s := {| sample_time := timestamp; sample_duration := duration;
                sample_bytes := copy_payload data buffer_length |} in
    (0, write_sample (g_mic_audio_stream_index g) s sw g)
  | _, _, _ => (-1, g)
  end.

(** ** encoder.c: finalization and cleanup *)

Record finalize_os : Type := {
  flush_ok : bool;
  (** does [IMFSinkWriter_SendStreamTick] succeed on this stream *)
  tick_ok : Z -> bool;
  (** the HRESULT of [IMFSinkWriter_Finalize], as a signed 32-bit value *)
  finalize_hr : Z }.

Definition send_stream_tick (os : finalize_os) (stream timestamp : Z)
    (sw : IMFSinkWriter) : IMFSinkWriter :=
  if tick_ok os stream then sink_accept sw (SendStreamTick stream timestamp) else sw.

(** [(count * 10000000LL) / g_audio_sample_rate], then the conversion to
    LONGLONG. *)
Definition audio_eos_timestamp (count : Z) (g : encoder_globals) : run Z :=
  q <- c_div (u64 (count * 10000000)) (g_audio_sample_rate g) ;; Ret (s64 q).

Definition MF_E_SINK_NO_SAMPLES_PROCESSED : Z := 0xC00D4A44.

Definition encoder_finalize (context : option encoder_context_t) (os : finalize_os)
    (g : encoder_globals) : run (Z * option encoder_context_t * encoder_globals) :=
  match context with
  | None => Ret (-1, None, g)
  | Some c =>
    match g_sink_writer g with
    | Some sw =>
      let sw := if flush_ok os then sink_accept sw Flush else sw in
      let total_audio_samples :=
        u64 (g_audio_sample_count g + g_system_audio_sample_count g
             + g_mic_audio_sample_count g) in
      let sw :=
        if 0 <? g_video_frame_count g
        then send_stream_tick os (g_video_stream_index g) (g_last_video_timestamp g) sw
        else sw in
      sw <-
        (if 0 <? total_audio_samples then
           if g_dual_track_mode g then
             sw <- (if 0 <? g_system_audio_sample_count g then
                      t <- audio_eos_timestamp (g_system_audio_sample_count g) g ;;
                      Ret (send_stream_tick os (g_system_audio_stream_index g) t sw)
                    else Ret sw) ;;
             (if 0 <? g_mic_audio_sample_count g then
                t <- audio_eos_timestamp (g_mic_audio_sample_count g) g ;;
                Ret (send_stream_tick os (g_mic_audio_stream_index g) t sw)
              else Ret sw)
           else
             (if 0 <? g_audio_sample_count g then
                t <- audio_eos_timestamp (g_audio_sample_count g) g ;;
                Ret (send_stream_tick os (g_audio_stream_index g) t sw)
              else Ret sw)
         else Ret sw) ;;
      if finalize_hr os <? 0 then
        let g := set_g_sink_writer (Some sw) g in
        if u32 (finalize_hr os) =? MF_E_SINK_NO_SAMPLES_PROCESSED
        then Ret (0, Some c, g)
        else Ret (-1, Some c, g)
      else
        let g := set_g_sink_writer (Some (sink_accept sw Finalize)) g in
        Ret (0, Some (set_ec_is_recording false c), g)
    | None => Ret (0, Some (set_ec_is_recording false c), g)
    end
  end.

Definition encoder_cleanup (context : option encoder_context_t) (g : encoder_globals)
  : option encoder_context_t * encoder_globals :=
  match context with
  | None => (None, g)
  | Some _ =>
    let g := match g_sink_writer g with
             | Some _ => set_g_sink_writer None g
             | None => g
             end in
    let g := set_g_video_stream_index 0 g in
    let g := set_g_audio_stream_index 0 g in
    let g := set_g_system_audio_stream_index 0 g in
    let g := set_g_mic_audio_stream_index 0 g in
    let g := set_g_dual_track_mode false g in
    let g := set_g_video_frame_count 0 g in
    let g := set_g_audio_sample_count 0 g in
    let g := set_g_system_audio_sample_count 0 g in
    let g := set_g_mic_audio_sample_count 0 g in
    let g := set_g_video_width 0 g in
    let g := set_g_video_height 0 g in
    let g := set_g_video_fps 30 g in
    let g := set_g_recording_start_time 0 g in
    let g := set_g_last_video_timestamp 0 g in
    (Some zero_encoder_context, g)
  end.

(** ** system.h, microphone.h: audio sources, state *)

(** A COM interface pointer or an allocation: NULL, valid, or still
    non-NULL after the object was released or freed. *)
Inductive handle : Type := NullHandle | LiveHandle | ReleasedHandle.

Definition non_null (h : handle) : bool :=
  match h with NullHandle => false | _ => true end.

(** Use of the object behind a handle. *)
Definition use_handle (h : handle) : run unit :=
  match h with LiveHandle => Ret tt | _ => Crash end.

(** [X_Release(h)] or [free(h)]; the variable keeps its value. *)
Definition release_handle (h : handle) : run handle :=
  match h with LiveHandle => Ret ReleasedHandle | _ => Crash end.

(** The fields of the mix format that the program reads. *)
Record WAVEFORMATEX : Type := {
  nChannels : Z;
  nSamplesPerSec : Z;
  nBlockAlign : Z;
  wBitsPerSample : Z }.

(** [system_context_t] and [microphone_context_t] declare the same eight
    fields; one record models both. [wave_format] holds the pointee next to
    the state of the pointer. *)
Record audio_context_t : Type := {
  enumerator : handle;
  device : handle;
  audio_client : handle;
  capture_client : handle;
  wave_format : handle * WAVEFORMATEX;
  buffer_frame_count : Z;
  is_capturing : bool;
  using_silent_buffer : bool }.

Definition system_context_t : Type := audio_context_t.
Definition microphone_context_t : Type := audio_context_t.

Definition zero_wave_format : WAVEFORMATEX :=
  {| nChannels := 0; nSamplesPerSec := 0; nBlockAlign := 0; wBitsPerSample := 0 |}.

(** [memset(ctx, 0, sizeof(...))]. *)
Definition zero_audio_context : audio_context_t :=
  {| enumerator := NullHandle; device := NullHandle; audio_client := NullHandle;
     capture_client := NullHandle; wave_format := (NullHandle, zero_wave_format);
     buffer_frame_count := 0; is_capturing := false; using_silent_buffer := false |}.

Definition set_is_capturing (v : bool) (c : audio_context_t) : audio_context_t :=
  {| enumerator := enumerator c; device := device c; audio_client := audio_client c;
     capture_client := capture_client c; wave_format := wave_format c;
     buffer_frame_count := buffer_frame_count c; is_capturing := v;
     using_silent_buffer := using_silent_buffer c |}.

Definition set_using_silent_buffer (v : bool) (c : audio_context_t) : audio_context_t :=
  {| enumerator := enumerator c; device := device c; audio_client := audio_client c;
     capture_client := capture_client c; wave_format := wave_format c;
     buffer_frame_count := buffer_frame_count c; is_capturing := is_capturing c;
     using_silent_buffer := v |}.

(** [ctx->wave_format->field]. *)
Definition read_wave_format (c : audio_context_t) : run WAVEFORMATEX :=
  _ <- use_handle (fst (wave_format c)) ;; Ret (snd (wave_format c)).

(** The function-static variables of [system_get_buffer]. *)
Record system_statics : Type := {
  sy_silent_buffer : option (list byte);
  sy_silent_buffer_size : Z;
  sy_silent_call_count : Z;
  sy_recording_start_time : Z;
  sy_total_generated_samples : Z;
  sy_last_silent_generation : Z }.

(** The function-static variables of [microphone_get_buffer]. *)
Record microphone_statics : Type := {
  mc_silent_buffer : option (list byte);
  mc_silent_buffer_size : Z;
  mc_recording_start_time : Z;
  mc_total_generated_samples : Z }.

Definition initial_system_statics : system_statics :=
  {| sy_silent_buffer := None; sy_silent_buffer_size := 0;
     sy_silent_call_count := 0; sy_recording_start_time := 0;
     sy_total_generated_samples := 0; sy_last_silent_generation := 0 |}.

Definition initial_microphone_statics : microphone_statics :=
  {| mc_silent_buffer := None; mc_silent_buffer_size := 0;
     mc_recording_start_time := 0; mc_total_generated_samples := 0 |}.

(** The value left in [*data]. *)
Inductive audio_ptr : Type :=
| NullData
| SilentBuffer                    (** the static [silent_buffer] *)
| PacketData (bytes : list byte). (** a packet owned by the audio client *)

(** ** system.c, microphone.c: init, start, stop, cleanup *)

Inductive audio_init_call : Type :=
| CoInitializeEx   (** either threading model, or RPC_E_CHANGED_MODE *)
| CoCreateInstance
| GetDefaultAudioEndpoint
| IMMDevice_Activate
| IAudioClient_GetMixFormat
| IAudioClient_Initialize
| IAudioClient_GetBufferSize
| IAudioClient_GetService.

Record audio_init_os : Type := {
  audio_init_ok : audio_init_call -> bool;
  mix_format : WAVEFORMATEX;
  buffer_size : Z }.

(** [system_init] and [microphone_init] differ in the endpoint (eRender
    against eCapture) and the stream flags (loopback against none), which
    the oracle stands for; the handling of the context is the same text. *)
Definition audio_init (ctx : option audio_context_t) (os : audio_init_os)
  : Z * option audio_context_t :=
  match ctx with
  | None => (-1, None)
  | Some _ =>
    let ok := audio_init_ok os in
    let mk e d a c w n :=
      {| enumerator := e; device := d; audio_client := a; capture_client := c;
         wave_format := w; buffer_frame_count := n; is_capturing := false;
         using_silent_buffer := false |} in
    let nowf := (NullHandle, zero_wave_format) in
    if FAILED ok CoInitializeEx then (-1, Some zero_audio_context) else
    if FAILED ok CoCreateInstance then (-1, Some zero_audio_context) else
    if FAILED ok GetDefaultAudioEndpoint
    then (-1, Some (mk ReleasedHandle NullHandle NullHandle NullHandle nowf 0)) else
    if FAILED ok IMMDevice_Activate
    then (-1, Some (mk ReleasedHandle ReleasedHandle NullHandle NullHandle nowf 0)) else
    if FAILED ok IAudioClient_GetMixFormat
    then (-1, Some (mk ReleasedHandle ReleasedHandle ReleasedHandle NullHandle nowf 0)) else
    let freed := (ReleasedHandle, mix_format os) in
    if FAILED ok IAudioClient_Initialize
    then (-1, Some (mk ReleasedHandle ReleasedHandle ReleasedHandle NullHandle freed 0)) else
    if FAILED ok IAudioClient_GetBufferSize
    then (-1, Some (mk ReleasedHandle ReleasedHandle ReleasedHandle NullHandle freed 0)) else
    if FAILED ok IAudioClient_GetService
    then (-1, Some (mk ReleasedHandle ReleasedHandle ReleasedHandle NullHandle freed
                       (buffer_size os))) else
    (0, Some (mk LiveHandle LiveHandle LiveHandle LiveHandle
                 (LiveHandle, mix_format os) (buffer_size os)))
  end.

Definition system_init := audio_init.
Definition microphone_init := audio_init.

(** [start_ok] answers [IAudioClient_Start]. *)
Definition audio_start_capture (ctx : option audio_context_t) (start_ok : bool)
  : run (Z * option audio_context_t) :=
  match ctx with
  | None => Ret (-1, None)
  | Some c =>
    if negb (non_null (audio_client c)) then Ret (-1, Some c) else
    _ <- use_handle (audio_client c) ;;
    if negb start_ok then Ret (-1, Some c) else
    Ret (0, Some (set_is_capturing true c))
  end.

Definition system_start_capture := audio_start_capture.
Definition microphone_start_capture := audio_start_capture.

(** The result of [IAudioClient_Stop] is only printed. *)
Definition audio_stop_capture (ctx : option audio_context_t)
  : run (option audio_context_t) :=
  match ctx with
  | None => Ret None
  | Some c =>
    if negb (non_null (audio_client c)) then Ret (Some c) else
    _ <- use_handle (audio_client c) ;;
    Ret (Some (set_is_capturing false c))
  end.

Definition system_stop_capture := audio_stop_capture.
Definition microphone_stop_capture := audio_stop_capture.

(** [if (h) { Release(h); h = NULL; }] *)
Definition release_if_set (h : handle) : run unit :=
  if non_null h then _ <- release_handle h ;; Ret tt else Ret tt.

Definition audio_cleanup (ctx : option audio_context_t) : run (option audio_context_t) :=
  match ctx with
  | None => Ret None
  | Some c =>
    _ <- release_if_set (capture_client c) ;;
    _ <- release_if_set (audio_client c) ;;
    _ <- release_if_set (fst (wave_format c)) ;;
    _ <- release_if_set (device c) ;;
    _ <- release_if_set (enumerator c) ;;
    Ret (Some zero_audio_context)
  end.

Definition system_cleanup := audio_cleanup.
Definition microphone_cleanup := audio_cleanup.

(** ** system.c, microphone.c: get_buffer and release_buffer *)

Record get_buffer_os : Type := {
  (** [IAudioCaptureClient_GetNextPacketSize]: [None] when it fails,
      otherwise the value stored in [*num_frames] *)
  next_packet_size : option Z;
  (** [GetTickCount()] *)
  tick_count : Z;
  (** does [malloc(bytes_needed)] return a block *)
  malloc_ok : bool;
  (** [IAudioCaptureClient_GetBuffer]: [None] when it fails, otherwise the
      packet bytes, its frame count and its flags *)
  next_packet : option (list byte * Z * Z) }.

Definition AUDCLNT_BUFFERFLAGS_SILENT : Z := 2.

(** [memset(p, 0, n)] on a block with contents [l]. *)
Definition memset_zero (l : list byte) (n : Z) : list byte :=
  repeat Byte.x00 (Z.to_nat n) ++ skipn (Z.to_nat n) l.

(** The "expand buffer if needed" step: the new values of [silent_buffer]
    and [silent_buffer_size], or [None] when [malloc] returned NULL.  A
    block that [malloc] just returned has [bytes_needed] bytes of
    unspecified content (here 0xff); the [memset] that follows overwrites
    all of them. *)
Definition grow_silent_buffer (buf : option (list byte)) (size bytes_needed : Z)
    (malloc_ok : bool) : option (option (list byte) * Z) :=
  if size <? bytes_needed then
    if malloc_ok then Some (Some (repeat Byte.xff (Z.to_nat bytes_needed)), bytes_needed)
    else None
  else Some (buf, size).

(** [memset(silent_buffer, 0, bytes_needed)]. *)
Definition fill_silent_buffer (buf : option (list byte)) (bytes_needed : Z)
  : run (option (list byte)) :=
  match buf with
  | Some l => Ret (Some (memset_zero l bytes_needed))
  | None => if bytes_needed =? 0 then Ret None else Crash
  end.

(** The real-packet path shared by both sources. *)
Definition get_packet (c : audio_context_t) (data : audio_ptr) (num_frames : Z)
    (os : get_buffer_os) : run (Z * audio_ptr * Z * audio_context_t) :=
  let c := set_using_silent_buffer false c in
  match next_packet os with
  | None => Ret (-1, data, num_frames, c)
  | Some (bytes, frames, flags) =>
    if Z.land flags AUDCLNT_BUFFERFLAGS_SILENT =? 0
    then Ret (0, PacketData bytes, frames, c)
    else
      wf <- read_wave_format c ;;
      Ret (0, PacketData (memset_zero bytes (u32 (frames * nBlockAlign wf))), frames, c)
  end.

(** [data] and [num_frames] are the values of [*data] and [*num_frames]
    before the call; the result carries their values after it. *)
Definition system_get_buffer (ctx : option system_context_t) (data : audio_ptr)
    (num_frames : Z) (os : get_buffer_os) (st : system_statics)
  : run (Z * audio_ptr * Z * option system_context_t * system_statics) :=
  match ctx with
  | None => Ret (-1, NullData, 0, None, st)
  | Some c =>
    if negb (non_null (capture_client c)) || negb (is_capturing c)
    then Ret (-1, NullData, 0, Some c, st) else
    _ <- use_handle (capture_client c) ;;
    match next_packet_size os with
    | None => Ret (-1, data, num_frames, Some c, st)
    | Some n =>
      if n =? 0 then
        let silent_call_count := u32 (sy_silent_call_count st + 1) in
        let current_time := tick_count os in
        let first := sy_recording_start_time st =? 0 in
        let recording_start_time :=
          if first then current_time else sy_recording_start_time st in
        let last_silent_generation :=
          if first then current_time else sy_last_silent_generation st in
        let total_generated_samples :=
          if first then 0 else sy_total_generated_samples st in
        let mk buf size total :=
          {| sy_silent_buffer := buf; sy_silent_buffer_size := size;
             sy_silent_call_count := silent_call_count;
             sy_recording_start_time := recording_start_time;
             sy_total_generated_samples := total;
             sy_last_silent_generation := last_silent_generation |} in
        wf <- read_wave_format c ;;
        let recording_elapsed_ms := u32 (current_time - recording_start_time) in
        let expected_total_samples :=
          u64 (nSamplesPerSec wf * recording_elapsed_ms) / 1000 in
        if expected_total_samples <=? total_generated_samples then
          Ret (0, NullData, 0, Some c,
               mk (sy_silent_buffer st) (sy_silent_buffer_size st)
                  total_generated_samples)
        else
          let samples_needed := u64 (expected_total_samples - total_generated_samples) in
          let max_chunk_samples := u32 (nSamplesPerSec wf * 50) / 1000 in
          let samples_needed :=
            if max_chunk_samples <? samples_needed then max_chunk_samples
            else samples_needed in
          let frames_to_generate := u32 samples_needed in
          let bytes_needed := u32 (frames_to_generate * nBlockAlign wf) in
          match grow_silent_buffer (sy_silent_buffer st) (sy_silent_buffer_size st)
                                   bytes_needed (malloc_ok os) with
          | None =>
            Ret (-1, NullData, 0, Some c,
                 mk None (sy_silent_buffer_size st) total_generated_samples)
          | Some (buf, size) =>
            buf <- fill_silent_buffer buf bytes_needed ;;
            Ret (0, SilentBuffer, frames_to_generate,
                 Some (set_using_silent_buffer true c),
                 mk buf size (u64 (total_generated_samples + frames_to_generate)))
          end
      else
        '(r, data, num_frames, c) <- get_packet c data n os ;;
        Ret (r, data, num_frames, Some c, st)
    end
  end.

Definition microphone_get_buffer (ctx : option microphone_context_t) (data : audio_ptr)
    (num_frames : Z) (os : get_buffer_os) (st : microphone_statics)
  : run (Z * audio_ptr * Z * option microphone_context_t * microphone_statics) :=
  match ctx with
  | None => Ret (-1, NullData, 0, None, st)
  | Some c =>
    if negb (non_null (capture_client c)) || negb (is_capturing c)
    then Ret (-1, NullData, 0, Some c, st) else
    _ <- use_handle (capture_client c) ;;
    match next_packet_size os with
    | None => Ret (-1, data, num_frames, Some c, st)
    | Some n =>
      if n =? 0 then
        let current_time := tick_count os in
        let first := mc_recording_start_time st =? 0 in
        let recording_start_time :=
          if first then current_time else mc_recording_start_time st in
        let total_generated_samples :=
          if first then 0 else mc_total_generated_samples st in
        let mk buf size total :=
          {| mc_silent_buffer := buf; mc_silent_buffer_size := size;
             mc_recording_start_time := recording_start_time;
             mc_total_generated_samples := total |} in
        wf <- read_wave_format c ;;
        let recording_elapsed_ms := u32 (current_time - recording_start_time) in
        let expected_total_samples :=
          u64 (nSamplesPerSec wf * recording_elapsed_ms) / 1000 in
        if expected_total_samples <=? total_generated_samples then
          Ret (0, NullData, 0, Some c,
               mk (mc_silent_buffer st) (mc_silent_buffer_size st)
                  total_generated_samples)
        else
          let samples_needed := u64 (expected_total_samples - total_generated_samples) in
          let max_chunk_samples := u32 (nSamplesPerSec wf * 50) / 1000 in
          let samples_needed :=
            if max_chunk_samples <? samples_needed then max_chunk_samples
            else samples_needed in
          let frames_to_generate := u32 samples_needed in
          let bytes_needed := u32 (frames_to_generate * nBlockAlign wf) in
          match grow_silent_buffer (mc_silent_buffer st) (mc_silent_buffer_size st)
                                   bytes_needed (malloc_ok os) with
          | None =>
            Ret (-1, NullData, 0, Some c,
                 mk None (mc_silent_buffer_size st) total_generated_samples)
          | Some (buf, size) =>
            buf <- fill_silent_buffer buf bytes_needed ;;
            Ret (0, SilentBuffer, frames_to_generate,
                 Some (set_using_silent_buffer true c),
                 mk buf size (u64 (total_generated_samples + frames_to_generate)))
          end
      else
        '(r, data, num_frames, c) <- get_packet c data n os ;;
        Ret (r, data, num_frames, Some c, st)
    end
  end.

(** The calls a release function makes into the audio client. *)
Inductive audio_client_call : Type :=
| IAudioCaptureClient_ReleaseBuffer (num_frames : Z).

Definition audio_release_buffer (ctx : option audio_context_t) (num_frames : Z)
  : run (list audio_client_call) :=
  match ctx with
  | None => Ret []
  | Some c =>
    if negb (non_null (capture_client c)) then Ret [] else
    if negb (using_silent_buffer c) then
      _ <- use_handle (capture_client c) ;;
      Ret [IAudioCaptureClient_ReleaseBuffer num_frames]
    else Ret []
  end.

Definition system_release_buffer := audio_release_buffer.
Definition microphone_release_buffer := audio_release_buffer.

(** The bytes behind a pointer returned by [get_buffer]. *)
Definition audio_bytes (p : audio_ptr) (silent_buffer : option (list byte))
  : option (list byte) :=
  match p with
  | NullData => None
  | SilentBuffer => silent_buffer
  | PacketData bytes => Some bytes
  end.

(** ** screen.h, screen.c: the screen source *)

Record screen_capture_t : Type := {
  sc_device : handle;
  sc_context : handle;
  sc_duplication : handle;
  sc_width : Z;
  sc_height : Z;
  sc_is_capturing : bool;
  sc_cached_frame : option (list byte);
  sc_cached_frame_size : Z;
  sc_has_cached_frame : bool }.

Definition zero_screen_capture : screen_capture_t :=
  {| sc_device := NullHandle; sc_context := NullHandle; sc_duplication := NullHandle;
     sc_width := 0; sc_height := 0; sc_is_capturing := false;
     sc_cached_frame := None; sc_cached_frame_size := 0;
     sc_has_cached_frame := false |}.

Definition set_sc_is_capturing (v : bool) (c : screen_capture_t) : screen_capture_t :=
  {| sc_device := sc_device c; sc_context := sc_context c;
     sc_duplication := sc_duplication c; sc_width := sc_width c;
     sc_height := sc_height c; sc_is_capturing := v;
     sc_cached_frame := sc_cached_frame c;
     sc_cached_frame_size := sc_cached_frame_size c;
     sc_has_cached_frame := sc_has_cached_frame c |}.

Definition set_sc_cache (frame : option (list byte)) (size : Z) (has : bool)
    (c : screen_capture_t) : screen_capture_t :=
  {| sc_device := sc_device c; sc_context := sc_context c;
     sc_duplication := sc_duplication c; sc_width := sc_width c;
     sc_height := sc_height c; sc_is_capturing := sc_is_capturing c;
     sc_cached_frame := frame; sc_cached_frame_size := size;
     sc_has_cached_frame := has |}.

Inductive screen_init_call : Type :=
| CreateDXGIFactory1
| EnumAdapters1
| EnumOutputs
| QueryOutput1
| D3D11CreateDevice
| DuplicateOutput.

Record screen_init_os : Type := {
  screen_init_ok : screen_init_call -> bool;
  mode_width : Z;
  mode_height : Z }.

Definition screen_init (capture : option screen_capture_t) (os : screen_init_os)
  : Z * option screen_capture_t :=
  match capture with
  | None => (-1, None)
  | Some _ =>
    let ok := screen_init_ok os in
    if FAILED ok CreateDXGIFactory1 then (-1, Some zero_screen_capture) else
    if FAILED ok EnumAdapters1 then (-1, Some zero_screen_capture) else
    if FAILED ok EnumOutputs then (-1, Some zero_screen_capture) else
    if FAILED ok QueryOutput1 then (-1, Some zero_screen_capture) else
    if FAILED ok D3D11CreateDevice then (-1, Some zero_screen_capture) else
    if FAILED ok DuplicateOutput then
      (-1, Some {| sc_device := ReleasedHandle; sc_context := ReleasedHandle;
                   sc_duplication := NullHandle; sc_width := 0; sc_height := 0;
                   sc_is_capturing := false; sc_cached_frame := None;
                   sc_cached_frame_size := 0; sc_has_cached_frame := false |})
    else
      (0, Some {| sc_device := LiveHandle; sc_context := LiveHandle;
                  sc_duplication := LiveHandle; sc_width := mode_width os;
                  sc_height := mode_height os; sc_is_capturing := false;
                  sc_cached_frame := None; sc_cached_frame_size := 0;
                  sc_has_cached_frame := false |})
  end.

Definition screen_start_capture (capture : option screen_capture_t)
  : Z * option screen_capture_t :=
  match capture with
  | None => (-1, None)
  | Some c =>
    if negb (non_null (sc_duplication c)) then (-1, Some c)
    else (0, Some (set_sc_is_capturing true c))
  end.

Inductive acquire_result : Type :=
| FrameAcquired
| DXGI_ERROR_WAIT_TIMEOUT
| AcquireFailed.

Record frame_os : Type := {
  acquire : acquire_result;
  (** malloc of the copy of the cached frame *)
  cached_copy_malloc_ok : bool;
  query_texture_ok : bool;
  (** [texture_desc.Width] and [texture_desc.Height] *)
  texture_width : Z;
  texture_height : Z;
  create_staging_ok : bool;
  map_ok : bool;
  (** [mapped_resource.RowPitch] and the bytes at [mapped_resource.pData] *)
  row_pitch : Z;
  mapped_data : Z -> byte;
  frame_malloc_ok : bool;
  cache_malloc_ok : bool }.

(** [n] bytes read at [src + off]. *)
Definition read_bytes (src : Z -> byte) (off n : Z) : list byte :=
  map (fun i => src (off + Z.of_nat i)) (seq 0 (Z.to_nat n)).

(** [memcpy(dst + off, data, length data)] into a block with contents
    [dst]; writing past the end of the block is undefined. *)
Definition memcpy_at (dst : list byte) (off : Z) (data : list byte) : run (list byte) :=
  let o := Z.to_nat off in
  if (o + length data <=? length dst)%nat
  then Ret (firstn o dst ++ data ++ skipn (o + length data) dst)
  else Crash.

(** One of the two row-copy loops, [n] rows from row [y] on; [src_row]
    gives the source row of an output row. *)
Fixpoint copy_rows (src_row : Z -> Z) (width pitch : Z) (src : Z -> byte)
    (n : nat) (y : Z) (dst : list byte) : run (list byte) :=
  match n with
  | O => Ret dst
  | S n' =>
    dst <- memcpy_at dst (u32 (y * width * 4))
                     (read_bytes src (u32 (src_row y * pitch)) (u32 (width * 4))) ;;
    copy_rows src_row width pitch src n' (y + 1) dst
  end.

Definition MAX_CACHE_SIZE : Z := 32 * 1024 * 1024.

(** [frame_data] and [frame_size] are the values of [*frame_data] and
    [*frame_size] before the call; the result carries their values after. *)
Definition screen_get_frame_dual_track (capture : option screen_capture_t)
    (frame_data : option (list byte)) (frame_size : Z) (dual_track_mode : bool)
    (os : frame_os)
  : run (Z * option (list byte) * Z * option screen_capture_t) :=
  match capture with
  | None => Ret (-1, frame_data, frame_size, None)
  | Some c =>
    if negb (non_null (sc_duplication c)) || negb (sc_is_capturing c)
    then Ret (-1, frame_data, frame_size, Some c) else
    _ <- use_handle (sc_duplication c) ;;
    match acquire os with
    | AcquireFailed => Ret (-1, frame_data, frame_size, Some c)
    | DXGI_ERROR_WAIT_TIMEOUT =>
      match sc_has_cached_frame c, sc_cached_frame c with
      | true, Some cached =>
        let frame_size := sc_cached_frame_size c in
        if cached_copy_malloc_ok os
        then Ret (0, Some (copy_payload cached frame_size), frame_size, Some c)
        else Ret (1, None, frame_size, Some c)
      | _, _ => Ret (1, frame_data, frame_size, Some c)
      end
    | FrameAcquired =>
      if negb (query_texture_ok os) then Ret (-1, frame_data, frame_size, Some c) else
      _ <- use_handle (sc_device c) ;;
      if negb (create_staging_ok os) then Ret (-1, frame_data, frame_size, Some c) else
      _ <- use_handle (sc_context c) ;;
      if negb (map_ok os) then Ret (-1, frame_data, frame_size, Some c) else
      let width := texture_width os in
      let height := texture_height os in
      let frame_size := u32 (width * height * 4) in
      if negb (frame_malloc_ok os) then Ret (-1, None, frame_size, Some c) else
      let dst := repeat Byte.xff (Z.to_nat frame_size) in
      dst <-
        (if dual_track_mode
         then copy_rows (fun y => y) width (row_pitch os) (mapped_data os)
                        (Z.to_nat height) 0 dst
         else copy_rows (fun y => u32 (height - 1 - y)) width (row_pitch os)
                        (mapped_data os) (Z.to_nat height) 0 dst) ;;
      let c :=
        if frame_size <=? MAX_CACHE_SIZE then
          if cache_malloc_ok os then set_sc_cache (Some dst) frame_size true c
          else set_sc_cache None (sc_cached_frame_size c) (sc_has_cached_frame c) c
        else set_sc_cache None (sc_cached_frame_size c) false c in
      Ret (0, Some dst, frame_size, Some c)
    end
  end.

Definition screen_get_frame (capture : option screen_capture_t)
    (frame_data : option (list byte)) (frame_size : Z) (os : frame_os) :=
  screen_get_frame_dual_track capture frame_data frame_size false os.

Definition screen_stop_capture (capture : option screen_capture_t)
  : option screen_capture_t :=
  match capture with
  | None => None
  | Some c => Some (set_sc_is_capturing false c)
  end.

Definition screen_cleanup (capture : option screen_capture_t)
  : run (option screen_capture_t) :=
  match capture with
  | None => Ret None
  | Some c =>
    _ <- release_if_set (sc_duplication c) ;;
    _ <- release_if_set (sc_context c) ;;
    _ <- release_if_set (sc_device c) ;;
    Ret (Some zero_screen_capture)
  end.

(** ** engine.h: parameters, statistics, the engine *)

Inductive audio_source_type_t : Type :=
| AUDIO_SOURCE_NONE
| AUDIO_SOURCE_SYSTEM
| AUDIO_SOURCE_MICROPHONE
| AUDIO_SOURCE_BOTH.

Record capture_params_t : Type := {
  output_filename : string;
  fps : Z;
  duration : Z;
  audio_sources : audio_source_type_t;
  force_stop : bool;
  enable_video : bool;
  enable_system_audio : bool;
  enable_microphone : bool;
  audio_only_mode : bool;
  monitor_index : Z;
  cursor_enabled : bool;
  region_enabled : bool;
  region_x : Z;
  region_y : Z;
  region_w : Z;
  region_h : Z }.

Record capture_stats_t : Type := {
  total_frames : Z;
  failed_frames : Z;
  recording_duration_ms : Z;
  audio_enabled : bool;
  audio_sample_rate : Z;
  audio_channels : Z;
  audio_bits_per_sample : Z }.

Definition zero_stats : capture_stats_t :=
  {| total_frames := 0; failed_frames := 0; recording_duration_ms := 0;
     audio_enabled := false; audio_sample_rate := 0; audio_channels := 0;
     audio_bits_per_sample := 0 |}.

Definition zero_params : capture_params_t :=
  {| output_filename := String.EmptyString; fps := 0; duration := 0;
     audio_sources := AUDIO_SOURCE_NONE; force_stop := false;
     enable_video := false; enable_system_audio := false;
     enable_microphone := false; audio_only_mode := false; monitor_index := 0;
     cursor_enabled := false; region_enabled := false; region_x := 0;
     region_y := 0; region_w := 0; region_h := 0 |}.

(** The callbacks that the program installs; a NULL pointer is [None]. *)
Inductive capture_status_callback_t : Type :=
| default_status_callback
| console_status_callback
| gui_status_callback.

Inductive capture_progress_callback_t : Type :=
| default_progress_callback
| console_progress_callback
| gui_progress_callback.

Record capture_engine_t : Type := {
  params : capture_params_t;
  stats : capture_stats_t;
  status_callback : option capture_status_callback_t;
  progress_callback : option capture_progress_callback_t;
  is_running : bool;
  engine_force_stop : bool }.

(** What a status callback receives: a literal of the source, or one of
    the three texts built with sprintf. *)
Inductive status_message : Type :=
| Status (text : string)
| RecordingStarted (filename : string) (with_audio : bool)
| AudioRecordingCompleted (ms : Z)
| RecordingCompleted (frames ms : Z).

(** The file-level statics of engine.c, the module state of the sources
    and of the muxer, and what the callbacks and the audio clients have
    received. *)
Record world : Type := {
  screen_ctx : screen_capture_t;
  microphone_ctx : microphone_context_t;
  system_ctx : system_context_t;
  encoder_ctx : encoder_context_t;
  encoder : encoder_globals;
  system_static : system_statics;
  microphone_static : microphone_statics;
  status_out : list status_message;
  progress_out : list (Z * Z);
  released_out : list audio_client_call }.

(** The state of a process that has not recorded yet. *)
Definition initial_world : world :=
  {| screen_ctx := zero_screen_capture; microphone_ctx := zero_audio_context;
     system_ctx := zero_audio_context; encoder_ctx := zero_encoder_context;
     encoder := initial_encoder_globals; system_static := initial_system_statics;
     microphone_static := initial_microphone_statics; status_out := [];
     progress_out := []; released_out := [] |}.

Definition set_total_frames (v : Z) (s : capture_stats_t) : capture_stats_t :=
  {| total_frames := v; failed_frames := failed_frames s;
     recording_duration_ms := recording_duration_ms s; audio_enabled :=
     audio_enabled s; audio_sample_rate := audio_sample_rate s;
     audio_channels := audio_channels s; audio_bits_per_sample :=
     audio_bits_per_sample s |}.
Definition set_failed_frames (v : Z) (s : capture_stats_t) : capture_stats_t :=
  {| total_frames := total_frames s; failed_frames := v;
     recording_duration_ms := recording_duration_ms s; audio_enabled :=
     audio_enabled s; audio_sample_rate := audio_sample_rate s;
     audio_channels := audio_channels s; audio_bits_per_sample :=
     audio_bits_per_sample s |}.
Definition set_recording_duration_ms (v : Z) (s : capture_stats_t) : capture_stats_t :=
  {| total_frames := total_frames s; failed_frames := failed_frames s;
     recording_duration_ms := v; audio_enabled := audio_enabled s;
     audio_sample_rate := audio_sample_rate s; audio_channels :=
     audio_channels s; audio_bits_per_sample := audio_bits_per_sample s |}.
Definition set_audio_enabled (v : bool) (s : capture_stats_t) : capture_stats_t :=
  {| total_frames := total_frames s; failed_frames := failed_frames s;
     recording_duration_ms := recording_duration_ms s; audio_enabled := v;
     audio_sample_rate := audio_sample_rate s; audio_channels :=
     audio_channels s; audio_bits_per_sample := audio_bits_per_sample s |}.
Definition set_params (v : capture_params_t) (e : capture_engine_t) : capture_engine_t :=
  {| params := v; stats := stats e; status_callback := status_callback e;
     progress_callback := progress_callback e; is_running := is_running e;
     engine_force_stop := engine_force_stop e |}.
Definition set_stats (v : capture_stats_t) (e : capture_engine_t) : capture_engine_t :=
  {| params := params e; stats := v; status_callback := status_callback e;
     progress_callback := progress_callback e; is_running := is_running e;
     engine_force_stop := engine_force_stop e |}.
Definition set_status_callback (v : option capture_status_callback_t) (e : capture_engine_t) : capture_engine_t :=
  {| params := params e; stats := stats e; status_callback := v;
     progress_callback := progress_callback e; is_running := is_running e;
     engine_force_stop := engine_force_stop e |}.
Definition set_progress_callback (v : option capture_progress_callback_t) (e : capture_engine_t) : capture_engine_t :=
  {| params := params e; stats := stats e; status_callback :=
     status_callback e; progress_callback := v; is_running := is_running e;
     engine_force_stop := engine_force_stop e |}.
Definition set_is_running (v : bool) (e : capture_engine_t) : capture_engine_t :=
  {| params := params e; stats := stats e; status_callback :=
     status_callback e; progress_callback := progress_callback e; is_running
     := v; engine_force_stop := engine_force_stop e |}.
Definition set_engine_force_stop (v : bool) (e : capture_engine_t) : capture_engine_t :=
  {| params := params e; stats := stats e; status_callback :=
     status_callback e; progress_callback := progress_callback e; is_running
     := is_running e; engine_force_stop := v |}.
Definition set_screen_ctx (v : screen_capture_t) (w : world) : world :=
  {| screen_ctx := v; microphone_ctx := microphone_ctx w; system_ctx :=
     system_ctx w; encoder_ctx := encoder_ctx w; encoder := encoder w;
     system_static := system_static w; microphone_static :=
     microphone_static w; status_out := status_out w; progress_out :=
     progress_out w; released_out := released_out w |}.
Definition set_microphone_ctx (v : microphone_context_t) (w : world) : world :=
  {| screen_ctx := screen_ctx w; microphone_ctx := v; system_ctx :=
     system_ctx w; encoder_ctx := encoder_ctx w; encoder := encoder w;
     system_static := system_static w; microphone_static :=
     microphone_static w; status_out := status_out w; progress_out :=
     progress_out w; released_out := released_out w |}.
Definition set_system_ctx (v : system_context_t) (w : world) : world :=
  {| screen_ctx := screen_ctx w; microphone_ctx := microphone_ctx w;
     system_ctx := v; encoder_ctx := encoder_ctx w; encoder := encoder w;
     system_static := system_static w; microphone_static :=
     microphone_static w; status_out := status_out w; progress_out :=
     progress_out w; released_out := released_out w |}.
Definition set_encoder_ctx (v : encoder_context_t) (w : world) : world :=
  {| screen_ctx := screen_ctx w; microphone_ctx := microphone_ctx w;
     system_ctx := system_ctx w; encoder_ctx := v; encoder := encoder w;
     system_static := system_static w; microphone_static :=
     microphone_static w; status_out := status_out w; progress_out :=
     progress_out w; released_out := released_out w |}.
Definition set_encoder (v : encoder_globals) (w : world) : world :=
  {| screen_ctx := screen_ctx w; microphone_ctx := microphone_ctx w;
     system_ctx := system_ctx w; encoder_ctx := encoder_ctx w; encoder := v;
     system_static := system_static w; microphone_static :=
     microphone_static w; status_out := status_out w; progress_out :=
     progress_out w; released_out := released_out w |}.
Definition set_system_static (v : system_statics) (w : world) : world :=
  {| screen_ctx := screen_ctx w; microphone_ctx := microphone_ctx w;
     system_ctx := system_ctx w; encoder_ctx := encoder_ctx w; encoder :=
     encoder w; system_static := v; microphone_static := microphone_static
     w; status_out := status_out w; progress_out := progress_out w;
     released_out := released_out w |}.
Definition set_microphone_static (v : microphone_statics) (w : world) : world :=
  {| screen_ctx := screen_ctx w; microphone_ctx := microphone_ctx w;
     system_ctx := system_ctx w; encoder_ctx := encoder_ctx w; encoder :=
     encoder w; system_static := system_static w; microphone_static := v;
     status_out := status_out w; progress_out := progress_out w;
     released_out := released_out w |}.
Definition set_status_out (v : list status_message) (w : world) : world :=
  {| screen_ctx := screen_ctx w; microphone_ctx := microphone_ctx w;
     system_ctx := system_ctx w; encoder_ctx := encoder_ctx w; encoder :=
     encoder w; system_static := system_static w; microphone_static :=
     microphone_static w; status_out := v; progress_out := progress_out w;
     released_out := released_out w |}.
Definition set_progress_out (v : list (Z * Z)) (w : world) : world :=
  {| screen_ctx := screen_ctx w; microphone_ctx := microphone_ctx w;
     system_ctx := system_ctx w; encoder_ctx := encoder_ctx w; encoder :=
     encoder w; system_static := system_static w; microphone_static :=
     microphone_static w; status_out := status_out w; progress_out := v;
     released_out := released_out w |}.
Definition set_released_out (v : list audio_client_call) (w : world) : world :=
  {| screen_ctx := screen_ctx w; microphone_ctx := microphone_ctx w;
     system_ctx := system_ctx w; encoder_ctx := encoder_ctx w; encoder :=
     encoder w; system_static := system_static w; microphone_static :=
     microphone_static w; status_out := status_out w; progress_out :=
     progress_out w; released_out := v |}.

(** ** engine.c: callbacks and accessors *)

Local Open Scope string_scope.

(** [engine->status_callback(message)]. *)
Definition status (e : capture_engine_t) (m : status_message) (w : world) : run world :=
  match status_callback e with
  | Some _ => Ret (set_status_out (status_out w ++ [m]) w)
  | None => Crash
  end.

Definition say (e : capture_engine_t) (text : string) (w : world) : run world :=
  status e (Status text) w.

(** [engine->progress_callback(frame_count, elapsed_ms)]. *)
Definition progress (e : capture_engine_t) (count elapsed_ms : Z) (w : world) : run world :=
  match progress_callback e with
  | Some _ => Ret (set_progress_out (progress_out w ++ [(count, elapsed_ms)]) w)
  | None => Crash
  end.

Definition engine_init (engine : option capture_engine_t) : Z * option capture_engine_t :=
  match engine with
  | None => (-1, None)
  | Some _ =>
    (0, Some {| params := zero_params; stats := zero_stats;
                status_callback := Some default_status_callback;
                progress_callback := Some default_progress_callback;
                is_running := false; engine_force_stop := false |})
  end.

Definition engine_set_status_callback (engine : option capture_engine_t)
    (callback : option capture_status_callback_t) : option capture_engine_t :=
  match engine with
  | Some e =>
    Some (set_status_callback
            (Some match callback with
                  | Some c => c
                  | None => default_status_callback
                  end) e)
  | None => None
  end.

Definition engine_set_progress_callback (engine : option capture_engine_t)
    (callback : option capture_progress_callback_t) : option capture_engine_t :=
  match engine with
  | Some e =>
    Some (set_progress_callback
            (Some match callback with
                  | Some c => c
                  | None => default_progress_callback
                  end) e)
  | None => None
  end.

Definition engine_is_running (engine : option capture_engine_t) : bool :=
  match engine with Some e => is_running e | None => false end.

Definition engine_get_stats (engine : option capture_engine_t) : option capture_stats_t :=
  match engine with Some e => Some (stats e) | None => None end.

(** ** engine.c: calls on the static contexts *)

(** The pointee after a call that received a non-NULL pointer. *)
Definition with_ctx {A} (old : A) (o : option A) : A :=
  match o with Some a => a | None => old end.

Definition w_screen_init (os : screen_init_os) (w : world) : Z * world :=
  let '(r, c) := screen_init (Some (screen_ctx w)) os in
  (r, set_screen_ctx (with_ctx (screen_ctx w) c) w).

Definition w_screen_start_capture (w : world) : Z * world :=
  let '(r, c) := screen_start_capture (Some (screen_ctx w)) in
  (r, set_screen_ctx (with_ctx (screen_ctx w) c) w).

Definition w_screen_get_frame_dual_track (frame_data : option (list byte))
    (frame_size : Z) (dual : bool) (os : frame_os) (w : world)
  : run (Z * option (list byte) * Z * world) :=
  '(r, d, n, c) <-
    screen_get_frame_dual_track (Some (screen_ctx w)) frame_data frame_size dual os ;;
  Ret (r, d, n, set_screen_ctx (with_ctx (screen_ctx w) c) w).

Definition w_screen_stop_capture (w : world) : world :=
  set_screen_ctx (with_ctx (screen_ctx w) (screen_stop_capture (Some (screen_ctx w)))) w.

Definition w_screen_cleanup (w : world) : run world :=
  c <- screen_cleanup (Some (screen_ctx w)) ;;
  Ret (set_screen_ctx (with_ctx (screen_ctx w) c) w).

Definition w_microphone_init (os : audio_init_os) (w : world) : Z * world :=
  let '(r, c) := microphone_init (Some (microphone_ctx w)) os in
  (r, set_microphone_ctx (with_ctx (microphone_ctx w) c) w).

Definition w_system_init (os : audio_init_os) (w : world) : Z * world :=
  let '(r, c) := system_init (Some (system_ctx w)) os in
  (r, set_system_ctx (with_ctx (system_ctx w) c) w).

Definition w_microphone_start_capture (start_ok : bool) (w : world) : run (Z * world) :=
  '(r, c) <- microphone_start_capture (Some (microphone_ctx w)) start_ok ;;
  Ret (r, set_microphone_ctx (with_ctx (microphone_ctx w) c) w).

Definition w_system_start_capture (start_ok : bool) (w : world) : run (Z * world) :=
  '(r, c) <- system_start_capture (Some (system_ctx w)) start_ok ;;
  Ret (r, set_system_ctx (with_ctx (system_ctx w) c) w).

Definition w_microphone_stop_capture (w : world) : run world :=
  c <- microphone_stop_capture (Some (microphone_ctx w)) ;;
  Ret (set_microphone_ctx (with_ctx (microphone_ctx w) c) w).

Definition w_system_stop_capture (w : world) : run world :=
  c <- system_stop_capture (Some (system_ctx w)) ;;
  Ret (set_system_ctx (with_ctx (system_ctx w) c) w).

Definition w_microphone_cleanup (w : world) : run world :=
  c <- microphone_cleanup (Some (microphone_ctx w)) ;;
  Ret (set_microphone_ctx (with_ctx (microphone_ctx w) c) w).

Definition w_system_cleanup (w : world) : run world :=
  c <- system_cleanup (Some (system_ctx w)) ;;
  Ret (set_system_ctx (with_ctx (system_ctx w) c) w).

Definition w_microphone_get_buffer (data : audio_ptr) (num_frames : Z)
    (os : get_buffer_os) (w : world) : run (Z * audio_ptr * Z * world) :=
  '(r, d, n, c, st) <-
    microphone_get_buffer (Some (microphone_ctx w)) data num_frames os
                          (microphone_static w) ;;
  Ret (r, d, n,
       set_microphone_static st
         (set_microphone_ctx (with_ctx (microphone_ctx w) c) w)).

Definition w_system_get_buffer (data : audio_ptr) (num_frames : Z)
    (os : get_buffer_os) (w : world) : run (Z * audio_ptr * Z * world) :=
  '(r, d, n, c, st) <-
    system_get_buffer (Some (system_ctx w)) data num_frames os (system_static w) ;;
  Ret (r, d, n,
       set_system_static st (set_system_ctx (with_ctx (system_ctx w) c) w)).

Definition w_microphone_release_buffer (num_frames : Z) (w : world) : run world :=
  calls <- microphone_release_buffer (Some (microphone_ctx w)) num_frames ;;
  Ret (set_released_out (released_out w ++ calls) w).

Definition w_system_release_buffer (num_frames : Z) (w : world) : run world :=
  calls <- system_release_buffer (Some (system_ctx w)) num_frames ;;
  Ret (set_released_out (released_out w ++ calls) w).

(** The result of an encoder init call stored into the statics. *)
Definition w_encoder_init_result
    (r : Z * option encoder_context_t * encoder_globals) (w : world) : Z * world :=
  let '(ret, c, g) := r in
  (ret, set_encoder g (set_encoder_ctx (with_ctx (encoder_ctx w) c) w)).

Definition w_encoder_add_video_frame (frame_data : option (list byte))
    (frame_size elapsed_ms : Z) (os : sample_os) (w : world) : run (Z * world) :=
  '(r, g) <- encoder_add_video_frame (Some (encoder_ctx w)) frame_data frame_size
                                     elapsed_ms os (encoder w) ;;
  Ret (r, set_encoder g w).

Definition w_encoder_add_audio_frame (audio_data : option (list byte))
    (num_frames elapsed_ms : Z) (os : sample_os) (w : world) : Z * world :=
  let '(r, g) := encoder_add_audio_frame (Some (encoder_ctx w)) audio_data num_frames
                                         elapsed_ms os (encoder w) in
  (r, set_encoder g w).

Definition w_encoder_add_system_audio_frame (audio_data : option (list byte))
    (num_frames elapsed_ms : Z) (os : sample_os) (w : world) : Z * world :=
  let '(r, g) := encoder_add_system_audio_frame (Some (encoder_ctx w)) audio_data
                                                num_frames elapsed_ms os (encoder w) in
  (r, set_encoder g w).

Definition w_encoder_add_mic_audio_frame (audio_data : option (list byte))
    (num_frames elapsed_ms : Z) (os : sample_os) (w : world) : Z * world :=
  let '(r, g) := encoder_add_mic_audio_frame (Some (encoder_ctx w)) audio_data
                                             num_frames elapsed_ms os (encoder w) in
  (r, set_encoder g w).

Definition w_encoder_finalize (os : finalize_os) (w : world) : run (Z * world) :=
  '(r, c, g) <- encoder_finalize (Some (encoder_ctx w)) os (encoder w) ;;
  Ret (r, set_encoder g (set_encoder_ctx (with_ctx (encoder_ctx w) c) w)).

Definition w_encoder_cleanup (w : world) : world :=
  let '(c, g) := encoder_cleanup (Some (encoder_ctx w)) (encoder w) in
  set_encoder g (set_encoder_ctx (with_ctx (encoder_ctx w) c) w).

(** ** engine.c: engine_start *)

(** The locals of [engine_start] that live across its phases. *)
Record start_locals : Type := {
  use_microphone : bool;
  use_system : bool;
  use_dual_track : bool;
  microphone_result : Z;
  system_result : Z;
  audio_available : bool }.

Definition set_audio_available (v : bool) (l : start_locals) : start_locals :=
  {| use_microphone := use_microphone l; use_system := use_system l;
     use_dual_track := use_dual_track l; microphone_result := microphone_result l;
     system_result := system_result l; audio_available := v |}.

Definition set_use_microphone (v : bool) (l : start_locals) : start_locals :=
  {| use_microphone := v; use_system := use_system l;
     use_dual_track := use_dual_track l; microphone_result := microphone_result l;
     system_result := system_result l; audio_available := audio_available l |}.

Definition set_use_system (v : bool) (l : start_locals) : start_locals :=
  {| use_microphone := use_microphone l; use_system := v;
     use_dual_track := use_dual_track l; microphone_result := microphone_result l;
     system_result := system_result l; audio_available := audio_available l |}.

Definition is_source (a b : audio_source_type_t) : bool :=
  match a, b with
  | AUDIO_SOURCE_NONE, AUDIO_SOURCE_NONE
  | AUDIO_SOURCE_SYSTEM, AUDIO_SOURCE_SYSTEM
  | AUDIO_SOURCE_MICROPHONE, AUDIO_SOURCE_MICROPHONE
  | AUDIO_SOURCE_BOTH, AUDIO_SOURCE_BOTH => true
  | _, _ => false
  end.

(** One iteration of the capture loop, as the outside world answers it. *)
Record iteration_os : Type := {
  (** another thread has run [engine_stop] since the last test of the
      loop condition *)
  it_engine_stop : bool;
  (** [GetTickCount()] at the top of the iteration *)
  it_tick : Z;
  it_frame : frame_os;
  it_video_sample : sample_os;
  it_system_buffer : get_buffer_os;
  it_system_sample : sample_os;
  it_microphone_buffer : get_buffer_os;
  it_microphone_sample : sample_os }.

Record engine_os : Type := {
  os_screen_init : screen_init_os;
  os_microphone_init : audio_init_os;
  os_system_init : audio_init_os;
  (** the availability test: start, then one answer per attempt *)
  os_microphone_test_start : bool;
  os_microphone_test : nat -> get_buffer_os;
  os_system_test_start : bool;
  os_system_test : nat -> get_buffer_os;
  (** the start for the recording itself *)
  os_microphone_start : bool;
  os_system_start : bool;
  os_encoder_init : init_os;
  (** [GetTickCount()] before the loop, for the statistics after it, and
      for the completion message *)
  os_start_tick : Z;
  os_iterations : list iteration_os;
  os_end_tick : Z;
  os_report_tick : Z;
  os_finalize : finalize_os }.

(** The locals as declared (lines 76-93), for a build with or without
    MUXSW_ENABLE_AUDIO. *)
Definition declare_locals (audio_build : bool) (p : capture_params_t) : start_locals :=
  let mic := is_source (audio_sources p) AUDIO_SOURCE_MICROPHONE
             || is_source (audio_sources p) AUDIO_SOURCE_BOTH in
  let sys := is_source (audio_sources p) AUDIO_SOURCE_SYSTEM
             || is_source (audio_sources p) AUDIO_SOURCE_BOTH in
  let dual := is_source (audio_sources p) AUDIO_SOURCE_BOTH
              && negb (audio_only_mode p) in
  {| use_microphone := audio_build && mic; use_system := audio_build && sys;
     use_dual_track := audio_build && dual; microphone_result := -1;
     system_result := -1; audio_available := false |}.

Definition set_audio_format (wf : WAVEFORMATEX) (s : capture_stats_t) : capture_stats_t :=
  {| total_frames := total_frames s; failed_frames := failed_frames s;
     recording_duration_ms := recording_duration_ms s;
     audio_enabled := audio_enabled s; audio_sample_rate := nSamplesPerSec wf;
     audio_channels := nChannels wf; audio_bits_per_sample := wBitsPerSample wf |}.

(** Lines 95-146: the audio sources are initialized and the format of the
    recording is chosen.  [inr] is the jump to the label [cleanup]. *)
Definition init_audio_sources (p : capture_params_t) (os : engine_os)
    (l : start_locals) (e : capture_engine_t) (w : world)
  : run (start_locals * capture_engine_t * world + start_locals * capture_engine_t * world) :=
  '(mr, e, w) <-
    (if use_microphone l then
       let '(r, w) := w_microphone_init (os_microphone_init os) w in
       if r =? 0 then
         wf <- read_wave_format (microphone_ctx w) ;;
         let e := set_stats (set_audio_format wf (stats e)) e in
         w <- say e "Microphone initialized successfully" w ;;
         Ret (r, e, w)
       else
         w <- say e "Warning: Failed to initialize microphone" w ;;
         Ret (r, e, w)
     else Ret (-1, e, w)) ;;
  '(sr, e, w) <-
    (if use_system l then
       let '(r, w) := w_system_init (os_system_init os) w in
       if r =? 0 then
         e <- (if negb (use_microphone l) || negb (mr =? 0) then
                 wf <- read_wave_format (system_ctx w) ;;
                 Ret (set_stats (set_audio_format wf (stats e)) e)
               else Ret e) ;;
         w <- say e "System audio initialized successfully" w ;;
         Ret (r, e, w)
       else
         w <- say e "Warning: Failed to initialize system audio" w ;;
         Ret (r, e, w)
     else Ret (-1, e, w)) ;;
  let available := (use_microphone l && (mr =? 0)) || (use_system l && (sr =? 0)) in
  let l := {| use_microphone := use_microphone l; use_system := use_system l;
              use_dual_track := use_dual_track l; microphone_result := mr;
              system_result := sr; audio_available := available |} in
  if (use_microphone l || use_system l) && negb available then
    if audio_only_mode p then
      w <- say e "Error: Audio-only mode requires working audio capture" w ;;
      Ret (inr (l, e, w))
    else
      w <- say e "Warning: No audio sources available, continuing with video-only" w ;;
      Ret (inl (l, set_stats (set_audio_enabled available (stats e)) e, w))
  else Ret (inl (l, set_stats (set_audio_enabled available (stats e)) e, w)).

(** The attempts of the microphone test (at most [n] more, Sleep(100)
    before each). *)
Fixpoint microphone_test (n attempt : nat) (os : nat -> get_buffer_os)
    (e : capture_engine_t) (test_data : audio_ptr) (test_frames : Z)
    (test_success : bool) (w : world) : run (bool * world) :=
  match n with
  | O => Ret (test_success, w)
  | S n' =>
    if test_success then Ret (test_success, w) else
    '(r, d, f, w) <- w_microphone_get_buffer test_data test_frames (os attempt) w ;;
    if (r =? 0) && (0 <? f) then
      w <- w_microphone_release_buffer f w ;;
      w <- say e "Microphone test successful" w ;;
      microphone_test n' (S attempt) os e d f true w
    else microphone_test n' (S attempt) os e d f test_success w
  end.

Fixpoint system_test (n attempt : nat) (os : nat -> get_buffer_os)
    (e : capture_engine_t) (test_data : audio_ptr) (test_frames : Z)
    (test_success : bool) (w : world) : run (bool * world) :=
  match n with
  | O => Ret (test_success, w)
  | S n' =>
    if test_success then Ret (test_success, w) else
    '(r, d, f, w) <- w_system_get_buffer test_data test_frames (os attempt) w ;;
    if (r =? 0) && (0 <? f) then
      w <- w_system_release_buffer f w ;;
      w <- say e "System audio test successful" w ;;
      system_test n' (S attempt) os e d f true w
    else system_test n' (S attempt) os e d f test_success w
  end.

(** Lines 148-221: the availability test, or the direct start of an
    audio-only recording.  [inr] is the jump to [cleanup]. *)
Definition test_audio (p : capture_params_t) (os : engine_os)
    (l : start_locals) (e : capture_engine_t) (w : world)
  : run (start_locals * capture_engine_t * world + start_locals * capture_engine_t * world) :=
  if audio_available l && negb (audio_only_mode p) then
    w <- say e "Testing audio capture availability..." w ;;
    '(test_success, w) <-
      (if use_microphone l && (microphone_result l =? 0) then
         '(r, w) <- w_microphone_start_capture (os_microphone_test_start os) w ;;
         if r =? 0 then
           '(ok, w) <- microphone_test 5 0 (os_microphone_test os) e NullData 0 false w ;;
           w <- w_microphone_stop_capture w ;;
           Ret (ok, w)
         else Ret (false, w)
       else Ret (false, w)) ;;
    '(test_success, w) <-
      (if use_system l && (system_result l =? 0) then
         '(r, w) <- w_system_start_capture (os_system_test_start os) w ;;
         if r =? 0 then
           '(ok, w) <- system_test 3 0 (os_system_test os) e NullData 0 test_success w ;;
           w <- (if ok then Ret w
                 else say e "System audio capture ready (no audio currently playing)" w) ;;
           w <- w_system_stop_capture w ;;
           Ret (true, w)
         else Ret (test_success, w)
       else Ret (test_success, w)) ;;
    if test_success then Ret (inl (l, e, w))
    else
      w <- say e "Warning: No audio data detected, continuing with video-only" w ;;
      Ret (inl (set_audio_available false l,
                set_stats (set_audio_enabled false (stats e)) e, w))
  else if audio_available l && audio_only_mode p then
    w <- say e "Audio-only mode: starting audio capture directly" w ;;
    '(l, w) <-
      (if use_microphone l && (microphone_result l =? 0) then
         '(r, w) <- w_microphone_start_capture (os_microphone_start os) w ;;
         if r =? 0 then Ret (l, w)
         else
           w <- say e "Error: Failed to start microphone capture for audio-only mode" w ;;
           Ret (set_audio_available false l, w)
       else Ret (l, w)) ;;
    '(l, w) <-
      (if use_system l && (system_result l =? 0) then
         '(r, w) <- w_system_start_capture (os_system_start os) w ;;
         if r =? 0 then Ret (l, w)
         else
           w <- say e "Error: Failed to start system audio capture for audio-only mode" w ;;
           Ret (set_audio_available false l, w)
       else Ret (l, w)) ;;
    if audio_available l then Ret (inl (l, e, w))
    else
      w <- say e "Error: Audio-only mode requires working audio capture" w ;;
      Ret (inr (l, e, w))
  else Ret (inl (l, e, w)).

(** Lines 223-251: the muxer variant is selected and initialized. *)
Definition init_encoder (p : capture_params_t) (os : engine_os)
    (l : start_locals) (e : capture_engine_t) (w : world) : run (Z * world) :=
  let sample_rate := if audio_enabled (stats e) then audio_sample_rate (stats e) else 0 in
  let channels := if audio_enabled (stats e) then audio_channels (stats e) else 0 in
  let bits_per_sample :=
    if audio_enabled (stats e) then audio_bits_per_sample (stats e) else 0 in
  let context := Some (encoder_ctx w) in
  let filename := Some (output_filename p) in
  if audio_only_mode p then
    if use_dual_track l && audio_available l then
      let '(r, w) :=
        w_encoder_init_result
          (encoder_init_audio_only_dual_track context filename sample_rate channels
             bits_per_sample (os_encoder_init os) (encoder w)) w in
      w <- say e "Initialized audio-only dual-track encoder (system + mic as separate tracks)" w ;;
      Ret (r, w)
    else
      let '(r, w) :=
        w_encoder_init_result
          (encoder_init_audio_only context filename sample_rate channels
             bits_per_sample (os_encoder_init os) (encoder w)) w in
      w <- say e "Initialized audio-only encoder (MP4 output)" w ;;
      Ret (r, w)
  else
    if use_dual_track l && audio_available l then
      let '(r, w) :=
        w_encoder_init_result
          (encoder_init_dual_track context filename (sc_width (screen_ctx w))
             (sc_height (screen_ctx w)) (fps p) sample_rate channels bits_per_sample
             (os_encoder_init os) (encoder w)) w in
      w <- say e "Initialized dual-track encoder (video + system audio + microphone)" w ;;
      Ret (r, w)
    else
      Ret (w_encoder_init_result
             (encoder_init context filename (sc_width (screen_ctx w))
                (sc_height (screen_ctx w)) (fps p) sample_rate channels bits_per_sample
                (os_encoder_init os) (encoder w)) w).

(** Lines 266-290: the sources are started again after the test. *)
Definition restart_audio (p : capture_params_t) (os : engine_os)
    (l : start_locals) (e : capture_engine_t) (w : world)
  : run (start_locals * capture_engine_t * world) :=
  if audio_available l && negb (audio_only_mode p) then
    '(l, w) <-
      (if use_microphone l && (microphone_result l =? 0) then
         '(r, w) <- w_microphone_start_capture (os_microphone_start os) w ;;
         if r =? 0 then Ret (l, w)
         else
           w <- say e "Warning: Failed to restart microphone capture" w ;;
           Ret (set_use_microphone false l, w)
       else Ret (l, w)) ;;
    '(l, w) <-
      (if use_system l && (system_result l =? 0) then
         '(r, w) <- w_system_start_capture (os_system_start os) w ;;
         if r =? 0 then Ret (l, w)
         else
           w <- say e "Warning: Failed to restart system audio capture" w ;;
           Ret (set_use_system false l, w)
       else Ret (l, w)) ;;
    let available := (use_microphone l && (microphone_result l =? 0))
                     || (use_system l && (system_result l =? 0)) in
    Ret (set_audio_available available l,
         set_stats (set_audio_enabled available (stats e)) e, w)
  else Ret (l, e, w).

(** ** engine.c: the capture loop *)

(** The locals of the loop. *)
Record loop_state : Type := {
  next_frame_time : Z;
  frame_count : Z;
  failed_frame_attempts : Z;
  consecutive_audio_failures : Z;
  next_emergency_check : Z;
  loop_iterations : Z;
  (** the arguments of the Sleep calls so far *)
  slept : list Z }.

Definition set_next_frame_time (v : Z) (l : loop_state) : loop_state :=
  {| next_frame_time := v; frame_count := frame_count l;
     failed_frame_attempts := failed_frame_attempts l;
     consecutive_audio_failures := consecutive_audio_failures l;
     next_emergency_check := next_emergency_check l; loop_iterations :=
     loop_iterations l; slept := slept l |}.
Definition set_frame_count (v : Z) (l : loop_state) : loop_state :=
  {| next_frame_time := next_frame_time l; frame_count := v;
     failed_frame_attempts := failed_frame_attempts l;
     consecutive_audio_failures := consecutive_audio_failures l;
     next_emergency_check := next_emergency_check l; loop_iterations :=
     loop_iterations l; slept := slept l |}.
Definition set_failed_frame_attempts (v : Z) (l : loop_state) : loop_state :=
  {| next_frame_time := next_frame_time l; frame_count := frame_count l;
     failed_frame_attempts := v; consecutive_audio_failures :=
     consecutive_audio_failures l; next_emergency_check :=
     next_emergency_check l; loop_iterations := loop_iterations l; slept :=
     slept l |}.
Definition set_consecutive_audio_failures (v : Z) (l : loop_state) : loop_state :=
  {| next_frame_time := next_frame_time l; frame_count := frame_count l;
     failed_frame_attempts := failed_frame_attempts l;
     consecutive_audio_failures := v; next_emergency_check :=
     next_emergency_check l; loop_iterations := loop_iterations l; slept :=
     slept l |}.
Definition set_next_emergency_check (v : Z) (l : loop_state) : loop_state :=
  {| next_frame_time := next_frame_time l; frame_count := frame_count l;
     failed_frame_attempts := failed_frame_attempts l;
     consecutive_audio_failures := consecutive_audio_failures l;
     next_emergency_check := v; loop_iterations := loop_iterations l; slept
     := slept l |}.
Definition set_loop_iterations (v : Z) (l : loop_state) : loop_state :=
  {| next_frame_time := next_frame_time l; frame_count := frame_count l;
     failed_frame_attempts := failed_frame_attempts l;
     consecutive_audio_failures := consecutive_audio_failures l;
     next_emergency_check := next_emergency_check l; loop_iterations := v;
     slept := slept l |}.
Definition set_slept (v : list Z) (l : loop_state) : loop_state :=
  {| next_frame_time := next_frame_time l; frame_count := frame_count l;
     failed_frame_attempts := failed_frame_attempts l;
     consecutive_audio_failures := consecutive_audio_failures l;
     next_emergency_check := next_emergency_check l; loop_iterations :=
     loop_iterations l; slept := v |}.

Definition MAX_LOOP_ITERATIONS_PER_SECOND : Z := 2000.

(** Lines 342-361: the video slot of one iteration. *)
Definition capture_video (p : capture_params_t) (start_time frame_interval current_time : Z)
    (it : iteration_os) (e : capture_engine_t) (w : world) (ls : loop_state)
  : run (world * loop_state) :=
  if negb (audio_only_mode p) && (next_frame_time ls <=? current_time) then
    '(frame_result, frame_data, frame_size, w) <-
      w_screen_get_frame_dual_track None 0 (ec_dual_track_mode (encoder_ctx w))
                                    (it_frame it) w ;;
    '(w, ls) <-
      match frame_data with
      | Some _ =>
        if frame_result =? 0 then
          '(_, w) <- w_encoder_add_video_frame frame_data frame_size
                       (u32 (current_time - start_time)) (it_video_sample it) w ;;
          let ls := set_frame_count (frame_count ls + 1) ls in
          w <- progress e (frame_count ls) (u32 (current_time - start_time)) w ;;
          Ret (w, ls)
        else Ret (w, set_failed_frame_attempts (failed_frame_attempts ls + 1) ls)
      | None => Ret (w, set_failed_frame_attempts (failed_frame_attempts ls + 1) ls)
      end ;;
    Ret (w, set_next_frame_time (u32 (next_frame_time ls + frame_interval)) ls)
  else Ret (w, ls).

(** Lines 367-416: one poll of the audio sources; the result says whether
    a buffer reached the muxer. *)
Definition poll_audio (l : start_locals) (elapsed_ms : Z) (it : iteration_os) (w : world)
  : run (bool * world) :=
  if use_dual_track l && use_microphone l && use_system l then
    '(ok1, w) <-
      (if system_result l =? 0 then
         '(r, d, n, w) <- w_system_get_buffer NullData 0 (it_system_buffer it) w ;;
         if (r =? 0) && (0 <? n) then
           let '(_, w) :=
             w_encoder_add_system_audio_frame
               (audio_bytes d (sy_silent_buffer (system_static w))) n elapsed_ms
               (it_system_sample it) w in
           w <- w_system_release_buffer n w ;;
           Ret (true, w)
         else Ret (false, w)
       else Ret (false, w)) ;;
    (if microphone_result l =? 0 then
       '(r, d, n, w) <- w_microphone_get_buffer NullData 0 (it_microphone_buffer it) w ;;
       if (r =? 0) && (0 <? n) then
         let '(_, w) :=
           w_encoder_add_mic_audio_frame
             (audio_bytes d (mc_silent_buffer (microphone_static w))) n elapsed_ms
             (it_microphone_sample it) w in
         w <- w_microphone_release_buffer n w ;;
         Ret (true, w)
       else Ret (ok1, w)
     else Ret (ok1, w))
  else
    '(ok1, w) <-
      (if use_microphone l && (microphone_result l =? 0) then
         '(r, d, n, w) <- w_microphone_get_buffer NullData 0 (it_microphone_buffer it) w ;;
         if (r =? 0) && (0 <? n) then
           let '(_, w) :=
             w_encoder_add_audio_frame
               (audio_bytes d (mc_silent_buffer (microphone_static w))) n elapsed_ms
               (it_microphone_sample it) w in
           w <- w_microphone_release_buffer n w ;;
           Ret (true, w)
         else Ret (false, w)
       else Ret (false, w)) ;;
    (if use_system l && (system_result l =? 0) then
       '(r, d, n, w) <- w_system_get_buffer NullData 0 (it_system_buffer it) w ;;
       if (r =? 0) && (0 <? n) then
         let '(_, w) :=
           w_encoder_add_audio_frame
             (audio_bytes d (sy_silent_buffer (system_static w))) n elapsed_ms
             (it_system_sample it) w in
         w <- w_system_release_buffer n w ;;
         Ret (true, w)
       else Ret (ok1, w)
     else Ret (ok1, w)).

(** Lines 432-447: the argument of the Sleep that ends an iteration. *)
Definition sleep_ms (l : start_locals) (current_time : Z) (ls : loop_state) : Z :=
  let time_until_next_frame :=
    if current_time <? next_frame_time ls
    then u32 (next_frame_time ls - current_time) else 0 in
  if audio_available l then 5
  else if 5 <? time_until_next_frame then 5
  else if 1 <? time_until_next_frame then u32 (time_until_next_frame - 1)
  else 3.

(** The body of the while loop; [false] in the result is a [break]. *)
Definition capture_iteration (p : capture_params_t) (l : start_locals)
    (start_time frame_interval : Z) (it : iteration_os)
    (e : capture_engine_t) (w : world) (ls : loop_state)
  : run (bool * world * loop_state) :=
  let current_time := it_tick it in
  let ls := set_loop_iterations (loop_iterations ls + 1) ls in
  '(go, w, ls) <-
    (if next_emergency_check ls <=? current_time then
       if MAX_LOOP_ITERATIONS_PER_SECOND <? loop_iterations ls then
         w <- say e "EMERGENCY: Loop frequency too high, terminating to prevent memory leak" w ;;
         Ret (false, w, ls)
       else
         let ls := set_loop_iterations 0 ls in
         let ls := set_next_emergency_check (u32 (current_time + 1000)) ls in
         if (duration p =? 0) && (60 * 1000 <? u32 (current_time - start_time)) then
           w <- say e "EMERGENCY: Unlimited recording running over 60 seconds, auto-terminating" w ;;
           Ret (false, w, ls)
         else Ret (true, w, ls)
     else Ret (true, w, ls)) ;;
  if negb go then Ret (false, w, ls) else
  if (0 <? duration p) && (u32 (duration p * 1000) <=? u32 (current_time - start_time))
  then Ret (false, w, ls) else
  '(w, ls) <- capture_video p start_time frame_interval current_time it e w ls ;;
  '(go, w, ls) <-
    (if audio_available l then
       '(audio_success, w) <- poll_audio l (u32 (current_time - start_time)) it w ;;
       if audio_success then Ret (true, w, set_consecutive_audio_failures 0 ls)
       else
         let ls := set_consecutive_audio_failures (consecutive_audio_failures ls + 1) ls in
         if audio_only_mode p && (1000 <? consecutive_audio_failures ls) then
           w <- say e "Error: Too many audio capture failures in audio-only mode, stopping recording" w ;;
           Ret (false, w, ls)
         else Ret (true, w, ls)
     else Ret (true, w, ls)) ;;
  if negb go then Ret (false, w, ls) else
  Ret (true, w, set_slept (slept ls ++ [sleep_ms l current_time ls]) ls).

(** The while loop over the iterations that the trace [its] describes. *)
Fixpoint capture_loop (p : capture_params_t) (l : start_locals)
    (start_time frame_interval : Z) (its : list iteration_os)
    (e : capture_engine_t) (w : world) (ls : loop_state)
  : run (capture_engine_t * world * loop_state) :=
  if negb (is_running e) || engine_force_stop e || force_stop p then Ret (e, w, ls) else
  match its with
  | [] => Pending
  | it :: its' =>
    if it_engine_stop it then Ret (set_engine_force_stop true e, w, ls) else
    '(go, w, ls) <- capture_iteration p l start_time frame_interval it e w ls ;;
    if go then capture_loop p l start_time frame_interval its' e w ls
    else Ret (e, w, ls)
  end.

(** The label [cleanup] (lines 485-509). *)
Definition start_cleanup (p : capture_params_t) (l : start_locals)
    (e : capture_engine_t) (w : world) : run (Z * option capture_engine_t * world) :=
  let e := set_is_running false e in
  w <- (if negb (audio_only_mode p)
        then w_screen_cleanup (w_screen_stop_capture w) else Ret w) ;;
  w <- (if use_microphone l && (microphone_result l =? 0)
        then w <- w_microphone_stop_capture w ;; w_microphone_cleanup w else Ret w) ;;
  w <- (if use_system l && (system_result l =? 0)
        then w <- w_system_stop_capture w ;; w_system_cleanup w else Ret w) ;;
  Ret (-1, Some e, w_encoder_cleanup w).

(** Lines 292-483: from the start of the recording to the return. *)
Definition record (p : capture_params_t) (os : engine_os) (l : start_locals)
    (e : capture_engine_t) (w : world) : run (Z * option capture_engine_t * world) :=
  let start_time := os_start_tick os in
  let w := set_encoder (encoder_set_recording_start_time start_time (encoder w)) w in
  let e := set_is_running true e in
  w <- status e (RecordingStarted (output_filename p) (audio_available l)) w ;;
  frame_interval <- (if fps p =? 0 then Crash else Ret (u32 (Z.quot 1000 (fps p)))) ;;
  let ls := {| next_frame_time := start_time; frame_count := 0;
               failed_frame_attempts := 0; consecutive_audio_failures := 0;
               next_emergency_check := u32 (start_time + 1000);
               loop_iterations := 0; slept := [] |} in
  '(e, w, ls) <- capture_loop p l start_time frame_interval (os_iterations os) e w ls ;;
  let e := set_stats
             (set_recording_duration_ms (u32 (os_end_tick os - start_time))
                (set_failed_frames (failed_frame_attempts ls)
                   (set_total_frames (frame_count ls) (stats e)))) e in
  w <- say e "Stopping capture..." w ;;
  let w := if negb (audio_only_mode p) then w_screen_stop_capture w else w in
  w <- (if audio_available l then
          w <- (if use_microphone l && (microphone_result l =? 0)
                then w_microphone_stop_capture w else Ret w) ;;
          (if use_system l && (system_result l =? 0)
           then w_system_stop_capture w else Ret w)
        else Ret w) ;;
  w <- say e "Finalizing recording..." w ;;
  '(_, w) <- w_encoder_finalize (os_finalize os) w ;;
  w <- status e
         (if audio_only_mode p
          then AudioRecordingCompleted (u32 (os_report_tick os - start_time))
          else RecordingCompleted (frame_count ls) (u32 (os_report_tick os - start_time)))
         w ;;
  Ret (0, Some (set_is_running false e), w).

Definition engine_start (audio_build : bool) (engine : option capture_engine_t)
    (params : option capture_params_t) (os : engine_os) (w : world)
  : run (Z * option capture_engine_t * world) :=
  match engine, params with
  | Some e, Some p =>
    if is_running e then Ret (-1, engine, w) else
    let e := set_params p e in
    let e := set_engine_force_stop false e in
    let e := set_stats zero_stats e in
    w <- say e "Initializing capture..." w ;;
    let '(screen_result, w) :=
      if negb (audio_only_mode p) then w_screen_init (os_screen_init os) w else (0, w) in
    if negb (screen_result =? 0) then
      w <- say e "Error: Failed to initialize screen capture" w ;;
      Ret (-1, Some e, w)
    else
    let l := declare_locals audio_build p in
    if negb audio_build && audio_only_mode p then
      w <- say e "Error: Audio-only mode not supported in MVP build" w ;;
      Ret (-1, Some e, w)
    else
    r <- init_audio_sources p os l e w ;;
    match r with
    | inr (l, e, w) => start_cleanup p l e w
    | inl (l, e, w) =>
      r <- test_audio p os l e w ;;
      match r with
      | inr (l, e, w) => start_cleanup p l e w
      | inl (l, e, w) =>
        '(encoder_result, w) <- init_encoder p os l e w ;;
        if negb (encoder_result =? 0) then
          w <- say e "Error: Failed to initialize encoder" w ;;
          start_cleanup p l e w
        else
        let '(started, w) :=
          if negb (audio_only_mode p) then w_screen_start_capture w else (0, w) in
        if negb (started =? 0) then
          w <- say e "Error: Failed to start screen capture" w ;;
          start_cleanup p l e w
        else
        '(l, e, w) <- restart_audio p os l e w ;;
        record p os l e w
      end
    end
  | _, _ => Ret (-1, engine, w)
  end.

(** ** engine.c: engine_stop and engine_cleanup *)

(** [stopped] says whether the recording thread left [engine_start]
    (which clears [is_running]) within the twenty waits of 50 ms. *)
Definition engine_stop (engine : option capture_engine_t) (stopped : bool) (w : world)
  : run (Z * option capture_engine_t * world) :=
  match engine with
  | None => Ret (-1, None, w)
  | Some e =>
    if negb (is_running e) then Ret (-1, Some e, w) else
    let e := set_engine_force_stop true e in
    w <- say e "Stopping and encoding, please wait..." w ;;
    if stopped then Ret (0, Some (set_is_running false e), w)
    else
      w <- say e "EMERGENCY: Force stopping unresponsive engine" w ;;
      Ret (0, Some (set_is_running false e), w)
  end.

(** [memset(engine, 0, sizeof(capture_engine_t))]. *)
Definition zero_engine : capture_engine_t :=
  {| params := zero_params; stats := zero_stats; status_callback := None;
     progress_callback := None; is_running := false; engine_force_stop := false |}.

Definition engine_cleanup (engine : option capture_engine_t) (stopped : bool) (w : world)
  : run (option capture_engine_t * world) :=
  match engine with
  | None => Ret (None, w)
  | Some e =>
    w <- (if is_running e
          then '(_, _, w) <- engine_stop (Some e) stopped w ;; Ret w
          else Ret w) ;;
    w <- w_screen_cleanup w ;;
    w <- w_microphone_cleanup w ;;
    w <- w_system_cleanup w ;;
    let w := w_encoder_cleanup w in
    let w := set_screen_ctx zero_screen_capture w in
    let w := set_microphone_ctx zero_audio_context w in
    let w := set_system_ctx zero_audio_context w in
    let w := set_encoder_ctx zero_encoder_context w in
    Ret (Some zero_engine, w)
  end.

(** ** Vocabulary of the statements *)

(** A call of one of the ingestion entry points of the muxer, with the
    answers of the OS during the call. *)
Inductive mux_call : Type :=
| AddVideoFrame (frame_data : option (list byte)) (frame_size elapsed_ms : Z)
                (os : sample_os)
| AddAudioFrame (audio_data : option (list byte)) (num_frames elapsed_ms : Z)
                (os : sample_os)
| AddSystemAudioFrame (audio_data : option (list byte)) (num_frames elapsed_ms : Z)
                      (os : sample_os)
| AddMicAudioFrame (audio_data : option (list byte)) (num_frames elapsed_ms : Z)
                   (os : sample_os)
| SetRecordingStartTime (start_time : Z).

Definition mux_step (context : option encoder_context_t) (c : mux_call)
    (g : encoder_globals) : run (Z * encoder_globals) :=
  match c with
  | AddVideoFrame d s t os => encoder_add_video_frame context d s t os g
  | AddAudioFrame d n t os => Ret (encoder_add_audio_frame context d n t os g)
  | AddSystemAudioFrame d n t os => Ret (encoder_add_system_audio_frame context d n t os g)
  | AddMicAudioFrame d n t os => Ret (encoder_add_mic_audio_frame context d n t os g)
  | SetRecordingStartTime t => Ret (0, encoder_set_recording_start_time t g)
  end.

Definition sink_log (g : encoder_globals) : list sink_event :=
  match g_sink_writer g with
  | Some sw => sw_events sw
  | None => []
  end.

(** What the sink writer accepted between the states [g] and [g']. *)
Definition accepted_between (g g' : encoder_globals) : list sink_event :=
  skipn (length (sink_log g)) (sink_log g').

Definition is_video_call (c : mux_call) : bool :=
  match c with AddVideoFrame _ _ _ _ => true | _ => false end.

Definition is_system_call (c : mux_call) : bool :=
  match c with AddSystemAudioFrame _ _ _ _ => true | _ => false end.

Definition is_mic_call (c : mux_call) : bool :=
  match c with AddMicAudioFrame _ _ _ _ => true | _ => false end.

(** The muxer state after a sequence of calls. *)
Fixpoint mux_run (context : option encoder_context_t) (calls : list mux_call)
    (g : encoder_globals) : run encoder_globals :=
  match calls with
  | [] => Ret g
  | c :: rest => '(_, g') <- mux_step context c g ;; mux_run context rest g'
  end.

(** The buffers that the calls selected by [pick] submitted to the sink
    writer (the calls that returned 0), in order. *)
Fixpoint submissions (pick : mux_call -> bool) (context : option encoder_context_t)
    (calls : list mux_call) (g : encoder_globals) : list sink_event :=
  match calls with
  | [] => []
  | c :: rest =>
    match mux_step context c g with
    | Ret (r, g') =>
      (if pick c && (r =? 0) then accepted_between g g' else [])
      ++ submissions pick context rest g'
    | _ => []
    end
  end.


(** [g] and [c] right after one of the two dual-track init functions has
    declared both audio tracks with source rate [rate]. *)
Definition dual_track_recording (rate : Z) (c : encoder_context_t) (g : encoder_globals)
  : Prop :=
  exists c0 name width height F channels bits os g0,
    (encoder_init_dual_track (Some c0) (Some name) width height F rate channels bits os g0
       = (0, Some c, g)
     /\ include_audio rate channels bits = true)
    \/ encoder_init_audio_only_dual_track (Some c0) (Some name) rate channels bits os g0
       = (0, Some c, g).

(** The sample rate declared on the output media type of a stream. *)
Definition output_sample_rate (g : encoder_globals) (stream : Z) : option Z :=
  match g_sink_writer g with
  | Some sw =>
    match nth_error (sw_streams sw) (Z.to_nat stream) with
    | Some (AudioAAC rate _ _ _) => Some rate
    | _ => None
    end
  | None => None
  end.

(** A call of one of the entry points of an audio source, with the
    answers of the OS during the call. *)
Inductive source_call : Type :=
| SourceInit (os : audio_init_os)
| SourceStartCapture (start_ok : bool)
| SourceGetBuffer (data : audio_ptr) (num_frames : Z) (os : get_buffer_os)
| SourceReleaseBuffer (num_frames : Z)
| SourceStopCapture
| SourceCleanup.

(** One call on the loopback source: its context and the function-static
    variables of [system_get_buffer] before and after. *)
Definition system_step (call : source_call) (s : system_context_t * system_statics)
  : run (system_context_t * system_statics) :=
  let '(c, st) := s in
  match call with
  | SourceInit os => Ret (with_ctx c (snd (system_init (Some c) os)), st)
  | SourceStartCapture ok =>
    '(_, c') <- system_start_capture (Some c) ok ;; Ret (with_ctx c c', st)
  | SourceGetBuffer d n os =>
    '(_, _, _, c', st') <- system_get_buffer (Some c) d n os st ;;
    Ret (with_ctx c c', st')
  | SourceReleaseBuffer n => _ <- system_release_buffer (Some c) n ;; Ret (c, st)
  | SourceStopCapture => c' <- system_stop_capture (Some c) ;; Ret (with_ctx c c', st)
  | SourceCleanup => c' <- system_cleanup (Some c) ;; Ret (with_ctx c c', st)
  end.

Definition microphone_step (call : source_call)
    (s : microphone_context_t * microphone_statics)
  : run (microphone_context_t * microphone_statics) :=
  let '(c, st) := s in
  match call with
  | SourceInit os => Ret (with_ctx c (snd (microphone_init (Some c) os)), st)
  | SourceStartCapture ok =>
    '(_, c') <- microphone_start_capture (Some c) ok ;; Ret (with_ctx c c', st)
  | SourceGetBuffer d n os =>
    '(_, _, _, c', st') <- microphone_get_buffer (Some c) d n os st ;;
    Ret (with_ctx c c', st')
  | SourceReleaseBuffer n => _ <- microphone_release_buffer (Some c) n ;; Ret (c, st)
  | SourceStopCapture => c' <- microphone_stop_capture (Some c) ;; Ret (with_ctx c c', st)
  | SourceCleanup => c' <- microphone_cleanup (Some c) ;; Ret (with_ctx c c', st)
  end.

(** A sequence of calls on one source. *)
Fixpoint run_calls {S : Type} (step : source_call -> S -> run S)
    (calls : list source_call) (s : S) : run S :=
  match calls with
  | [] => Ret s
  | call :: rest => s' <- step call s ;; run_calls step rest s'
  end.

(** The five muxer variants of the specification, and the one that the
    specification's rule picks from (video?, audio available?,
    dual-track?). *)
Inductive muxer_variant : Type :=
| VideoWithCombinedAudio   (** variants 1 and 2: [encoder_init] *)
| VideoWithTwoAudioTracks  (** variant 3: [encoder_init_dual_track] *)
| AudioOnlyOneTrack        (** variant 4: [encoder_init_audio_only] *)
| AudioOnlyTwoTracks.      (** variant 5: [encoder_init_audio_only_dual_track] *)

Definition selected_variant (p : capture_params_t) (l : start_locals) : muxer_variant :=
  match audio_only_mode p, use_dual_track l && audio_available l with
  | true, true => AudioOnlyTwoTracks
  | true, false => AudioOnlyOneTrack
  | false, true => VideoWithTwoAudioTracks
  | false, false => VideoWithCombinedAudio
  end.

(** The number of audio tracks declared on the sink writer. *)
Definition audio_tracks (g : encoder_globals) : list media_type :=
  match g_sink_writer g with
  | Some sw => filter (fun mt => match mt with AudioAAC _ _ _ _ => true | _ => false end)
                      (sw_streams sw)
  | None => []
  end.

(** ** C strings *)

Import Ascii.AsciiSyntax.
Delimit Scope char_scope with char.

(** A C string is modelled by the [string] of its characters before the
    terminating NUL, which is not stored: a [char] array of [n] elements
    holds the strings of at most [n - 1] characters.  Text written to
    stdout or stderr is not part of the state. *)

Definition MAX_PATH : Z := 260.

Definition strlen (s : string) : Z := Z.of_nat (String.length s).

Definition char_code (c : Ascii.ascii) : Z := Z.of_N (Ascii.N_of_ascii c).

(** The string at [s + n]. *)
Fixpoint str_from (n : nat) (s : string) : string :=
  match n, s with
  | O, _ => s
  | S n', String.String _ s' => str_from n' s'
  | S _, String.EmptyString => String.EmptyString
  end.

(** The string [s] after [s[n] = '\0']. *)
Fixpoint str_upto (n : nat) (s : string) : string :=
  match n, s with
  | O, _ => String.EmptyString
  | S n', String.String c s' => String.String c (str_upto n' s')
  | S _, String.EmptyString => String.EmptyString
  end.

(** [strrchr(s, c)] for a character other than NUL: the offset of the last
    [c] in [s], [None] for a NULL result. *)
Fixpoint strrchr (s : string) (c : Ascii.ascii) : option nat :=
  match s with
  | String.EmptyString => None
  | String.String a s' =>
    match strrchr s' c with
    | Some i => Some (S i)
    | None => if Ascii.eqb a c then Some O else None
    end
  end.

(** [tolower] in the C locale. *)
Definition tolower (c : Ascii.ascii) : Ascii.ascii :=
  if (65 <=? char_code c) && (char_code c <=? 90)
  then Ascii.ascii_of_N (Ascii.N_of_ascii c + 32)
  else c.

(** [_stricmp(a, b)]: the sign of the first difference between the two
    strings in lower case. *)
Fixpoint _stricmp (a b : string) : Z :=
  match a, b with
  | String.EmptyString, String.EmptyString => 0
  | String.EmptyString, String.String _ _ => -1
  | String.String _ _, String.EmptyString => 1
  | String.String x a', String.String y b' =>
    if char_code (tolower x) <? char_code (tolower y) then -1
    else if char_code (tolower y) <? char_code (tolower x) then 1
    else _stricmp a' b'
  end.

(** [strcmp(a, b) == 0]. *)
Definition streq (a b : string) : bool := String.eqb a b.

(** [strcat(dst, src)] where [dst] is an array of [capacity] chars; the
    behaviour is undefined when the result and its NUL do not fit. *)
Definition strcat (capacity : Z) (dst src : string) : run string :=
  if strlen dst + strlen src <? capacity then Ret (String.append dst src) else Crash.

(** [strncpy(dst, src, n); dst[n] = '\0';] leaves in [dst]. *)
Definition strncpy (src : string) (n : Z) : string := str_upto (Z.to_nat n) src.

(** ** params.c *)

Definition set_output_filename (v : string) (p : capture_params_t) : capture_params_t :=
  {| output_filename := v; fps := fps p; duration := duration p;
     audio_sources := audio_sources p; force_stop := force_stop p;
     enable_video := enable_video p; enable_system_audio :=
     enable_system_audio p; enable_microphone := enable_microphone p;
     audio_only_mode := audio_only_mode p; monitor_index := monitor_index p;
     cursor_enabled := cursor_enabled p; region_enabled := region_enabled p;
     region_x := region_x p; region_y := region_y p; region_w := region_w p;
     region_h := region_h p |}.
Definition set_fps (v : Z) (p : capture_params_t) : capture_params_t :=
  {| output_filename := output_filename p; fps := v; duration := duration p;
     audio_sources := audio_sources p; force_stop := force_stop p;
     enable_video := enable_video p; enable_system_audio :=
     enable_system_audio p; enable_microphone := enable_microphone p;
     audio_only_mode := audio_only_mode p; monitor_index := monitor_index p;
     cursor_enabled := cursor_enabled p; region_enabled := region_enabled p;
     region_x := region_x p; region_y := region_y p; region_w := region_w p;
     region_h := region_h p |}.
Definition set_duration (v : Z) (p : capture_params_t) : capture_params_t :=
  {| output_filename := output_filename p; fps := fps p; duration := v;
     audio_sources := audio_sources p; force_stop := force_stop p;
     enable_video := enable_video p; enable_system_audio :=
     enable_system_audio p; enable_microphone := enable_microphone p;
     audio_only_mode := audio_only_mode p; monitor_index := monitor_index p;
     cursor_enabled := cursor_enabled p; region_enabled := region_enabled p;
     region_x := region_x p; region_y := region_y p; region_w := region_w p;
     region_h := region_h p |}.
Definition set_audio_sources (v : audio_source_type_t) (p : capture_params_t) : capture_params_t :=
  {| output_filename := output_filename p; fps := fps p; duration :=
     duration p; audio_sources := v; force_stop := force_stop p;
     enable_video := enable_video p; enable_system_audio :=
     enable_system_audio p; enable_microphone := enable_microphone p;
     audio_only_mode := audio_only_mode p; monitor_index := monitor_index p;
     cursor_enabled := cursor_enabled p; region_enabled := region_enabled p;
     region_x := region_x p; region_y := region_y p; region_w := region_w p;
     region_h := region_h p |}.
Definition set_force_stop (v : bool) (p : capture_params_t) : capture_params_t :=
  {| output_filename := output_filename p; fps := fps p; duration :=
     duration p; audio_sources := audio_sources p; force_stop := v;
     enable_video := enable_video p; enable_system_audio :=
     enable_system_audio p; enable_microphone := enable_microphone p;
     audio_only_mode := audio_only_mode p; monitor_index := monitor_index p;
     cursor_enabled := cursor_enabled p; region_enabled := region_enabled p;
     region_x := region_x p; region_y := region_y p; region_w := region_w p;
     region_h := region_h p |}.
Definition set_enable_video (v : bool) (p : capture_params_t) : capture_params_t :=
  {| output_filename := output_filename p; fps := fps p; duration :=
     duration p; audio_sources := audio_sources p; force_stop := force_stop
     p; enable_video := v; enable_system_audio := enable_system_audio p;
     enable_microphone := enable_microphone p; audio_only_mode :=
     audio_only_mode p; monitor_index := monitor_index p; cursor_enabled :=
     cursor_enabled p; region_enabled := region_enabled p; region_x :=
     region_x p; region_y := region_y p; region_w := region_w p; region_h :=
     region_h p |}.
Definition set_enable_system_audio (v : bool) (p : capture_params_t) : capture_params_t :=
  {| output_filename := output_filename p; fps := fps p; duration :=
     duration p; audio_sources := audio_sources p; force_stop := force_stop
     p; enable_video := enable_video p; enable_system_audio := v;
     enable_microphone := enable_microphone p; audio_only_mode :=
     audio_only_mode p; monitor_index := monitor_index p; cursor_enabled :=
     cursor_enabled p; region_enabled := region_enabled p; region_x :=
     region_x p; region_y := region_y p; region_w := region_w p; region_h :=
     region_h p |}.
Definition set_enable_microphone (v : bool) (p : capture_params_t) : capture_params_t :=
  {| output_filename := output_filename p; fps := fps p; duration :=
     duration p; audio_sources := audio_sources p; force_stop := force_stop
     p; enable_video := enable_video p; enable_system_audio :=
     enable_system_audio p; enable_microphone := v; audio_only_mode :=
     audio_only_mode p; monitor_index := monitor_index p; cursor_enabled :=
     cursor_enabled p; region_enabled := region_enabled p; region_x :=
     region_x p; region_y := region_y p; region_w := region_w p; region_h :=
     region_h p |}.
Definition set_audio_only_mode (v : bool) (p : capture_params_t) : capture_params_t :=
  {| output_filename := output_filename p; fps := fps p; duration :=
     duration p; audio_sources := audio_sources p; force_stop := force_stop
     p; enable_video := enable_video p; enable_system_audio :=
     enable_system_audio p; enable_microphone := enable_microphone p;
     audio_only_mode := v; monitor_index := monitor_index p; cursor_enabled
     := cursor_enabled p; region_enabled := region_enabled p; region_x :=
     region_x p; region_y := region_y p; region_w := region_w p; region_h :=
     region_h p |}.
Definition set_monitor_index (v : Z) (p : capture_params_t) : capture_params_t :=
  {| output_filename := output_filename p; fps := fps p; duration :=
     duration p; audio_sources := audio_sources p; force_stop := force_stop
     p; enable_video := enable_video p; enable_system_audio :=
     enable_system_audio p; enable_microphone := enable_microphone p;
     audio_only_mode := audio_only_mode p; monitor_index := v;
     cursor_enabled := cursor_enabled p; region_enabled := region_enabled p;
     region_x := region_x p; region_y := region_y p; region_w := region_w p;
     region_h := region_h p |}.
Definition set_cursor_enabled (v : bool) (p : capture_params_t) : capture_params_t :=
  {| output_filename := output_filename p; fps := fps p; duration :=
     duration p; audio_sources := audio_sources p; force_stop := force_stop
     p; enable_video := enable_video p; enable_system_audio :=
     enable_system_audio p; enable_microphone := enable_microphone p;
     audio_only_mode := audio_only_mode p; monitor_index := monitor_index p;
     cursor_enabled := v; region_enabled := region_enabled p; region_x :=
     region_x p; region_y := region_y p; region_w := region_w p; region_h :=
     region_h p |}.
Definition set_region_enabled (v : bool) (p : capture_params_t) : capture_params_t :=
  {| output_filename := output_filename p; fps := fps p; duration :=
     duration p; audio_sources := audio_sources p; force_stop := force_stop
     p; enable_video := enable_video p; enable_system_audio :=
     enable_system_audio p; enable_microphone := enable_microphone p;
     audio_only_mode := audio_only_mode p; monitor_index := monitor_index p;
     cursor_enabled := cursor_enabled p; region_enabled := v; region_x :=
     region_x p; region_y := region_y p; region_w := region_w p; region_h :=
     region_h p |}.
Definition set_region_x (v : Z) (p : capture_params_t) : capture_params_t :=
  {| output_filename := output_filename p; fps := fps p; duration :=
     duration p; audio_sources := audio_sources p; force_stop := force_stop
     p; enable_video := enable_video p; enable_system_audio :=
     enable_system_audio p; enable_microphone := enable_microphone p;
     audio_only_mode := audio_only_mode p; monitor_index := monitor_index p;
     cursor_enabled := cursor_enabled p; region_enabled := region_enabled p;
     region_x := v; region_y := region_y p; region_w := region_w p; region_h
     := region_h p |}.
Definition set_region_y (v : Z) (p : capture_params_t) : capture_params_t :=
  {| output_filename := output_filename p; fps := fps p; duration :=
     duration p; audio_sources := audio_sources p; force_stop := force_stop
     p; enable_video := enable_video p; enable_system_audio :=
     enable_system_audio p; enable_microphone := enable_microphone p;
     audio_only_mode := audio_only_mode p; monitor_index := monitor_index p;
     cursor_enabled := cursor_enabled p; region_enabled := region_enabled p;
     region_x := region_x p; region_y := v; region_w := region_w p; region_h
     := region_h p |}.
Definition set_region_w (v : Z) (p : capture_params_t) : capture_params_t :=
  {| output_filename := output_filename p; fps := fps p; duration :=
     duration p; audio_sources := audio_sources p; force_stop := force_stop
     p; enable_video := enable_video p; enable_system_audio :=
     enable_system_audio p; enable_microphone := enable_microphone p;
     audio_only_mode := audio_only_mode p; monitor_index := monitor_index p;
     cursor_enabled := cursor_enabled p; region_enabled := region_enabled p;
     region_x := region_x p; region_y := region_y p; region_w := v; region_h
     := region_h p |}.
Definition set_region_h (v : Z) (p : capture_params_t) : capture_params_t :=
  {| output_filename := output_filename p; fps := fps p; duration :=
     duration p; audio_sources := audio_sources p; force_stop := force_stop
     p; enable_video := enable_video p; enable_system_audio :=
     enable_system_audio p; enable_microphone := enable_microphone p;
     audio_only_mode := audio_only_mode p; monitor_index := monitor_index p;
     cursor_enabled := cursor_enabled p; region_enabled := region_enabled p;
     region_x := region_x p; region_y := region_y p; region_w := region_w p;
     region_h := v |}.

Definition params_init_defaults (params : option capture_params_t)
  : option capture_params_t :=
  match params with
  | None => None
  | Some _ =>
    Some {| output_filename := "capture.mp4"; fps := 30; duration := 0;
            audio_sources := AUDIO_SOURCE_NONE; force_stop := false;
            enable_video := false; enable_system_audio := false;
            enable_microphone := false; audio_only_mode := false;
            monitor_index := 0; cursor_enabled := true; region_enabled := false;
            region_x := 0; region_y := 0; region_w := 0; region_h := 0 |}
  end.

(** The test [!ext || _stricmp(ext, target_ext) != 0]. *)
Definition extension_differs (name : string) : bool :=
  match strrchr name "."%char with
  | None => true
  | Some i => negb (_stricmp (str_from i name) ".mp4" =? 0)
  end.

Definition params_adjust_filename_extension (params : option capture_params_t)
  : run (option capture_params_t) :=
  match params with
  | None => Ret None
  | Some p =>
    let name := output_filename p in
    if extension_differs name then
      let name := match strrchr name "."%char with
                  | Some i => str_upto i name
                  | None => name
                  end in
      name <- strcat MAX_PATH name ".mp4" ;;
      Ret (Some (set_output_filename name p))
    else Ret (Some p)
  end.

(** [audio_build] says whether MUXSW_ENABLE_AUDIO is defined. *)
Definition params_validate_and_finalize (audio_build : bool)
    (params : option capture_params_t) : run (Z * option capture_params_t) :=
  match params with
  | None => Ret (-1, None)
  | Some p =>
    let p := if (fps p <=? 0) || (120 <? fps p) then set_fps 30 p else p in
    let p :=
      if negb (enable_video p) && negb (enable_system_audio p)
         && negb (enable_microphone p)
      then
        if audio_build
        then set_enable_microphone true
               (set_enable_system_audio true (set_enable_video true p))
        else set_enable_microphone false
               (set_enable_system_audio false (set_enable_video true p))
      else p in
    let p :=
      if audio_build then p
      else set_enable_microphone false (set_enable_system_audio false p) in
    let p := set_audio_sources AUDIO_SOURCE_NONE p in
    let p :=
      if enable_system_audio p && enable_microphone p
      then set_audio_sources AUDIO_SOURCE_BOTH p
      else if enable_system_audio p then set_audio_sources AUDIO_SOURCE_SYSTEM p
      else if enable_microphone p then set_audio_sources AUDIO_SOURCE_MICROPHONE p
      else p in
    let p :=
      set_audio_only_mode
        (negb (enable_video p) && (enable_system_audio p || enable_microphone p)) p in
    p <- params_adjust_filename_extension (Some p) ;;
    Ret (0, p)
  end.

Definition params_set_recording_mode (audio_build : bool)
    (params : option capture_params_t) (enable_video enable_system enable_mic : bool)
  : run (Z * option capture_params_t) :=
  match params with
  | None => Ret (-1, None)
  | Some p =>
    if negb enable_video && negb enable_system && negb enable_mic
    then Ret (-1, Some p)
    else
      let p := set_enable_video enable_video p in
      let p := set_enable_system_audio enable_system p in
      let p := set_enable_microphone enable_mic p in
      params_validate_and_finalize audio_build (Some p)
  end.

(** ** The C library: atoi *)

Definition INT_MAX : Z := 2147483647.
Definition INT_MIN : Z := -2147483648.

Definition isspace (c : Ascii.ascii) : bool :=
  (char_code c =? 32) || ((9 <=? char_code c) && (char_code c <=? 13)).

Definition isdigit (c : Ascii.ascii) : bool :=
  (48 <=? char_code c) && (char_code c <=? 57).

Fixpoint skip_spaces (s : string) : string :=
  match s with
  | String.String c s' => if isspace c then skip_spaces s' else s
  | String.EmptyString => s
  end.

(** The value of the leading decimal digits of [s], after [acc]. *)
Fixpoint digits_value (s : string) (acc : Z) : Z :=
  match s with
  | String.String c s' =>
    if isdigit c then digits_value s' (acc * 10 + (char_code c - 48)) else acc
  | String.EmptyString => acc
  end.

(** [atoi(s)]: white space, an optional sign, decimal digits; 0 when no
    digit follows.  A value outside [int] saturates, which is what the C
    runtime of the target platform documents (ISO C leaves that case
    undefined). *)
Definition atoi (s : string) : Z :=
  let clamp v := Z.max INT_MIN (Z.min INT_MAX v) in
  match skip_spaces s with
  | String.String "-"%char s' => clamp (- digits_value s' 0)
  | String.String "+"%char s' => clamp (digits_value s' 0)
  | s' => clamp (digits_value s' 0)
  end.

(** ** arguments.c *)

(** The [for] loop of [arguments_parse] over the arguments that are left;
    [inl] is a [return] from inside the loop, with the parameters as they
    are at that point, [inr] the end of the loop. *)
Fixpoint parse_options (audio_build : bool) (args : list string)
    (p : capture_params_t) : Z * capture_params_t + capture_params_t :=
  match args with
  | [] => inr p
  | arg :: rest =>
    if streq arg "-h" || streq arg "--help" then inl (1, p)
    else if streq arg "-o" || streq arg "--out" then
      match rest with
      | value :: rest =>
        parse_options audio_build rest
          (set_output_filename (strncpy value (MAX_PATH - 1)) p)
      | [] => inl (-1, p)
      end
    else if streq arg "-t" || streq arg "--time" then
      match rest with
      | value :: rest =>
        let p := set_duration (atoi value) p in
        if duration p <=? 0 then inl (-1, p)
        else parse_options audio_build rest p
      | [] => inl (-1, p)
      end
    else if streq arg "-v" || streq arg "--video" then
      parse_options audio_build rest (set_enable_video true p)
    else if streq arg "-s" || streq arg "--system" then
      parse_options audio_build rest
        (if audio_build then set_enable_system_audio true p else p)
    else if streq arg "-m" || streq arg "--microphone" then
      parse_options audio_build rest
        (if audio_build then set_enable_microphone true p else p)
    else if streq arg "--fps" then
      match rest with
      | value :: rest =>
        let p := set_fps (atoi value) p in
        if (fps p <=? 0) || (120 <? fps p) then inl (-1, p)
        else parse_options audio_build rest p
      | [] => inl (-1, p)
      end
    else if streq arg "--monitor" then
      match rest with
      | value :: rest =>
        let p := set_monitor_index (atoi value) p in
        if monitor_index p <? 0 then inl (-1, p)
        else parse_options audio_build rest p
      | [] => inl (-1, p)
      end
    else if streq arg "--cursor" then
      match rest with
      | cursor_opt :: rest =>
        if streq cursor_opt "on"
        then parse_options audio_build rest (set_cursor_enabled true p)
        else if streq cursor_opt "off"
        then parse_options audio_build rest (set_cursor_enabled false p)
        else inl (-1, p)
      | [] => inl (-1, p)
      end
    else if streq arg "--region" then
      match rest with
      | x :: y :: w :: h :: rest =>
        let p := set_region_x (atoi x) p in
        let p := set_region_y (atoi y) p in
        let p := set_region_w (atoi w) p in
        let p := set_region_h (atoi h) p in
        if (region_w p <=? 0) || (region_h p <=? 0) then inl (-1, p)
        else parse_options audio_build rest (set_region_enabled true p)
      | _ => inl (-1, p)
      end
    else inl (-1, p)
  end.

(** [argv] holds the [argc] strings of the command line, program name
    first. *)
Definition arguments_parse (audio_build : bool) (argv : list string)
    (params : option capture_params_t) : run (Z * option capture_params_t) :=
  match params_init_defaults params with
  | None => Ret (-1, None)
  | Some p =>
    match parse_options audio_build (tl argv) p with
    | inl (r, p) => Ret (r, Some p)
    | inr p =>
      let p :=
        if negb (enable_video p) && negb (enable_system_audio p)
           && negb (enable_microphone p)
        then
          if audio_build
          then set_enable_microphone true
                 (set_enable_system_audio true (set_enable_video true p))
          else set_enable_microphone false
                 (set_enable_system_audio false (set_enable_video true p))
        else p in
      let video_enabled := enable_video p in
      let system_enabled := enable_system_audio p in
      let mic_enabled := enable_microphone p in
      '(r, p1) <- params_set_recording_mode audio_build (Some p) video_enabled
                    system_enabled mic_enabled ;;
      if negb (r =? 0) then Ret (-1, p1) else
      '(r, p2) <- params_validate_and_finalize audio_build p1 ;;
      if negb (r =? 0) then Ret (-1, p2) else
      Ret (0, p2)
    end
  end.

(** ** The C library: printf conversions *)

Definition digit_char (d : Z) : Ascii.ascii := Ascii.ascii_of_N (Z.to_N (48 + d)).

(** The decimal digits of [n >= 0] in front of [acc]; [fuel] bounds the
    number of digits, and ten are enough for an [int]. *)
Fixpoint decimal (fuel : nat) (n : Z) (acc : string) : string :=
  match fuel with
  | O => acc
  | S fuel' =>
    let acc := String.String (digit_char (n mod 10)) acc in
    if n <? 10 then acc else decimal fuel' (n / 10) acc
  end.

(** What [printf("%02d", n)] writes. *)
Definition format_02d (n : Z) : string :=
  if n <? 0 then String.String "-"%char (decimal 10 (- n) String.EmptyString)
  else if n <? 10 then String.String "0"%char (decimal 10 n String.EmptyString)
  else decimal 10 n String.EmptyString.

(** [snprintf(buffer, buffer_size, ...)] where the conversions produce
    [text]: what [buffer] holds afterwards. *)
Definition snprintf (buffer : string) (buffer_size : Z) (text : string) : string :=
  if buffer_size =? 0 then buffer else str_upto (Z.to_nat (buffer_size - 1)) text.

(** ** filename.c *)

(** The fields of [struct tm] that the program reads. *)
Record tm : Type := {
  tm_sec : Z;
  tm_min : Z;
  tm_hour : Z;
  tm_mday : Z;
  tm_mon : Z;
  tm_year : Z }.

(** [timeinfo] is what [localtime_s] stored for the current time. *)
Definition filename_generate_timestamp (buffer : string) (buffer_size : Z)
    (timeinfo : tm) : string :=
  snprintf buffer buffer_size
    (String.append (format_02d (Z.rem (tm_year timeinfo) 100))
    (String.append (format_02d (tm_mon timeinfo + 1))
    (String.append (format_02d (tm_mday timeinfo))
    (String.append (format_02d (tm_hour timeinfo))
    (String.append (format_02d (tm_min timeinfo))
    (String.append (format_02d (tm_sec timeinfo)) ".mp4")))))).

(** ** record.h, record.c *)

(** The texts that [record_start] stores in [error_message]; the one built
    with snprintf keeps its two arguments. *)
Inductive result_message : Type :=
| NoMessage               (** the buffer after the memset *)
| InvalidParameters
| FailedToInitializeCOM
| RecordingCompletedIn (frames ms : Z)
| RecordingFailedDuringCapture.

Record recording_result_t : Type := {
  success : Z;
  error_message : result_message;
  result_stats : capture_stats_t }.

(** [memset(result, 0, sizeof(recording_result_t))]. *)
Definition zero_result : recording_result_t :=
  {| success := 0; error_message := NoMessage; result_stats := zero_stats |}.

(** The HRESULT of a [CoInitializeEx]. *)
Inductive com_hresult : Type :=
| CoSucceeded           (** S_OK or S_FALSE *)
| RPC_E_CHANGED_MODE
| CoFailed.

Record record_os : Type := {
  (** does [CoInitializeEx(NULL, COINIT_APARTMENTTHREADED)] succeed *)
  co_apartment_ok : bool;
  (** the result of the call with COINIT_MULTITHREADED that follows a
      failure *)
  co_multithreaded : com_hresult;
  rec_engine : engine_os }.

(** The calls of [record_start] that change the COM initialization count
    of the thread. *)
Inductive com_call : Type :=
| CoInitialized      (** a [CoInitializeEx] that succeeded *)
| CoUninitialize.

Definition record_start (audio_build : bool) (engine : option capture_engine_t)
    (params : option capture_params_t) (result : option recording_result_t)
    (os : record_os) (w : world)
  : run (Z * option capture_engine_t * option recording_result_t * world
         * list com_call) :=
  match engine, params, result with
  | Some _, Some _, Some _ =>
    let result := zero_result in
    let '(com_initialized_here, hr) :=
      if co_apartment_ok os then (true, CoSucceeded)
      else
        match co_multithreaded os with
        | CoSucceeded => (true, CoSucceeded)
        | hr => (false, hr)
        end in
    if negb com_initialized_here
       && negb match hr with RPC_E_CHANGED_MODE => true | _ => false end
    then
      Ret (-1, engine,
           Some {| success := 0; error_message := FailedToInitializeCOM;
                   result_stats := result_stats result |}, w, [])
    else
      let should_cleanup_com := com_initialized_here in
      let com := if com_initialized_here then [CoInitialized] else [] in
      '(capture_result, engine, w) <-
        engine_start audio_build engine params (rec_engine os) w ;;
      let result :=
        match engine_get_stats engine with
        | Some stats => {| success := success result;
                           error_message := error_message result;
                           result_stats := stats |}
        | None => result
        end in
      let result :=
        if capture_result =? 0 then
          {| success := 1;
             error_message :=
               RecordingCompletedIn (total_frames (result_stats result))
                                    (recording_duration_ms (result_stats result));
             result_stats := result_stats result |}
        else
          {| success := success result;
             error_message := RecordingFailedDuringCapture;
             result_stats := result_stats result |} in
      let com := if should_cleanup_com then (com ++ [CoUninitialize])%list else com in
      Ret (capture_result, engine, Some result, w, com)
  | _, _, _ =>
    Ret (-1, engine,
         match result with
         | Some r => Some {| success := 0; error_message := InvalidParameters;
                             result_stats := result_stats r |}
         | None => None
         end, w, [])
  end.

(** [stopped] is the answer for the [engine_stop] that [engine_cleanup]
    may call. *)
Definition record_cleanup (engine : option capture_engine_t) (stopped : bool)
    (w : world) : run (option capture_engine_t * world) :=
  match engine with
  | Some _ => engine_cleanup engine stopped w
  | None => Ret (None, w)
  end.

(** ** signals.c: the state that the main thread sets *)

(** [g_signal_engine] is NULL or the address of the engine of main.c.  The
    handlers and the timeout thread run beside the recording; what they do
    to it, a call of [engine_stop], is the answer [it_engine_stop] of an
    iteration. *)
Record signals_state : Type := {
  g_signal_engine : bool;
  g_shutdown_requested : bool }.

Definition signals_init (s : signals_state) : signals_state :=
  {| g_signal_engine := true; g_shutdown_requested := false |}.

Definition signals_shutdown_requested (s : signals_state) : bool :=
  g_shutdown_requested s.

Definition signals_cleanup (s : signals_state) : signals_state :=
  {| g_signal_engine := false; g_shutdown_requested := false |}.

(** ** main.c *)

Record main_os : Type := {
  main_record : record_os;
  (** the answer for the [engine_stop] inside [engine_cleanup] *)
  main_stopped : bool }.

(** [g_engine] is the static engine of main.c, [s] the statics of
    signals.c; the result carries the exit code.  The locals [params] and
    [result] start with indeterminate contents, which [arguments_parse]
    and [record_start] overwrite before they read them. *)
Definition main (audio_build : bool) (argv : list string) (os : main_os)
    (g_engine : capture_engine_t) (s : signals_state) (w : world)
  : run (Z * capture_engine_t * signals_state * world * list com_call) :=
  '(parse_result, params) <- arguments_parse audio_build argv (Some zero_params) ;;
  if negb (parse_result =? 0)
  then Ret (if parse_result =? 1 then 0 else 1, g_engine, s, w, [])
  else
    let s := signals_init s in
    let '(r, engine) := engine_init (Some g_engine) in
    if negb (r =? 0)
    then Ret (1, with_ctx g_engine engine, signals_cleanup s, w, [])
    else
      let engine := engine_set_status_callback engine (Some console_status_callback) in
      let engine :=
        engine_set_progress_callback engine (Some console_progress_callback) in
      '(recording_success, engine, result, w, com) <-
        record_start audio_build engine params (Some zero_result) (main_record os) w ;;
      let succeeded :=
        (recording_success =? 0)
        && match result with
           | Some r => negb (success r =? 0)
           | None => false
           end in
      '(engine, w) <- engine_cleanup engine (main_stopped os) w ;;
      Ret (if succeeded then 0 else 1, with_ctx g_engine engine, signals_cleanup s,
           w, com).

(** * Part II: properties *)

(** ** Machine arithmetic *)

Lemma u32_small x : 0 <= x < 2 ^ 32 -> u32 x = x.
Proof. intros H. unfold u32. apply Z.mod_small. exact H. Qed.

Lemma u64_small x : 0 <= x < 2 ^ 64 -> u64 x = x.
Proof. intros H. unfold u64. apply Z.mod_small. exact H. Qed.

Lemma u32_range x : 0 <= u32 x < 2 ^ 32.
Proof. unfold u32. apply Z.mod_pos_bound. lia. Qed.




(** ** Proof automation *)

Ltac break_if :=
  match goal with
  | |- context [if ?b then _ else _] => destruct b eqn:?
  end.

Ltac break_if_in H :=
  match type of H with
  | context [if ?b then _ else _] => destruct b eqn:?
  end.

Ltac break_match :=
  match goal with
  | |- context [match ?x with _ => _ end] => destruct x eqn:?
  end.

Ltac inv H := inversion H; subst; clear H.

(** ** The muxer: what the init functions establish *)


(** ** The muxer: one call *)

Lemma accepted_between_one g sw ev g' :
  g_sink_writer g = Some sw ->
  sink_log g' = sw_events sw ++ [ev] ->
  accepted_between g g' = [ev].
Proof.
  intros Hsw Hlog. unfold accepted_between. rewrite Hlog.
  unfold sink_log. rewrite Hsw.
  rewrite skipn_app, skipn_all, Nat.sub_diag. reflexivity.
Qed.



(** ** The video sample clock over a whole recording *)

Section VideoClock.

Variable F : Z.
Variable c : encoder_context_t.
Hypothesis F_positive : 1 <= F.
Hypothesis recording : ec_is_recording c = true.



End VideoClock.



(** A recording at 30 fps: the muxer right after [encoder_init] with every
    OS call succeeding, and three frames of a 2x2 screen. *)
Definition always {C : Type} : C -> bool := fun _ => true.

Definition demo_frame : list byte := repeat Byte.x01 16.

Definition demo_video_context : encoder_context_t :=
  set_ec_is_recording true (init_encoder_context "capture.mp4" 0 0 0 false).

Definition demo_video_globals : encoder_globals :=
  snd (encoder_init (Some zero_encoder_context) (Some "capture.mp4") 2 2 30 0 0 0
         always initial_encoder_globals).

Definition demo_video_calls : list mux_call :=
  [AddVideoFrame (Some demo_frame) 16 0 always;
   AddVideoFrame (Some demo_frame) 16 40 always;
   AddVideoFrame (Some demo_frame) 16 65 always].



(** ** The audio sample clocks of the dual-track variants *)

(** A video + two-track recording of a 48 kHz stereo float source, every
    OS call succeeding, and two 10 ms buffers on the system track. *)
Definition demo_dual_context : encoder_context_t :=
  set_ec_is_recording true (init_encoder_context "capture.mp4" 48000 2 32 true).

Definition demo_dual_globals : encoder_globals :=
  snd (encoder_init_dual_track (Some zero_encoder_context) (Some "capture.mp4")
         2 2 30 48000 2 32 always initial_encoder_globals).

Definition demo_packet : list byte := repeat Byte.x00 3840.

Definition demo_system_calls : list mux_call :=
  [AddSystemAudioFrame (Some demo_packet) 480 0 always;
   AddSystemAudioFrame (Some demo_packet) 480 10 always].

Definition demo_mic_calls : list mux_call :=
  [AddMicAudioFrame (Some demo_packet) 480 0 always;
   AddMicAudioFrame (Some demo_packet) 480 10 always].

Lemma demo_dual_track_recording :
  dual_track_recording 48000 demo_dual_context demo_dual_globals.
Proof.
  exists zero_encoder_context, "capture.mp4", 2, 2, 30, 2, 32, always,
    initial_encoder_globals.
  left. split; reflexivity.
Qed.

(** [encoder_add_system_audio_frame] stamps with the constant 44100,
    whatever rate the init function stored or declared. *)
Lemma system_audio_stamp c data n ms os g sw :
  ec_is_recording c = true -> g_dual_track_mode g = true ->
  g_sink_writer g = Some sw -> (forall call, os call = true) ->
  encoder_add_system_audio_frame (Some c) (Some data) n ms os g =
  (0, write_sample (g_system_audio_stream_index g)
        {| sample_time := s64 (u64 (g_system_audio_sample_count g * 10000000) / 44100);
           sample_duration := s64 (n * 10000000 / 44100);
           sample_bytes := copy_payload data (audio_buffer_length c n) |} sw
        (set_g_system_audio_sample_count (u64 (g_system_audio_sample_count g + n)) g)).
Proof.
  intros Hrec Hdual Hsw Hos. unfold encoder_add_system_audio_frame.
  rewrite Hsw, Hrec, Hdual. unfold sample_buffer_ready, FAILED.
  rewrite !Hos. reflexivity.
Qed.

Lemma mic_audio_stamp c data n ms os g sw :
  ec_is_recording c = true -> g_dual_track_mode g = true ->
  g_sink_writer g = Some sw -> (forall call, os call = true) ->
  encoder_add_mic_audio_frame (Some c) (Some data) n ms os g =
  (0, write_sample (g_mic_audio_stream_index g)
        {| sample_time := s64 (u64 (g_mic_audio_sample_count g * 10000000) / 44100);
           sample_duration := s64 (n * 10000000 / 44100);
           sample_bytes := copy_payload data (audio_buffer_length c n) |} sw
        (set_g_mic_audio_sample_count (u64 (g_mic_audio_sample_count g + n)) g)).
Proof.
  intros Hrec Hdual Hsw Hos. unfold encoder_add_mic_audio_frame.
  rewrite Hsw, Hrec, Hdual. unfold sample_buffer_ready, FAILED.
  rewrite !Hos. reflexivity.
Qed.

(** C2.  The code at a 48 kHz dual-track recording: both audio tracks
    declare 48000 on their output media type, yet the second 480-frame
    buffer of either track is stamped 480 * 10_000_000 / 44100 = 108843
    ticks with duration 108843, where the claim requires
    480 * 10_000_000 / 48000 = 100000 for both. *)
Theorem C2_dual_track_stamps_at_48000 :
  dual_track_recording 48000 demo_dual_context demo_dual_globals
  /\ output_sample_rate demo_dual_globals
       (g_system_audio_stream_index demo_dual_globals) = Some 48000
  /\ output_sample_rate demo_dual_globals
       (g_mic_audio_stream_index demo_dual_globals) = Some 48000
  /\ nth_error (submissions is_system_call (Some demo_dual_context)
                  demo_system_calls demo_dual_globals) 1
     = Some (WriteSample 1 {| sample_time := 108843; sample_duration := 108843;
                              sample_bytes := demo_packet |})
  /\ nth_error (submissions is_mic_call (Some demo_dual_context)
                  demo_mic_calls demo_dual_globals) 1
     = Some (WriteSample 2 {| sample_time := 108843; sample_duration := 108843;
                              sample_bytes := demo_packet |})
  /\ 480 * 10000000 / 48000 = 100000.
Proof.
  split; [exact demo_dual_track_recording|].
  repeat apply conj; vm_compute; reflexivity.
Qed.

(** ** End-of-stream ticks *)

Definition finalize_succeeds : finalize_os :=
  {| flush_ok := true; tick_ok := fun _ => true; finalize_hr := 0 |}.

Definition ticks (log : list sink_event) : list (Z * Z) :=
  flat_map (fun e => match e with
                     | SendStreamTick stream t => [(stream, t)]
                     | _ => []
                     end) log.

(** The end-of-stream ticks (stream, timestamp) that a finalization with
    every OS call succeeding sends after the calls [calls]. *)
Definition finalized_ticks (context : encoder_context_t) (calls : list mux_call)
    (g : encoder_globals) : run (list (Z * Z)) :=
  g' <- mux_run (Some context) calls g ;;
  '(_, _, g'') <- encoder_finalize (Some context) finalize_succeeds g' ;;
  Ret (ticks (sink_log g'')).

(** Nothing assigns [g_last_video_timestamp] except the reset to zero in
    [encoder_cleanup]: the ingestion calls keep it. *)
Lemma mux_step_keeps_last_video_timestamp context call g r g' :
  mux_step context call g = Ret (r, g') ->
  g_last_video_timestamp g' = g_last_video_timestamp g.
Proof.
  intros H. destruct call; cbn [mux_step] in H.
  - unfold encoder_add_video_frame, c_div in H.
    destruct context; [|inv H; auto].
    destruct frame_data; [|inv H; auto].
    destruct (g_sink_writer g); [|inv H; auto].
    repeat (break_if_in H; cbn [bind] in H); inv H; reflexivity.
  - unfold encoder_add_audio_frame in H.
    destruct context; [|inv H; auto].
    destruct audio_data; [|inv H; auto].
    destruct (g_sink_writer g); [|inv H; auto].
    repeat break_if_in H; inv H; reflexivity.
  - unfold encoder_add_system_audio_frame in H.
    destruct context; [|inv H; auto].
    destruct audio_data; [|inv H; auto].
    destruct (g_sink_writer g); [|inv H; auto].
    repeat break_if_in H; inv H; reflexivity.
  - unfold encoder_add_mic_audio_frame in H.
    destruct context; [|inv H; auto].
    destruct audio_data; [|inv H; auto].
    destruct (g_sink_writer g); [|inv H; auto].
    repeat break_if_in H; inv H; reflexivity.
  - inv H. reflexivity.
Qed.

(** C4.  The code at two recordings that end normally.  After three video
    frames at 30 fps the clock of the video stream stands at
    3 * 10_000_000 / 30 = 1000000, and the end-of-stream tick of the video
    stream carries 0.  After two 480-frame buffers on the system track of a
    48 kHz dual-track recording the submissions were stamped at 44100 Hz
    (0 and 108843, the clock stands at 960 * 10_000_000 / 44100 = 217687),
    and the tick carries 960 * 10_000_000 / 48000 = 200000. *)
Theorem C4_end_of_stream_ticks :
  (mux_run (Some demo_video_context) demo_video_calls demo_video_globals
     = Ret (set_g_video_frame_count 3
              (set_g_sink_writer
                 (Some {| sw_streams := [video_type_out 2 2 30];
                          sw_events :=
                            BeginWriting ::
                            map (fun k =>
                                   WriteSample 0
                                     {| sample_time := k; sample_duration := 333333;
                                        sample_bytes := demo_frame |})
                                [0; 333333; 666666] |})
                 demo_video_globals))
   /\ finalized_ticks demo_video_context demo_video_calls demo_video_globals
      = Ret [(0, 0)]
   /\ 3 * 10000000 / 30 = 1000000)
  /\ (finalized_ticks demo_dual_context demo_system_calls demo_dual_globals
      = Ret [(1, 200000)]
      /\ 960 * 10000000 / 44100 = 217687).
Proof.
  repeat apply conj; vm_compute; reflexivity.
Qed.

(** ** Silence synthesis *)

Lemma firstn_memset_zero l n :
  firstn (Z.to_nat n) (memset_zero l n) = repeat Byte.x00 (Z.to_nat n).
Proof.
  unfold memset_zero. rewrite firstn_app, repeat_length, Nat.sub_diag.
  rewrite firstn_O, app_nil_r. apply firstn_all2. rewrite repeat_length. lia.
Qed.

(** A context that is capturing, with mix format [wf]. *)
Definition capturing (c : audio_context_t) (wf : WAVEFORMATEX) : Prop :=
  capture_client c = LiveHandle /\ is_capturing c = true
  /\ wave_format c = (LiveHandle, wf).

(** The first [k] bytes of the static buffer are zero. *)
Definition zero_prefix (k : Z) (buf : option (list byte)) : Prop :=
  match buf with
  | Some l => firstn (Z.to_nat k) l = repeat Byte.x00 (Z.to_nat k)
  | None => k = 0
  end.

(** No earlier [malloc] failure left the size without its buffer. *)
Definition buffer_consistent (buf : option (list byte)) (size : Z) : Prop :=
  match buf with
  | Some _ => True
  | None => size = 0
  end.

(** What the specification says of one call that finds no packet.
    [start], [total], [buf], [synth] are the start time, the generated
    total, the silence buffer and the synthesized mark before the call;
    the primed ones and [ptr], [frames] are those after it. *)
Definition silence_step (rate align now start total : Z) (buf : option (list byte))
    (synth : bool) (ptr : audio_ptr) (frames start' total' : Z)
    (buf' : option (list byte)) (synth' : bool) : Prop :=
  let latched := if start =? 0 then now else start in
  let generated := if start =? 0 then 0 else total in
  let expected := rate * u32 (now - latched) / 1000 in
  start' = latched
  /\ if expected <=? generated
     then ptr = NullData /\ frames = 0 /\ total' = generated
          /\ buf' = buf /\ synth' = synth
     else let n := Z.min (expected - generated) (rate * 50 / 1000) in
          ptr = SilentBuffer /\ frames = n /\ total' = generated + n
          /\ zero_prefix (u32 (n * align)) buf' /\ synth' = true.

Section Silence.

Variable c : audio_context_t.
Variable wf : WAVEFORMATEX.
Variable os : get_buffer_os.
Hypothesis c_capturing : capturing c wf.
Hypothesis no_packet : next_packet_size os = Some 0.
Hypothesis malloc_succeeds : malloc_ok os = true.
Hypothesis rate_range : 0 <= nSamplesPerSec wf /\ nSamplesPerSec wf * 50 < 2 ^ 32.

Lemma expected_range start :
  0 <= u64 (nSamplesPerSec wf * u32 (tick_count os - start)) / 1000 < 2 ^ 64
  /\ u64 (nSamplesPerSec wf * u32 (tick_count os - start))
     = nSamplesPerSec wf * u32 (tick_count os - start).
Proof.
  pose proof (u32_range (tick_count os - start)) as He.
  assert (Hp : 0 <= nSamplesPerSec wf * u32 (tick_count os - start) < 2 ^ 64) by nia.
  rewrite u64_small by exact Hp. split; [|reflexivity].
  split; [apply Z.div_pos; lia|].
  apply Z.div_lt_upper_bound; lia.
Qed.

Lemma system_silence data nf st :
  0 <= sy_total_generated_samples st < 2 ^ 64 ->
  buffer_consistent (sy_silent_buffer st) (sy_silent_buffer_size st) ->
  exists ptr frames c' st',
    system_get_buffer (Some c) data nf os st = Ret (0, ptr, frames, Some c', st')
    /\ silence_step (nSamplesPerSec wf) (nBlockAlign wf) (tick_count os)
         (sy_recording_start_time st) (sy_total_generated_samples st)
         (sy_silent_buffer st) (using_silent_buffer c)
         ptr frames (sy_recording_start_time st') (sy_total_generated_samples st')
         (sy_silent_buffer st') (using_silent_buffer c')
    /\ buffer_consistent (sy_silent_buffer st') (sy_silent_buffer_size st')
    /\ capturing c' wf.
Proof.
  intros Htotal Hbuf. destruct c_capturing as (Hcc & Hcap & Hwf).
  unfold system_get_buffer, read_wave_format, silence_step.
  rewrite Hcc, Hcap, no_packet, Hwf. cbn [non_null negb orb use_handle bind fst snd Z.eqb].
  set (start := if sy_recording_start_time st =? 0 then tick_count os
                else sy_recording_start_time st).
  set (total := if sy_recording_start_time st =? 0 then 0
                else sy_total_generated_samples st).
  destruct (expected_range start) as (Hexp & Heq). rewrite Heq in *.
  set (expected := nSamplesPerSec wf * u32 (tick_count os - start) / 1000) in *.
  assert (Ht : 0 <= total < 2 ^ 64) by (subst total; break_if; lia).
  destruct (Z.leb_spec expected total) as [Hle | Hlt].
  - eexists _, _, _, _. split; [reflexivity|]. cbn.
    repeat split; auto.
  - assert (Hchunk : 0 <= nSamplesPerSec wf * 50 / 1000 < 2 ^ 32).
    { split; [apply Z.div_pos; lia|]. apply Z.div_lt_upper_bound; lia. }
    rewrite (u32_small (nSamplesPerSec wf * 50)) by lia.
    rewrite (u64_small (expected - total)) by lia.
    set (n := Z.min (expected - total) (nSamplesPerSec wf * 50 / 1000)).
    assert (Hn : (if nSamplesPerSec wf * 50 / 1000 <? expected - total
                  then nSamplesPerSec wf * 50 / 1000 else expected - total) = n).
    { subst n. destruct (Z.ltb_spec (nSamplesPerSec wf * 50 / 1000) (expected - total));
        lia. }
    rewrite Hn. assert (Hn32 : u32 n = n) by (apply u32_small; lia).
    rewrite Hn32. unfold grow_silent_buffer. rewrite malloc_succeeds.
    destruct (Z.ltb_spec (sy_silent_buffer_size st) (u32 (n * nBlockAlign wf))).
    + cbn [fill_silent_buffer bind]. eexists _, _, _, _. split; [reflexivity|].
      cbn. repeat split; auto.
      * apply u64_small. lia.
      * apply firstn_memset_zero.
    + destruct (sy_silent_buffer st) as [l|] eqn:Hl.
      * cbn [fill_silent_buffer bind]. eexists _, _, _, _. split; [reflexivity|].
        cbn. repeat split; auto.
        -- apply u64_small. lia.
        -- apply firstn_memset_zero.
      * cbn in Hbuf. pose proof (u32_range (n * nBlockAlign wf)).
        assert (Hz : u32 (n * nBlockAlign wf) = 0) by lia.
        rewrite Hz. cbn [fill_silent_buffer Z.eqb bind].
        eexists _, _, _, _. split; [reflexivity|].
        cbn. repeat split; auto.
        apply u64_small. lia.
Qed.

Lemma microphone_silence data nf st :
  0 <= mc_total_generated_samples st < 2 ^ 64 ->
  buffer_consistent (mc_silent_buffer st) (mc_silent_buffer_size st) ->
  exists ptr frames c' st',
    microphone_get_buffer (Some c) data nf os st = Ret (0, ptr, frames, Some c', st')
    /\ silence_step (nSamplesPerSec wf) (nBlockAlign wf) (tick_count os)
         (mc_recording_start_time st) (mc_total_generated_samples st)
         (mc_silent_buffer st) (using_silent_buffer c)
         ptr frames (mc_recording_start_time st') (mc_total_generated_samples st')
         (mc_silent_buffer st') (using_silent_buffer c')
    /\ buffer_consistent (mc_silent_buffer st') (mc_silent_buffer_size st')
    /\ capturing c' wf.
Proof.
  intros Htotal Hbuf. destruct c_capturing as (Hcc & Hcap & Hwf).
  unfold microphone_get_buffer, read_wave_format, silence_step.
  rewrite Hcc, Hcap, no_packet, Hwf. cbn [non_null negb orb use_handle bind fst snd Z.eqb].
  set (start := if mc_recording_start_time st =? 0 then tick_count os
                else mc_recording_start_time st).
  set (total := if mc_recording_start_time st =? 0 then 0
                else mc_total_generated_samples st).
  destruct (expected_range start) as (Hexp & Heq). rewrite Heq in *.
  set (expected := nSamplesPerSec wf * u32 (tick_count os - start) / 1000) in *.
  assert (Ht : 0 <= total < 2 ^ 64) by (subst total; break_if; lia).
  destruct (Z.leb_spec expected total) as [Hle | Hlt].
  - eexists _, _, _, _. split; [reflexivity|]. cbn.
    repeat split; auto.
  - assert (Hchunk : 0 <= nSamplesPerSec wf * 50 / 1000 < 2 ^ 32).
    { split; [apply Z.div_pos; lia|]. apply Z.div_lt_upper_bound; lia. }
    rewrite (u32_small (nSamplesPerSec wf * 50)) by lia.
    rewrite (u64_small (expected - total)) by lia.
    set (n := Z.min (expected - total) (nSamplesPerSec wf * 50 / 1000)).
    assert (Hn : (if nSamplesPerSec wf * 50 / 1000 <? expected - total
                  then nSamplesPerSec wf * 50 / 1000 else expected - total) = n).
    { subst n. destruct (Z.ltb_spec (nSamplesPerSec wf * 50 / 1000) (expected - total));
        lia. }
    rewrite Hn. assert (Hn32 : u32 n = n) by (apply u32_small; lia).
    rewrite Hn32. unfold grow_silent_buffer. rewrite malloc_succeeds.
    destruct (Z.ltb_spec (mc_silent_buffer_size st) (u32 (n * nBlockAlign wf))).
    + cbn [fill_silent_buffer bind]. eexists _, _, _, _. split; [reflexivity|].
      cbn. repeat split; auto.
      * apply u64_small. lia.
      * apply firstn_memset_zero.
    + destruct (mc_silent_buffer st) as [l|] eqn:Hl.
      * cbn [fill_silent_buffer bind]. eexists _, _, _, _. split; [reflexivity|].
        cbn. repeat split; auto.
        -- apply u64_small. lia.
        -- apply firstn_memset_zero.
      * cbn in Hbuf. pose proof (u32_range (n * nBlockAlign wf)).
        assert (Hz : u32 (n * nBlockAlign wf) = 0) by lia.
        rewrite Hz. cbn [fill_silent_buffer Z.eqb bind].
        eexists _, _, _, _. split; [reflexivity|].
        cbn. repeat split; auto.
        apply u64_small. lia.
Qed.

End Silence.

Lemma release_of_synthesized c n :
  using_silent_buffer c = true -> audio_release_buffer (Some c) n = Ret [].
Proof.
  intros H. unfold audio_release_buffer. rewrite H.
  destruct (non_null (capture_client c)); reflexivity.
Qed.

(** C5.  For the system source and for the microphone source, on a call
    that finds a zero-size next packet (the source capturing, the static
    buffer growable): the start time is latched and the generated total
    zeroed when no start time is recorded yet (the first such call);
    expected = sample_rate * (now - start_time) / 1000 with the DWORD
    difference; the call returns 0 with no buffer and no advance when
    total_generated_samples >= expected, and otherwise returns
    min(expected - total_generated_samples, sample_rate * 50 / 1000) frames
    at the static silence buffer, whose bytes for these frames are zero,
    adds that count to total_generated_samples and sets
    using_silent_buffer, so that release_buffer makes no call into the
    audio client. *)
Theorem C5_silence_synthesis :
  forall (c : audio_context_t) (wf : WAVEFORMATEX) (os : get_buffer_os)
         (data : audio_ptr) (nf : Z),
    capturing c wf ->
    next_packet_size os = Some 0 ->
    malloc_ok os = true ->
    0 <= nSamplesPerSec wf /\ nSamplesPerSec wf * 50 < 2 ^ 32 ->
    (forall st : system_statics,
        0 <= sy_total_generated_samples st < 2 ^ 64 ->
        buffer_consistent (sy_silent_buffer st) (sy_silent_buffer_size st) ->
        exists ptr frames c' st',
          system_get_buffer (Some c) data nf os st = Ret (0, ptr, frames, Some c', st')
          /\ silence_step (nSamplesPerSec wf) (nBlockAlign wf) (tick_count os)
               (sy_recording_start_time st) (sy_total_generated_samples st)
               (sy_silent_buffer st) (using_silent_buffer c)
               ptr frames (sy_recording_start_time st')
               (sy_total_generated_samples st') (sy_silent_buffer st')
               (using_silent_buffer c')
          /\ (ptr = SilentBuffer -> system_release_buffer (Some c') frames = Ret []))
    /\ (forall st : microphone_statics,
          0 <= mc_total_generated_samples st < 2 ^ 64 ->
          buffer_consistent (mc_silent_buffer st) (mc_silent_buffer_size st) ->
          exists ptr frames c' st',
            microphone_get_buffer (Some c) data nf os st
              = Ret (0, ptr, frames, Some c', st')
            /\ silence_step (nSamplesPerSec wf) (nBlockAlign wf) (tick_count os)
                 (mc_recording_start_time st) (mc_total_generated_samples st)
                 (mc_silent_buffer st) (using_silent_buffer c)
                 ptr frames (mc_recording_start_time st')
                 (mc_total_generated_samples st') (mc_silent_buffer st')
                 (using_silent_buffer c')
            /\ (ptr = SilentBuffer
                -> microphone_release_buffer (Some c') frames = Ret [])).
Proof.
  intros c wf os data nf Hc Hp Hm Hr. split; intros st Ht Hb.
  - destruct (system_silence c wf os Hc Hp Hm Hr data nf st Ht Hb)
      as (ptr & frames & c' & st' & Hcall & Hstep & _ & _).
    exists ptr, frames, c', st'. split; [exact Hcall|]. split; [exact Hstep|].
    intros Hptr. apply release_of_synthesized.
    destruct Hstep as (_ & Hstep). cbv zeta in Hstep. break_if_in Hstep.
    + destruct Hstep as (Hnull & _). congruence.
    + apply Hstep.
  - destruct (microphone_silence c wf os Hc Hp Hm Hr data nf st Ht Hb)
      as (ptr & frames & c' & st' & Hcall & Hstep & _ & _).
    exists ptr, frames, c', st'. split; [exact Hcall|]. split; [exact Hstep|].
    intros Hptr. apply release_of_synthesized.
    destruct Hstep as (_ & Hstep). cbv zeta in Hstep. break_if_in Hstep.
    + destruct Hstep as (Hnull & _). congruence.
    + apply Hstep.
Qed.

(** A loopback source capturing 48 kHz stereo float, 100 ms after the
    start time was latched at tick 1000. *)
Definition demo_wave_format : WAVEFORMATEX :=
  {| nChannels := 2; nSamplesPerSec := 48000; nBlockAlign := 8; wBitsPerSample := 32 |}.

Definition demo_audio_context : audio_context_t :=
  {| enumerator := LiveHandle; device := LiveHandle; audio_client := LiveHandle;
     capture_client := LiveHandle; wave_format := (LiveHandle, demo_wave_format);
     buffer_frame_count := 2400; is_capturing := true; using_silent_buffer := false |}.

Definition demo_idle_os (now : Z) : get_buffer_os :=
  {| next_packet_size := Some 0; tick_count := now; malloc_ok := true;
     next_packet := None |}.

Definition demo_system_statics : system_statics :=
  {| sy_silent_buffer := None; sy_silent_buffer_size := 0; sy_silent_call_count := 1;
     sy_recording_start_time := 1000; sy_total_generated_samples := 0;
     sy_last_silent_generation := 1000 |}.

Lemma C5_silence_synthesis_witness :
  exists ptr frames c' st',
    system_get_buffer (Some demo_audio_context) NullData 0 (demo_idle_os 1100)
                      demo_system_statics
      = Ret (0, ptr, frames, Some c', st')
    /\ silence_step 48000 8 1100 1000 0 None false
         ptr frames (sy_recording_start_time st') (sy_total_generated_samples st')
         (sy_silent_buffer st') (using_silent_buffer c')
    /\ (ptr = SilentBuffer -> system_release_buffer (Some c') frames = Ret []).
Proof.
  refine (proj1 (C5_silence_synthesis demo_audio_context demo_wave_format
                   (demo_idle_os 1100) NullData 0 _ _ _ _) demo_system_statics _ _).
  - repeat split.
  - reflexivity.
  - reflexivity.
  - simpl. lia.
  - simpl. lia.
  - exact (eq_refl 0).
Defined.

(** ** The silence clock outlives a recording *)

Ltac break_in H :=
  match type of H with
  | context [if ?b then _ else _] => destruct b eqn:?
  | context [match ?x with _ => _ end] => destruct x eqn:?
  end.

(** Only the latch writes the start time, and only while it is zero. *)
Lemma system_get_buffer_keeps_start t0 ctx d n os st r p f c' st' :
  sy_recording_start_time st = t0 -> t0 <> 0 ->
  system_get_buffer ctx d n os st = Ret (r, p, f, c', st') ->
  sy_recording_start_time st' = t0.
Proof.
  intros Hs Ht H.
  unfold system_get_buffer, get_packet, read_wave_format, fill_silent_buffer,
    use_handle, bind in H.
  apply Z.eqb_neq in Ht. rewrite <- Hs in Ht. rewrite Ht in H.
  repeat (break_in H; try discriminate); inv H; reflexivity.
Qed.

Lemma microphone_get_buffer_keeps_start t0 ctx d n os st r p f c' st' :
  mc_recording_start_time st = t0 -> t0 <> 0 ->
  microphone_get_buffer ctx d n os st = Ret (r, p, f, c', st') ->
  mc_recording_start_time st' = t0.
Proof.
  intros Hs Ht H.
  unfold microphone_get_buffer, get_packet, read_wave_format, fill_silent_buffer,
    use_handle, bind in H.
  apply Z.eqb_neq in Ht. rewrite <- Hs in Ht. rewrite Ht in H.
  repeat (break_in H; try discriminate); inv H; reflexivity.
Qed.

Lemma system_run_keeps_start t0 calls : forall c st c1 st1,
  sy_recording_start_time st = t0 -> t0 <> 0 ->
  run_calls system_step calls (c, st) = Ret (c1, st1) ->
  sy_recording_start_time st1 = t0.
Proof.
  induction calls as [|call calls IH]; intros c st c1 st1 Hs Ht H.
  - inv H. reflexivity.
  - cbn [run_calls] in H.
    destruct (system_step call (c, st)) as [[c' st']| |] eqn:Hstep; try discriminate.
    cbn [bind] in H. apply (IH c' st' c1 st1); [|exact Ht|exact H].
    destruct call; cbn [system_step] in Hstep.
    + inv Hstep. reflexivity.
    + destruct (system_start_capture (Some c) start_ok) as [[? ?]| |];
        try discriminate. inv Hstep. reflexivity.
    + destruct (system_get_buffer (Some c) data num_frames os st)
        as [[[[[r p] f] c2] st2]| |] eqn:Hget; try discriminate.
      inv Hstep. eapply system_get_buffer_keeps_start; eauto.
    + destruct (system_release_buffer (Some c) num_frames); try discriminate.
      inv Hstep. reflexivity.
    + destruct (system_stop_capture (Some c)); try discriminate.
      inv Hstep. reflexivity.
    + destruct (system_cleanup (Some c)); try discriminate.
      inv Hstep. reflexivity.
Qed.

Lemma microphone_run_keeps_start t0 calls : forall c st c1 st1,
  mc_recording_start_time st = t0 -> t0 <> 0 ->
  run_calls microphone_step calls (c, st) = Ret (c1, st1) ->
  mc_recording_start_time st1 = t0.
Proof.
  induction calls as [|call calls IH]; intros c st c1 st1 Hs Ht H.
  - inv H. reflexivity.
  - cbn [run_calls] in H.
    destruct (microphone_step call (c, st)) as [[c' st']| |] eqn:Hstep;
      try discriminate.
    cbn [bind] in H. apply (IH c' st' c1 st1); [|exact Ht|exact H].
    destruct call; cbn [microphone_step] in Hstep.
    + inv Hstep. reflexivity.
    + destruct (microphone_start_capture (Some c) start_ok) as [[? ?]| |];
        try discriminate. inv Hstep. reflexivity.
    + destruct (microphone_get_buffer (Some c) data num_frames os st)
        as [[[[[r p] f] c2] st2]| |] eqn:Hget; try discriminate.
      inv Hstep. eapply microphone_get_buffer_keeps_start; eauto.
    + destruct (microphone_release_buffer (Some c) num_frames); try discriminate.
      inv Hstep. reflexivity.
    + destruct (microphone_stop_capture (Some c)); try discriminate.
      inv Hstep. reflexivity.
    + destruct (microphone_cleanup (Some c)); try discriminate.
      inv Hstep. reflexivity.
Qed.

(** The first call of the process that finds no packet, at tick [t0]. *)
Lemma system_first_idle_call c wf os d n :
  capturing c wf -> next_packet_size os = Some 0 ->
  exists st',
    system_get_buffer (Some c) d n os initial_system_statics
      = Ret (0, NullData, 0, Some c, st')
    /\ sy_recording_start_time st' = tick_count os
    /\ sy_total_generated_samples st' = 0.
Proof.
  intros (Hcc & Hcap & Hwf) Hp.
  unfold system_get_buffer, read_wave_format.
  rewrite Hcc, Hcap, Hp, Hwf.
  cbn [non_null negb orb use_handle bind fst snd Z.eqb initial_system_statics
       sy_recording_start_time sy_total_generated_samples].
  rewrite Z.sub_diag. change (u32 0) with 0. rewrite Z.mul_0_r.
  change (u64 0 / 1000 <=? 0) with true. cbv iota.
  eexists. split; [reflexivity|]. split; reflexivity.
Qed.

Lemma microphone_first_idle_call c wf os d n :
  capturing c wf -> next_packet_size os = Some 0 ->
  exists st',
    microphone_get_buffer (Some c) d n os initial_microphone_statics
      = Ret (0, NullData, 0, Some c, st')
    /\ mc_recording_start_time st' = tick_count os
    /\ mc_total_generated_samples st' = 0.
Proof.
  intros (Hcc & Hcap & Hwf) Hp.
  unfold microphone_get_buffer, read_wave_format.
  rewrite Hcc, Hcap, Hp, Hwf.
  cbn [non_null negb orb use_handle bind fst snd Z.eqb initial_microphone_statics
       mc_recording_start_time mc_total_generated_samples].
  rewrite Z.sub_diag. change (u32 0) with 0. rewrite Z.mul_0_r.
  change (u64 0 / 1000 <=? 0) with true. cbv iota.
  eexists. split; [reflexivity|]. split; reflexivity.
Qed.

(** C10.  The start time and the generated total of the silence
    synthesis are function-static: the calls on a source other than
    get_buffer (init, start, release, stop_capture, cleanup) do not have
    them in reach, and get_buffer writes the start time only while it is
    zero.  So when the first call of the process that finds no packet
    latches a tick t0 (other than the zero that marks "not latched"), the
    start time is t0 after every later sequence of calls, a stop, a
    cleanup and the init and start of a later recording included, and a
    later call that finds no packet computes
    expected = sample_rate * (now - t0) / 1000 from it. *)
Theorem C10_silence_clock_survives_recordings :
  forall t0 : Z, t0 <> 0 ->
    ((forall c wf os d n,
         capturing c wf -> next_packet_size os = Some 0 -> tick_count os = t0 ->
         exists st',
           system_get_buffer (Some c) d n os initial_system_statics
             = Ret (0, NullData, 0, Some c, st')
           /\ sy_recording_start_time st' = t0
           /\ sy_total_generated_samples st' = 0)
     /\ forall calls c st c1 st1,
         sy_recording_start_time st = t0 ->
         run_calls system_step calls (c, st) = Ret (c1, st1) ->
         sy_recording_start_time st1 = t0
         /\ forall c2 wf os d n,
             capturing c2 wf -> next_packet_size os = Some 0 -> malloc_ok os = true ->
             0 <= nSamplesPerSec wf /\ nSamplesPerSec wf * 50 < 2 ^ 32 ->
             0 <= sy_total_generated_samples st1 < 2 ^ 64 ->
             buffer_consistent (sy_silent_buffer st1) (sy_silent_buffer_size st1) ->
             exists ptr frames c' st2,
               system_get_buffer (Some c2) d n os st1
                 = Ret (0, ptr, frames, Some c', st2)
               /\ silence_step (nSamplesPerSec wf) (nBlockAlign wf) (tick_count os)
                    t0 (sy_total_generated_samples st1)
                    (sy_silent_buffer st1) (using_silent_buffer c2)
                    ptr frames (sy_recording_start_time st2)
                    (sy_total_generated_samples st2) (sy_silent_buffer st2)
                    (using_silent_buffer c'))
    /\ ((forall c wf os d n,
            capturing c wf -> next_packet_size os = Some 0 -> tick_count os = t0 ->
            exists st',
              microphone_get_buffer (Some c) d n os initial_microphone_statics
                = Ret (0, NullData, 0, Some c, st')
              /\ mc_recording_start_time st' = t0
              /\ mc_total_generated_samples st' = 0)
        /\ forall calls c st c1 st1,
            mc_recording_start_time st = t0 ->
            run_calls microphone_step calls (c, st) = Ret (c1, st1) ->
            mc_recording_start_time st1 = t0
            /\ forall c2 wf os d n,
                capturing c2 wf -> next_packet_size os = Some 0 ->
                malloc_ok os = true ->
                0 <= nSamplesPerSec wf /\ nSamplesPerSec wf * 50 < 2 ^ 32 ->
                0 <= mc_total_generated_samples st1 < 2 ^ 64 ->
                buffer_consistent (mc_silent_buffer st1) (mc_silent_buffer_size st1) ->
                exists ptr frames c' st2,
                  microphone_get_buffer (Some c2) d n os st1
                    = Ret (0, ptr, frames, Some c', st2)
                  /\ silence_step (nSamplesPerSec wf) (nBlockAlign wf) (tick_count os)
                       t0 (mc_total_generated_samples st1)
                       (mc_silent_buffer st1) (using_silent_buffer c2)
                       ptr frames (mc_recording_start_time st2)
                       (mc_total_generated_samples st2) (mc_silent_buffer st2)
                       (using_silent_buffer c')).
Proof.
  intros t0 Ht. split; split.
  - intros c wf os d n Hc Hp Hnow.
    destruct (system_first_idle_call c wf os d n Hc Hp) as (st' & H1 & H2 & H3).
    exists st'. rewrite <- Hnow. auto.
  - intros calls c st c1 st1 Hs Hrun.
    pose proof (system_run_keeps_start t0 calls c st c1 st1 Hs Ht Hrun) as Hkeep.
    split; [exact Hkeep|].
    intros c2 wf os d n Hc Hp Hm Hr Htot Hbuf.
    destruct (system_silence c2 wf os Hc Hp Hm Hr d n st1 Htot Hbuf)
      as (ptr & frames & c' & st2 & Hcall & Hstep & _ & _).
    exists ptr, frames, c', st2. split; [exact Hcall|].
    rewrite Hkeep in Hstep. exact Hstep.
  - intros c wf os d n Hc Hp Hnow.
    destruct (microphone_first_idle_call c wf os d n Hc Hp) as (st' & H1 & H2 & H3).
    exists st'. rewrite <- Hnow. auto.
  - intros calls c st c1 st1 Hs Hrun.
    pose proof (microphone_run_keeps_start t0 calls c st c1 st1 Hs Ht Hrun) as Hkeep.
    split; [exact Hkeep|].
    intros c2 wf os d n Hc Hp Hm Hr Htot Hbuf.
    destruct (microphone_silence c2 wf os Hc Hp Hm Hr d n st1 Htot Hbuf)
      as (ptr & frames & c' & st2 & Hcall & Hstep & _ & _).
    exists ptr, frames, c', st2. split; [exact Hcall|].
    rewrite Hkeep in Hstep. exact Hstep.
Qed.

(** After the first silent call at tick 1000: the recording is stopped and
    cleaned up, a second one is set up a minute later, and its first
    silent call comes at tick 61000. *)
Definition demo_audio_init_os : audio_init_os :=
  {| audio_init_ok := always; mix_format := demo_wave_format; buffer_size := 2400 |}.

Definition demo_source_calls : list source_call :=
  [SourceStopCapture; SourceCleanup; SourceInit demo_audio_init_os;
   SourceStartCapture true; SourceGetBuffer NullData 0 (demo_idle_os 61000)].

Definition demo_final_statics : system_statics :=
  {| sy_silent_buffer := Some (repeat Byte.x00 (Z.to_nat 19200)); sy_silent_buffer_size := 19200;
     sy_silent_call_count := 2; sy_recording_start_time := 1000;
     sy_total_generated_samples := 2400; sy_last_silent_generation := 1000 |}.

Lemma demo_source_run :
  run_calls system_step demo_source_calls (demo_audio_context, demo_system_statics)
  = Ret (set_using_silent_buffer true demo_audio_context, demo_final_statics).
Proof. vm_compute. reflexivity. Qed.

Lemma C10_silence_clock_survives_recordings_witness :
  1000 <> 0
  /\ run_calls system_step demo_source_calls (demo_audio_context, demo_system_statics)
     = Ret (set_using_silent_buffer true demo_audio_context, demo_final_statics)
  /\ sy_recording_start_time demo_final_statics = 1000.
Proof.
  assert (Hne : 1000 <> 0) by lia.
  split; [exact Hne|]. split; [exact demo_source_run|].
  exact (proj1 (proj2 (proj1 (C10_silence_clock_survives_recordings 1000 Hne))
                  demo_source_calls demo_audio_context demo_system_statics
                  _ _ eq_refl demo_source_run)).
Defined.

(** ** The screen source: row order *)

Lemma nth_read_bytes src off n k :
  (k < Z.to_nat n)%nat ->
  nth k (read_bytes src off n) Byte.x00 = src (off + Z.of_nat k).
Proof.
  intros Hk. unfold read_bytes.
  rewrite (nth_indep _ Byte.x00 (src (off + Z.of_nat 0)))
    by (rewrite length_map, length_seq; exact Hk).
  rewrite (map_nth (fun i => src (off + Z.of_nat i))).
  rewrite seq_nth by exact Hk. reflexivity.
Qed.

Lemma length_read_bytes src off n : length (read_bytes src off n) = Z.to_nat n.
Proof. unfold read_bytes. rewrite length_map, length_seq. reflexivity. Qed.

(** A [memcpy] inside the block: the bytes written, and the bytes kept. *)
Lemma memcpy_at_inside dst off data :
  (Z.to_nat off + length data <= length dst)%nat ->
  exists dst',
    memcpy_at dst off data = Ret dst'
    /\ length dst' = length dst
    /\ (forall i, (Z.to_nat off <= i < Z.to_nat off + length data)%nat ->
                  nth i dst' Byte.x00 = nth (i - Z.to_nat off) data Byte.x00)
    /\ (forall i, (i < Z.to_nat off \/ Z.to_nat off + length data <= i)%nat ->
                  nth i dst' Byte.x00 = nth i dst Byte.x00).
Proof.
  intros Hfit. unfold memcpy_at.
  destruct (Nat.leb_spec (Z.to_nat off + length data) (length dst)); [|lia].
  eexists. split; [reflexivity|].
  assert (Hlen : length (firstn (Z.to_nat off) dst) = Z.to_nat off)
    by (rewrite length_firstn; lia).
  split; [|split].
  - rewrite !length_app, Hlen, length_skipn. lia.
  - intros i Hi. rewrite app_nth2 by lia. rewrite Hlen.
    rewrite app_nth1 by lia. reflexivity.
  - intros i [Hi | Hi].
    + rewrite app_nth1 by lia. rewrite nth_firstn.
      destruct (Nat.ltb_spec i (Z.to_nat off)); [reflexivity|lia].
    + rewrite app_nth2 by lia. rewrite app_nth2 by lia.
      rewrite Hlen, nth_skipn. f_equal. lia.
Qed.

Section RowCopy.

Variable width height pitch : Z.
Variable src : Z -> byte.
Variable src_row : Z -> Z.
Hypothesis width_nonneg : 0 <= width.
Hypothesis pitch_nonneg : 0 <= pitch.
Hypothesis frame_fits : width * height * 4 < 2 ^ 32.
Hypothesis surface_fits : height * pitch < 2 ^ 32.
Hypothesis src_row_range : forall y, 0 <= y < height -> 0 <= src_row y < height.

(** The loop from row [y] on keeps the rows above [y] and fills the rest. *)
Lemma copy_rows_fills n : forall y dst,
  0 <= y -> y + Z.of_nat n = height ->
  length dst = Z.to_nat (width * height * 4) ->
  exists dst',
    copy_rows src_row width pitch src n y dst = Ret dst'
    /\ length dst' = length dst
    /\ (forall i, (i < Z.to_nat (y * width * 4))%nat ->
                  nth i dst' Byte.x00 = nth i dst Byte.x00)
    /\ (forall r x, y <= r < height -> 0 <= x < width * 4 ->
                    nth (Z.to_nat (r * width * 4 + x)) dst' Byte.x00
                    = src (src_row r * pitch + x)).
Proof.
  induction n as [|n IH]; intros y dst Hy Hend Hlen.
  - exists dst. split; [reflexivity|]. split; [reflexivity|].
    split; [reflexivity|]. intros r x Hr. lia.
  - cbn [copy_rows].
    assert (Hyh : y < height) by lia.
    pose proof (src_row_range y ltac:(lia)) as Hsr.
    assert (Hoff : u32 (y * width * 4) = y * width * 4) by (apply u32_small; nia).
    assert (Hw4 : u32 (width * 4) = width * 4) by (apply u32_small; nia).
    assert (Hso : u32 (src_row y * pitch) = src_row y * pitch)
      by (apply u32_small; nia).
    rewrite Hoff, Hw4, Hso.
    destruct (memcpy_at_inside dst (y * width * 4)
                (read_bytes src (src_row y * pitch) (width * 4)))
      as (dst1 & Hcopy & Hlen1 & Hnew & Hold).
    { rewrite length_read_bytes, Hlen. nia. }
    rewrite Hcopy. cbn [bind]. rewrite length_read_bytes in Hnew, Hold.
    destruct (IH (y + 1) dst1) as (dst' & Hrun & Hlen' & Hkeep & Hfill);
      [lia | lia | congruence |].
    exists dst'. split; [exact Hrun|]. split; [congruence|]. split.
    + intros i Hi. rewrite Hkeep by nia. apply Hold. left. exact Hi.
    + intros r x Hr Hx. destruct (Z.eq_dec r y) as [-> | Hne].
      * rewrite Hkeep by nia. rewrite Hnew by nia.
        rewrite nth_read_bytes by nia. f_equal. nia.
      * apply Hfill; lia.
Qed.

End RowCopy.

(** The source is initialized and capturing. *)
Definition screen_ready (c : screen_capture_t) : Prop :=
  sc_duplication c = LiveHandle /\ sc_device c = LiveHandle
  /\ sc_context c = LiveHandle /\ sc_is_capturing c = true.

(** The compositor delivers a frame and every step up to the allocation
    of the output buffer succeeds. *)
Definition frame_acquired (os : frame_os) : Prop :=
  acquire os = FrameAcquired /\ query_texture_ok os = true
  /\ create_staging_ok os = true /\ map_ok os = true /\ frame_malloc_ok os = true.

(** C6.  For every successfully acquired compositor frame of width W and
    height H (mapped with row pitch P), the function returns 0 with a
    buffer of W * H * 4 bytes whose row y holds the W * 4 bytes of input
    row H - 1 - y when dual_track_mode is false and of input row y when it
    is true.  The two size bounds keep the UINT offsets of the copy from
    wrapping. *)
Theorem C6_row_order :
  forall (c : screen_capture_t) (os : frame_os) (dual_track_mode : bool)
         (frame_data : option (list byte)) (frame_size : Z),
    screen_ready c ->
    frame_acquired os ->
    0 <= texture_width os -> 0 <= texture_height os < 2 ^ 32 ->
    texture_width os * texture_height os * 4 < 2 ^ 32 ->
    0 <= row_pitch os -> texture_height os * row_pitch os < 2 ^ 32 ->
    exists dst c',
      screen_get_frame_dual_track (Some c) frame_data frame_size dual_track_mode os
        = Ret (0, Some dst, texture_width os * texture_height os * 4, Some c')
      /\ length dst = Z.to_nat (texture_width os * texture_height os * 4)
      /\ forall y x,
          0 <= y < texture_height os -> 0 <= x < texture_width os * 4 ->
          nth (Z.to_nat (y * texture_width os * 4 + x)) dst Byte.x00
          = mapped_data os
              ((if dual_track_mode then y else texture_height os - 1 - y)
               * row_pitch os + x).
Proof.
  intros c os dual fd fs (Hdup & Hdev & Hctx & Hcap) (Hacq & Hq & Hs & Hm & Hmal)
         HW HH Hfit HP Hsurf.
  unfold screen_get_frame_dual_track.
  rewrite Hdup, Hcap, Hacq, Hq, Hdev, Hs, Hctx, Hm, Hmal.
  cbn [non_null negb orb use_handle bind].
  assert (Hsize : u32 (texture_width os * texture_height os * 4)
                  = texture_width os * texture_height os * 4)
    by (apply u32_small; nia).
  rewrite Hsize.
  set (W := texture_width os) in *. set (H := texture_height os) in *.
  set (blank := repeat Byte.xff (Z.to_nat (W * H * 4))).
  assert (Hblank : length blank = Z.to_nat (W * H * 4)) by apply repeat_length.
  destruct dual.
  - destruct (copy_rows_fills W H (row_pitch os) (mapped_data os) (fun y => y)
                HW HP Hfit Hsurf ltac:(intros; lia) (Z.to_nat H) 0 blank)
      as (dst & Hrun & Hlen & _ & Hfill); [lia | lia | exact Hblank |].
    rewrite Hrun. cbn [bind]. eexists dst, _. split; [reflexivity|].
    split; [rewrite Hlen; exact Hblank|]. intros y x Hy Hx. apply Hfill; lia.
  - assert (Hflip : forall y, 0 <= y < H -> 0 <= u32 (H - 1 - y) < H)
      by (intros y Hy; rewrite u32_small by lia; lia).
    destruct (copy_rows_fills W H (row_pitch os) (mapped_data os)
                (fun y => u32 (H - 1 - y))
                HW HP Hfit Hsurf Hflip (Z.to_nat H) 0 blank)
      as (dst & Hrun & Hlen & _ & Hfill); [lia | lia | exact Hblank |].
    rewrite Hrun. cbn [bind]. eexists dst, _. split; [reflexivity|].
    split; [rewrite Hlen; exact Hblank|]. intros y x Hy Hx.
    rewrite Hfill by lia. cbv beta. rewrite u32_small by lia. reflexivity.
Qed.

(** A 2x2 desktop mapped with a row pitch of 16 bytes: the top row holds
    the byte 01, the bottom row 02. *)
Definition demo_screen : screen_capture_t :=
  {| sc_device := LiveHandle; sc_context := LiveHandle; sc_duplication := LiveHandle;
     sc_width := 2; sc_height := 2; sc_is_capturing := true;
     sc_cached_frame := None; sc_cached_frame_size := 0;
     sc_has_cached_frame := false |}.

Definition demo_frame_os : frame_os :=
  {| acquire := FrameAcquired; cached_copy_malloc_ok := true;
     query_texture_ok := true; texture_width := 2; texture_height := 2;
     create_staging_ok := true; map_ok := true; row_pitch := 16;
     mapped_data := fun i => if i <? 16 then Byte.x01 else Byte.x02;
     frame_malloc_ok := true; cache_malloc_ok := true |}.

Lemma C6_row_order_witness :
  exists dst c',
    screen_get_frame_dual_track (Some demo_screen) None 0 false demo_frame_os
      = Ret (0, Some dst, 16, Some c')
    /\ length dst = 16%nat
    /\ forall y x,
        0 <= y < 2 -> 0 <= x < 8 ->
        nth (Z.to_nat (y * 2 * 4 + x)) dst Byte.x00
        = mapped_data demo_frame_os ((2 - 1 - y) * 16 + x).
Proof.
  refine (C6_row_order demo_screen demo_frame_os false None 0 _ _ _ _ _ _ _).
  - repeat split.
  - repeat split.
  - simpl. lia.
  - simpl. lia.
  - simpl. lia.
  - simpl. lia.
  - simpl. lia.
Defined.

(** ** The orchestrator: the guard of engine_start *)

(** C9.  engine_start is non-reentrant and total on bad inputs: with a
    NULL engine, a NULL params, or an engine whose is_running flag is set,
    it returns -1 at once, and the engine structure and all module-level
    state of the sources and of the muxer are as they were (no callback is
    invoked either). *)
Theorem C9_engine_start_guard :
  forall (audio_build : bool) (engine : option capture_engine_t)
         (params : option capture_params_t) (os : engine_os) (w : world),
    engine = None \/ params = None
    \/ (exists e, engine = Some e /\ is_running e = true) ->
    engine_start audio_build engine params os w = Ret (-1, engine, w).
Proof.
  intros audio_build engine params os w [-> | [-> | (e & -> & Hrun)]].
  - reflexivity.
  - destruct engine; reflexivity.
  - unfold engine_start. destruct params; [|reflexivity].
    rewrite Hrun. reflexivity.
Qed.

(** *** Concrete runs *)

(** An engine after [engine_init], a 2x2 desktop, sources at 48 kHz, an
    OS whose calls all succeed, and a clock that reads 1000 at the start. *)
Definition demo_engine : capture_engine_t :=
  {| params := zero_params; stats := zero_stats;
     status_callback := Some default_status_callback;
     progress_callback := Some default_progress_callback;
     is_running := false; engine_force_stop := false |}.

Definition demo_params (video system microphone : bool) : capture_params_t :=
  {| output_filename := "capture.mp4"; fps := 30; duration := 1;
     audio_sources :=
       if system then (if microphone then AUDIO_SOURCE_BOTH else AUDIO_SOURCE_SYSTEM)
       else (if microphone then AUDIO_SOURCE_MICROPHONE else AUDIO_SOURCE_NONE);
     force_stop := false; enable_video := video; enable_system_audio := system;
     enable_microphone := microphone;
     audio_only_mode := negb video && (system || microphone);
     monitor_index := 0; cursor_enabled := true; region_enabled := false;
     region_x := 0; region_y := 0; region_w := 0; region_h := 0 |}.

Definition demo_packet_os (now : Z) : get_buffer_os :=
  {| next_packet_size := Some 480; tick_count := now; malloc_ok := true;
     next_packet := Some (demo_packet, 480, 0) |}.

Definition demo_iteration (now : Z) : iteration_os :=
  {| it_engine_stop := false; it_tick := now; it_frame := demo_frame_os;
     it_video_sample := always; it_system_buffer := demo_packet_os now;
     it_system_sample := always; it_microphone_buffer := demo_packet_os now;
     it_microphone_sample := always |}.

Definition demo_engine_os (ticks : list Z) : engine_os :=
  {| os_screen_init :=
       {| screen_init_ok := always; mode_width := 2; mode_height := 2 |};
     os_microphone_init := demo_audio_init_os;
     os_system_init := demo_audio_init_os;
     os_microphone_test_start := true;
     os_microphone_test := fun _ => demo_packet_os 900;
     os_system_test_start := true;
     os_system_test := fun _ => demo_packet_os 900;
     os_microphone_start := true;
     os_system_start := true;
     os_encoder_init := always;
     os_start_tick := 1000;
     os_iterations := map demo_iteration ticks;
     os_end_tick := 2001;
     os_report_tick := 2002;
     os_finalize := finalize_succeeds |}.

Lemma C9_engine_start_guard_witness :
  (exists e, Some (set_is_running true demo_engine) = Some e /\ is_running e = true)
  /\ engine_start true (Some (set_is_running true demo_engine))
       (Some (demo_params true false false)) (demo_engine_os [1000; 2000])
       initial_world
     = Ret (-1, Some (set_is_running true demo_engine), initial_world).
Proof.
  assert (H : exists e, Some (set_is_running true demo_engine) = Some e
                        /\ is_running e = true)
    by (eexists; split; reflexivity).
  split; [exact H|].
  exact (C9_engine_start_guard true _ (Some (demo_params true false false))
           (demo_engine_os [1000; 2000]) initial_world (or_intror (or_intror H))).
Defined.

(** ** The orchestrator: one video slot *)

(** A desktop that shows nothing new, with no cached frame yet. *)
Definition demo_timeout_os : frame_os :=
  {| acquire := DXGI_ERROR_WAIT_TIMEOUT; cached_copy_malloc_ok := true;
     query_texture_ok := true; texture_width := 2; texture_height := 2;
     create_staging_ok := true; map_ok := true; row_pitch := 16;
     mapped_data := fun _ => Byte.x00; frame_malloc_ok := true;
     cache_malloc_ok := true |}.

Definition demo_timeout_iteration : iteration_os :=
  {| it_engine_stop := false; it_tick := 1000; it_frame := demo_timeout_os;
     it_video_sample := always; it_system_buffer := demo_packet_os 1000;
     it_system_sample := always; it_microphone_buffer := demo_packet_os 1000;
     it_microphone_sample := always |}.

Definition demo_capturing_world : world :=
  set_screen_ctx demo_screen
    (set_encoder demo_video_globals
       (set_encoder_ctx demo_video_context initial_world)).

Definition demo_loop_state : loop_state :=
  {| next_frame_time := 1000; frame_count := 0; failed_frame_attempts := 0;
     consecutive_audio_failures := 0; next_emergency_check := 2000;
     loop_iterations := 1; slept := [] |}.

(** C3, as stated, fails: a slot whose frame request answers NoNewFrame
    (result 1, no frame) raises failed_frame_attempts from 0 to 1 and
    moves next_frame_time from 1000 to 1033. *)
Lemma C3_next_frame_time_advances_without_frame :
  w_screen_get_frame_dual_track None 0 false demo_timeout_os demo_capturing_world
    = Ret (1, None, 0, demo_capturing_world)
  /\ exists ls',
      capture_video (demo_params true false false) 1000 33 1000
        demo_timeout_iteration demo_engine demo_capturing_world demo_loop_state
        = Ret (demo_capturing_world, ls')
      /\ failed_frame_attempts ls' = failed_frame_attempts demo_loop_state + 1
      /\ next_frame_time ls' = 1033
      /\ next_frame_time ls' <> next_frame_time demo_loop_state.
Proof.
  split; [vm_compute; reflexivity|].
  eexists. split; [vm_compute; reflexivity|].
  repeat apply conj; vm_compute; congruence.
Qed.

(** C3, amended.  In a due video slot (not audio-only, now >=
    next_frame_time) next_frame_time advances by the frame interval
    whether or not a frame was obtained.  When the request yields no frame
    (NoNewFrame or an error) the slot does exactly this: it raises
    failed_frame_attempts by one and leaves frame_count and the muxer
    alone.  When it yields a frame, the frame goes to the muxer,
    frame_count rises by one and failed_frame_attempts stays.  A slot that
    is not due changes nothing. *)
Theorem C3_video_slot :
  forall (p : capture_params_t) (start_time frame_interval now : Z)
         (it : iteration_os) (e : capture_engine_t) (w : world) (ls : loop_state),
    (audio_only_mode p = false -> next_frame_time ls <= now ->
     forall r frame_data frame_size w1,
       w_screen_get_frame_dual_track None 0 (ec_dual_track_mode (encoder_ctx w))
         (it_frame it) w = Ret (r, frame_data, frame_size, w1) ->
       (r <> 0 \/ frame_data = None ->
        capture_video p start_time frame_interval now it e w ls
        = Ret (w1, set_next_frame_time (u32 (next_frame_time ls + frame_interval))
                     (set_failed_frame_attempts (failed_frame_attempts ls + 1) ls)))
       /\ (r = 0 -> frame_data <> None ->
           forall w' ls',
             capture_video p start_time frame_interval now it e w ls = Ret (w', ls') ->
             next_frame_time ls' = u32 (next_frame_time ls + frame_interval)
             /\ frame_count ls' = frame_count ls + 1
             /\ failed_frame_attempts ls' = failed_frame_attempts ls
             /\ exists ret w2,
                 w_encoder_add_video_frame frame_data frame_size
                   (u32 (now - start_time)) (it_video_sample it) w1
                 = Ret (ret, w2)
                 /\ progress e (frame_count ls + 1) (u32 (now - start_time)) w2
                    = Ret w'))
    /\ (audio_only_mode p = true \/ now < next_frame_time ls ->
        capture_video p start_time frame_interval now it e w ls = Ret (w, ls)).
Proof.
  intros p start_time fi now it e w ls. split.
  - intros Hmode Hdue r fd fs w1 Hget. unfold capture_video.
    rewrite Hmode. destruct (Z.leb_spec (next_frame_time ls) now); [|lia].
    cbn [negb andb]. rewrite Hget. cbn [bind]. split.
    + intros [Hr | Hfd].
      * destruct fd; [|reflexivity].
        destruct (Z.eqb_spec r 0); [contradiction|]. reflexivity.
      * rewrite Hfd. reflexivity.
    + intros Hr Hfd w' ls' Hcv. subst r. destruct fd as [data|]; [|contradiction].
      cbn [Z.eqb] in Hcv.
      destruct (w_encoder_add_video_frame (Some data) fs (u32 (now - start_time))
                  (it_video_sample it) w1) as [[ret w2]| |] eqn:Hadd;
        try discriminate.
      cbn [bind] in Hcv.
      cbn [frame_count set_frame_count] in Hcv.
      destruct (progress e (frame_count ls + 1) (u32 (now - start_time)) w2)
        as [w3| |] eqn:Hprog; try discriminate.
      cbn [bind] in Hcv. inv Hcv. cbn.
      repeat apply conj; try reflexivity.
      exists ret, w2. split; [reflexivity|exact Hprog].
  - intros Hskip. unfold capture_video. destruct Hskip as [Hmode | Hearly].
    + rewrite Hmode. reflexivity.
    + destruct (Z.leb_spec (next_frame_time ls) now); [lia|].
      rewrite andb_false_r. reflexivity.
Qed.

Lemma C3_video_slot_witness :
  audio_only_mode (demo_params true false false) = false
  /\ next_frame_time demo_loop_state <= 1000
  /\ capture_video (demo_params true false false) 1000 33 1000
       demo_timeout_iteration demo_engine demo_capturing_world demo_loop_state
     = Ret (demo_capturing_world,
            set_next_frame_time (u32 (1000 + 33))
              (set_failed_frame_attempts (0 + 1) demo_loop_state)).
Proof.
  assert (Hmode : audio_only_mode (demo_params true false false) = false)
    by reflexivity.
  assert (Hdue : next_frame_time demo_loop_state <= 1000) by (simpl; lia).
  split; [exact Hmode|]. split; [exact Hdue|].
  refine (proj1 (proj1 (C3_video_slot (demo_params true false false) 1000 33 1000
                          demo_timeout_iteration demo_engine demo_capturing_world
                          demo_loop_state)
                   Hmode Hdue 1 None 0 demo_capturing_world _) _).
  - vm_compute. reflexivity.
  - left. discriminate.
Defined.

(** ** The orchestrator: the muxer globals after a run *)

(** The globals named by the claim hold their initial values. *)
Definition muxer_globals_reset (g : encoder_globals) : Prop :=
  g_sink_writer g = None
  /\ g_video_stream_index g = 0 /\ g_audio_stream_index g = 0
  /\ g_system_audio_stream_index g = 0 /\ g_mic_audio_stream_index g = 0
  /\ g_dual_track_mode g = false
  /\ g_video_frame_count g = 0 /\ g_audio_sample_count g = 0
  /\ g_system_audio_sample_count g = 0 /\ g_mic_audio_sample_count g = 0
  /\ g_video_width g = 0 /\ g_video_height g = 0 /\ g_video_fps g = 30
  /\ g_recording_start_time g = 0 /\ g_last_video_timestamp g = 0.

Lemma encoder_cleanup_resets c g :
  muxer_globals_reset (snd (encoder_cleanup (Some c) g)).
Proof.
  unfold encoder_cleanup, muxer_globals_reset.
  destruct (g_sink_writer g) eqn:Hsw; cbn; rewrite ?Hsw; repeat apply conj;
    reflexivity.
Qed.

Lemma w_encoder_cleanup_resets w : muxer_globals_reset (encoder (w_encoder_cleanup w)).
Proof.
  unfold w_encoder_cleanup.
  pose proof (encoder_cleanup_resets (encoder_ctx w) (encoder w)) as H.
  destruct (encoder_cleanup (Some (encoder_ctx w)) (encoder w)) as [c g].
  exact H.
Qed.

(** No context holds a pointer to a released object. *)
Definition handles_sound (w : world) : Prop :=
  Forall (fun h => h <> ReleasedHandle)
    [sc_duplication (screen_ctx w); sc_context (screen_ctx w); sc_device (screen_ctx w);
     capture_client (microphone_ctx w); audio_client (microphone_ctx w);
     fst (wave_format (microphone_ctx w)); device (microphone_ctx w);
     enumerator (microphone_ctx w);
     capture_client (system_ctx w); audio_client (system_ctx w);
     fst (wave_format (system_ctx w)); device (system_ctx w);
     enumerator (system_ctx w)].

Lemma release_if_set_sound h : h <> ReleasedHandle -> release_if_set h = Ret tt.
Proof. destruct h; [reflexivity | reflexivity | contradiction]. Qed.

(** The reset is the work of encoder_cleanup.  It runs in engine_cleanup,
    which the caller of a recording run may invoke, and on the exits of
    engine_start through its cleanup label: after either, every muxer
    global of the list holds its initial value (and engine_cleanup does
    return when the engine is not running and no context holds a released
    pointer). *)
Lemma cleanup_resets_muxer_globals :
  (forall e stopped w e' w',
      engine_cleanup (Some e) stopped w = Ret (e', w') ->
      muxer_globals_reset (encoder w'))
  /\ (forall e stopped w,
         is_running e = false -> handles_sound w ->
         exists w', engine_cleanup (Some e) stopped w = Ret (Some zero_engine, w'))
  /\ (forall p l e w r e' w',
         start_cleanup p l e w = Ret (r, e', w') ->
         r = -1 /\ muxer_globals_reset (encoder w')).
Proof.
  split; [|split].
  - intros e stopped w e' w' H. unfold engine_cleanup in H.
    destruct (if is_running e
              then '(_, _, w0) <- engine_stop (Some e) stopped w ;; Ret w0
              else Ret w) as [w0| |]; try discriminate.
    cbn [bind] in H.
    destruct (w_screen_cleanup w0) as [w1| |]; try discriminate. cbn [bind] in H.
    destruct (w_microphone_cleanup w1) as [w2| |]; try discriminate.
    cbn [bind] in H.
    destruct (w_system_cleanup w2) as [w3| |]; try discriminate. cbn [bind] in H.
    inv H. cbn. apply w_encoder_cleanup_resets.
  - intros e stopped w Hrun Hs. unfold engine_cleanup. rewrite Hrun. cbn [bind].
    unfold handles_sound in Hs.
    repeat match goal with
           | H : Forall _ (_ :: _) |- _ => inversion H; subst; clear H
           end.
    unfold w_screen_cleanup, screen_cleanup.
    rewrite !release_if_set_sound by assumption. cbn [bind with_ctx].
    unfold w_microphone_cleanup, microphone_cleanup, audio_cleanup.
    cbn [microphone_ctx set_screen_ctx].
    rewrite !release_if_set_sound by assumption. cbn [bind with_ctx].
    unfold w_system_cleanup, system_cleanup, audio_cleanup.
    cbn [system_ctx set_screen_ctx set_microphone_ctx].
    rewrite !release_if_set_sound by assumption. cbn [bind with_ctx].
    eexists. reflexivity.
  - intros p l e w r e' w' H. unfold start_cleanup in H.
    repeat match type of H with
           | bind ?m _ = _ => destruct m; try discriminate; cbn [bind] in H
           end.
    inv H. split; [reflexivity|]. apply w_encoder_cleanup_resets.
Qed.

(** Two recordings in one process, started the way RecordingThread
    starts them (engine_init, then engine_start): the first with system
    audio and microphone on two tracks, the second video only after an
    engine_cleanup. *)
Definition demo_dual_track_run : Z * option capture_engine_t * world :=
  match engine_start true (Some demo_engine) (Some (demo_params true true true))
          (demo_engine_os [1000; 1010; 2000]) initial_world with
  | Ret x => x
  | _ => (-1, None, initial_world)
  end.

Definition demo_cleaned_world : world :=
  match engine_cleanup (snd (fst demo_dual_track_run)) true (snd demo_dual_track_run) with
  | Ret (_, w) => w
  | _ => initial_world
  end.

Definition demo_second_run : Z * option capture_engine_t * world :=
  match engine_start true (Some demo_engine) (Some (demo_params true false false))
          (demo_engine_os [1000; 1010; 2000]) demo_cleaned_world with
  | Ret x => x
  | _ => (-1, None, initial_world)
  end.

(** C8.  The code at two recordings in one process, started the way
    RecordingThread starts them: engine_init, then engine_start, and no
    engine_cleanup in between.  The first records one second of a 2x2
    desktop with system audio and microphone on two tracks, and returns 0
    through the success exit of engine_start, which finalizes the muxer
    and does not call encoder_cleanup: the sink-writer pointer is not
    NULL, the dual-track flag is set, the stream indices are 1 and 2, the
    frame counter is 1, both track counters are 960, width and height are
    2 and the recording start time is 1000.  The second is video only:
    encoder_init stores sample rate 0 and resets neither the dual-track
    flag nor the track counters, so encoder_finalize divides the inherited
    system-track counter by g_audio_sample_rate = 0.  With engine_cleanup
    between the two, the globals are reset and the second recording
    returns 0. *)
Theorem C8_second_recording_inherits_globals :
  exists e1 w1,
    engine_start true (Some demo_engine) (Some (demo_params true true true))
      (demo_engine_os [1000; 1010; 2000]) initial_world
    = Ret (0, Some e1, w1)
    /\ g_sink_writer (encoder w1) <> None
    /\ g_dual_track_mode (encoder w1) = true
    /\ g_system_audio_stream_index (encoder w1) = 1
    /\ g_mic_audio_stream_index (encoder w1) = 2
    /\ g_video_frame_count (encoder w1) = 1
    /\ g_system_audio_sample_count (encoder w1) = 960
    /\ g_mic_audio_sample_count (encoder w1) = 960
    /\ g_video_width (encoder w1) = 2 /\ g_video_height (encoder w1) = 2
    /\ g_recording_start_time (encoder w1) = 1000
    /\ ~ muxer_globals_reset (encoder w1)
    /\ engine_start true (Some demo_engine) (Some (demo_params true false false))
         (demo_engine_os [1000; 1010; 2000]) w1
       = Crash
    /\ exists w2 e3 w3,
        engine_cleanup (Some e1) true w1 = Ret (Some zero_engine, w2)
        /\ muxer_globals_reset (encoder w2)
        /\ engine_start true (Some demo_engine) (Some (demo_params true false false))
             (demo_engine_os [1000; 1010; 2000]) w2
           = Ret (0, Some e3, w3).
Proof.
  exists (match snd (fst demo_dual_track_run) with Some e => e | None => demo_engine end),
         (snd demo_dual_track_run).
  split; [vm_compute; reflexivity|].
  split; [intros H; vm_compute in H; discriminate H|].
  do 9 (split; [vm_compute; reflexivity|]).
  split; [intros (_ & _ & _ & H & _); vm_compute in H; discriminate H|].
  split; [vm_compute; reflexivity|].
  exists demo_cleaned_world,
         (match snd (fst demo_second_run) with Some e => e | None => demo_engine end),
         (snd demo_second_run).
  split; [vm_compute; reflexivity|].
  split; [|vm_compute; reflexivity].
  unfold muxer_globals_reset. repeat apply conj; vm_compute; reflexivity.
Qed.

(** ** The orchestrator: the muxer variant of an audio-only recording *)

(** C7, as stated, fails: with video off and both audio sources on and
    working, engine_start announces the single-track audio-only muxer and
    the container has one audio track. *)
Lemma C7_audio_only_both_is_single_track :
  audio_only_mode (demo_params false true true) = true
  /\ audio_sources (demo_params false true true) = AUDIO_SOURCE_BOTH
  /\ exists e' w',
      engine_start true (Some demo_engine) (Some (demo_params false true true))
        (demo_engine_os [1000; 1010; 2000]) initial_world
      = Ret (0, Some e', w')
      /\ option_map sw_streams (g_sink_writer (encoder w'))
         = Some [AudioAAC 48000 2 16 96000]
      /\ g_dual_track_mode (encoder w') = false
      /\ ec_dual_track_mode (encoder_ctx w') = false
      /\ In (Status "Initialized audio-only encoder (MP4 output)") (status_out w')
      /\ ~ In (Status "Initialized audio-only dual-track encoder (system + mic as separate tracks)")
              (status_out w').
Proof.
  split; [reflexivity|]. split; [reflexivity|].
  eexists _, _. split; [vm_compute; reflexivity|].
  repeat apply conj; try (vm_compute; reflexivity).
  - vm_compute. tauto.
  - vm_compute. intros H.
    repeat (destruct H as [H | H]; [discriminate|]). exact H.
Qed.

(** Case analysis on every test that a hypothesis still contains. *)
Ltac crunch :=
  unfold bind in *;
  repeat match goal with
         | H : context [if ?b then _ else _] |- _ => destruct b eqn:?; try discriminate
         | H : context [match ?x with _ => _ end] |- _ =>
           destruct x eqn:?; try discriminate
         | H : Ret _ = Ret _ |- _ => inv H
         | H : (_, _) = (_, _) |- _ => inv H
         end.

(** The phases before the muxer is initialized do not write
    [use_dual_track]. *)
Lemma init_audio_sources_keeps_dual p os l e w r :
  init_audio_sources p os l e w = Ret r ->
  use_dual_track (fst (fst (match r with inl x => x | inr x => x end)))
  = use_dual_track l.
Proof.
  intros H. unfold init_audio_sources in H. crunch; reflexivity.
Qed.

Lemma test_audio_keeps_dual p os l e w r :
  test_audio p os l e w = Ret r ->
  use_dual_track (fst (fst (match r with inl x => x | inr x => x end)))
  = use_dual_track l.
Proof.
  intros H. unfold test_audio in H. crunch; reflexivity.
Qed.

Lemma start_cleanup_returns_error p l e w r e' w' :
  start_cleanup p l e w = Ret (r, e', w') -> r = -1.
Proof.
  intros H. unfold start_cleanup in H.
  repeat match type of H with
         | bind ?m _ = _ => destruct m; try discriminate; cbn [bind] in H
         end.
  inv H. reflexivity.
Qed.

(** What a successful [encoder_init_audio_only] leaves: a container of
    one AAC track at the source rate and nothing else, and both
    dual-track flags clear. *)
Lemma encoder_init_audio_only_layout c name rate ch bits os g c' g' :
  encoder_init_audio_only (Some c) (Some name) rate ch bits os g = (0, c', g') ->
  option_map sw_streams (g_sink_writer g') = Some [AudioAAC (u32 rate) (u32 ch) 16 96000]
  /\ g_dual_track_mode g' = false
  /\ exists c1, c' = Some c1 /\ ec_dual_track_mode c1 = false.
Proof.
  intros H. unfold encoder_init_audio_only, init_cleanup in H.
  repeat (break_if_in H; try discriminate). inv H.
  split; [reflexivity|]. split; [reflexivity|]. eexists. split; reflexivity.
Qed.

(** [init_encoder] calls the init function of the selected variant. *)
Lemma init_encoder_audio_only_one_track p os l e w :
  selected_variant p l = AudioOnlyOneTrack ->
  init_encoder p os l e w =
  (let rate := if audio_enabled (stats e) then audio_sample_rate (stats e) else 0 in
   let ch := if audio_enabled (stats e) then audio_channels (stats e) else 0 in
   let bits := if audio_enabled (stats e) then audio_bits_per_sample (stats e) else 0 in
   let '(r, w1) :=
     w_encoder_init_result
       (encoder_init_audio_only (Some (encoder_ctx w)) (Some (output_filename p))
          rate ch bits (os_encoder_init os) (encoder w)) w in
   w2 <- say e "Initialized audio-only encoder (MP4 output)" w1 ;; Ret (r, w2)).
Proof.
  unfold selected_variant, init_encoder. intros H.
  destruct (audio_only_mode p); [|destruct (use_dual_track l && audio_available l);
                                   discriminate].
  destruct (use_dual_track l && audio_available l); [discriminate|]. reflexivity.
Qed.

(** ** The layout of the container during an audio-only recording *)

(** The shape of the container and the two dual-track flags. *)
Definition muxer_layout (w : world) : option (list media_type) * bool * bool :=
  (option_map sw_streams (g_sink_writer (encoder w)),
   g_dual_track_mode (encoder w), ec_dual_track_mode (encoder_ctx w)).

Lemma status_keeps_layout e m w w' :
  status e m w = Ret w' -> muxer_layout w' = muxer_layout w.
Proof.
  unfold status. destruct (status_callback e); [|discriminate].
  intros H. inv H. reflexivity.
Qed.

Lemma say_keeps_layout e text w w' :
  say e text w = Ret w' -> muxer_layout w' = muxer_layout w.
Proof. apply status_keeps_layout. Qed.

Lemma add_audio_frame_keeps_layout d n ms os w :
  muxer_layout (snd (w_encoder_add_audio_frame d n ms os w)) = muxer_layout w.
Proof.
  unfold w_encoder_add_audio_frame, encoder_add_audio_frame, muxer_layout.
  destruct d; [|reflexivity].
  destruct (g_sink_writer (encoder w)) eqn:Hsw; [|cbn; rewrite Hsw; reflexivity].
  repeat break_if; cbn; rewrite ?Hsw; reflexivity.
Qed.

Lemma add_system_audio_frame_keeps_layout d n ms os w :
  muxer_layout (snd (w_encoder_add_system_audio_frame d n ms os w)) = muxer_layout w.
Proof.
  unfold w_encoder_add_system_audio_frame, encoder_add_system_audio_frame, muxer_layout.
  destruct d; [|reflexivity].
  destruct (g_sink_writer (encoder w)) eqn:Hsw; [|cbn; rewrite Hsw; reflexivity].
  repeat break_if; cbn; rewrite ?Hsw; reflexivity.
Qed.

Lemma add_mic_audio_frame_keeps_layout d n ms os w :
  muxer_layout (snd (w_encoder_add_mic_audio_frame d n ms os w)) = muxer_layout w.
Proof.
  unfold w_encoder_add_mic_audio_frame, encoder_add_mic_audio_frame, muxer_layout.
  destruct d; [|reflexivity].
  destruct (g_sink_writer (encoder w)) eqn:Hsw; [|cbn; rewrite Hsw; reflexivity].
  repeat break_if; cbn; rewrite ?Hsw; reflexivity.
Qed.

Lemma microphone_get_buffer_keeps_layout d0 n0 os w r d n w' :
  w_microphone_get_buffer d0 n0 os w = Ret (r, d, n, w') ->
  muxer_layout w' = muxer_layout w.
Proof.
  unfold w_microphone_get_buffer. intros H.
  destruct (microphone_get_buffer (Some (microphone_ctx w)) d0 n0 os (microphone_static w))
    as [[[[[? ?] ?] ?] ?]| |]; try discriminate.
  cbn [bind] in H. inv H. reflexivity.
Qed.

Lemma system_get_buffer_keeps_layout d0 n0 os w r d n w' :
  w_system_get_buffer d0 n0 os w = Ret (r, d, n, w') ->
  muxer_layout w' = muxer_layout w.
Proof.
  unfold w_system_get_buffer. intros H.
  destruct (system_get_buffer (Some (system_ctx w)) d0 n0 os (system_static w))
    as [[[[[? ?] ?] ?] ?]| |]; try discriminate.
  cbn [bind] in H. inv H. reflexivity.
Qed.

Lemma microphone_release_buffer_keeps_layout n w w' :
  w_microphone_release_buffer n w = Ret w' -> muxer_layout w' = muxer_layout w.
Proof.
  unfold w_microphone_release_buffer. intros H.
  destruct (microphone_release_buffer (Some (microphone_ctx w)) n); try discriminate.
  cbn [bind] in H. inv H. reflexivity.
Qed.

Lemma system_release_buffer_keeps_layout n w w' :
  w_system_release_buffer n w = Ret w' -> muxer_layout w' = muxer_layout w.
Proof.
  unfold w_system_release_buffer. intros H.
  destruct (system_release_buffer (Some (system_ctx w)) n); try discriminate.
  cbn [bind] in H. inv H. reflexivity.
Qed.

Lemma microphone_stop_capture_keeps_layout w w' :
  w_microphone_stop_capture w = Ret w' -> muxer_layout w' = muxer_layout w.
Proof.
  unfold w_microphone_stop_capture. intros H.
  destruct (microphone_stop_capture (Some (microphone_ctx w))); try discriminate.
  cbn [bind] in H. inv H. reflexivity.
Qed.

Lemma system_stop_capture_keeps_layout w w' :
  w_system_stop_capture w = Ret w' -> muxer_layout w' = muxer_layout w.
Proof.
  unfold w_system_stop_capture. intros H.
  destruct (system_stop_capture (Some (system_ctx w))); try discriminate.
  cbn [bind] in H. inv H. reflexivity.
Qed.

(** Rewrites the layout of every world that a hypothesis relates to an
    earlier one. *)
Ltac layout_step :=
  match goal with
  | H : status _ _ _ = Ret _ |- _ => apply status_keeps_layout in H
  | H : say _ _ _ = Ret _ |- _ => apply say_keeps_layout in H
  | H : w_microphone_get_buffer _ _ _ _ = Ret _ |- _ =>
    apply microphone_get_buffer_keeps_layout in H
  | H : w_system_get_buffer _ _ _ _ = Ret _ |- _ =>
    apply system_get_buffer_keeps_layout in H
  | H : w_microphone_release_buffer _ _ = Ret _ |- _ =>
    apply microphone_release_buffer_keeps_layout in H
  | H : w_system_release_buffer _ _ = Ret _ |- _ =>
    apply system_release_buffer_keeps_layout in H
  | H : w_microphone_stop_capture _ = Ret _ |- _ =>
    apply microphone_stop_capture_keeps_layout in H
  | H : w_system_stop_capture _ = Ret _ |- _ =>
    apply system_stop_capture_keeps_layout in H
  | H : w_encoder_add_audio_frame ?d ?n ?ms ?os ?w = (_, _) |- _ =>
    pose proof (add_audio_frame_keeps_layout d n ms os w) as ?L;
    rewrite H in *; clear H
  | H : w_encoder_add_system_audio_frame ?d ?n ?ms ?os ?w = (_, _) |- _ =>
    pose proof (add_system_audio_frame_keeps_layout d n ms os w) as ?L;
    rewrite H in *; clear H
  | H : w_encoder_add_mic_audio_frame ?d ?n ?ms ?os ?w = (_, _) |- _ =>
    pose proof (add_mic_audio_frame_keeps_layout d n ms os w) as ?L;
    rewrite H in *; clear H
  end.

Lemma poll_audio_keeps_layout l ms it w ok w' :
  poll_audio l ms it w = Ret (ok, w') -> muxer_layout w' = muxer_layout w.
Proof.
  intros H. unfold poll_audio in H. crunch; repeat layout_step; cbn [snd] in *;
    congruence.
Qed.

Lemma capture_iteration_keeps_layout p l start_time frame_interval it e w ls go w' ls' :
  audio_only_mode p = true ->
  capture_iteration p l start_time frame_interval it e w ls = Ret (go, w', ls') ->
  muxer_layout w' = muxer_layout w.
Proof.
  intros Hmode H. unfold capture_iteration, capture_video in H.
  rewrite Hmode in H. cbn [negb andb] in H.
  crunch;
    repeat match goal with
           | H : poll_audio _ _ _ _ = Ret _ |- _ => apply poll_audio_keeps_layout in H
           | _ => layout_step
           end; congruence.
Qed.

Lemma capture_loop_keeps_layout p l start_time frame_interval :
  audio_only_mode p = true ->
  forall its e w ls e' w' ls',
    capture_loop p l start_time frame_interval its e w ls = Ret (e', w', ls') ->
    muxer_layout w' = muxer_layout w.
Proof.
  intros Hmode. induction its as [|it its IH]; intros e w ls e' w' ls' H;
    cbn [capture_loop] in H.
  - destruct (negb (is_running e) || engine_force_stop e || force_stop p);
      [|discriminate]. inv H. reflexivity.
  - destruct (negb (is_running e) || engine_force_stop e || force_stop p);
      [inv H; reflexivity|].
    destruct (it_engine_stop it); [inv H; reflexivity|].
    destruct (capture_iteration p l start_time frame_interval it e w ls)
      as [[[go w1] ls1]| |] eqn:Hit; try discriminate.
    cbn [bind] in H.
    apply (capture_iteration_keeps_layout _ _ _ _ _ _ _ _ _ _ _ Hmode) in Hit.
    destruct go; [apply IH in H; congruence|inv H; exact Hit].
Qed.

Lemma encoder_finalize_keeps_layout os w r w' :
  w_encoder_finalize os w = Ret (r, w') -> muxer_layout w' = muxer_layout w.
Proof.
  unfold w_encoder_finalize, encoder_finalize, muxer_layout, send_stream_tick.
  intros H.
  destruct (g_sink_writer (encoder w)) eqn:Hsw;
    [|cbn [bind] in H; inv H; cbn; rewrite Hsw; reflexivity].
  crunch; cbn; congruence.
Qed.

(** From the start of the recording to the return, an audio-only run
    writes samples and ticks and leaves the layout of the container as
    the init function made it. *)
Lemma record_keeps_layout p os l e w r e' w' :
  audio_only_mode p = true ->
  record p os l e w = Ret (r, e', w') ->
  r = 0 /\ muxer_layout w' = muxer_layout w.
Proof.
  intros Hmode H. unfold record in H. rewrite Hmode in H. cbn [negb] in H.
  match type of H with
  | bind (status ?e1 ?m ?w1) _ = _ =>
    destruct (status e1 m w1) as [wa| |] eqn:Ha; try discriminate;
    assert (Hw1 : muxer_layout w1 = muxer_layout w) by reflexivity
  end.
  cbn [bind] in H. apply status_keeps_layout in Ha.
  destruct (fps p =? 0)%Z; cbn [bind] in H; [discriminate|].
  match type of H with
  | bind ?m _ = _ => destruct m as [[[eb wb] lsb]| |] eqn:Hb; try discriminate
  end.
  cbn [bind] in H. apply (capture_loop_keeps_layout _ _ _ _ Hmode) in Hb.
  match type of H with
  | bind ?m _ = _ => destruct m as [wc| |] eqn:Hc; try discriminate
  end.
  cbn [bind] in H. apply say_keeps_layout in Hc.
  match type of H with
  | bind ?m _ = _ => destruct m as [wd| |] eqn:Hd; try discriminate
  end.
  cbn [bind] in H.
  assert (Hwd : muxer_layout wd = muxer_layout wc).
  { crunch; repeat layout_step; congruence. }
  match type of H with
  | bind ?m _ = _ => destruct m as [we| |] eqn:He; try discriminate
  end.
  cbn [bind] in H. apply say_keeps_layout in He.
  match type of H with
  | bind ?m _ = _ => destruct m as [[rf wf]| |] eqn:Hf; try discriminate
  end.
  cbn [bind] in H. apply encoder_finalize_keeps_layout in Hf.
  match type of H with
  | bind ?m _ = _ => destruct m as [wg| |] eqn:Hg; try discriminate
  end.
  cbn [bind] in H. apply status_keeps_layout in Hg.
  inv H. split; [reflexivity|congruence].
Qed.

(** C7, amended.  With video off and both audio sources on, the
    orchestrator clears use_dual_track (dual-track is disabled for
    audio-only recordings), so whenever a run reaches the initialization of
    the muxer the rule selects the audio-only single-track variant.  Every
    run of engine_start that returns 0 went through these phases: the
    sources were initialized and tested, init_encoder called
    encoder_init_audio_only, which returned 0, and the recording ran on the
    muxer it left.  When engine_start returns, the container has exactly
    one stream, an AAC track at the format of the recording, and both
    dual-track flags are clear.  In a build without MUXSW_ENABLE_AUDIO no
    audio-only recording takes place. *)
Theorem C7_audio_only_selects_single_track :
  forall (audio_build : bool) (p : capture_params_t),
    audio_only_mode p = true ->
    audio_sources p = AUDIO_SOURCE_BOTH ->
    use_dual_track (declare_locals audio_build p) = false
    /\ (forall os e0 w0 l1 e1 w1 l2 e2 w2,
           init_audio_sources p os (declare_locals audio_build p) e0 w0
           = Ret (inl (l1, e1, w1)) ->
           test_audio p os l1 e1 w1 = Ret (inl (l2, e2, w2)) ->
           selected_variant p l2 = AudioOnlyOneTrack)
    /\ forall e os w r e' w',
        engine_start audio_build (Some e) (Some p) os w = Ret (r, e', w') ->
        r = 0 ->
        audio_build = true
        /\ exists w0 l1 e1 w1 l2 e2 w2 c3 w3,
            let e0 := set_stats zero_stats (set_engine_force_stop false (set_params p e)) in
            let rate := if audio_enabled (stats e2) then audio_sample_rate (stats e2) else 0 in
            let ch := if audio_enabled (stats e2) then audio_channels (stats e2) else 0 in
            let bits :=
              if audio_enabled (stats e2) then audio_bits_per_sample (stats e2) else 0 in
            say e0 "Initializing capture..." w = Ret w0
            /\ init_audio_sources p os (declare_locals true p) e0 w0
               = Ret (inl (l1, e1, w1))
            /\ test_audio p os l1 e1 w1 = Ret (inl (l2, e2, w2))
            /\ selected_variant p l2 = AudioOnlyOneTrack
            /\ encoder_init_audio_only (Some (encoder_ctx w2)) (Some (output_filename p))
                 rate ch bits (os_encoder_init os) (encoder w2)
               = (0, Some c3, encoder w3)
            /\ encoder_ctx w3 = c3
            /\ init_encoder p os l2 e2 w2 = Ret (0, w3)
            /\ record p os l2 e2 w3 = Ret (0, e', w')
            /\ option_map sw_streams (g_sink_writer (encoder w'))
               = Some [AudioAAC (u32 rate) (u32 ch) 16 96000]
            /\ g_dual_track_mode (encoder w') = false
            /\ ec_dual_track_mode (encoder_ctx w') = false.
Proof.
  intros audio_build p Hmode Hboth.
  assert (Hdual : use_dual_track (declare_locals audio_build p) = false).
  { unfold declare_locals. cbn [use_dual_track]. rewrite Hmode.
    rewrite !andb_false_r. reflexivity. }
  assert (Hselect : forall os e0 w0 l1 e1 w1 l2 e2 w2,
             init_audio_sources p os (declare_locals audio_build p) e0 w0
             = Ret (inl (l1, e1, w1)) ->
             test_audio p os l1 e1 w1 = Ret (inl (l2, e2, w2)) ->
             selected_variant p l2 = AudioOnlyOneTrack).
  { intros os e0 w0 l1 e1 w1 l2 e2 w2 H1 H2.
    apply init_audio_sources_keeps_dual in H1. cbn [fst] in H1.
    apply test_audio_keeps_dual in H2. cbn [fst] in H2.
    unfold selected_variant. rewrite Hmode, H2, H1, Hdual. reflexivity. }
  split; [exact Hdual|]. split; [exact Hselect|].
  intros e os w r e' w' H Hr. subst r. unfold engine_start in H.
  destruct (is_running e); [discriminate|].
  rewrite Hmode in H. cbn [negb] in H.
  match type of H with
  | bind ?m _ = _ => destruct m as [w0| |] eqn:H0; try discriminate
  end.
  cbn [bind Z.eqb negb] in H.
  destruct audio_build; cbn [negb andb] in H.
  2:{ match type of H with bind ?m _ = _ => destruct m; discriminate end. }
  split; [reflexivity|].
  destruct (init_audio_sources p os (declare_locals true p)
              (set_stats zero_stats (set_engine_force_stop false (set_params p e))) w0)
    as [[[[l1 e1] w1] | [[l1 e1] w1]]| |] eqn:H1; cbn [bind] in H; try discriminate.
  2:{ apply start_cleanup_returns_error in H. discriminate. }
  destruct (test_audio p os l1 e1 w1)
    as [[[[l2 e2] w2] | [[l2 e2] w2]]| |] eqn:H2; cbn [bind] in H; try discriminate.
  2:{ apply start_cleanup_returns_error in H. discriminate. }
  pose proof (Hselect _ _ _ _ _ _ _ _ _ H1 H2) as Hsel.
  destruct (init_encoder p os l2 e2 w2) as [[r3 w3]| |] eqn:H3; cbn [bind] in H;
    try discriminate.
  destruct (Z.eqb_spec r3 0) as [-> | Hne]; cbn [negb] in H.
  2:{ match type of H with bind ?m _ = _ => destruct m; try discriminate end.
      cbn [bind] in H. apply start_cleanup_returns_error in H. discriminate. }
  unfold restart_audio in H. rewrite Hmode, andb_false_r in H. cbn [bind] in H.
  pose proof H3 as Hcall.
  rewrite (init_encoder_audio_only_one_track p os l2 e2 w2 Hsel) in Hcall.
  cbv zeta in Hcall. unfold w_encoder_init_result in Hcall.
  destruct (encoder_init_audio_only (Some (encoder_ctx w2)) (Some (output_filename p))
              (if audio_enabled (stats e2) then audio_sample_rate (stats e2) else 0)
              (if audio_enabled (stats e2) then audio_channels (stats e2) else 0)
              (if audio_enabled (stats e2) then audio_bits_per_sample (stats e2) else 0)
              (os_encoder_init os) (encoder w2)) as [[r4 c4] g4] eqn:Hinit.
  unfold say, status in Hcall.
  destruct (status_callback e2); [|discriminate].
  cbn [bind] in Hcall. injection Hcall as Hr4 Hw3. subst r4.
  assert (Hg : encoder w3 = g4) by (rewrite <- Hw3; reflexivity).
  assert (Hc : encoder_ctx w3 = with_ctx (encoder_ctx w2) c4)
    by (rewrite <- Hw3; reflexivity).
  destruct (encoder_init_audio_only_layout _ _ _ _ _ _ _ _ _ Hinit)
    as (Hstreams & Hflag & c1 & -> & Hctx).
  cbn [with_ctx] in Hc.
  destruct (record_keeps_layout _ _ _ _ _ _ _ _ Hmode H) as (_ & Hlayout).
  unfold muxer_layout in Hlayout. rewrite Hg, Hc in Hlayout.
  injection Hlayout as Hl1 Hl2 Hl3.
  exists w0, l1, e1, w1, l2, e2, w2, c1, w3.
  cbv zeta. rewrite Hg.
  split; [exact H0|]. split; [exact H1|]. split; [exact H2|]. split; [exact Hsel|].
  split; [exact Hinit|]. split; [exact Hc|]. split; [exact H3|].
  split; [exact H|].
  rewrite Hl1, Hl2, Hl3. split; [exact Hstreams|]. split; [exact Hflag|exact Hctx].
Qed.


Definition demo_audio_only_run : Z * option capture_engine_t * world :=
  match engine_start true (Some demo_engine) (Some (demo_params false true true))
          (demo_engine_os [1000; 1010; 2000]) initial_world with
  | Ret x => x
  | _ => (-1, None, initial_world)
  end.

Lemma C7_audio_only_selects_single_track_witness :
  audio_only_mode (demo_params false true true) = true
  /\ audio_sources (demo_params false true true) = AUDIO_SOURCE_BOTH
  /\ use_dual_track (declare_locals true (demo_params false true true)) = false
  /\ engine_start true (Some demo_engine) (Some (demo_params false true true))
       (demo_engine_os [1000; 1010; 2000]) initial_world
     = Ret (0, snd (fst demo_audio_only_run), snd demo_audio_only_run)
  /\ exists rate ch,
      option_map sw_streams (g_sink_writer (encoder (snd demo_audio_only_run)))
      = Some [AudioAAC rate ch 16 96000]
      /\ g_dual_track_mode (encoder (snd demo_audio_only_run)) = false
      /\ ec_dual_track_mode (encoder_ctx (snd demo_audio_only_run)) = false.
Proof.
  assert (Hmode : audio_only_mode (demo_params false true true) = true) by reflexivity.
  assert (Hboth : audio_sources (demo_params false true true) = AUDIO_SOURCE_BOTH)
    by reflexivity.
  assert (Hrun : engine_start true (Some demo_engine) (Some (demo_params false true true))
                   (demo_engine_os [1000; 1010; 2000]) initial_world
                 = Ret (0, snd (fst demo_audio_only_run), snd demo_audio_only_run))
    by (vm_compute; reflexivity).
  split; [exact Hmode|]. split; [exact Hboth|].
  split; [exact (proj1 (C7_audio_only_selects_single_track true _ Hmode Hboth))|].
  split; [exact Hrun|].
  destruct (proj2 (proj2 (proj2 (C7_audio_only_selects_single_track true _ Hmode Hboth))
                     demo_engine _ initial_world 0 _ _ Hrun eq_refl))
    as (w0 & l1 & e1 & w1 & l2 & e2 & w2 & c3 & w3 & H).
  cbv zeta in H.
  destruct H as (_ & _ & _ & _ & _ & _ & _ & _ & H).
  eexists _, _. exact H.
Defined.


(** * Part III: further properties of the code *)

(** ** C strings *)

Fixpoint lowercase (s : string) : string :=
  match s with
  | String.EmptyString => String.EmptyString
  | String.String c s' => String.String (tolower c) (lowercase s')
  end.

Lemma char_code_inj a b : char_code a = char_code b -> a = b.
Proof.
  unfold char_code. intros H. apply N2Z.inj in H.
  rewrite <- (Ascii.ascii_N_embedding a), <- (Ascii.ascii_N_embedding b).
  congruence.
Qed.

Lemma _stricmp_zero a : forall b, _stricmp a b = 0 <-> lowercase a = lowercase b.
Proof.
  induction a as [|x a IH]; intros [|y b]; cbn [_stricmp lowercase].
  - split; reflexivity.
  - split; discriminate.
  - split; discriminate.
  - destruct (Z.ltb_spec (char_code (tolower x)) (char_code (tolower y))) as [Hlt|Hge].
    + split; [discriminate|]. intros H. inversion H as [[Hc Hs]].
      rewrite Hc in Hlt. lia.
    + destruct (Z.ltb_spec (char_code (tolower y)) (char_code (tolower x))) as [Hlt|Hle].
      * split; [discriminate|]. intros H. inversion H as [[Hc Hs]].
        rewrite Hc in Hlt. lia.
      * assert (Hc : tolower x = tolower y) by (apply char_code_inj; lia).
        rewrite Hc, IH. split; [intros ->; reflexivity|].
        intros H. inversion H. reflexivity.
Qed.

Lemma strlen_append a b : strlen (String.append a b) = strlen a + strlen b.
Proof.
  unfold strlen. induction a as [|c a IH]; cbn [String.append String.length].
  - lia.
  - rewrite !Nat2Z.inj_succ. lia.
Qed.

Lemma str_split i : forall s, String.append (str_upto i s) (str_from i s) = s.
Proof.
  induction i as [|i IH]; intros [|c s]; cbn; try reflexivity.
  rewrite IH. reflexivity.
Qed.

Lemma strlen_str_upto i : forall s, strlen (str_upto i s) <= strlen s.
Proof.
  unfold strlen. induction i as [|i IH]; intros [|c s]; cbn [str_upto String.length];
    try lia.
  specialize (IH s). lia.
Qed.

Lemma strlen_str_upto_le i : forall s, strlen (str_upto i s) <= Z.of_nat i.
Proof.
  unfold strlen. induction i as [|i IH]; intros [|c s]; cbn [str_upto String.length];
    try lia.
  specialize (IH s). lia.
Qed.

Lemma strrchr_append_none a c : forall b,
  strrchr b c = None ->
  strrchr (String.append a (String.String c b)) c = Some (String.length a).
Proof.
  induction a as [|x a IH]; intros b Hb; cbn [String.append strrchr String.length].
  - rewrite Hb, Ascii.eqb_refl. reflexivity.
  - rewrite (IH b Hb). reflexivity.
Qed.

Lemma str_from_append a : forall b, str_from (String.length a) (String.append a b) = b.
Proof. induction a as [|x a IH]; intros b; cbn; [reflexivity|apply IH]. Qed.

Lemma str_upto_append a : forall b, str_upto (String.length a) (String.append a b) = a.
Proof.
  induction a as [|x a IH]; intros b; cbn; [destruct b; reflexivity|].
  rewrite IH. reflexivity.
Qed.

(** ** params.c: the extension of the output file *)

(** The name without its last extension, as the code cuts it. *)
Definition filename_stem (name : string) : string :=
  match strrchr name "."%char with
  | Some i => str_upto i name
  | None => name
  end.

Lemma set_output_filename_same p : set_output_filename (output_filename p) p = p.
Proof. destruct p. reflexivity. Qed.

Lemma extension_differs_mp4 stem : extension_differs (String.append stem ".mp4") = false.
Proof.
  unfold extension_differs.
  change ".mp4" with (String.String "."%char "mp4").
  rewrite strrchr_append_none by reflexivity.
  rewrite str_from_append. reflexivity.
Qed.

Lemma strlen_filename_stem name : strlen (filename_stem name) <= strlen name.
Proof.
  unfold filename_stem. destruct (strrchr name "."%char); [apply strlen_str_upto|lia].
Qed.

Lemma adjust_filename_cases p :
  params_adjust_filename_extension (Some p) =
  if extension_differs (output_filename p) then
    if strlen (filename_stem (output_filename p)) <? 256
    then Ret (Some (set_output_filename
                      (String.append (filename_stem (output_filename p)) ".mp4") p))
    else Crash
  else Ret (Some p).
Proof.
  unfold params_adjust_filename_extension, filename_stem, strcat, MAX_PATH.
  destruct (extension_differs (output_filename p)); [|reflexivity].
  change (strlen ".mp4") with 4.
  destruct (strrchr (output_filename p) "."%char) as [i|].
  - destruct (Z.ltb_spec (strlen (str_upto i (output_filename p)) + 4) 260);
      destruct (Z.ltb_spec (strlen (str_upto i (output_filename p))) 256);
      try lia; reflexivity.
  - destruct (Z.ltb_spec (strlen (output_filename p) + 4) 260);
      destruct (Z.ltb_spec (strlen (output_filename p)) 256);
      try lia; reflexivity.
Qed.

(** X1: the name that params_adjust_filename_extension leaves ends in
    ".mp4", in any mix of upper and lower case; a name that already does
    is kept as it is, and any other loses what follows its last '.' and
    gets ".mp4" appended.  Adjusting the result again changes nothing.
    This holds for every name of at most 255 characters. *)
Theorem params_adjust_filename_extension_mp4 :
  forall p : capture_params_t,
    strlen (output_filename p) <= 255 ->
    exists name stem ext,
      params_adjust_filename_extension (Some p)
        = Ret (Some (set_output_filename name p))
      /\ name = String.append stem ext
      /\ lowercase ext = ".mp4"
      /\ (name = output_filename p
          \/ (stem = filename_stem (output_filename p) /\ ext = ".mp4"))
      /\ strlen name <= 259
      /\ params_adjust_filename_extension (Some (set_output_filename name p))
         = Ret (Some (set_output_filename name p)).
Proof.
  intros p Hlen. rewrite adjust_filename_cases.
  destruct (extension_differs (output_filename p)) eqn:Hext.
  - pose proof (strlen_filename_stem (output_filename p)) as Hstem.
    destruct (Z.ltb_spec (strlen (filename_stem (output_filename p))) 256); [|lia].
    eexists _, (filename_stem (output_filename p)), ".mp4".
    split; [reflexivity|]. split; [reflexivity|]. split; [reflexivity|].
    split; [right; split; reflexivity|].
    split; [rewrite strlen_append; change (strlen ".mp4") with 4; lia|].
    rewrite adjust_filename_cases. cbn [output_filename set_output_filename].
    rewrite extension_differs_mp4. reflexivity.
  - unfold extension_differs in Hext.
    destruct (strrchr (output_filename p) "."%char) as [i|] eqn:Hdot; [|discriminate].
    apply negb_false_iff, Z.eqb_eq, _stricmp_zero in Hext.
    exists (output_filename p), (str_upto i (output_filename p)),
      (str_from i (output_filename p)).
    rewrite set_output_filename_same.
    split; [reflexivity|]. split; [symmetry; apply str_split|].
    split; [exact Hext|]. split; [left; reflexivity|]. split; [lia|].
    rewrite adjust_filename_cases. unfold extension_differs. rewrite Hdot.
    apply _stricmp_zero in Hext. rewrite Hext. reflexivity.
Qed.

Definition demo_cli_params : capture_params_t :=
  {| output_filename := "clips/take.1.MOV"; fps := 60; duration := 10;
     audio_sources := AUDIO_SOURCE_NONE; force_stop := false;
     enable_video := false; enable_system_audio := true;
     enable_microphone := false; audio_only_mode := false;
     monitor_index := 0; cursor_enabled := true; region_enabled := false;
     region_x := 0; region_y := 0; region_w := 0; region_h := 0 |}.

Lemma params_adjust_filename_extension_mp4_witness :
  exists name stem ext,
    params_adjust_filename_extension (Some demo_cli_params)
      = Ret (Some (set_output_filename name demo_cli_params))
    /\ name = String.append stem ext
    /\ lowercase ext = ".mp4"
    /\ (name = output_filename demo_cli_params
        \/ (stem = filename_stem (output_filename demo_cli_params) /\ ext = ".mp4"))
    /\ strlen name <= 259
    /\ params_adjust_filename_extension (Some (set_output_filename name demo_cli_params))
       = Ret (Some (set_output_filename name demo_cli_params)).
Proof.
  apply (params_adjust_filename_extension_mp4 demo_cli_params).
  vm_compute. discriminate.
Defined.

(** X2: params_adjust_filename_extension writes past the end of
    output_filename (MAX_PATH chars) exactly when the extension has to be
    replaced and the name without its last extension has 256 characters
    or more. *)
Theorem params_adjust_filename_extension_overflow :
  forall p : capture_params_t,
    params_adjust_filename_extension (Some p) = Crash
    <-> (extension_differs (output_filename p) = true
         /\ 256 <= strlen (filename_stem (output_filename p))).
Proof.
  intros p. rewrite adjust_filename_cases.
  destruct (extension_differs (output_filename p)).
  - destruct (Z.ltb_spec (strlen (filename_stem (output_filename p))) 256).
    + split; [discriminate|]. intros [_ H']. lia.
    + split; [intros _; split; [reflexivity|lia]|reflexivity].
  - split; [discriminate|]. intros [H' _]. discriminate.
Qed.

(** ** params.c: validation *)

(** The audio sources that the three flags stand for. *)
Definition sources_of (system microphone : bool) : audio_source_type_t :=
  match system, microphone with
  | true, true => AUDIO_SOURCE_BOTH
  | true, false => AUDIO_SOURCE_SYSTEM
  | false, true => AUDIO_SOURCE_MICROPHONE
  | false, false => AUDIO_SOURCE_NONE
  end.

(** The fields that depend on the flags agree with them. *)
Definition mode_consistent (p : capture_params_t) : Prop :=
  audio_sources p = sources_of (enable_system_audio p) (enable_microphone p)
  /\ audio_only_mode p
     = negb (enable_video p) && (enable_system_audio p || enable_microphone p).

(** The fields that validation never writes. *)
Definition same_capture_options (p q : capture_params_t) : Prop :=
  duration q = duration p /\ force_stop q = force_stop p
  /\ monitor_index q = monitor_index p /\ cursor_enabled q = cursor_enabled p
  /\ region_enabled q = region_enabled p
  /\ region_x q = region_x p /\ region_y q = region_y p
  /\ region_w q = region_w p /\ region_h q = region_h p.

Definition no_source (p : capture_params_t) : bool :=
  negb (enable_video p) && negb (enable_system_audio p) && negb (enable_microphone p).

(** What validation does to the flags, by build. *)
Definition validated_flags (audio_build v s m : bool) : bool * bool * bool :=
  if negb v && negb s && negb m then (true, audio_build, audio_build)
  else if audio_build then (v, s, m) else (v, false, false).

(** The parameters as validation has them when it reaches the file name. *)
Definition normalized (audio_build : bool) (p : capture_params_t) : capture_params_t :=
  let '(v, s, m) := validated_flags audio_build (enable_video p)
                      (enable_system_audio p) (enable_microphone p) in
  {| output_filename := output_filename p;
     fps := if (fps p <=? 0) || (120 <? fps p) then 30 else fps p;
     duration := duration p; audio_sources := sources_of s m;
     force_stop := force_stop p; enable_video := v;
     enable_system_audio := s; enable_microphone := m;
     audio_only_mode := negb v && (s || m);
     monitor_index := monitor_index p; cursor_enabled := cursor_enabled p;
     region_enabled := region_enabled p; region_x := region_x p;
     region_y := region_y p; region_w := region_w p; region_h := region_h p |}.

Lemma validate_cases audio_build p :
  params_validate_and_finalize audio_build (Some p) =
  (p' <- params_adjust_filename_extension (Some (normalized audio_build p)) ;;
   Ret (0, p')).
Proof.
  unfold params_validate_and_finalize, normalized, validated_flags.
  destruct p as [name f d a fs v s m ao mi ce re rx ry rw rh]; cbn.
  destruct ((f <=? 0) || (120 <? f)), audio_build, v, s, m; reflexivity.
Qed.

Lemma normalized_output_filename b p :
  output_filename (normalized b p) = output_filename p.
Proof.
  unfold normalized. destruct (validated_flags _ _ _ _) as [[v s] m]. reflexivity.
Qed.

Lemma normalized_fps b p :
  fps (normalized b p) = if (fps p <=? 0) || (120 <? fps p) then 30 else fps p.
Proof.
  unfold normalized. destruct (validated_flags _ _ _ _) as [[v s] m]. reflexivity.
Qed.

Lemma normalized_fps_range b p : 1 <= fps (normalized b p) <= 120.
Proof.
  rewrite normalized_fps.
  destruct (Z.leb_spec (fps p) 0); destruct (Z.ltb_spec 120 (fps p)); cbn; lia.
Qed.

Lemma normalized_mode_consistent b p : mode_consistent (normalized b p).
Proof.
  unfold normalized. destruct (validated_flags _ _ _ _) as [[v s] m].
  split; reflexivity.
Qed.

Lemma normalized_same_options b p : same_capture_options p (normalized b p).
Proof.
  unfold normalized. destruct (validated_flags _ _ _ _) as [[v s] m].
  repeat split.
Qed.

Lemma normalized_flags b p :
  (enable_video (normalized b p), enable_system_audio (normalized b p),
   enable_microphone (normalized b p))
  = validated_flags b (enable_video p) (enable_system_audio p) (enable_microphone p).
Proof.
  unfold normalized. destruct (validated_flags _ _ _ _) as [[v s] m]. reflexivity.
Qed.

Lemma normalized_each_flag b p :
  let f := validated_flags b (enable_video p) (enable_system_audio p)
             (enable_microphone p) in
  enable_video (normalized b p) = fst (fst f)
  /\ enable_system_audio (normalized b p) = snd (fst f)
  /\ enable_microphone (normalized b p) = snd f.
Proof.
  cbv zeta. unfold normalized. destruct (validated_flags _ _ _ _) as [[v s] m].
  repeat split.
Qed.

Lemma normalized_idempotent p :
  forall b, b = true \/ enable_video p = true \/ no_source p = true ->
  normalized b (normalized b p) = normalized b p.
Proof.
  intros b Hb. unfold normalized at 1.
  pose proof (normalized_flags b p) as Hf. unfold validated_flags, no_source in *.
  rewrite normalized_fps, normalized_output_filename.
  destruct (normalized_same_options b p) as (-> & -> & -> & -> & -> & -> & -> & -> & ->).
  assert (Hfps : forall f, (let f' := if (f <=? 0) || (120 <? f) then 30 else f in
                            if (f' <=? 0) || (120 <? f') then 30 else f')
                           = if (f <=? 0) || (120 <? f) then 30 else f).
  { intros f. cbv zeta. destruct (Z.leb_spec f 0); destruct (Z.ltb_spec 120 f); cbn;
      try reflexivity.
    destruct (Z.leb_spec f 0); destruct (Z.ltb_spec 120 f); cbn; try reflexivity; lia. }
  cbv zeta in Hfps. rewrite Hfps.
  unfold normalized, validated_flags in *.
  destruct b, (enable_video p), (enable_system_audio p), (enable_microphone p);
    cbn in *; try reflexivity; exfalso; intuition discriminate.
Qed.

Lemma normalized_set_output_filename b name q :
  normalized b (set_output_filename name q) = set_output_filename name (normalized b q).
Proof.
  unfold normalized. cbn [enable_video enable_system_audio enable_microphone
                          set_output_filename].
  destruct (validated_flags _ _ _ _) as [[v s] m]. reflexivity.
Qed.

(** The file-name step returns for a name of at most 255 characters, or
    one that needs no change. *)
Lemma adjust_returns q :
  strlen (output_filename q) <= 255 \/ extension_differs (output_filename q) = false ->
  exists name,
    params_adjust_filename_extension (Some q) = Ret (Some (set_output_filename name q))
    /\ extension_differs name = false
    /\ (name = output_filename q \/ strlen name <= 259).
Proof.
  intros H. rewrite adjust_filename_cases.
  destruct (extension_differs (output_filename q)) eqn:Hext.
  - destruct H as [H|H]; [|discriminate].
    pose proof (strlen_filename_stem (output_filename q)).
    destruct (Z.ltb_spec (strlen (filename_stem (output_filename q))) 256); [|lia].
    eexists. split; [reflexivity|]. split; [apply extension_differs_mp4|].
    right. rewrite strlen_append. change (strlen ".mp4") with 4. lia.
  - exists (output_filename q). rewrite set_output_filename_same.
    split; [reflexivity|]. split; [exact Hext|left; reflexivity].
Qed.

Lemma adjust_filename_result q r :
  params_adjust_filename_extension (Some q) = Ret r ->
  exists name,
    r = Some (set_output_filename name q)
    /\ extension_differs name = false
    /\ (name = output_filename q \/ strlen name <= 259).
Proof.
  rewrite adjust_filename_cases. intros H.
  destruct (extension_differs (output_filename q)) eqn:Hext.
  - destruct (Z.ltb_spec (strlen (filename_stem (output_filename q))) 256);
      [|discriminate].
    inv H. eexists. split; [reflexivity|]. split; [apply extension_differs_mp4|].
    right. rewrite strlen_append. change (strlen ".mp4") with 4. lia.
  - inv H. exists (output_filename q). rewrite set_output_filename_same.
    split; [reflexivity|]. split; [exact Hext|left; reflexivity].
Qed.

(** Validation returns nothing but 0 with some parameters. *)
Lemma validate_result b p r o :
  params_validate_and_finalize b (Some p) = Ret (r, o) ->
  r = 0 /\ exists name,
    o = Some (set_output_filename name (normalized b p))
    /\ extension_differs name = false
    /\ (name = output_filename p \/ strlen name <= 259).
Proof.
  rewrite validate_cases. intros H.
  destruct (params_adjust_filename_extension (Some (normalized b p))) as [q| |] eqn:Hadj;
    try discriminate.
  cbn [bind] in H. inv H. split; [reflexivity|].
  apply adjust_filename_result in Hadj. rewrite normalized_output_filename in Hadj.
  exact Hadj.
Qed.

Lemma validate_returns b p :
  strlen (output_filename p) <= 255 \/ extension_differs (output_filename p) = false ->
  exists name,
    params_validate_and_finalize b (Some p)
      = Ret (0, Some (set_output_filename name (normalized b p)))
    /\ extension_differs name = false
    /\ (name = output_filename p \/ strlen name <= 259).
Proof.
  intros H. rewrite validate_cases.
  rewrite <- (normalized_output_filename b p) in H.
  destruct (adjust_returns _ H) as (name & Hadj & Hext & Hlen).
  rewrite Hadj. cbn [bind]. rewrite normalized_output_filename in Hlen.
  exists name. repeat split; assumption.
Qed.

(** X3: params_validate_and_finalize returns 0 for every parameter set
    whose file name has at most 255 characters, and what it leaves is
    normalized: fps is kept when it lies in 1..120 and is 30 otherwise;
    audio_sources and audio_only_mode agree with the three enable flags;
    the capture options (duration, monitor, cursor, region, force_stop)
    are untouched.  In a build with audio at least one source is
    enabled, and flags of which one is set are kept; in a build without
    audio both audio flags are cleared and audio_only_mode is off. *)
Theorem params_validate_and_finalize_normalizes :
  forall (audio_build : bool) (p : capture_params_t),
    strlen (output_filename p) <= 255 ->
    exists p',
      params_validate_and_finalize audio_build (Some p) = Ret (0, Some p')
      /\ 1 <= fps p' <= 120
      /\ (1 <= fps p <= 120 -> fps p' = fps p)
      /\ (~ 1 <= fps p <= 120 -> fps p' = 30)
      /\ mode_consistent p'
      /\ same_capture_options p p'
      /\ (audio_build = true ->
          no_source p' = false
          /\ (no_source p = false ->
              enable_video p' = enable_video p
              /\ enable_system_audio p' = enable_system_audio p
              /\ enable_microphone p' = enable_microphone p))
      /\ (audio_build = false ->
          enable_system_audio p' = false /\ enable_microphone p' = false
          /\ audio_only_mode p' = false /\ audio_sources p' = AUDIO_SOURCE_NONE
          /\ enable_video p' = (enable_video p || no_source p)).
Proof.
  intros audio_build p Hlen.
  destruct (validate_returns audio_build p (or_introl Hlen)) as (name & Hret & _).
  eexists. split; [exact Hret|].
  pose proof (normalized_fps_range audio_build p) as Hrange.
  pose proof (normalized_fps audio_build p) as Hfps.
  pose proof (normalized_mode_consistent audio_build p) as Hmode.
  pose proof (normalized_same_options audio_build p) as Hsame.
  pose proof (normalized_flags audio_build p) as Hflags.
  set (q := normalized audio_build p) in *.
  split; [exact Hrange|].
  split; [intros H; cbn; rewrite Hfps; destruct (Z.leb_spec (fps p) 0);
          destruct (Z.ltb_spec 120 (fps p)); cbn; lia|].
  split; [intros H; cbn; rewrite Hfps; destruct (Z.leb_spec (fps p) 0);
          destruct (Z.ltb_spec 120 (fps p)); cbn; lia|].
  split; [exact Hmode|]. split; [exact Hsame|].
  destruct Hmode as [Hsrc Hao].
  unfold no_source. cbn [enable_video enable_system_audio enable_microphone
                         audio_only_mode audio_sources set_output_filename].
  rewrite Hsrc, Hao. unfold validated_flags in Hflags.
  destruct audio_build, (enable_video p), (enable_system_audio p),
    (enable_microphone p); injection Hflags as Hv Hs Hm; rewrite Hv, Hs, Hm; cbn;
    (split; [intros; (discriminate || (repeat split; intros; (reflexivity || discriminate)))
            |intros; (discriminate || (repeat split; reflexivity))]).
Qed.

Lemma params_validate_and_finalize_normalizes_witness :
  exists p',
    params_validate_and_finalize true (Some demo_cli_params) = Ret (0, Some p')
    /\ 1 <= fps p' <= 120
    /\ (1 <= fps demo_cli_params <= 120 -> fps p' = fps demo_cli_params)
    /\ (~ 1 <= fps demo_cli_params <= 120 -> fps p' = 30)
    /\ mode_consistent p'
    /\ same_capture_options demo_cli_params p'
    /\ (true = true ->
        no_source p' = false
        /\ (no_source demo_cli_params = false ->
            enable_video p' = enable_video demo_cli_params
            /\ enable_system_audio p' = enable_system_audio demo_cli_params
            /\ enable_microphone p' = enable_microphone demo_cli_params))
    /\ (true = false ->
        enable_system_audio p' = false /\ enable_microphone p' = false
        /\ audio_only_mode p' = false /\ audio_sources p' = AUDIO_SOURCE_NONE
        /\ enable_video p' = (enable_video demo_cli_params || no_source demo_cli_params)).
Proof.
  apply (params_validate_and_finalize_normalizes true demo_cli_params).
  vm_compute. discriminate.
Defined.

(** X4: a second pass of params_validate_and_finalize over its own
    result returns 0 again.  In a build with audio it changes nothing
    (validation is idempotent), and so it is in a build without audio when
    video was asked for or nothing was.  In a build without audio, a
    request for audio without video leaves no source enabled after the
    first pass, and the second pass then turns video on. *)
Theorem params_validate_and_finalize_twice :
  forall (audio_build : bool) (p p' : capture_params_t),
    params_validate_and_finalize audio_build (Some p) = Ret (0, Some p') ->
    exists p'',
      params_validate_and_finalize audio_build (Some p') = Ret (0, Some p'')
      /\ (audio_build = true \/ enable_video p = true \/ no_source p = true ->
          p'' = p')
      /\ (audio_build = false -> enable_video p = false -> no_source p = false ->
          no_source p' = true /\ enable_video p'' = true
          /\ enable_system_audio p'' = false /\ enable_microphone p'' = false).
Proof.
  intros audio_build p p' H.
  destruct (validate_result _ _ _ _ H) as (_ & name & Hp' & Hext & _).
  inv Hp'. set (q := normalized audio_build p).
  exists (normalized audio_build (set_output_filename name q)). split.
  - rewrite validate_cases, adjust_filename_cases, normalized_output_filename.
    cbn [output_filename set_output_filename]. rewrite Hext. reflexivity.
  - rewrite normalized_set_output_filename. split.
    + intros Hc. unfold q. rewrite normalized_idempotent by exact Hc. reflexivity.
    + intros -> Hv Hn. pose proof (normalized_flags false p) as Hf.
      pose proof (normalized_flags false q) as Hf2. fold q in Hf.
      unfold no_source, validated_flags in *. rewrite Hv in *.
      cbn [set_output_filename enable_video enable_system_audio enable_microphone].
      destruct (enable_system_audio p), (enable_microphone p); try discriminate;
        injection Hf as Hv1 Hs1 Hm1; rewrite Hv1, Hs1, Hm1 in *; cbn in Hf2;
        injection Hf2 as Hv2 Hs2 Hm2; rewrite Hv2, Hs2, Hm2;
        repeat split; reflexivity.
Qed.

Lemma params_validate_and_finalize_twice_witness :
  exists p' p'',
    params_validate_and_finalize false (Some demo_cli_params) = Ret (0, Some p')
    /\ params_validate_and_finalize false (Some p') = Ret (0, Some p'')
    /\ no_source p' = true /\ enable_video p'' = true
    /\ enable_system_audio p'' = false /\ enable_microphone p'' = false.
Proof.
  eexists.
  destruct (params_validate_and_finalize_twice false demo_cli_params _ eq_refl)
    as (p'' & Hsecond & _ & Hedge).
  exists p''. split; [reflexivity|]. split; [exact Hsecond|].
  exact (Hedge eq_refl eq_refl eq_refl).
Defined.

(** X5: params_set_recording_mode refuses a request with no source:
    it returns -1 and leaves the parameters as they were.  Any other
    request on a name of at most 255 characters returns 0; in a build with
    audio the three flags then hold exactly what was requested, in a build
    without audio only the video flag does and both audio flags are off.
    In both builds audio_sources and audio_only_mode agree with the flags
    left. *)
Theorem params_set_recording_mode_flags :
  forall (audio_build : bool) (p : capture_params_t) (v s m : bool),
    strlen (output_filename p) <= 255 ->
    (v = false -> s = false -> m = false ->
     params_set_recording_mode audio_build (Some p) v s m = Ret (-1, Some p))
    /\ (v || s || m = true ->
        exists p',
          params_set_recording_mode audio_build (Some p) v s m = Ret (0, Some p')
          /\ enable_video p' = v
          /\ enable_system_audio p' = audio_build && s
          /\ enable_microphone p' = audio_build && m
          /\ mode_consistent p').
Proof.
  intros audio_build p v s m Hlen. split.
  - intros -> -> ->. reflexivity.
  - intros Hsome. unfold params_set_recording_mode.
    replace (negb v && negb s && negb m) with false
      by (destruct v, s, m; (reflexivity || discriminate)).
    match goal with
    | |- context [params_validate_and_finalize _ (Some ?q0)] => set (q := q0)
    end.
    destruct (validate_returns audio_build q (or_introl Hlen)) as (name & Hret & _).
    eexists. split; [exact Hret|].
    pose proof (normalized_flags audio_build q) as Hf.
    pose proof (normalized_mode_consistent audio_build q) as Hmode.
    cbn [enable_video enable_system_audio enable_microphone set_output_filename].
    clear Hf. destruct audio_build, v, s, m; try discriminate;
      (repeat split; try reflexivity; apply Hmode).
Qed.

Lemma params_set_recording_mode_flags_witness :
  (params_set_recording_mode true (Some demo_cli_params) false false false
   = Ret (-1, Some demo_cli_params))
  /\ exists p',
      params_set_recording_mode true (Some demo_cli_params) false true true
        = Ret (0, Some p')
      /\ enable_video p' = false
      /\ enable_system_audio p' = true && true
      /\ enable_microphone p' = true && true
      /\ mode_consistent p'.
Proof.
  assert (Hlen : strlen (output_filename demo_cli_params) <= 255)
    by (vm_compute; discriminate).
  split.
  - exact (proj1 (params_set_recording_mode_flags true demo_cli_params false false
                    false Hlen) eq_refl eq_refl eq_refl).
  - exact (proj2 (params_set_recording_mode_flags true demo_cli_params false true
                    true Hlen) eq_refl).
Defined.

(** ** arguments.c: the option loop *)

Lemma suffix_induction {A} (P : list A -> Prop) :
  (forall l, (forall l', (length l' < length l)%nat -> P l') -> P l) ->
  forall l, P l.
Proof.
  intros H l. remember (length l) as n eqn:Hn. revert l Hn.
  induction n as [n IH] using lt_wf_ind. intros l ->.
  apply H. intros l' Hlt. exact (IH _ Hlt l' eq_refl).
Qed.

(** One case per test of the loop body. *)
Ltac option_cases :=
  repeat match goal with
         | |- context [if streq ?a ?b || streq ?c ?d then _ else _] =>
           destruct (streq a b || streq c d) eqn:?
         | |- context [if streq ?a ?b then _ else _] => destruct (streq a b) eqn:?
         | H : context [if streq ?a ?b || streq ?c ?d then _ else _] |- _ =>
           destruct (streq a b || streq c d) eqn:?
         | H : context [if streq ?a ?b then _ else _] |- _ =>
           destruct (streq a b) eqn:?
         end.

(** A property of the parameters that every accepted option keeps holds
    when the loop ends. *)
Lemma parse_options_invariant (audio_build : bool) (I : capture_params_t -> Prop)
    (V : string -> Prop) :
  (forall p v, V v -> I p -> I (set_output_filename (strncpy v (MAX_PATH - 1)) p)) ->
  (forall p v, I p -> 0 < atoi v -> I (set_duration (atoi v) p)) ->
  (forall p, I p -> I (set_enable_video true p)) ->
  (forall p, I p -> audio_build = true -> I (set_enable_system_audio true p)) ->
  (forall p, I p -> audio_build = true -> I (set_enable_microphone true p)) ->
  (forall p v, I p -> 1 <= atoi v <= 120 -> I (set_fps (atoi v) p)) ->
  (forall p v, I p -> 0 <= atoi v -> I (set_monitor_index (atoi v) p)) ->
  (forall p b, I p -> I (set_cursor_enabled b p)) ->
  (forall p x y w h, I p -> 0 < atoi w -> 0 < atoi h ->
     I (set_region_enabled true
          (set_region_h (atoi h) (set_region_w (atoi w)
             (set_region_y (atoi y) (set_region_x (atoi x) p)))))) ->
  forall args p p',
    Forall V args -> I p -> parse_options audio_build args p = inr p' -> I p'.
Proof.
  intros Ho Ht Hv Hs Hm Hf Hmo Hc Hr args.
  induction args as [args IH] using suffix_induction.
  intros p p' HV HI H. destruct args as [|arg rest]; [inv H; exact HI|].
  cbn [parse_options] in H. inversion HV as [|? ? _ HVrest]; subst.
  option_cases; try discriminate.
  - destruct rest as [|value rest]; [discriminate|].
    inversion HVrest; subst.
    eapply IH in H; [exact H|cbn; lia|assumption|]. apply Ho; assumption.
  - destruct rest as [|value rest]; [discriminate|]. cbn [duration set_duration] in H.
    destruct (Z.leb_spec (atoi value) 0); [discriminate|].
    inversion HVrest; subst.
    eapply IH in H; [exact H|cbn; lia|assumption|]. apply Ht; [assumption|lia].
  - eapply IH in H; [exact H|cbn; lia|assumption|]. apply Hv; assumption.
  - eapply IH in H; [exact H|cbn; lia|assumption|].
    destruct audio_build; [apply Hs; auto|assumption].
  - eapply IH in H; [exact H|cbn; lia|assumption|].
    destruct audio_build; [apply Hm; auto|assumption].
  - destruct rest as [|value rest]; [discriminate|]. cbn [fps set_fps] in H.
    destruct (Z.leb_spec (atoi value) 0); [discriminate|].
    destruct (Z.ltb_spec 120 (atoi value)); [discriminate|]. cbn [orb] in H.
    inversion HVrest; subst.
    eapply IH in H; [exact H|cbn; lia|assumption|]. apply Hf; [assumption|lia].
  - destruct rest as [|value rest]; [discriminate|].
    cbn [monitor_index set_monitor_index] in H.
    destruct (Z.ltb_spec (atoi value) 0); [discriminate|].
    inversion HVrest; subst.
    eapply IH in H; [exact H|cbn; lia|assumption|]. apply Hmo; [assumption|lia].
  - destruct rest as [|value rest]; [discriminate|].
    inversion HVrest; subst. option_cases; try discriminate.
    + eapply IH in H; [exact H|cbn; lia|assumption|]. apply Hc; assumption.
    + eapply IH in H; [exact H|cbn; lia|assumption|]. apply Hc; assumption.
  - destruct rest as [|x [|y [|w [|h rest]]]]; try discriminate.
    cbn [region_w region_h set_region_w set_region_h] in H.
    destruct (Z.leb_spec (atoi w) 0); [discriminate|].
    destruct (Z.leb_spec (atoi h) 0); [discriminate|]. cbn [orb] in H.
    repeat match goal with
           | HF : Forall _ (_ :: _) |- _ => inversion HF; subst; clear HF
           end.
    eapply IH in H; [exact H|cbn; lia|assumption|]. apply Hr; [assumption|lia|lia].
Qed.

Lemma parse_options_return_code audio_build args :
  forall p r p', parse_options audio_build args p = inl (r, p') -> r = 1 \/ r = -1.
Proof.
  induction args as [args IH] using suffix_induction.
  intros p r p' H. destruct args as [|arg rest]; [discriminate|].
  cbn [parse_options] in H. option_cases;
    repeat match type of H with
           | context [match ?l with [] => _ | _ :: _ => _ end] => destruct l
           | context [if ?b then _ else _] => destruct b
           end;
    try (inv H; auto; fail);
    (eapply IH in H; [exact H|cbn; lia]).
Qed.

(** ** arguments.c: what a successful parse leaves *)

(** The block "if no specific modes were enabled, use defaults". *)
Definition default_sources (audio_build : bool) (p : capture_params_t)
  : capture_params_t :=
  if no_source p then
    if audio_build
    then set_enable_microphone true
           (set_enable_system_audio true (set_enable_video true p))
    else set_enable_microphone false
           (set_enable_system_audio false (set_enable_video true p))
  else p.

Lemma default_sources_has_source b p : no_source (default_sources b p) = false.
Proof.
  unfold default_sources. destruct (no_source p) eqn:H; [|exact H].
  destruct b; reflexivity.
Qed.

Lemma set_flags_same p :
  set_enable_microphone (enable_microphone p)
    (set_enable_system_audio (enable_system_audio p)
       (set_enable_video (enable_video p) p)) = p.
Proof. destruct p. reflexivity. Qed.

Definition defaults : capture_params_t :=
  {| output_filename := "capture.mp4"; fps := 30; duration := 0;
     audio_sources := AUDIO_SOURCE_NONE; force_stop := false;
     enable_video := false; enable_system_audio := false;
     enable_microphone := false; audio_only_mode := false;
     monitor_index := 0; cursor_enabled := true; region_enabled := false;
     region_x := 0; region_y := 0; region_w := 0; region_h := 0 |}.

(** After the loop: the defaults for the sources, then two validations
    (the first inside params_set_recording_mode). *)
Lemma arguments_parse_after_loop audio_build argv p0 p1 :
  parse_options audio_build (tl argv) defaults = inr p1 ->
  arguments_parse audio_build argv (Some p0) =
  ('(r, o1) <- params_validate_and_finalize audio_build
                 (Some (default_sources audio_build p1)) ;;
   if negb (r =? 0) then Ret (-1, o1) else
   '(r, o2) <- params_validate_and_finalize audio_build o1 ;;
   if negb (r =? 0) then Ret (-1, o2) else Ret (0, o2)).
Proof.
  intros Hloop. unfold arguments_parse. cbn [params_init_defaults].
  fold defaults. rewrite Hloop. fold (no_source p1).
  fold (default_sources audio_build p1).
  unfold params_set_recording_mode.
  fold (no_source (default_sources audio_build p1)).
  rewrite default_sources_has_source, set_flags_same. reflexivity.
Qed.

(** What the loop keeps. *)
Definition options_ok (audio_build : bool) (p : capture_params_t) : Prop :=
  1 <= fps p <= 120 /\ 0 <= duration p /\ 0 <= monitor_index p
  /\ (region_enabled p = true -> 0 < region_w p /\ 0 < region_h p)
  /\ force_stop p = false
  /\ (audio_build = false ->
      enable_system_audio p = false /\ enable_microphone p = false)
  /\ strlen (output_filename p) <= 259.

Lemma strlen_strncpy v n : 0 <= n -> strlen (strncpy v n) <= n.
Proof.
  intros Hn. unfold strncpy. pose proof (strlen_str_upto_le (Z.to_nat n) v). lia.
Qed.

Lemma parse_options_ok audio_build args p' :
  parse_options audio_build args defaults = inr p' -> options_ok audio_build p'.
Proof.
  intros H.
  refine (parse_options_invariant audio_build (options_ok audio_build)
            (fun _ => True) _ _ _ _ _ _ _ _ _ args defaults p' _ _ H);
    unfold options_ok;
    cbn [fps duration monitor_index region_enabled region_w region_h force_stop
         enable_system_audio enable_microphone output_filename
         set_output_filename set_duration set_enable_video set_enable_system_audio
         set_enable_microphone set_fps set_monitor_index set_cursor_enabled
         set_region_enabled set_region_h set_region_w set_region_y set_region_x];
    try (intros; intuition (try lia; try congruence); fail).
  - intros p v _ H'. pose proof (strlen_strncpy v (MAX_PATH - 1)).
    unfold MAX_PATH in *. intuition lia.
  - apply Forall_forall. intros; exact I.
  - unfold defaults; cbn. intuition (try lia; try congruence).
Qed.

(** The parameter sets that the command line hands to the recorder. *)
Definition cli_well_formed (audio_build : bool) (p : capture_params_t) : Prop :=
  1 <= fps p <= 120 /\ 0 <= duration p /\ 0 <= monitor_index p
  /\ (region_enabled p = true -> 0 < region_w p /\ 0 < region_h p)
  /\ force_stop p = false
  /\ mode_consistent p
  /\ (if audio_build then no_source p = false
      else enable_video p = true /\ enable_system_audio p = false
           /\ enable_microphone p = false /\ audio_only_mode p = false)
  /\ extension_differs (output_filename p) = false
  /\ strlen (output_filename p) <= 259.

Lemma same_capture_options_trans p q r :
  same_capture_options p q -> same_capture_options q r -> same_capture_options p r.
Proof. unfold same_capture_options. intuition congruence. Qed.

Lemma same_capture_options_set_name name p :
  same_capture_options p (set_output_filename name p).
Proof. repeat split. Qed.

Lemma default_sources_same_options b p :
  same_capture_options p (default_sources b p).
Proof. unfold default_sources. destruct (no_source p), b; repeat split. Qed.

Lemma default_sources_output_filename b p :
  output_filename (default_sources b p) = output_filename p.
Proof. unfold default_sources. destruct (no_source p), b; reflexivity. Qed.

Lemma validated_well_formed audio_build p1 name1 name2 :
  options_ok audio_build p1 ->
  (name1 = output_filename p1 \/ strlen name1 <= 259) ->
  extension_differs name2 = false ->
  (name2 = name1 \/ strlen name2 <= 259) ->
  cli_well_formed audio_build
    (set_output_filename name2
       (normalized audio_build
          (set_output_filename name1
             (normalized audio_build (default_sources audio_build p1))))).
Proof.
  intros (H1 & H2 & H3 & H4 & H5 & H6 & H7) Hn1 Hext Hn2.
  set (pd := default_sources audio_build p1).
  set (pa := set_output_filename name1 (normalized audio_build pd)).
  set (pb := normalized audio_build pa).
  pose proof (normalized_fps_range audio_build pa) as Hfps.
  pose proof (normalized_mode_consistent audio_build pa) as Hmode.
  destruct (normalized_each_flag audio_build pa) as (Hv & Hs & Hm).
  destruct (normalized_each_flag audio_build pd) as (Hdv & Hds & Hdm).
  pose proof (default_sources_has_source audio_build p1) as Hsrc.
  fold pd in Hsrc. fold pb in Hfps, Hmode, Hv, Hs, Hm.
  assert (Hsame : same_capture_options p1 pb).
  { eapply same_capture_options_trans; [apply (default_sources_same_options audio_build)|].
    eapply same_capture_options_trans; [apply (normalized_same_options audio_build)|].
    eapply same_capture_options_trans; [apply (same_capture_options_set_name name1)|].
    apply normalized_same_options. }
  assert (Hpdf : audio_build = false ->
                 enable_video pd = true /\ enable_system_audio pd = false
                 /\ enable_microphone pd = false).
  { intros ->. destruct (H6 eq_refl) as [Hs1 Hm1].
    unfold pd, default_sources, no_source. rewrite Hs1, Hm1.
    destruct (enable_video p1) eqn:Hv1; cbn; auto. }
  change (enable_video pa) with (enable_video (normalized audio_build pd)) in Hv, Hs, Hm.
  change (enable_system_audio pa)
    with (enable_system_audio (normalized audio_build pd)) in Hv, Hs, Hm.
  change (enable_microphone pa)
    with (enable_microphone (normalized audio_build pd)) in Hv, Hs, Hm.
  rewrite Hdv, Hds, Hdm in Hv, Hs, Hm. clear Hdv Hds Hdm.
  destruct Hsame as (E1 & E2 & E3 & E4 & E5 & E6 & E7 & E8 & E9).
  unfold cli_well_formed.
  cbn [fps duration monitor_index region_enabled region_w region_h force_stop
       output_filename set_output_filename enable_video enable_system_audio
       enable_microphone audio_only_mode]. fold pb.
  rewrite E1, E2, E3, E5, E8, E9.
  split; [exact Hfps|]. split; [exact H2|]. split; [exact H3|].
  split; [exact H4|]. split; [exact H5|].
  split; [destruct Hmode as [Hm1 Hm2]; split; cbn; assumption|].
  split.
  - unfold validated_flags, no_source in *.
    cbn [enable_video enable_system_audio enable_microphone set_output_filename].
    destruct audio_build.
    + destruct (enable_video pd), (enable_system_audio pd), (enable_microphone pd);
        try discriminate; cbn [fst snd negb andb] in Hv, Hs, Hm;
        rewrite Hv, Hs, Hm; reflexivity.
    + destruct (Hpdf eq_refl) as (Hv' & Hs' & Hm'). destruct Hmode as [_ Hao].
      rewrite Hv', Hs', Hm' in Hv, Hs, Hm. cbn [fst snd negb andb] in Hv, Hs, Hm.
      rewrite Hao, Hv, Hs, Hm. repeat split.
  - split; [exact Hext|].
    destruct Hn2 as [->|Hn2]; [|exact Hn2].
    destruct Hn1 as [->|Hn1]; [|exact Hn1]. exact H7.
Qed.

(** X6: every parameter set with which arguments_parse returns 0 is
    well formed: fps lies in 1..120, duration and monitor index are not
    negative, an enabled region has positive width and height, force_stop
    is clear, audio_sources and audio_only_mode agree with the enable
    flags, the file name ends in ".mp4" (in any case) and has at most 259
    characters.  In a build with audio at least one source is enabled; in
    a build without audio the recording is video only, whatever the
    options were. *)
Theorem arguments_parse_well_formed :
  forall (audio_build : bool) (argv : list string) (p0 p : capture_params_t),
    arguments_parse audio_build argv (Some p0) = Ret (0, Some p) ->
    cli_well_formed audio_build p.
Proof.
  intros audio_build argv p0 p H.
  destruct (parse_options audio_build (tl argv) defaults) as [[r p1]|p1] eqn:Hloop.
  - unfold arguments_parse in H. cbn [params_init_defaults] in H. fold defaults in H.
    rewrite Hloop in H. inv H.
    apply parse_options_return_code in Hloop. lia.
  - rewrite (arguments_parse_after_loop _ _ _ _ Hloop) in H.
    apply parse_options_ok in Hloop.
    destruct (params_validate_and_finalize audio_build
                (Some (default_sources audio_build p1))) as [[r1 o1]| |] eqn:Hv1;
      try discriminate.
    destruct (validate_result _ _ _ _ Hv1) as (-> & name1 & -> & Hext1 & Hlen1).
    cbn [bind Z.eqb negb] in H.
    match type of H with
    | context [params_validate_and_finalize _ (Some ?q)] =>
      destruct (params_validate_and_finalize audio_build (Some q)) as [[r2 o2]| |]
        eqn:Hv2; try discriminate
    end.
    destruct (validate_result _ _ _ _ Hv2) as (-> & name2 & -> & Hext2 & Hlen2).
    cbn [bind Z.eqb negb] in H. inv H.
    cbn [output_filename set_output_filename] in Hlen2.
    rewrite default_sources_output_filename in Hlen1.
    apply validated_well_formed; assumption.
Qed.

Definition demo_argv : list string :=
  ["muxsw"; "-o"; "take.avi"; "--fps"; "60"; "-s"; "-t"; "5"; "--region"; "0"; "0";
   "640"; "480"].

Definition demo_parsed : capture_params_t :=
  match arguments_parse true demo_argv (Some zero_params) with
  | Ret (_, Some p) => p
  | _ => zero_params
  end.

Lemma arguments_parse_well_formed_witness :
  arguments_parse true demo_argv (Some zero_params) = Ret (0, Some demo_parsed)
  /\ cli_well_formed true demo_parsed.
Proof.
  assert (H : arguments_parse true demo_argv (Some zero_params)
              = Ret (0, Some demo_parsed)) by (vm_compute; reflexivity).
  split; [exact H|].
  exact (arguments_parse_well_formed true demo_argv zero_params demo_parsed H).
Defined.

(** ** arguments.c: outcomes *)

Lemma parse_options_name_length audio_build args p' :
  Forall (fun a => strlen a <= 255) args ->
  parse_options audio_build args defaults = inr p' ->
  strlen (output_filename p') <= 255.
Proof.
  intros HV H.
  refine (parse_options_invariant audio_build
            (fun p => strlen (output_filename p) <= 255)
            (fun a => strlen a <= 255) _ _ _ _ _ _ _ _ _ args defaults p' HV _ H);
    cbn [output_filename set_output_filename set_duration set_enable_video
         set_enable_system_audio set_enable_microphone set_fps set_monitor_index
         set_cursor_enabled set_region_enabled set_region_h set_region_w
         set_region_y set_region_x]; auto.
  - intros p v Hv _. unfold strncpy.
    pose proof (strlen_str_upto (Z.to_nat (MAX_PATH - 1)) v). lia.
  - vm_compute. discriminate.
Qed.

(** X7: on a command line whose arguments have at most 255 characters
    each, arguments_parse has no undefined behaviour: it returns 0 with
    parameters, 1 (help was asked for) or -1 (an error). *)
Theorem arguments_parse_returns :
  forall (audio_build : bool) (argv : list string) (p0 : capture_params_t),
    Forall (fun a => strlen a <= 255) argv ->
    exists r p,
      arguments_parse audio_build argv (Some p0) = Ret (r, Some p)
      /\ (r = 0 \/ r = 1 \/ r = -1).
Proof.
  intros audio_build argv p0 HV.
  assert (HV' : Forall (fun a => strlen a <= 255) (tl argv))
    by (destruct argv; [constructor|inversion HV; assumption]).
  destruct (parse_options audio_build (tl argv) defaults) as [[r p1]|p1] eqn:Hloop.
  - exists r, p1. split.
    + unfold arguments_parse. cbn [params_init_defaults]. fold defaults.
      rewrite Hloop. reflexivity.
    + apply parse_options_return_code in Hloop. lia.
  - rewrite (arguments_parse_after_loop _ _ _ _ Hloop).
    apply parse_options_name_length in Hloop; [|exact HV'].
    rewrite <- (default_sources_output_filename audio_build) in Hloop.
    destruct (validate_returns audio_build _ (or_introl Hloop))
      as (name1 & -> & Hext1 & _).
    cbn [bind Z.eqb negb].
    match goal with
    | |- context [params_validate_and_finalize _ (Some ?q)] =>
      destruct (validate_returns audio_build q (or_intror Hext1)) as (name2 & -> & _)
    end.
    cbn [bind Z.eqb negb]. eexists _, _. split; [reflexivity|left; reflexivity].
Qed.

Lemma arguments_parse_returns_witness :
  exists r p,
    arguments_parse true demo_argv (Some zero_params) = Ret (r, Some p)
    /\ (r = 0 \/ r = 1 \/ r = -1).
Proof.
  apply (arguments_parse_returns true demo_argv zero_params).
  repeat constructor; vm_compute; discriminate.
Defined.

(** X8: when the options all parse, arguments_parse writes past the
    end of output_filename exactly when the name given last with -o lacks
    the extension ".mp4" and has 256 characters or more before its last
    '.' (strncpy has cut it to 259): the strcat that appends ".mp4" does
    not check the room left. *)
Theorem arguments_parse_overflow :
  forall (audio_build : bool) (argv : list string) (p0 p1 : capture_params_t),
    parse_options audio_build (tl argv) defaults = inr p1 ->
    (arguments_parse audio_build argv (Some p0) = Crash
     <-> extension_differs (output_filename p1) = true
         /\ 256 <= strlen (filename_stem (output_filename p1))).
Proof.
  intros audio_build argv p0 p1 Hloop.
  rewrite (arguments_parse_after_loop _ _ _ _ Hloop).
  rewrite validate_cases, adjust_filename_cases, normalized_output_filename,
    default_sources_output_filename.
  destruct (extension_differs (output_filename p1)) eqn:Hext.
  - destruct (Z.ltb_spec (strlen (filename_stem (output_filename p1))) 256).
    + cbn [bind Z.eqb negb]. rewrite validate_cases, adjust_filename_cases,
        normalized_output_filename.
      cbn [output_filename set_output_filename]. rewrite extension_differs_mp4.
      cbn [bind Z.eqb negb]. split; [discriminate|]. intros [_ H']. lia.
    + cbn [bind]. split; [intros _; split; [reflexivity|lia]|reflexivity].
  - cbn [bind Z.eqb negb]. rewrite validate_cases, adjust_filename_cases,
      normalized_output_filename, normalized_output_filename,
      default_sources_output_filename, Hext.
    cbn [bind Z.eqb negb]. split; [discriminate|]. intros [H' _]. discriminate.
Qed.

Fixpoint string_of (c : Ascii.ascii) (n : nat) : string :=
  match n with
  | O => String.EmptyString
  | S n' => String.String c (string_of c n')
  end.

Lemma arguments_parse_overflow_witness :
  arguments_parse false ["muxsw"; "-o"; string_of "a"%char 256] (Some zero_params)
  = Crash.
Proof.
  apply (proj2 (arguments_parse_overflow false
                  ["muxsw"; "-o"; string_of "a"%char 256] zero_params
                  (set_output_filename (string_of "a"%char 256) defaults)
                  ltac:(vm_compute; reflexivity))).
  split; vm_compute; [reflexivity|discriminate].
Defined.

(** X9: the options are processed from left to right, each from the
    parameters that the options before it left: when a list of arguments
    parses to its end, what follows it is parsed from the parameters it
    leaves.  So of two options that set the same field the later one
    wins. *)
Theorem parse_options_app :
  forall (audio_build : bool) (pre rest : list string) (p p' : capture_params_t),
    parse_options audio_build pre p = inr p' ->
    parse_options audio_build (pre ++ rest) p = parse_options audio_build rest p'.
Proof.
  intros audio_build pre. induction pre as [pre IH] using suffix_induction.
  intros rest p p' H. destruct pre as [|arg pre]; [inv H; reflexivity|].
  cbn [parse_options app] in *.
  option_cases; try discriminate;
    repeat match type of H with
           | context [match ?l with [] => _ | _ :: _ => _ end] =>
             destruct l; try discriminate; cbn [app]
           | context [if ?b then _ else _] => destruct b eqn:?; try discriminate
           end;
    (eapply IH in H; [exact H|cbn; lia]).
Qed.

Lemma parse_options_app_witness :
  parse_options true (["--fps"; "30"; "-v"] ++ ["--fps"; "60"]) defaults
  = parse_options true ["--fps"; "60"]
      (set_enable_video true (set_fps 30 defaults)).
Proof.
  apply (parse_options_app true ["--fps"; "30"; "-v"] ["--fps"; "60"] defaults).
  vm_compute. reflexivity.
Defined.

(** ** filename.c: time-stamped names *)

Lemma char_code_digit_char d : 0 <= d <= 9 -> char_code (digit_char d) = 48 + d.
Proof.
  intros H. unfold char_code, digit_char.
  rewrite Ascii.N_ascii_embedding by lia. lia.
Qed.

Lemma digit_char_inj a b : 0 <= a <= 9 -> 0 <= b <= 9 -> digit_char a = digit_char b -> a = b.
Proof.
  intros Ha Hb H. apply (f_equal char_code) in H.
  rewrite !char_code_digit_char in H by assumption. lia.
Qed.

Definition two_digits (n : Z) : string :=
  String.String (digit_char (n / 10))
    (String.String (digit_char (n mod 10)) String.EmptyString).

Lemma format_02d_two_digits n : 0 <= n <= 99 -> format_02d n = two_digits n.
Proof.
  intros H. unfold format_02d, two_digits.
  destruct (Z.ltb_spec n 0); [lia|].
  destruct (Z.ltb_spec n 10) as [Hlt|Hge].
  - cbn [decimal]. destruct (Z.ltb_spec n 10); [|lia].
    rewrite Z.div_small, Z.mod_small by lia. reflexivity.
  - cbn [decimal]. destruct (Z.ltb_spec n 10); [lia|].
    destruct (Z.ltb_spec (n / 10) 10) as [_|Hbig].
    + rewrite (Z.mod_small (n / 10)); [reflexivity|].
      split; [apply Z.div_pos; lia|apply Z.div_lt_upper_bound; lia].
    + exfalso. assert (n / 10 < 10) by (apply Z.div_lt_upper_bound; lia). lia.
Qed.

Lemma two_digits_inj a b :
  0 <= a <= 99 -> 0 <= b <= 99 -> two_digits a = two_digits b -> a = b.
Proof.
  intros Ha Hb H. unfold two_digits in H. inversion H as [[Ht Hu]].
  assert (0 <= a / 10 <= 9)
    by (split; [apply Z.div_pos; lia|apply Z.lt_succ_r, Z.div_lt_upper_bound; lia]).
  assert (0 <= b / 10 <= 9)
    by (split; [apply Z.div_pos; lia|apply Z.lt_succ_r, Z.div_lt_upper_bound; lia]).
  pose proof (Z.mod_pos_bound a 10 ltac:(lia)).
  pose proof (Z.mod_pos_bound b 10 ltac:(lia)).
  apply digit_char_inj in Ht; [|lia|lia]. apply digit_char_inj in Hu; [|lia|lia].
  rewrite (Z.div_mod a 10), (Z.div_mod b 10) by lia. lia.
Qed.

Lemma str_upto_all n : forall s, (String.length s <= n)%nat -> str_upto n s = s.
Proof.
  induction n as [|n IH]; intros [|c s] H; cbn in *; try reflexivity; try lia.
  rewrite IH by lia. reflexivity.
Qed.

(** A broken-down local time as [localtime_s] delivers it, from the year
    1900 on. *)
Definition valid_tm (t : tm) : Prop :=
  0 <= tm_year t /\ 0 <= tm_mon t <= 11 /\ 1 <= tm_mday t <= 31
  /\ 0 <= tm_hour t <= 23 /\ 0 <= tm_min t <= 59 /\ 0 <= tm_sec t <= 60.

Definition timestamp_name (t : tm) : string :=
  String.append (two_digits (tm_year t mod 100))
  (String.append (two_digits (tm_mon t + 1))
  (String.append (two_digits (tm_mday t))
  (String.append (two_digits (tm_hour t))
  (String.append (two_digits (tm_min t))
  (String.append (two_digits (tm_sec t)) ".mp4"))))).

Lemma generate_timestamp_name buffer size t :
  valid_tm t -> 17 <= size ->
  filename_generate_timestamp buffer size t = timestamp_name t.
Proof.
  intros (Hy & Hmo & Hd & Hh & Hmi & Hs) Hsize.
  unfold filename_generate_timestamp, snprintf, timestamp_name.
  destruct (Z.eqb_spec size 0); [lia|].
  rewrite Z.rem_mod_nonneg by lia.
  pose proof (Z.mod_pos_bound (tm_year t) 100 ltac:(lia)).
  rewrite !format_02d_two_digits by lia.
  apply str_upto_all. unfold two_digits. cbn [String.append String.length]. lia.
Qed.

Lemma timestamp_name_extension t : extension_differs (timestamp_name t) = false.
Proof.
  change (timestamp_name t)
    with (String.append
            (String.append (two_digits (tm_year t mod 100))
            (String.append (two_digits (tm_mon t + 1))
            (String.append (two_digits (tm_mday t))
            (String.append (two_digits (tm_hour t))
            (String.append (two_digits (tm_min t)) (two_digits (tm_sec t)))))))
            ".mp4").
  apply extension_differs_mp4.
Qed.

Lemma timestamp_name_inj t t' :
  valid_tm t -> valid_tm t' -> timestamp_name t' = timestamp_name t ->
  tm_year t' mod 100 = tm_year t mod 100 /\ tm_mon t' = tm_mon t
  /\ tm_mday t' = tm_mday t /\ tm_hour t' = tm_hour t
  /\ tm_min t' = tm_min t /\ tm_sec t' = tm_sec t.
Proof.
  intros (Hy & Hmo & Hd & Hh & Hmi & Hs) (Hy' & Hmo' & Hd' & Hh' & Hmi' & Hs') H.
  unfold timestamp_name, two_digits in H. cbn [String.append] in H.
  inversion H as [[Y1 Y2 M1 M2 D1 D2 H1 H2 N1 N2 S1 S2]].
  pose proof (Z.mod_pos_bound (tm_year t) 100 ltac:(lia)).
  pose proof (Z.mod_pos_bound (tm_year t') 100 ltac:(lia)).
  assert (Hmon : tm_mon t' + 1 = tm_mon t + 1)
    by (apply two_digits_inj; [lia|lia|unfold two_digits; congruence]).
  repeat split; try lia;
    (apply two_digits_inj; [lia|lia|unfold two_digits; congruence]).
Qed.

(** X10: for a valid local time and a buffer of 17 chars or more,
    filename_generate_timestamp writes the 16 characters YYMMDDHHMMSS.mp4,
    two decimal digits per field.  params_adjust_filename_extension keeps
    such a name as it is, and two times that give the same name agree on
    the year modulo 100, the month, the day, the hour, the minute and the
    second: within a century, recordings started in different seconds
    get different names. *)
Theorem filename_generate_timestamp_format :
  forall (buffer : string) (buffer_size : Z) (t : tm),
    valid_tm t -> 17 <= buffer_size ->
    let name := filename_generate_timestamp buffer buffer_size t in
    name = timestamp_name t
    /\ strlen name = 16
    /\ extension_differs name = false
    /\ forall buffer' buffer_size' t',
        valid_tm t' -> 17 <= buffer_size' ->
        filename_generate_timestamp buffer' buffer_size' t' = name ->
        tm_year t' mod 100 = tm_year t mod 100 /\ tm_mon t' = tm_mon t
        /\ tm_mday t' = tm_mday t /\ tm_hour t' = tm_hour t
        /\ tm_min t' = tm_min t /\ tm_sec t' = tm_sec t.
Proof.
  intros buffer size t Hv Hsize. cbv zeta.
  rewrite (generate_timestamp_name buffer size t Hv Hsize).
  split; [reflexivity|]. split; [reflexivity|].
  split; [apply timestamp_name_extension|].
  intros buffer' size' t' Hv' Hsize' H.
  rewrite (generate_timestamp_name buffer' size' t' Hv' Hsize') in H.
  apply timestamp_name_inj; assumption.
Qed.

Definition demo_tm : tm :=
  {| tm_sec := 7; tm_min := 30; tm_hour := 9; tm_mday := 3; tm_mon := 10;
     tm_year := 126 |}.

Lemma filename_generate_timestamp_format_witness :
  filename_generate_timestamp "" MAX_PATH demo_tm = "261103093007.mp4"
  /\ strlen (filename_generate_timestamp "" MAX_PATH demo_tm) = 16
  /\ extension_differs (filename_generate_timestamp "" MAX_PATH demo_tm) = false.
Proof.
  assert (Hv : valid_tm demo_tm) by (unfold valid_tm; cbn; lia).
  assert (Hs : 17 <= MAX_PATH) by (unfold MAX_PATH; lia).
  destruct (filename_generate_timestamp_format "" MAX_PATH demo_tm Hv Hs)
    as (Hname & Hlen & Hext & _).
  split; [rewrite Hname; reflexivity|]. split; [exact Hlen|exact Hext].
Defined.

(** ** engine.c: how engine_start returns *)

(** One step through a hypothesis: the first call, test or match of the
    function it is about. *)
Ltac step_in H :=
  match type of H with
  | bind ?m _ = _ =>
    let E := fresh "E" in
    destruct m as [?| |] eqn:E; try discriminate; cbn [bind] in H
  | (let '(_, _) := ?x in _) = _ => destruct x
  | (if ?b then _ else _) = _ =>
    let E := fresh "E" in destruct b eqn:E
  | match ?x with _ => _ end = _ =>
    let E := fresh "E" in destruct x eqn:E
  end.

Lemma start_cleanup_result p l e w r o w' :
  start_cleanup p l e w = Ret (r, o, w') ->
  r = -1 /\ o = Some (set_is_running false e).
Proof.
  intros H. unfold start_cleanup in H. repeat step_in H; inv H; auto.
Qed.

Lemma record_result p os l e w r o w' :
  record p os l e w = Ret (r, o, w') ->
  r = 0 /\ exists e', o = Some e' /\ is_running e' = false.
Proof.
  intros H. unfold record in H. cbv zeta in H.
  repeat step_in H; inv H; (split; [reflexivity|eexists; split; reflexivity]).
Qed.

(** Every return of [engine_start] on an engine that is not running: the
    code is 0 or -1 and the engine is not running afterwards. *)
Lemma engine_start_result audio_build e p os w r o w' :
  is_running e = false ->
  engine_start audio_build (Some e) (Some p) os w = Ret (r, o, w') ->
  (r = 0 \/ r = -1) /\ exists e', o = Some e' /\ is_running e' = false.
Proof.
  intros Hrun H. unfold engine_start in H. rewrite Hrun in H. cbv zeta in H.
  repeat (step_in H; try (inv H; split; [auto|eexists; split; [reflexivity|exact Hrun]]));
    try (apply start_cleanup_result in H; destruct H as [-> ->];
         split; [auto|eexists; split; reflexivity]);
    try (apply record_result in H; destruct H as (-> & e' & -> & He');
         split; [auto|eexists; split; [reflexivity|exact He']]).
Qed.

(** ** main.c: the command-line program *)

Lemma arguments_parse_codes audio_build argv p0 r o :
  arguments_parse audio_build argv (Some p0) = Ret (r, o) ->
  (r = 0 \/ r = 1 \/ r = -1) /\ exists p, o = Some p.
Proof.
  intros H.
  destruct (parse_options audio_build (tl argv) defaults) as [[r1 p1]|p1] eqn:Hloop.
  - unfold arguments_parse in H. cbn [params_init_defaults] in H. fold defaults in H.
    rewrite Hloop in H. inv H.
    apply parse_options_return_code in Hloop. split; [lia|eexists; reflexivity].
  - rewrite (arguments_parse_after_loop _ _ _ _ Hloop) in H.
    destruct (params_validate_and_finalize audio_build
                (Some (default_sources audio_build p1))) as [[r1 o1]| |] eqn:Hv1;
      try discriminate.
    destruct (validate_result _ _ _ _ Hv1) as (-> & name1 & -> & _).
    cbn [bind Z.eqb negb] in H.
    match type of H with
    | context [params_validate_and_finalize _ (Some ?q)] =>
      destruct (params_validate_and_finalize audio_build (Some q)) as [[r2 o2]| |]
        eqn:Hv2; try discriminate
    end.
    destruct (validate_result _ _ _ _ Hv2) as (-> & name2 & -> & _).
    cbn [bind Z.eqb negb] in H. inv H. split; [lia|eexists; reflexivity].
Qed.

(** Everything that [engine_cleanup] leaves behind on return. *)
Definition all_clean (e : option capture_engine_t) (w : world) : Prop :=
  e = Some zero_engine
  /\ screen_ctx w = zero_screen_capture
  /\ microphone_ctx w = zero_audio_context
  /\ system_ctx w = zero_audio_context
  /\ encoder_ctx w = zero_encoder_context
  /\ muxer_globals_reset (encoder w).

Lemma engine_cleanup_all_clean e stopped w e' w' :
  engine_cleanup (Some e) stopped w = Ret (e', w') -> all_clean e' w'.
Proof.
  intros H. unfold engine_cleanup in H.
  destruct (if is_running e
            then '(_, _, w0) <- engine_stop (Some e) stopped w ;; Ret w0
            else Ret w) as [w0| |]; try discriminate.
  cbn [bind] in H.
  destruct (w_screen_cleanup w0) as [w1| |]; try discriminate. cbn [bind] in H.
  destruct (w_microphone_cleanup w1) as [w2| |]; try discriminate. cbn [bind] in H.
  destruct (w_system_cleanup w2) as [w3| |]; try discriminate. cbn [bind] in H.
  inv H. unfold all_clean. cbn. repeat split; try reflexivity;
    apply (w_encoder_cleanup_resets w3).
Qed.

(** The engine as main.c hands it to [record_start]. *)
Definition console_engine : capture_engine_t :=
  {| params := zero_params; stats := zero_stats;
     status_callback := Some console_status_callback;
     progress_callback := Some console_progress_callback;
     is_running := false; engine_force_stop := false |}.

(** What [record_start] adds to what [engine_start] does. *)
Lemma record_start_cases audio_build e p r os w :
  record_start audio_build (Some e) (Some p) (Some r) os w =
  if co_apartment_ok os
     || match co_multithreaded os with CoFailed => false | _ => true end
  then
    '(capture_result, engine, w') <-
      engine_start audio_build (Some e) (Some p) (rec_engine os) w ;;
    let stats := match engine with Some e' => stats e' | None => zero_stats end in
    Ret (capture_result, engine,
         Some {| success := if capture_result =? 0 then 1 else 0;
                 error_message :=
                   if capture_result =? 0
                   then RecordingCompletedIn (total_frames stats)
                                             (recording_duration_ms stats)
                   else RecordingFailedDuringCapture;
                 result_stats := stats |},
         w',
         if co_apartment_ok os
            || match co_multithreaded os with CoSucceeded => true | _ => false end
         then [CoInitialized; CoUninitialize] else [])
  else
    Ret (-1, Some e,
         Some {| success := 0; error_message := FailedToInitializeCOM;
                 result_stats := zero_stats |}, w, []).
Proof.
  unfold record_start.
  destruct (co_apartment_ok os), (co_multithreaded os); cbn [negb andb orb];
    try reflexivity;
    (destruct (engine_start audio_build (Some e) (Some p) (rec_engine os) w)
       as [[[cr [e'|]] w']| |]; cbn [bind engine_get_stats]; try reflexivity;
     destruct (cr =? 0); reflexivity).
Qed.

(** [record_start] gets COM: one of its two CoInitializeEx calls succeeds
    or meets a thread that is initialized in another mode. *)
Definition com_available (os : record_os) : bool :=
  co_apartment_ok os
  || match co_multithreaded os with CoFailed => false | _ => true end.

Lemma main_cases audio_build argv os g s w :
  main audio_build argv os g s w =
  ('(parse_result, params) <- arguments_parse audio_build argv (Some zero_params) ;;
   if negb (parse_result =? 0)
   then Ret (if parse_result =? 1 then 0 else 1, g, s, w, [])
   else
     '(recording_success, engine, result, w, com) <-
       record_start audio_build (Some console_engine) params (Some zero_result)
                    (main_record os) w ;;
     '(engine, w) <- engine_cleanup engine (main_stopped os) w ;;
     Ret (if (recording_success =? 0)
             && match result with
                | Some r => negb (success r =? 0)
                | None => false
                end
          then 0 else 1,
          with_ctx g engine,
          {| g_signal_engine := false; g_shutdown_requested := false |}, w, com)).
Proof. reflexivity. Qed.

(** X11: main ends in one of two ways.  When arguments_parse does not
    return 0, main exits at once, with code 0 for help and 1 for an error,
    and has touched neither the engine, nor the signal state, nor any
    module state.  Otherwise it exits with 0 exactly when COM was
    available and engine_start returned 0, and with 1 if not; on both
    exits engine_cleanup has run, so the engine and the four contexts are
    zeroed, the muxer globals hold their initial values, the signal state
    is cleared, and record_start has matched its CoInitializeEx with a
    CoUninitialize. *)
Theorem main_exit :
  forall (audio_build : bool) (argv : list string) (os : main_os)
         (g_engine e' : capture_engine_t) (s s' : signals_state) (w w' : world)
         (code : Z) (com : list com_call),
    main audio_build argv os g_engine s w = Ret (code, e', s', w', com) ->
    exists r p,
      arguments_parse audio_build argv (Some zero_params) = Ret (r, Some p)
      /\ ((r = 1 /\ code = 0 \/ r = -1 /\ code = 1)
          /\ e' = g_engine /\ s' = s /\ w' = w /\ com = []
          \/
          r = 0
          /\ (code = 0 \/ code = 1)
          /\ (code = 0 <->
              com_available (main_record os) = true
              /\ exists e1 w1,
                  engine_start audio_build (Some console_engine) (Some p)
                    (rec_engine (main_record os)) w = Ret (0, e1, w1))
          /\ all_clean (Some e') w'
          /\ s' = {| g_signal_engine := false; g_shutdown_requested := false |}
          /\ (com = [] \/ com = [CoInitialized; CoUninitialize])).
Proof.
  intros audio_build argv os g e' s s' w w' code com H. rewrite main_cases in H.
  destruct (arguments_parse audio_build argv (Some zero_params)) as [[r o]| |] eqn:Hp;
    try discriminate.
  destruct (arguments_parse_codes _ _ _ _ _ Hp) as (Hr & p & ->).
  exists r, p. split; [reflexivity|]. cbn [bind] in H.
  destruct (Z.eqb_spec r 0) as [->|Hne]; cbn [negb] in H.
  - right. split; [reflexivity|]. rewrite record_start_cases in H.
    fold (com_available (main_record os)) in H.
    destruct (com_available (main_record os)) eqn:Hcom.
    + destruct (engine_start audio_build (Some console_engine) (Some p)
                  (rec_engine (main_record os)) w) as [[[cr e1] w1]| |] eqn:Hstart;
        try discriminate.
      cbn [bind] in H.
      destruct (engine_start_result audio_build console_engine _ _ _ _ _ _
                  eq_refl Hstart) as (Hcr & e1' & -> & _).
      destruct (engine_cleanup (Some e1') (main_stopped os) w1) as [[e2 w2]| |]
        eqn:Hclean; try discriminate.
      cbn [bind] in H. inv H.
      pose proof (engine_cleanup_all_clean _ _ _ _ _ Hclean) as Hall.
      destruct Hall as (-> & Hrest). cbn [with_ctx].
      split; [destruct (cr =? 0); cbn; auto|].
      split.
      * destruct (Z.eqb_spec cr 0) as [->|Hne]; cbn [andb negb Z.eqb success].
        -- split; [intros _; split; [reflexivity|eexists _, _; reflexivity]
                  |reflexivity].
        -- split; [discriminate|]. intros (_ & e3 & w3 & Heq). congruence.
      * split; [split; [reflexivity|exact Hrest]|].
        split; [reflexivity|].
        destruct (co_apartment_ok (main_record os)
                  || match co_multithreaded (main_record os) with
                     | CoSucceeded => true
                     | _ => false
                     end); auto.
    + cbn [bind] in H.
      destruct (engine_cleanup (Some console_engine) (main_stopped os) w)
        as [[e2 w2]| |] eqn:Hclean; try discriminate.
      cbn [bind] in H. inv H.
      pose proof (engine_cleanup_all_clean _ _ _ _ _ Hclean) as Hall.
      destruct Hall as (-> & Hrest). cbn [with_ctx].
      split; [right; reflexivity|].
      split; [split; [discriminate|intros [Hc _]; discriminate]|].
      split; [split; [reflexivity|exact Hrest]|]. split; [reflexivity|auto].
  - left. inv H. destruct (Z.eqb_spec r 1); split; auto; lia.
Qed.

Definition demo_main_os : main_os :=
  {| main_record := {| co_apartment_ok := true; co_multithreaded := CoSucceeded;
                       rec_engine := demo_engine_os [1000; 1010; 2000] |};
     main_stopped := true |}.

Definition no_signals : signals_state :=
  {| g_signal_engine := false; g_shutdown_requested := false |}.

Definition demo_main_run
  : Z * capture_engine_t * signals_state * world * list com_call :=
  match main false ["muxsw"; "-t"; "1"] demo_main_os zero_engine no_signals
             initial_world with
  | Ret x => x
  | _ => (1, zero_engine, no_signals, initial_world, [])
  end.

Lemma main_exit_witness :
  main false ["muxsw"; "-t"; "1"] demo_main_os zero_engine no_signals initial_world
  = Ret (0, zero_engine, no_signals, snd (fst demo_main_run),
         [CoInitialized; CoUninitialize])
  /\ all_clean (Some zero_engine) (snd (fst demo_main_run)).
Proof.
  assert (H : main false ["muxsw"; "-t"; "1"] demo_main_os zero_engine no_signals
                initial_world
              = Ret (0, zero_engine, no_signals, snd (fst demo_main_run),
                     [CoInitialized; CoUninitialize]))
    by (vm_compute; reflexivity).
  split; [exact H|].
  destruct (main_exit _ _ _ _ _ _ _ _ _ _ _ H) as (r & p & _ & [Hno|Hyes]).
  - destruct Hno as (_ & _ & _ & _ & Hcom). discriminate.
  - destruct Hyes as (_ & _ & _ & Hclean & _). exact Hclean.
Defined.

(** X12: when the desktop duplication cannot be created (DuplicateOutput
    fails after the D3D11 device was created), a video recording started
    from the command line ends in undefined behaviour: screen_init has
    released the device and its context but left both pointers in the
    screen context, engine_start returns -1 without cleaning up, and the
    engine_cleanup of main releases the context a second time. *)
Theorem main_releases_device_twice :
  forall (audio_build : bool) (argv : list string) (os : main_os)
         (g_engine : capture_engine_t) (s : signals_state) (w : world)
         (p : capture_params_t),
    arguments_parse audio_build argv (Some zero_params) = Ret (0, Some p) ->
    audio_only_mode p = false ->
    com_available (main_record os) = true ->
    (forall c, c <> DuplicateOutput ->
               screen_init_ok (os_screen_init (rec_engine (main_record os))) c = true) ->
    screen_init_ok (os_screen_init (rec_engine (main_record os))) DuplicateOutput = false ->
    main audio_build argv os g_engine s w = Crash.
Proof.
  intros audio_build argv os g s w p Hparse Hvideo Hcom Hok Hdup.
  rewrite main_cases, Hparse. cbn [bind Z.eqb negb].
  rewrite record_start_cases. fold (com_available (main_record os)). rewrite Hcom.
  assert (Hstart : exists w1,
             engine_start audio_build (Some console_engine) (Some p)
               (rec_engine (main_record os)) w = Ret (-1, Some (set_stats zero_stats
                 (set_engine_force_stop false (set_params p console_engine))), w1)
             /\ sc_context (screen_ctx w1) = ReleasedHandle
             /\ sc_duplication (screen_ctx w1) = NullHandle).
  { unfold engine_start. cbn [is_running console_engine]. rewrite Hvideo.
    cbn [negb]. unfold say, status.
    cbn [status_callback set_stats set_engine_force_stop set_params console_engine bind].
    unfold w_screen_init, screen_init, FAILED.
    rewrite !Hok by discriminate. rewrite Hdup. cbn [negb with_ctx Z.eqb bind].
    eexists. split; [reflexivity|]. split; reflexivity. }
  destruct Hstart as (w1 & -> & Hctx & Hdupl). cbn [bind].
  unfold engine_cleanup.
  cbn [is_running set_stats set_engine_force_stop set_params console_engine bind].
  unfold w_screen_cleanup, screen_cleanup. rewrite Hdupl, Hctx. reflexivity.
Qed.

Definition demo_no_duplication_os : main_os :=
  {| main_record :=
       {| co_apartment_ok := true; co_multithreaded := CoSucceeded;
          rec_engine :=
            {| os_screen_init :=
                 {| screen_init_ok :=
                      fun c => match c with DuplicateOutput => false | _ => true end;
                    mode_width := 2; mode_height := 2 |};
               os_microphone_init := demo_audio_init_os;
               os_system_init := demo_audio_init_os;
               os_microphone_test_start := true;
               os_microphone_test := fun _ => demo_packet_os 900;
               os_system_test_start := true;
               os_system_test := fun _ => demo_packet_os 900;
               os_microphone_start := true;
               os_system_start := true;
               os_encoder_init := always;
               os_start_tick := 1000;
               os_iterations := [];
               os_end_tick := 2001;
               os_report_tick := 2002;
               os_finalize := finalize_succeeds |} |};
     main_stopped := true |}.

Lemma main_releases_device_twice_witness :
  main false ["muxsw"; "-v"] demo_no_duplication_os zero_engine no_signals
       initial_world = Crash.
Proof.
  refine (main_releases_device_twice false ["muxsw"; "-v"] demo_no_duplication_os
            zero_engine no_signals initial_world _ _ _ _ _ _).
  - vm_compute. reflexivity.
  - reflexivity.
  - reflexivity.
  - intros c Hc. destruct c; try reflexivity. contradiction.
  - reflexivity.
Defined.

(** ** encoder.c: the four init functions *)

Definition encoder_init_variant (v : muxer_variant) (context : option encoder_context_t)
    (filename : option string)
    (width height fps sample_rate channels bits_per_sample : Z)
    (os : init_os) (g : encoder_globals)
  : Z * option encoder_context_t * encoder_globals :=
  match v with
  | VideoWithCombinedAudio =>
    encoder_init context filename width height fps sample_rate channels
                 bits_per_sample os g
  | VideoWithTwoAudioTracks =>
    encoder_init_dual_track context filename width height fps sample_rate channels
                            bits_per_sample os g
  | AudioOnlyOneTrack =>
    encoder_init_audio_only context filename sample_rate channels bits_per_sample os g
  | AudioOnlyTwoTracks =>
    encoder_init_audio_only_dual_track context filename sample_rate channels
                                       bits_per_sample os g
  end.

Definition track_calls (t : audio_track) : list init_call :=
  [ConfigureAudioOut t; AddStreamAudio t; ConfigureAudioIn t; SetInputAudio t].

(** Both output types are declared before the two input types are set. *)
Definition dual_track_calls : list init_call :=
  [ConfigureAudioOut SystemTrack; AddStreamAudio SystemTrack;
   ConfigureAudioOut MicTrack; AddStreamAudio MicTrack;
   ConfigureAudioIn SystemTrack; SetInputAudio SystemTrack;
   ConfigureAudioIn MicTrack; SetInputAudio MicTrack].

(** The calls whose failure an init function checks, in the order in
    which it makes them when none fails; [audio] says whether the audio
    parameters are all positive. *)
Definition init_calls (v : muxer_variant) (audio : bool) : list init_call :=
  [MFStartup; AllocWideFilename; MFCreateAttributes; MFCreateSinkWriterFromURL]
  ++ match v with
     | VideoWithCombinedAudio | VideoWithTwoAudioTracks =>
       [ConfigureVideoOut; AddStreamVideo; ConfigureVideoIn; SetInputVideo]
     | _ => []
     end
  ++ match v with
     | VideoWithCombinedAudio => if audio then track_calls CombinedTrack else []
     | VideoWithTwoAudioTracks =>
       if audio then dual_track_calls else []
     | AudioOnlyOneTrack => track_calls CombinedTrack
     | AudioOnlyTwoTracks => dual_track_calls
     end
  ++ [IMFSinkWriter_BeginWriting].

(** The streams of the container, in the order of their indices. *)
Definition init_streams (v : muxer_variant)
    (width height fps sample_rate channels bits_per_sample : Z) : list media_type :=
  let audio := include_audio sample_rate channels bits_per_sample in
  let source_track := AudioAAC (u32 sample_rate) (u32 channels) 16 96000 in
  match v with
  | VideoWithCombinedAudio =>
    video_type_out width height fps
    :: (if audio then [AudioAAC 44100 (u32 channels) 16 96000] else [])
  | VideoWithTwoAudioTracks =>
    video_type_out width height fps
    :: (if audio then [source_track; source_track] else [])
  | AudioOnlyOneTrack => [source_track]
  | AudioOnlyTwoTracks => [source_track; source_track]
  end.

Ltac init_cases os :=
  unfold FAILED;
  repeat match goal with
         | |- context [negb (os ?c)] =>
           let E := fresh "E" in destruct (os c) eqn:E; cbn [negb]
         end.

(** X13: each of the four init functions of the muxer succeeds as a whole
    or not at all.  It returns 0 when every call whose failure it checks
    succeeds (the calls of init_calls) and -1 as soon as one of them
    fails; the calls whose failure it only reports (the attributes of the
    writer, and MF_MT_VIDEO_NOMINAL_RANGE in encoder_init) have no part in
    the result.  After a 0 the context is recording and the sink writer
    holds the streams of the variant, in index order, and has begun
    writing.  After a -1 the context is not recording, and the global
    writer pointer is NULL if the failure came after the creation of the
    sink writer, or with it in the two audio-only functions: these exits
    go through the cleanup label.  (When the creation of the writer fails
    in the two functions with video they return at once, and the pointer
    is what MFCreateSinkWriterFromURL left.) *)
Theorem encoder_init_all_or_nothing :
  forall (v : muxer_variant) (c : encoder_context_t) (name : string)
         (width height fps sample_rate channels bits : Z)
         (os : init_os) (g : encoder_globals),
    let audio := include_audio sample_rate channels bits in
    let '(r, c', g') :=
      encoder_init_variant v (Some c) (Some name) width height fps sample_rate
                           channels bits os g in
    (r = 0 <-> forallb os (init_calls v audio) = true)
    /\ (r = 0 \/ r = -1)
    /\ (exists c1, c' = Some c1 /\ ec_is_recording c1 = (r =? 0))
    /\ (r = 0 ->
        g_sink_writer g'
        = Some {| sw_streams := init_streams v width height fps sample_rate channels bits;
                  sw_events := [BeginWriting] |})
    /\ (r = -1 ->
        os MFStartup = true -> os AllocWideFilename = true ->
        os MFCreateAttributes = true ->
        os MFCreateSinkWriterFromURL = true
        \/ v = AudioOnlyOneTrack \/ v = AudioOnlyTwoTracks ->
        g_sink_writer g' = None).
Proof.
  intros v c name width height fps sample_rate channels bits os g audio.
  subst audio. unfold init_streams, init_calls, track_calls, dual_track_calls.
  destruct v; cbn [encoder_init_variant];
    unfold encoder_init, encoder_init_dual_track, encoder_init_audio_only,
      encoder_init_audio_only_dual_track, add_dual_audio_streams, init_cleanup;
    destruct (include_audio sample_rate channels bits);
    cbn [app forallb]; init_cases os;
    cbn [add_stream new_sink_writer sw_streams sw_events length app sink_accept
         Z.of_nat andb];
    (split; [split; [intros; (reflexivity || discriminate)
                    |intros; (reflexivity || discriminate)]|]);
    (split; [auto|]);
    (split; [eexists; split; reflexivity|]);
    (split; intros; (reflexivity || discriminate || congruence)).
Qed.

(** ** encoder.c: one submission *)

(** The parts of a call that submits audio: its track, its buffer, its
    frame count and the answers of the OS. *)
Definition audio_call_parts (call : mux_call)
  : option (audio_track * option (list byte) * Z * sample_os) :=
  match call with
  | AddAudioFrame d n _ os => Some (CombinedTrack, d, n, os)
  | AddSystemAudioFrame d n _ os => Some (SystemTrack, d, n, os)
  | AddMicAudioFrame d n _ os => Some (MicTrack, d, n, os)
  | _ => None
  end.

(** The sample counter and the stream index of a track. *)
Definition track_counter (t : audio_track) (g : encoder_globals) : Z :=
  match t with
  | CombinedTrack => g_audio_sample_count g
  | SystemTrack => g_system_audio_sample_count g
  | MicTrack => g_mic_audio_sample_count g
  end.

Definition track_stream (t : audio_track) (g : encoder_globals) : Z :=
  match t with
  | CombinedTrack => g_audio_stream_index g
  | SystemTrack => g_system_audio_stream_index g
  | MicTrack => g_mic_audio_stream_index g
  end.

(** The call gets as far as the test of [IMFSample_SetSampleTime]. *)
Definition reaches_stamping (context : option encoder_context_t) (t : audio_track)
    (data : option (list byte)) (os : sample_os) (g : encoder_globals) : Prop :=
  (exists c, context = Some c /\ ec_is_recording c = true)
  /\ data <> None /\ g_sink_writer g <> None
  /\ match t with
     | CombinedTrack => g_audio_stream_index g <> u32 (-1)
     | _ => g_dual_track_mode g = true
     end
  /\ sample_buffer_ready os = true.

Lemma sink_log_write_sample i s sw g :
  sink_log (write_sample i s sw g) = sw_events sw ++ [WriteSample i s].
Proof. reflexivity. Qed.

(** The outcomes of the three audio entry points, in one statement. *)
Lemma add_audio_cases context call t d n os g r g' :
  audio_call_parts call = Some (t, d, n, os) ->
  mux_step context call g = Ret (r, g') ->
  (r = -1 /\ g' = g)
  \/ (r = 0 /\ g' = g /\ t = CombinedTrack /\ g_audio_stream_index g = u32 (-1))
  \/ (reaches_stamping context t d os g
      /\ os IMFSample_SetSampleTime = true
      /\ track_counter t g' = u64 (track_counter t g + n)
      /\ track_stream t g' = track_stream t g
      /\ ((r = -1 /\ sink_log g' = sink_log g
           /\ g_sink_writer g' = g_sink_writer g
           /\ (os IMFSample_SetSampleDuration = false
               \/ os IMFSinkWriter_WriteSample = false))
          \/ (r = 0
              /\ exists payload,
                  accepted_between g g'
                  = [WriteSample (track_stream t g)
                       {| sample_time :=
                            s64 (u64 (track_counter t g * 10000000) / 44100);
                          sample_duration := s64 (n * 10000000 / 44100);
                          sample_bytes := payload |}]))).
Proof.
  intros Hparts H. unfold reaches_stamping.
  destruct call; inv Hparts; cbn [mux_step] in H; injection H as H0;
    [unfold encoder_add_audio_frame in *
    |unfold encoder_add_system_audio_frame in *
    |unfold encoder_add_mic_audio_frame in *];
    (destruct context as [c|]; [|left; inv H0; auto]);
    (destruct d as [data|]; [|left; inv H0; auto]);
    (destruct (g_sink_writer g) as [sw|] eqn:Hsw; [|left; inv H0; auto]);
    unfold FAILED in *;
    destruct (ec_is_recording c) eqn:Hrec; cbn [negb orb] in H0;
    try (left; inv H0; auto; fail).
  - destruct (Z.eqb_spec (g_audio_stream_index g) (u32 (-1))) as [Hidx|Hidx].
    { right. left. inv H0. auto. }
    destruct (sample_buffer_ready os) eqn:Hready; cbn [negb] in H0;
      [|left; inv H0; auto].
    destruct (os IMFSample_SetSampleTime) eqn:Ht; cbn [negb] in H0;
      [|left; inv H0; auto].
    right. right.
    split; [repeat split; eauto; discriminate|]. split; [reflexivity|].
    destruct (os IMFSample_SetSampleDuration) eqn:Hd; cbn [negb] in H0.
    + destruct (os IMFSinkWriter_WriteSample) eqn:Hw; cbn [negb] in H0; inv H0.
      * split; [break_if; reflexivity|]. split; [break_if; reflexivity|].
        right. split; [reflexivity|]. eexists.
        apply (accepted_between_one g sw); [exact Hsw|].
        break_if; cbn; reflexivity.
      * split; [break_if; reflexivity|]. split; [break_if; reflexivity|].
        left. unfold sink_log. split; [reflexivity|].
        split; [break_if; cbn; rewrite Hsw; reflexivity|].
        split; [break_if; cbn; exact Hsw|auto].
    + inv H0. split; [break_if; reflexivity|]. split; [break_if; reflexivity|].
      left. unfold sink_log. split; [reflexivity|].
      split; [break_if; cbn; rewrite Hsw; reflexivity|].
      split; [break_if; cbn; exact Hsw|auto].
  - destruct (g_dual_track_mode g) eqn:Hdual; cbn [negb] in H0; [|left; inv H0; auto].
    destruct (sample_buffer_ready os) eqn:Hready; cbn [negb] in H0;
      [|left; inv H0; auto].
    destruct (os IMFSample_SetSampleTime) eqn:Ht; cbn [negb] in H0;
      [|left; inv H0; auto].
    right. right.
    split; [repeat split; eauto; discriminate|]. split; [reflexivity|].
    destruct (os IMFSample_SetSampleDuration) eqn:Hd; cbn [negb] in H0.
    + destruct (os IMFSinkWriter_WriteSample) eqn:Hw; cbn [negb] in H0; inv H0.
      * split; [reflexivity|]. split; [reflexivity|].
        right. split; [reflexivity|]. eexists.
        apply (accepted_between_one g sw); [exact Hsw|]. reflexivity.
      * split; [reflexivity|]. split; [reflexivity|].
        left. unfold sink_log. cbn. rewrite Hsw. auto.
    + inv H0. split; [reflexivity|]. split; [reflexivity|].
      left. unfold sink_log. cbn. rewrite Hsw. auto.
  - destruct (g_dual_track_mode g) eqn:Hdual; cbn [negb] in H0; [|left; inv H0; auto].
    destruct (sample_buffer_ready os) eqn:Hready; cbn [negb] in H0;
      [|left; inv H0; auto].
    destruct (os IMFSample_SetSampleTime) eqn:Ht; cbn [negb] in H0;
      [|left; inv H0; auto].
    right. right.
    split; [repeat split; eauto; discriminate|]. split; [reflexivity|].
    destruct (os IMFSample_SetSampleDuration) eqn:Hd; cbn [negb] in H0.
    + destruct (os IMFSinkWriter_WriteSample) eqn:Hw; cbn [negb] in H0; inv H0.
      * split; [reflexivity|]. split; [reflexivity|].
        right. split; [reflexivity|]. eexists.
        apply (accepted_between_one g sw); [exact Hsw|]. reflexivity.
      * split; [reflexivity|]. split; [reflexivity|].
        left. unfold sink_log. cbn. rewrite Hsw. auto.
    + inv H0. split; [reflexivity|]. split; [reflexivity|].
      left. unfold sink_log. cbn. rewrite Hsw. auto.
Qed.

Lemma add_video_frame_failure context d size ms os g g' :
  encoder_add_video_frame context d size ms os g = Ret (-1, g') -> g' = g.
Proof.
  intros H. unfold encoder_add_video_frame, c_div in H.
  destruct context as [c|]; [|inv H; reflexivity].
  destruct d as [data|]; [|inv H; reflexivity].
  destruct (g_sink_writer g) as [sw|]; [|inv H; reflexivity].
  repeat (break_if_in H; cbn [bind] in H; try discriminate); inv H; reflexivity.
Qed.

Lemma add_audio_late_failure context call t d n os g :
  audio_call_parts call = Some (t, d, n, os) ->
  reaches_stamping context t d os g ->
  os IMFSample_SetSampleTime = true ->
  os IMFSample_SetSampleDuration = false \/ os IMFSinkWriter_WriteSample = false ->
  exists g',
    mux_step context call g = Ret (-1, g')
    /\ sink_log g' = sink_log g
    /\ track_counter t g' = u64 (track_counter t g + n).
Proof.
  intros Hparts ((c & -> & Hrec) & Hd & Hsw & Hmode & Hready) Ht Hlate.
  destruct d as [data|]; [|contradiction].
  destruct (g_sink_writer g) as [sw|] eqn:Hg; [|contradiction].
  destruct call; inv Hparts; cbn [mux_step];
    [unfold encoder_add_audio_frame
    |unfold encoder_add_system_audio_frame
    |unfold encoder_add_mic_audio_frame];
    unfold FAILED; rewrite Hg, Hrec, Hready, Ht; cbn [negb orb].
  - destruct (Z.eqb_spec (g_audio_stream_index g) (u32 (-1))); [contradiction|].
    destruct (os IMFSample_SetSampleDuration) eqn:Hdur; cbn [negb].
    + destruct Hlate as [Hl|Hl]; [discriminate|]. rewrite Hl. cbn [negb].
      eexists. split; [reflexivity|]. unfold sink_log.
      split; break_if; cbn; rewrite ?Hg; reflexivity.
    + eexists. split; [reflexivity|]. unfold sink_log.
      split; break_if; cbn; rewrite ?Hg; reflexivity.
  - rewrite Hmode. cbn [negb].
    destruct (os IMFSample_SetSampleDuration) eqn:Hdur; cbn [negb].
    + destruct Hlate as [Hl|Hl]; [discriminate|]. rewrite Hl. cbn [negb].
      eexists. split; [reflexivity|]. unfold sink_log. cbn. rewrite Hg. auto.
    + eexists. split; [reflexivity|]. unfold sink_log. cbn. rewrite Hg. auto.
  - rewrite Hmode. cbn [negb].
    destruct (os IMFSample_SetSampleDuration) eqn:Hdur; cbn [negb].
    + destruct Hlate as [Hl|Hl]; [discriminate|]. rewrite Hl. cbn [negb].
      eexists. split; [reflexivity|]. unfold sink_log. cbn. rewrite Hg. auto.
    + eexists. split; [reflexivity|]. unfold sink_log. cbn. rewrite Hg. auto.
Qed.

(** X14: a submission that returns -1 has written nothing to the sink
    writer.  A failed video submission leaves every global of the muxer
    as it was, so the frame clock counts written frames only.  A failed
    audio submission does so too unless the failure is that of
    IMFSample_SetSampleDuration or IMFSinkWriter_WriteSample: the sample
    counter of the track is advanced between the time stamp and the
    duration, so in these two cases the call returns -1 with the counter
    already advanced by the frames of the buffer that was not written. *)
Theorem failed_submission_writes_nothing :
  forall (context : option encoder_context_t) (call : mux_call)
         (g : encoder_globals),
    (forall g',
        mux_step context call g = Ret (-1, g') ->
        sink_log g' = sink_log g
        /\ (is_video_call call = true -> g' = g)
        /\ forall t d n os,
            audio_call_parts call = Some (t, d, n, os) ->
            g' = g
            \/ (os IMFSample_SetSampleTime = true
                /\ (os IMFSample_SetSampleDuration = false
                    \/ os IMFSinkWriter_WriteSample = false)
                /\ track_counter t g' = u64 (track_counter t g + n)))
    /\ (forall t d n os,
           audio_call_parts call = Some (t, d, n, os) ->
           reaches_stamping context t d os g ->
           os IMFSample_SetSampleTime = true ->
           os IMFSample_SetSampleDuration = false
           \/ os IMFSinkWriter_WriteSample = false ->
           exists g',
             mux_step context call g = Ret (-1, g')
             /\ sink_log g' = sink_log g
             /\ track_counter t g' = u64 (track_counter t g + n)).
Proof.
  intros context call g. split.
  - intros g' H. destruct (audio_call_parts call) as [[[[t d] n] os]|] eqn:Hparts.
    + destruct (add_audio_cases _ _ _ _ _ _ _ _ _ Hparts H)
        as [[_ ->] | [(Hr & _) | (_ & Ht & Hcount & _ & [Hfail | (Hr & _)])]];
        try discriminate.
      * split; [reflexivity|]. split; [reflexivity|]. intros; left; reflexivity.
      * destruct Hfail as (_ & Hlog & _ & Hlate).
        split; [exact Hlog|].
        split; [destruct call; discriminate|].
        intros t' d' n' os' Heq. inv Heq. right. auto.
    + destruct call; try discriminate; cbn [mux_step] in H.
      apply add_video_frame_failure in H. subst g'.
      split; [reflexivity|]. split; [reflexivity|]. intros; discriminate.
  - intros t d n os. apply add_audio_late_failure.
Qed.

Definition demo_write_fails : sample_os :=
  fun call => match call with IMFSinkWriter_WriteSample => false | _ => true end.

Lemma failed_submission_writes_nothing_witness :
  exists g',
    mux_step (Some demo_dual_context)
      (AddSystemAudioFrame (Some demo_packet) 480 0 demo_write_fails)
      demo_dual_globals = Ret (-1, g')
    /\ sink_log g' = sink_log demo_dual_globals
    /\ g_system_audio_sample_count g' = 480.
Proof.
  refine (proj2 (failed_submission_writes_nothing (Some demo_dual_context)
                   (AddSystemAudioFrame (Some demo_packet) 480 0 demo_write_fails)
                   demo_dual_globals)
                SystemTrack (Some demo_packet) 480 demo_write_fails eq_refl _ eq_refl
                (or_intror eq_refl)).
  repeat split; try discriminate. eexists. split; reflexivity.
Defined.

(** ** encoder.c: consecutive samples of one stream *)




















(** ** encoder.c: finalization *)

(** X16: encoder_finalize on a muxer whose audio rate is not zero.
    Without a sink writer it returns 0 and only clears is_recording.
    With one, the code follows IMFSinkWriter_Finalize: success gives 0,
    clears is_recording and ends the log of the writer with Finalize;
    MF_E_SINK_NO_SAMPLES_PROCESSED also gives 0 but leaves the context as
    it was, still recording; any other failure gives -1 and leaves the
    context as it was.  In no case is the writer released or a counter
    reset: that is left to encoder_cleanup.  Once is_recording is clear,
    every submission returns -1 and changes nothing. *)
Theorem encoder_finalize_outcomes :
  forall (c : encoder_context_t) (os : finalize_os) (g : encoder_globals),
    g_audio_sample_rate g <> 0 ->
    exists r c' g',
      encoder_finalize (Some c) os g = Ret (r, Some c', g')
      /\ (g_sink_writer g = None -> r = 0 /\ c' = set_ec_is_recording false c /\ g' = g)
      /\ (g_sink_writer g <> None ->
          (0 <= finalize_hr os ->
           r = 0 /\ c' = set_ec_is_recording false c
           /\ exists log, sink_log g' = sink_log g ++ log ++ [Finalize])
          /\ (finalize_hr os < 0 ->
              c' = c
              /\ (r = if u32 (finalize_hr os) =? MF_E_SINK_NO_SAMPLES_PROCESSED
                      then 0 else -1)))
      /\ (g_sink_writer g' = None <-> g_sink_writer g = None)
      /\ g_video_frame_count g' = g_video_frame_count g
      /\ (forall t, track_counter t g' = track_counter t g)
      /\ (ec_is_recording c' = false ->
          forall call r' g'',
            mux_step (Some c') call g' = Ret (r', g'') ->
            (exists t, call = SetRecordingStartTime t) \/ (r' = -1 /\ g'' = g')).
Proof.
  intros c os g Hrate.
  assert (Hrefuse : forall c' g', ec_is_recording c' = false ->
            forall call r' g'',
              mux_step (Some c') call g' = Ret (r', g'') ->
              (exists t, call = SetRecordingStartTime t) \/ (r' = -1 /\ g'' = g')).
  { intros c' g' Hrec call r' g'' H.
    destruct call; cbn [mux_step] in H;
      [unfold encoder_add_video_frame in H
      |unfold encoder_add_audio_frame in H
      |unfold encoder_add_system_audio_frame in H
      |unfold encoder_add_mic_audio_frame in H
      |left; eexists; reflexivity];
      rewrite Hrec in H; cbn [negb orb] in H; right;
      repeat match type of H with
             | context [match ?x with _ => _ end] => destruct x
             end; inv H; auto. }
  unfold encoder_finalize, audio_eos_timestamp, c_div.
  destruct (Z.eqb_spec (g_audio_sample_rate g) 0) as [|_]; [contradiction|].
  destruct (g_sink_writer g) as [sw|] eqn:Hsw.
  - cbn [bind].
    match goal with
    | |- context [bind ?m _] =>
      assert (Hticks : exists sw', m = Ret sw'
                /\ exists log, sw_events sw' = sw_events sw ++ log)
    end.
    { unfold send_stream_tick.
      repeat match goal with
             | |- context [if ?b then _ else _] => destruct b
             end; cbn [bind];
        eexists; (split; [reflexivity|]);
        cbn [sink_accept sw_events]; rewrite <- ?app_assoc;
        try (eexists; reflexivity);
        exists []; rewrite app_nil_r; reflexivity. }
    destruct Hticks as (sw' & -> & log & Hlog). cbn [bind].
    destruct (Z.ltb_spec (finalize_hr os) 0) as [Hneg|Hpos].
    + destruct (u32 (finalize_hr os) =? MF_E_SINK_NO_SAMPLES_PROCESSED);
        eexists _, _, _; (split; [reflexivity|]);
        (split; [intros; discriminate|]);
        (split; [intros _; split; [intros; lia|intros _; split; reflexivity]|]);
        (split; [cbn; split; discriminate|]);
        (split; [reflexivity|]);
        (split; [intros []; reflexivity|]); apply Hrefuse.
    + eexists _, _, _. split; [reflexivity|].
      split; [intros; discriminate|].
      split.
      { intros _. split; [|intros; lia].
        intros _. split; [reflexivity|]. split; [reflexivity|].
        exists log. unfold sink_log. cbn. rewrite Hsw, Hlog, app_assoc. reflexivity. }
      split; [cbn; split; discriminate|].
      split; [reflexivity|].
      split; [intros []; reflexivity|]. apply Hrefuse.
  - eexists _, _, _. split; [reflexivity|].
    split; [intros _; repeat split|].
    split; [intros H; contradiction|].
    split; [rewrite Hsw; split; reflexivity|].
    split; [reflexivity|]. split; [reflexivity|]. apply Hrefuse.
Qed.

Lemma encoder_finalize_outcomes_witness :
  exists r c' g',
    encoder_finalize (Some demo_dual_context) finalize_succeeds demo_dual_globals
      = Ret (r, Some c', g')
    /\ r = 0 /\ ec_is_recording c' = false
    /\ sink_log g' = [BeginWriting; Flush; Finalize].
Proof.
  destruct (encoder_finalize_outcomes demo_dual_context finalize_succeeds
              demo_dual_globals ltac:(vm_compute; discriminate))
    as (r & c' & g' & Hcall & _ & Hsink & _).
  exists r, c', g'. split; [exact Hcall|].
  destruct (proj1 (Hsink ltac:(vm_compute; discriminate)) ltac:(vm_compute; discriminate))
    as (-> & -> & _).
  split; [reflexivity|]. split; [reflexivity|].
  vm_compute in Hcall. inv Hcall. reflexivity.
Defined.

(** ** system.c, microphone.c: the life of an audio context *)

(** Every call of the init sequence succeeds. *)
Definition audio_init_succeeds (os : audio_init_os) : Prop :=
  forall call, audio_init_ok os call = true.

(** The context that a successful init leaves. *)
Definition initialized_audio_context (os : audio_init_os) : audio_context_t :=
  {| enumerator := LiveHandle; device := LiveHandle; audio_client := LiveHandle;
     capture_client := LiveHandle; wave_format := (LiveHandle, mix_format os);
     buffer_frame_count := buffer_size os; is_capturing := false;
     using_silent_buffer := false |}.

(** No field of the context refers to an object that the process still
    owns. *)
Definition holds_nothing (c : audio_context_t) : Prop :=
  enumerator c <> LiveHandle /\ device c <> LiveHandle
  /\ audio_client c <> LiveHandle /\ capture_client c <> LiveHandle
  /\ fst (wave_format c) <> LiveHandle.

Lemma FAILED_false {C} (ok : C -> bool) (call : C) : FAILED ok call = false -> ok call = true.
Proof. unfold FAILED. destruct (ok call); [reflexivity|discriminate]. Qed.

Lemma FAILED_true {C} (ok : C -> bool) (call : C) : FAILED ok call = true -> ok call = false.
Proof. unfold FAILED. destruct (ok call); [discriminate|reflexivity]. Qed.

(** One case per place where [audio_init] returns. *)
Ltac audio_init_cases os :=
  unfold audio_init;
  destruct (FAILED (audio_init_ok os) CoInitializeEx) eqn:H1;
  [|destruct (FAILED (audio_init_ok os) CoCreateInstance) eqn:H2;
    [|destruct (FAILED (audio_init_ok os) GetDefaultAudioEndpoint) eqn:H3;
      [|destruct (FAILED (audio_init_ok os) IMMDevice_Activate) eqn:H4;
        [|destruct (FAILED (audio_init_ok os) IAudioClient_GetMixFormat) eqn:H5;
          [|destruct (FAILED (audio_init_ok os) IAudioClient_Initialize) eqn:H6;
            [|destruct (FAILED (audio_init_ok os) IAudioClient_GetBufferSize) eqn:H7;
              [|destruct (FAILED (audio_init_ok os) IAudioClient_GetService) eqn:H8]]]]]]].

(** X17.  [system_init] and [microphone_init] (the same text on the same
    fields) return 0 exactly when every call of the sequence succeeds, and
    then every pointer of the context is valid, the mix format and the
    buffer size are those the audio client reported, and the context is
    not capturing.  Otherwise they return -1, the capture client is NULL,
    the context is not capturing, and every object obtained on the way
    has been released. *)
Theorem audio_init_all_or_nothing (c : audio_context_t) (os : audio_init_os) :
  exists r c',
    system_init (Some c) os = (r, Some c')
    /\ microphone_init (Some c) os = (r, Some c')
    /\ (r = 0 \/ r = -1)
    /\ (r = 0 <-> audio_init_succeeds os)
    /\ (r = 0 -> c' = initialized_audio_context os)
    /\ (r = -1 -> holds_nothing c' /\ capture_client c' = NullHandle
                  /\ is_capturing c' = false).
Proof.
  unfold system_init, microphone_init, audio_init_succeeds.
  audio_init_cases os;
    (eexists _, _; split; [reflexivity|]; split; [reflexivity|]);
    (split; [auto|]);
    try (split;
         [split; [discriminate|];
          let H := fresh in intros H;
          match goal with
          | F : FAILED _ ?call = true |- _ =>
            apply FAILED_true in F; rewrite (H call) in F; discriminate
          end
         |split; [discriminate|];
          intros _; unfold holds_nothing; cbn;
          repeat split; try discriminate; reflexivity]).
  split; [|split; [reflexivity|discriminate]].
  split; [|reflexivity]. intros _ call.
  destruct call; apply FAILED_false; assumption.
Qed.

Lemma release_if_set_returns_or_crashes h :
  release_if_set h = Ret tt \/ release_if_set h = Crash.
Proof. destruct h; cbn; auto. Qed.

Lemma screen_cleanup_not_pending c : screen_cleanup c <> Pending.
Proof.
  destruct c as [c|]; [|discriminate]. unfold screen_cleanup.
  destruct (release_if_set_returns_or_crashes (sc_duplication c)) as [-> | ->];
    [|discriminate].
  destruct (release_if_set_returns_or_crashes (sc_context c)) as [-> | ->];
    [|discriminate].
  destruct (release_if_set_returns_or_crashes (sc_device c)) as [-> | ->];
    discriminate.
Qed.

Lemma audio_cleanup_not_pending c : audio_cleanup c <> Pending.
Proof.
  destruct c as [c|]; [|discriminate]. unfold audio_cleanup.
  destruct (release_if_set_returns_or_crashes (capture_client c)) as [-> | ->];
    [|discriminate].
  destruct (release_if_set_returns_or_crashes (audio_client c)) as [-> | ->];
    [|discriminate].
  destruct (release_if_set_returns_or_crashes (fst (wave_format c))) as [-> | ->];
    [|discriminate].
  destruct (release_if_set_returns_or_crashes (device c)) as [-> | ->];
    [|discriminate].
  destruct (release_if_set_returns_or_crashes (enumerator c)) as [-> | ->];
    discriminate.
Qed.

Lemma w_screen_cleanup_not_pending w : w_screen_cleanup w <> Pending.
Proof.
  unfold w_screen_cleanup.
  destruct (screen_cleanup (Some (screen_ctx w))) eqn:H; cbn [bind]; try discriminate.
  exfalso. exact (screen_cleanup_not_pending _ H).
Qed.

Lemma w_microphone_cleanup_not_pending w : w_microphone_cleanup w <> Pending.
Proof.
  unfold w_microphone_cleanup, microphone_cleanup.
  destruct (audio_cleanup (Some (microphone_ctx w))) eqn:H; cbn [bind]; try discriminate.
  exfalso. exact (audio_cleanup_not_pending _ H).
Qed.

Lemma w_screen_cleanup_keeps_audio w w' :
  w_screen_cleanup w = Ret w' ->
  microphone_ctx w' = microphone_ctx w /\ system_ctx w' = system_ctx w.
Proof.
  unfold w_screen_cleanup. intros H.
  destruct (screen_cleanup (Some (screen_ctx w))); try discriminate.
  cbn [bind] in H. inv H. split; reflexivity.
Qed.

Lemma w_microphone_cleanup_keeps_system w w' :
  w_microphone_cleanup w = Ret w' -> system_ctx w' = system_ctx w.
Proof.
  unfold w_microphone_cleanup. intros H.
  destruct (microphone_cleanup (Some (microphone_ctx w))); try discriminate.
  cbn [bind] in H. inv H. reflexivity.
Qed.

Lemma w_microphone_cleanup_crash w :
  audio_cleanup (Some (microphone_ctx w)) = Crash -> w_microphone_cleanup w = Crash.
Proof.
  intros H. unfold w_microphone_cleanup, microphone_cleanup. rewrite H. reflexivity.
Qed.

Lemma w_system_cleanup_crash w :
  audio_cleanup (Some (system_ctx w)) = Crash -> w_system_cleanup w = Crash.
Proof.
  intros H. unfold w_system_cleanup, system_cleanup. rewrite H. reflexivity.
Qed.

(** X18.  When one of the init functions fails after the device
    enumerator was created, the context keeps the pointer of the released
    enumerator, so that the cleanup function of that source releases it a
    second time; [engine_cleanup], which calls the cleanup of every source
    whatever its init returned, does so for the static context of either
    source. *)
Theorem audio_cleanup_after_failed_init (c c' : audio_context_t) (os : audio_init_os) :
  audio_init (Some c) os = (-1, Some c') ->
  audio_init_ok os CoInitializeEx = true ->
  audio_init_ok os CoCreateInstance = true ->
  enumerator c' = ReleasedHandle
  /\ system_cleanup (Some c') = Crash
  /\ microphone_cleanup (Some c') = Crash
  /\ forall e stopped w,
       microphone_ctx w = c' \/ system_ctx w = c' ->
       engine_cleanup (Some e) stopped w = Crash.
Proof.
  intros H Hco Hcreate.
  assert (Hc : enumerator c' = ReleasedHandle /\ audio_cleanup (Some c') = Crash).
  { revert H. audio_init_cases os; intros H; inv H;
      try (apply FAILED_true in H1; congruence);
      try (apply FAILED_true in H2; congruence);
      split; reflexivity. }
  destruct Hc as [Henum Hcrash].
  split; [exact Henum|]. split; [exact Hcrash|]. split; [exact Hcrash|].
  intros e stopped w Hw. unfold engine_cleanup.
  destruct (if is_running e
            then '(_, _, w0) <- engine_stop (Some e) stopped w ;; Ret w0
            else Ret w) as [w0| |] eqn:Hstop; cbn [bind]; [|reflexivity|].
  - assert (Hkeep : microphone_ctx w0 = microphone_ctx w /\ system_ctx w0 = system_ctx w).
    { destruct (is_running e) eqn:Hrun.
      - unfold engine_stop in Hstop. rewrite Hrun in Hstop. cbn [negb] in Hstop.
        unfold say, status in Hstop.
        destruct (status_callback (set_engine_force_stop true e)); [|discriminate].
        cbn [bind] in Hstop. destruct stopped; cbn [bind] in Hstop; inv Hstop;
          split; reflexivity.
      - inv Hstop. split; reflexivity. }
    destruct Hkeep as [Hmic Hsys].
    destruct (w_screen_cleanup w0) as [w1| |] eqn:Hscreen; cbn [bind];
      [|reflexivity|exfalso; exact (w_screen_cleanup_not_pending _ Hscreen)].
    destruct (w_screen_cleanup_keeps_audio _ _ Hscreen) as [Hmic1 Hsys1].
    destruct Hw as [Hw | Hw].
    + rewrite w_microphone_cleanup_crash; [reflexivity|].
      rewrite Hmic1, Hmic, Hw. exact Hcrash.
    + destruct (w_microphone_cleanup w1) as [w2| |] eqn:Hmc; cbn [bind];
        [|reflexivity|exfalso; exact (w_microphone_cleanup_not_pending _ Hmc)].
      rewrite w_system_cleanup_crash; [reflexivity|].
      rewrite (w_microphone_cleanup_keeps_system _ _ Hmc), Hsys1, Hsys, Hw.
      exact Hcrash.
  - exfalso. destruct (is_running e) eqn:Hrun; [|discriminate].
    unfold engine_stop in Hstop. rewrite Hrun in Hstop. cbn [negb] in Hstop.
    unfold say, status in Hstop.
    destruct (status_callback (set_engine_force_stop true e)); [|discriminate].
    cbn [bind] in Hstop. destruct stopped; cbn [bind] in Hstop; discriminate.
Qed.

(** A machine without a capture endpoint: the enumerator is created and
    GetDefaultAudioEndpoint fails. *)
Definition demo_no_endpoint_os : audio_init_os :=
  {| audio_init_ok := fun call =>
       match call with GetDefaultAudioEndpoint => false | _ => true end;
     mix_format := zero_wave_format; buffer_size := 0 |}.

Definition demo_no_endpoint_context : audio_context_t :=
  {| enumerator := ReleasedHandle; device := NullHandle; audio_client := NullHandle;
     capture_client := NullHandle; wave_format := (NullHandle, zero_wave_format);
     buffer_frame_count := 0; is_capturing := false; using_silent_buffer := false |}.

Lemma audio_cleanup_after_failed_init_witness :
  microphone_cleanup (Some demo_no_endpoint_context) = Crash.
Proof.
  apply (audio_cleanup_after_failed_init zero_audio_context demo_no_endpoint_context
           demo_no_endpoint_os); reflexivity.
Defined.

(** The context is the one [memset] leaves. *)
Lemma audio_cleanup_result c o :
  audio_cleanup (Some c) = Ret o -> o = Some zero_audio_context.
Proof.
  unfold audio_cleanup. intros H.
  repeat (step_in H). inv H. reflexivity.
Qed.

(** X19.  When the cleanup of an audio source returns, the context is all
    zero; on it a second cleanup returns without releasing anything, start
    is refused with -1, stop does nothing, get_buffer is refused with -1,
    a NULL buffer and zero frames, whatever the audio client would answer
    and without touching the silence state, and release_buffer makes no
    call. *)
Theorem audio_cleanup_idempotent (c : audio_context_t) (o : option audio_context_t) :
  audio_cleanup (Some c) = Ret o ->
  o = Some zero_audio_context
  /\ system_cleanup o = Ret o
  /\ microphone_cleanup o = Ret o
  /\ (forall start_ok, audio_start_capture o start_ok = Ret (-1, o))
  /\ audio_stop_capture o = Ret o
  /\ (forall data n os st,
        system_get_buffer o data n os st = Ret (-1, NullData, 0, o, st))
  /\ (forall data n os st,
        microphone_get_buffer o data n os st = Ret (-1, NullData, 0, o, st))
  /\ (forall n, audio_release_buffer o n = Ret []).
Proof.
  intros H. apply audio_cleanup_result in H. subst o.
  repeat split; reflexivity.
Qed.

Lemma audio_cleanup_idempotent_witness :
  system_cleanup (Some zero_audio_context) = Ret (Some zero_audio_context)
  /\ audio_release_buffer (Some zero_audio_context) 480 = Ret [].
Proof.
  destruct (audio_cleanup_idempotent (initialized_audio_context demo_no_endpoint_os)
              (Some zero_audio_context) eq_refl)
    as (_ & H1 & _ & _ & _ & _ & _ & H2).
  split; [exact H1|exact (H2 480)].
Defined.

(** ** system.c, microphone.c: packets of the audio client *)

(** X20.  While a source is capturing and the audio client reports a
    packet, [system_get_buffer] and [microphone_get_buffer] return 0 with
    the frame count that GetBuffer stored and the packet itself, except
    that a packet flagged AUDCLNT_BUFFERFLAGS_SILENT has its first
    frames * nBlockAlign bytes set to zero; the silence state is not
    touched, and the release function then hands exactly that packet back
    with one ReleaseBuffer call. *)
Theorem get_buffer_real_packet (c : audio_context_t) (wf : WAVEFORMATEX)
    (os : get_buffer_os) (data : audio_ptr) (nf n frames flags : Z) (bytes : list byte)
    (sst : system_statics) (mst : microphone_statics) :
  capturing c wf ->
  next_packet_size os = Some n -> n <> 0 ->
  next_packet os = Some (bytes, frames, flags) ->
  let delivered :=
    if Z.testbit flags 1 then memset_zero bytes (u32 (frames * nBlockAlign wf))
    else bytes in
  let c' := set_using_silent_buffer false c in
  system_get_buffer (Some c) data nf os sst
  = Ret (0, PacketData delivered, frames, Some c', sst)
  /\ microphone_get_buffer (Some c) data nf os mst
     = Ret (0, PacketData delivered, frames, Some c', mst)
  /\ system_release_buffer (Some c') frames
     = Ret [IAudioCaptureClient_ReleaseBuffer frames]
  /\ microphone_release_buffer (Some c') frames
     = Ret [IAudioCaptureClient_ReleaseBuffer frames].
Proof.
  intros (Hcc & Hcap & Hwf) Hsize Hn Hpacket delivered c'.
  assert (Hflag : (Z.land flags AUDCLNT_BUFFERFLAGS_SILENT =? 0) = negb (Z.testbit flags 1)).
  { unfold AUDCLNT_BUFFERFLAGS_SILENT.
    destruct (Z.testbit flags 1) eqn:Hbit; cbn [negb].
    - apply Z.eqb_neq. intros Hz.
      assert (Hb : Z.testbit (Z.land flags 2) 1 = true).
      { rewrite Z.land_spec, Hbit. reflexivity. }
      rewrite Hz in Hb. discriminate.
    - apply Z.eqb_eq. apply Z.bits_inj'. intros k Hk.
      rewrite Z.land_spec, Z.bits_0.
      destruct (Z.eq_dec k 1) as [->|Hk1].
      + rewrite Hbit. reflexivity.
      + replace (Z.testbit 2 k) with false; [apply andb_false_r|].
        symmetry. change 2 with (2 ^ 1). apply Z.pow2_bits_false. lia. }
  assert (Hget : get_packet c data n os = Ret (0, PacketData delivered, frames, c')).
  { unfold get_packet. rewrite Hpacket, Hflag. subst delivered.
    destruct (Z.testbit flags 1); cbn [negb]; [|reflexivity].
    unfold read_wave_format. cbn [wave_format set_using_silent_buffer].
    rewrite Hwf. reflexivity. }
  assert (Hne : (n =? 0) = false) by (apply Z.eqb_neq; exact Hn).
  repeat split.
  - unfold system_get_buffer. rewrite Hcc, Hcap, Hsize, Hne.
    cbn [non_null negb orb use_handle bind]. rewrite Hget. reflexivity.
  - unfold microphone_get_buffer. rewrite Hcc, Hcap, Hsize, Hne.
    cbn [non_null negb orb use_handle bind]. rewrite Hget. reflexivity.
  - unfold system_release_buffer, audio_release_buffer. subst c'.
    cbn [capture_client using_silent_buffer set_using_silent_buffer].
    rewrite Hcc. reflexivity.
  - unfold microphone_release_buffer, audio_release_buffer. subst c'.
    cbn [capture_client using_silent_buffer set_using_silent_buffer].
    rewrite Hcc. reflexivity.
Qed.

(** A packet of two stereo 16-bit frames that the client flags as silent. *)
Definition demo_silent_packet_os : get_buffer_os :=
  {| next_packet_size := Some 2; tick_count := 1000; malloc_ok := true;
     next_packet := Some (repeat Byte.x7f 8, 2, 2) |}.

Definition demo_pcm_format : WAVEFORMATEX :=
  {| nChannels := 2; nSamplesPerSec := 48000; nBlockAlign := 4; wBitsPerSample := 16 |}.

Definition demo_pcm_context : audio_context_t :=
  {| enumerator := LiveHandle; device := LiveHandle; audio_client := LiveHandle;
     capture_client := LiveHandle; wave_format := (LiveHandle, demo_pcm_format);
     buffer_frame_count := 2400; is_capturing := true; using_silent_buffer := true |}.

Lemma get_buffer_real_packet_witness :
  system_get_buffer (Some demo_pcm_context) NullData 0 demo_silent_packet_os
                    initial_system_statics
  = Ret (0, PacketData (repeat Byte.x00 8), 2,
         Some (set_using_silent_buffer false demo_pcm_context), initial_system_statics).
Proof.
  refine (proj1 (get_buffer_real_packet demo_pcm_context demo_pcm_format
                   demo_silent_packet_os NullData 0 2 2 2 (repeat Byte.x7f 8)
                   initial_system_statics initial_microphone_statics _ eq_refl _
                   eq_refl)).
  - repeat split; reflexivity.
  - discriminate.
Defined.

(** ** system.c, microphone.c: the silence buffer after a failed malloc *)

(** The silence state after a growth of the buffer failed: the buffer is
    NULL and the recorded size is still that of the block that was
    freed. *)
Definition stale_size (buf : option (list byte)) (size : Z) : Prop :=
  buf = None /\ 0 < size.

(** X21.  When the silence buffer has to grow and malloc fails,
    [system_get_buffer] returns -1 with the buffer pointer NULL but leaves
    [silent_buffer_size] at the size of the block it freed.  If that size
    is not zero, the next idle call that needs no more bytes than it (and
    at least one) skips the allocation and writes its zeros through the
    NULL pointer. *)
Theorem silence_after_failed_malloc (c : audio_context_t) (wf : WAVEFORMATEX)
    (os os2 : get_buffer_os) (st : system_statics) (data : audio_ptr) (nf : Z) :
  capturing c wf ->
  0 <= nSamplesPerSec wf /\ nSamplesPerSec wf * 50 < 2 ^ 32 ->
  0 <= sy_total_generated_samples st < 2 ^ 64 ->
  sy_recording_start_time st <> 0 ->
  next_packet_size os = Some 0 -> next_packet_size os2 = Some 0 ->
  malloc_ok os = false ->
  let due t := nSamplesPerSec wf * u32 (t - sy_recording_start_time st) / 1000 in
  let chunk t := Z.min (due t - sy_total_generated_samples st)
                       (nSamplesPerSec wf * 50 / 1000) in
  sy_total_generated_samples st < due (tick_count os) ->
  sy_total_generated_samples st < due (tick_count os2) ->
  0 < sy_silent_buffer_size st < u32 (chunk (tick_count os) * nBlockAlign wf) ->
  0 < u32 (chunk (tick_count os2) * nBlockAlign wf) <= sy_silent_buffer_size st ->
  exists st1,
    system_get_buffer (Some c) data nf os st = Ret (-1, NullData, 0, Some c, st1)
    /\ stale_size (sy_silent_buffer st1) (sy_silent_buffer_size st1)
    /\ sy_total_generated_samples st1 = sy_total_generated_samples st
    /\ system_get_buffer (Some c) NullData 0 os2 st1 = Crash.
Proof.
  intros (Hcc & Hcap & Hwf) Hrate Htotal Hstart Hsize Hsize2 Hmalloc due chunk
         Hdue Hdue2 Hgrow Hfit.
  assert (Hs : (sy_recording_start_time st =? 0) = false) by (apply Z.eqb_neq; exact Hstart).
  assert (Hchunk : 0 <= nSamplesPerSec wf * 50 / 1000 < 2 ^ 32).
  { split; [apply Z.div_pos; lia|]. apply Z.div_lt_upper_bound; lia. }
  assert (Hexp : forall t,
             u64 (nSamplesPerSec wf * u32 (t - sy_recording_start_time st)) / 1000 = due t
             /\ 0 <= due t < 2 ^ 64).
  { intros t. pose proof (u32_range (t - sy_recording_start_time st)) as He.
    assert (Hp : 0 <= nSamplesPerSec wf * u32 (t - sy_recording_start_time st) < 2 ^ 64)
      by nia.
    rewrite u64_small by exact Hp. split; [reflexivity|]. subst due. cbv beta.
    split; [apply Z.div_pos; lia|]. apply Z.div_lt_upper_bound; lia. }
  assert (Hframes : forall t, sy_total_generated_samples st < due t ->
             u32 (if nSamplesPerSec wf * 50 / 1000
                     <? u64 (due t - sy_total_generated_samples st)
                  then nSamplesPerSec wf * 50 / 1000
                  else u64 (due t - sy_total_generated_samples st)) = chunk t).
  { intros t Ht. destruct (Hexp t) as [_ Hr].
    rewrite (u64_small (due t - sy_total_generated_samples st)) by lia.
    subst chunk. cbv beta.
    destruct (Z.ltb_spec (nSamplesPerSec wf * 50 / 1000)
                         (due t - sy_total_generated_samples st));
      [rewrite Z.min_r by lia|rewrite Z.min_l by lia]; apply u32_small; lia. }
  eexists. split; [|split; [|split]].
  - unfold system_get_buffer, read_wave_format.
    rewrite Hcc, Hcap, Hsize, Hwf, Hs.
    cbn [non_null negb orb use_handle bind fst snd Z.eqb].
    rewrite (proj1 (Hexp (tick_count os))).
    rewrite (proj2 (Z.leb_gt _ _) Hdue).
    rewrite (u32_small (nSamplesPerSec wf * 50)) by lia.
    rewrite (Hframes _ Hdue).
    unfold grow_silent_buffer. rewrite Hmalloc.
    rewrite (proj2 (Z.ltb_lt _ _) (proj2 Hgrow)). reflexivity.
  - cbn. split; [reflexivity|lia].
  - reflexivity.
  - unfold system_get_buffer, read_wave_format.
    cbn [sy_recording_start_time sy_total_generated_samples sy_silent_buffer
         sy_silent_buffer_size sy_silent_call_count sy_last_silent_generation].
    rewrite Hcc, Hcap, Hsize2, Hwf, Hs.
    cbn [non_null negb orb use_handle bind fst snd Z.eqb].
    rewrite (proj1 (Hexp (tick_count os2))).
    rewrite (proj2 (Z.leb_gt _ _) Hdue2).
    rewrite (u32_small (nSamplesPerSec wf * 50)) by lia.
    rewrite (Hframes _ Hdue2).
    unfold grow_silent_buffer.
    rewrite (proj2 (Z.ltb_ge _ _) (proj2 Hfit)).
    unfold fill_silent_buffer.
    rewrite (proj2 (Z.eqb_neq _ _)) by lia. reflexivity.
Qed.

(** The loopback source at 48 kHz with 4-byte frames, 40 frames (160
    bytes) of silence generated so far; 50 ms later 2400 frames are due
    and malloc fails, and one millisecond after the total was due only 8
    frames are. *)
Definition demo_small_buffer_statics : system_statics :=
  {| sy_silent_buffer := Some (repeat Byte.x00 160); sy_silent_buffer_size := 160;
     sy_silent_call_count := 1; sy_recording_start_time := 1000;
     sy_total_generated_samples := 40; sy_last_silent_generation := 1000 |}.

Definition demo_no_memory_os : get_buffer_os :=
  {| next_packet_size := Some 0; tick_count := 1100; malloc_ok := false;
     next_packet := None |}.

Definition demo_next_idle_os : get_buffer_os :=
  {| next_packet_size := Some 0; tick_count := 1001; malloc_ok := true;
     next_packet := None |}.

Lemma silence_after_failed_malloc_witness :
  exists st1,
    system_get_buffer (Some demo_pcm_context) NullData 0 demo_no_memory_os
                      demo_small_buffer_statics
    = Ret (-1, NullData, 0, Some demo_pcm_context, st1)
    /\ stale_size (sy_silent_buffer st1) (sy_silent_buffer_size st1)
    /\ sy_total_generated_samples st1 = 40
    /\ system_get_buffer (Some demo_pcm_context) NullData 0 demo_next_idle_os st1
       = Crash.
Proof.
  apply (silence_after_failed_malloc demo_pcm_context demo_pcm_format
           demo_no_memory_os demo_next_idle_os demo_small_buffer_statics NullData 0);
    try reflexivity; try discriminate; vm_compute; intuition congruence.
Defined.

(** ** screen.c: init, and the cached frame *)

(** Every call of [screen_init] succeeds. *)
Definition screen_init_succeeds (os : screen_init_os) : Prop :=
  forall call, screen_init_ok os call = true.

(** The context that a successful [screen_init] leaves. *)
Definition initialized_screen (os : screen_init_os) : screen_capture_t :=
  {| sc_device := LiveHandle; sc_context := LiveHandle; sc_duplication := LiveHandle;
     sc_width := mode_width os; sc_height := mode_height os; sc_is_capturing := false;
     sc_cached_frame := None; sc_cached_frame_size := 0;
     sc_has_cached_frame := false |}.

(** X22.  [screen_init] returns 0 exactly when each of its six calls
    succeeds; the context then holds the device, its context and the
    duplication, the size of the desktop mode, no cached frame, and is not
    capturing, so that a frame request before [screen_start_capture] is
    refused with -1.  Otherwise it returns -1 with the duplication pointer
    NULL, and both [screen_start_capture] and a frame request on that
    context are refused with -1 and leave it and the output arguments as
    they are. *)
Theorem screen_init_all_or_nothing (c : screen_capture_t) (os : screen_init_os) :
  exists r c',
    screen_init (Some c) os = (r, Some c')
    /\ (r = 0 \/ r = -1)
    /\ (r = 0 <-> screen_init_succeeds os)
    /\ (r = 0 -> c' = initialized_screen os)
    /\ (r = -1 -> sc_duplication c' = NullHandle
                  /\ screen_start_capture (Some c') = (-1, Some c'))
    /\ forall data size dual fos,
         screen_get_frame_dual_track (Some c') data size dual fos
         = Ret (-1, data, size, Some c').
Proof.
  unfold screen_init, screen_init_succeeds.
  destruct (FAILED (screen_init_ok os) CreateDXGIFactory1) eqn:H1;
  [|destruct (FAILED (screen_init_ok os) EnumAdapters1) eqn:H2;
    [|destruct (FAILED (screen_init_ok os) EnumOutputs) eqn:H3;
      [|destruct (FAILED (screen_init_ok os) QueryOutput1) eqn:H4;
        [|destruct (FAILED (screen_init_ok os) D3D11CreateDevice) eqn:H5;
          [|destruct (FAILED (screen_init_ok os) DuplicateOutput) eqn:H6]]]]];
    (eexists _, _; split; [reflexivity|]; split; [auto|]);
    try (split;
         [split; [discriminate|];
          let H := fresh in intros H;
          match goal with
          | F : FAILED _ ?call = true |- _ =>
            apply FAILED_true in F; rewrite (H call) in F; discriminate
          end
         |split; [discriminate|]; split; [intros _; split; reflexivity|reflexivity]]).
  split; [|split; [reflexivity|split; [discriminate|reflexivity]]].
  split; [|reflexivity]. intros _ call.
  destruct call; apply FAILED_false; assumption.
Qed.

Lemma memcpy_at_length dst off data dst' :
  memcpy_at dst off data = Ret dst' -> length dst' = length dst.
Proof.
  unfold memcpy_at. intros H.
  destruct (Nat.leb_spec (Z.to_nat off + length data) (length dst)); [|discriminate].
  inv H. rewrite !length_app, length_firstn, length_skipn. lia.
Qed.

Lemma copy_rows_length src_row width pitch src n : forall y dst dst',
  copy_rows src_row width pitch src n y dst = Ret dst' -> length dst' = length dst.
Proof.
  induction n as [|n IH]; intros y dst dst' H; cbn [copy_rows] in H.
  - inv H. reflexivity.
  - destruct (memcpy_at dst (u32 (y * width * 4))
                (read_bytes src (u32 (src_row y * pitch)) (u32 (width * 4))))
      as [dst1| |] eqn:Hcopy; try discriminate.
    cbn [bind] in H. apply IH in H. apply memcpy_at_length in Hcopy. congruence.
Qed.

(** What a call that acquired a frame and returned it leaves behind. *)
Lemma acquired_frame_state c os dual d0 n0 frame size c1 :
  acquire os = FrameAcquired ->
  screen_get_frame_dual_track (Some c) d0 n0 dual os
  = Ret (0, Some frame, size, Some c1) ->
  length frame = Z.to_nat size
  /\ sc_duplication c1 = LiveHandle /\ sc_is_capturing c1 = true
  /\ c1 = if size <=? MAX_CACHE_SIZE then
            if cache_malloc_ok os then set_sc_cache (Some frame) size true c
            else set_sc_cache None (sc_cached_frame_size c) (sc_has_cached_frame c) c
          else set_sc_cache None (sc_cached_frame_size c) false c.
Proof.
  intros Hacq H. unfold screen_get_frame_dual_track in H. rewrite Hacq in H.
  destruct (sc_duplication c) eqn:Hdup; cbn [non_null negb orb use_handle bind] in H;
    try discriminate; [|destruct (sc_is_capturing c); discriminate].
  destruct (sc_is_capturing c) eqn:Hcap; cbn [negb] in H; [|discriminate].
  destruct (query_texture_ok os); cbn [negb] in H; [|discriminate].
  destruct (use_handle (sc_device c)); cbn [bind] in H; try discriminate.
  destruct (create_staging_ok os); cbn [negb] in H; [|discriminate].
  destruct (use_handle (sc_context c)); cbn [bind] in H; try discriminate.
  destruct (map_ok os); cbn [negb] in H; [|discriminate].
  destruct (frame_malloc_ok os); cbn [negb] in H; [|discriminate].
  match type of H with
  | bind ?m _ = _ => destruct m as [dst| |] eqn:Hrows; try discriminate
  end.
  cbn [bind] in H.
  assert (Hlen : length dst
                 = Z.to_nat (u32 (texture_width os * texture_height os * 4))).
  { destruct dual; apply copy_rows_length in Hrows; rewrite Hrows;
      apply repeat_length. }
  injection H as Hframe Hsize Hc1. subst dst size.
  split; [exact Hlen|]. rewrite <- Hc1.
  repeat split;
    repeat break_if; cbn [sc_duplication sc_is_capturing set_sc_cache]; assumption.
Qed.

(** X23.  After a call that acquired a frame and returned it, a call in
    which AcquireNextFrame times out delivers a fresh copy of exactly
    that frame, with its size and whatever row order it was stored in,
    provided the frame was at most 32 MB, the cache block could be
    allocated and the copy can be; when only the copy cannot be allocated
    it returns 1 with a NULL frame and the cached size.  A frame larger
    than 32 MB, or one for which the cache block could not be allocated,
    is not kept: the timeout then returns 1 and leaves the output
    arguments as they are. *)
Theorem cached_frame_round_trip (c c1 : screen_capture_t) (os os2 : frame_os)
    (dual dual2 : bool) (d0 d : option (list byte)) (n0 n size : Z) (frame : list byte) :
  acquire os = FrameAcquired ->
  screen_get_frame_dual_track (Some c) d0 n0 dual os
  = Ret (0, Some frame, size, Some c1) ->
  acquire os2 = DXGI_ERROR_WAIT_TIMEOUT ->
  screen_get_frame_dual_track (Some c1) d n dual2 os2
  = if (size <=? MAX_CACHE_SIZE) && cache_malloc_ok os
    then if cached_copy_malloc_ok os2
         then Ret (0, Some frame, size, Some c1)
         else Ret (1, None, size, Some c1)
    else Ret (1, d, n, Some c1).
Proof.
  intros Hacq H Htimeout.
  destruct (acquired_frame_state _ _ _ _ _ _ _ _ Hacq H) as (Hlen & Hdup & Hcap & Hc1).
  unfold screen_get_frame_dual_track. rewrite Hdup, Hcap, Htimeout.
  cbn [non_null negb orb use_handle bind].
  destruct (size <=? MAX_CACHE_SIZE); cbn [andb].
  - destruct (cache_malloc_ok os).
    + assert (Hh : sc_has_cached_frame c1 = true) by (rewrite Hc1; reflexivity).
      assert (Hf : sc_cached_frame c1 = Some frame) by (rewrite Hc1; reflexivity).
      assert (Hs : sc_cached_frame_size c1 = size) by (rewrite Hc1; reflexivity).
      rewrite Hh, Hf, Hs. unfold copy_payload. rewrite <- Hlen, firstn_all.
      reflexivity.
    + assert (Hf : sc_cached_frame c1 = None) by (rewrite Hc1; reflexivity).
      rewrite Hf. destruct (sc_has_cached_frame c1); reflexivity.
  - assert (Hf : sc_cached_frame c1 = None) by (rewrite Hc1; reflexivity).
    rewrite Hf. destruct (sc_has_cached_frame c1); reflexivity.
Qed.

(** The 2x2 desktop of [demo_frame_os], then a poll with nothing new. *)
Definition demo_flipped_frame : list byte :=
  repeat Byte.x02 8 ++ repeat Byte.x01 8.

Definition demo_cached_screen : screen_capture_t :=
  set_sc_cache (Some demo_flipped_frame) 16 true demo_screen.

Definition demo_no_new_frame_os : frame_os :=
  {| acquire := DXGI_ERROR_WAIT_TIMEOUT; cached_copy_malloc_ok := true;
     query_texture_ok := true; texture_width := 2; texture_height := 2;
     create_staging_ok := true; map_ok := true; row_pitch := 16;
     mapped_data := fun _ => Byte.x00; frame_malloc_ok := true;
     cache_malloc_ok := true |}.

Lemma cached_frame_round_trip_witness :
  screen_get_frame_dual_track (Some demo_cached_screen) None 0 true demo_no_new_frame_os
  = Ret (0, Some demo_flipped_frame, 16, Some demo_cached_screen).
Proof.
  exact (cached_frame_round_trip demo_screen demo_cached_screen demo_frame_os
           demo_no_new_frame_os false true None None 0 0 16 demo_flipped_frame
           eq_refl eq_refl eq_refl).
Defined.

(** ** engine.c: the capture loop *)

(** The call returns or runs into undefined behaviour; it does not wait
    for more of the trace. *)
Definition finishes {A} (m : run A) : Prop := m <> Pending.

Lemma finishes_Ret {A} (a : A) : finishes (Ret a).
Proof. discriminate. Qed.

Lemma finishes_Crash {A} : finishes (@Crash A).
Proof. discriminate. Qed.

Lemma finishes_bind {A B} (m : run A) (k : A -> run B) :
  finishes m -> (forall a, finishes (k a)) -> finishes (bind m k).
Proof.
  intros Hm Hk. destruct m; cbn [bind]; [apply Hk|discriminate|].
  exfalso. apply Hm. reflexivity.
Qed.

Create HintDb finishes.
#[local] Hint Resolve finishes_Ret finishes_Crash : finishes.

(** One step into a term built from calls, tests and matches. *)
Ltac finishes_step :=
  match goal with
  | |- finishes (Ret _) => apply finishes_Ret
  | |- finishes Crash => apply finishes_Crash
  | |- finishes _ => solve [auto with finishes]
  | |- finishes (bind _ _) => apply finishes_bind; [|intros]
  | |- finishes (if ?b then _ else _) => destruct b
  | |- finishes (match ?x with _ => _ end) => destruct x
  end.

Lemma finishes_use_handle h : finishes (use_handle h).
Proof. destruct h; discriminate. Qed.

Lemma finishes_read_wave_format c : finishes (read_wave_format c).
Proof. unfold read_wave_format. destruct (fst (wave_format c)); discriminate. Qed.

Lemma finishes_c_div a b : finishes (c_div a b).
Proof. unfold c_div. destruct (b =? 0); discriminate. Qed.

Lemma finishes_status e m w : finishes (status e m w).
Proof. unfold status. destruct (status_callback e); discriminate. Qed.

Lemma finishes_say e text w : finishes (say e text w).
Proof. apply finishes_status. Qed.

Lemma finishes_progress e n ms w : finishes (progress e n ms w).
Proof. unfold progress. destruct (progress_callback e); discriminate. Qed.

Lemma finishes_memcpy_at dst off data : finishes (memcpy_at dst off data).
Proof. unfold memcpy_at. break_if; discriminate. Qed.

#[local] Hint Resolve finishes_use_handle finishes_read_wave_format finishes_c_div
  finishes_status finishes_say finishes_progress finishes_memcpy_at : finishes.

Lemma finishes_copy_rows src_row width pitch src n : forall y dst,
  finishes (copy_rows src_row width pitch src n y dst).
Proof.
  induction n as [|n IH]; intros y dst; cbn [copy_rows]; repeat finishes_step.
Qed.

#[local] Hint Resolve finishes_copy_rows : finishes.

Lemma finishes_screen_get_frame_dual_track c d n dual os :
  finishes (screen_get_frame_dual_track c d n dual os).
Proof. unfold screen_get_frame_dual_track. repeat finishes_step. Qed.

#[local] Hint Resolve finishes_screen_get_frame_dual_track : finishes.

Lemma finishes_w_screen_get_frame_dual_track d n dual os w :
  finishes (w_screen_get_frame_dual_track d n dual os w).
Proof. unfold w_screen_get_frame_dual_track. repeat finishes_step. Qed.

Lemma finishes_encoder_add_video_frame c d n ms os g :
  finishes (encoder_add_video_frame c d n ms os g).
Proof. unfold encoder_add_video_frame. repeat finishes_step. Qed.

#[local] Hint Resolve finishes_w_screen_get_frame_dual_track
  finishes_encoder_add_video_frame : finishes.

Lemma finishes_w_encoder_add_video_frame d n ms os w :
  finishes (w_encoder_add_video_frame d n ms os w).
Proof. unfold w_encoder_add_video_frame. repeat finishes_step. Qed.

Lemma finishes_fill_silent_buffer buf n : finishes (fill_silent_buffer buf n).
Proof. unfold fill_silent_buffer. repeat finishes_step. Qed.

Lemma finishes_get_packet c d n os : finishes (get_packet c d n os).
Proof. unfold get_packet. repeat finishes_step. Qed.

#[local] Hint Resolve finishes_w_encoder_add_video_frame finishes_fill_silent_buffer
  finishes_get_packet : finishes.

Lemma finishes_system_get_buffer c d n os st :
  finishes (system_get_buffer c d n os st).
Proof. unfold system_get_buffer, grow_silent_buffer. repeat finishes_step. Qed.

Lemma finishes_microphone_get_buffer c d n os st :
  finishes (microphone_get_buffer c d n os st).
Proof. unfold microphone_get_buffer, grow_silent_buffer. repeat finishes_step. Qed.

Lemma finishes_audio_release_buffer c n : finishes (audio_release_buffer c n).
Proof. unfold audio_release_buffer. repeat finishes_step. Qed.

#[local] Hint Resolve finishes_system_get_buffer finishes_microphone_get_buffer
  finishes_audio_release_buffer : finishes.

Lemma finishes_w_system_get_buffer d n os w : finishes (w_system_get_buffer d n os w).
Proof. unfold w_system_get_buffer. repeat finishes_step. Qed.

Lemma finishes_w_microphone_get_buffer d n os w :
  finishes (w_microphone_get_buffer d n os w).
Proof. unfold w_microphone_get_buffer. repeat finishes_step. Qed.

Lemma finishes_w_system_release_buffer n w : finishes (w_system_release_buffer n w).
Proof.
  unfold w_system_release_buffer, system_release_buffer. repeat finishes_step.
Qed.

Lemma finishes_w_microphone_release_buffer n w :
  finishes (w_microphone_release_buffer n w).
Proof.
  unfold w_microphone_release_buffer, microphone_release_buffer. repeat finishes_step.
Qed.

#[local] Hint Resolve finishes_w_system_get_buffer finishes_w_microphone_get_buffer
  finishes_w_system_release_buffer finishes_w_microphone_release_buffer : finishes.

Lemma finishes_capture_video p start interval now it e w ls :
  finishes (capture_video p start interval now it e w ls).
Proof. unfold capture_video. repeat finishes_step. Qed.

Lemma finishes_poll_audio l ms it w : finishes (poll_audio l ms it w).
Proof. unfold poll_audio. repeat finishes_step. Qed.

#[local] Hint Resolve finishes_capture_video finishes_poll_audio : finishes.

Lemma finishes_capture_iteration p l start interval it e w ls :
  finishes (capture_iteration p l start interval it e w ls).
Proof. unfold capture_iteration. cbv zeta. repeat finishes_step. Qed.

(** The loop as a function of its first iteration. *)
Lemma capture_loop_cons p l start interval it its e w ls :
  capture_loop p l start interval (it :: its) e w ls =
  if negb (is_running e) || engine_force_stop e || force_stop p then Ret (e, w, ls) else
  if it_engine_stop it then Ret (set_engine_force_stop true e, w, ls) else
  '(go, w, ls) <- capture_iteration p l start interval it e w ls ;;
  if go then capture_loop p l start interval its e w ls else Ret (e, w, ls).
Proof. reflexivity. Qed.

(** Once an iteration is bound to break, the iterations after it are not
    run.  [Inv] is kept by every iteration before it that continues. *)
Lemma capture_loop_cut (Inv : loop_state -> Prop) (Good : iteration_os -> Prop)
    p l start interval it :
  (forall it1 e w ls w' ls',
      Good it1 -> Inv ls ->
      capture_iteration p l start interval it1 e w ls = Ret (true, w', ls') ->
      Inv ls') ->
  (forall e w ls w' ls',
      Inv ls -> capture_iteration p l start interval it e w ls <> Ret (true, w', ls')) ->
  forall its1, Forall Good its1 -> forall its2 e w ls, Inv ls ->
    capture_loop p l start interval (its1 ++ it :: its2) e w ls
    = capture_loop p l start interval (its1 ++ [it]) e w ls
    /\ finishes (capture_loop p l start interval (its1 ++ [it]) e w ls).
Proof.
  intros Hkeep Hbreak its1 Hgood.
  induction Hgood as [|it1 its1 Hit1 _ IH]; intros its2 e w ls Hinv;
    cbn [app]; rewrite !capture_loop_cons.
  - destruct (negb (is_running e) || engine_force_stop e || force_stop p);
      [split; [reflexivity|discriminate]|].
    destruct (it_engine_stop it); [split; [reflexivity|discriminate]|].
    pose proof (finishes_capture_iteration p l start interval it e w ls) as Hfin.
    destruct (capture_iteration p l start interval it e w ls)
      as [[[go w1] ls1]| |] eqn:Hit; cbn [bind].
    + destruct go; [exfalso; exact (Hbreak _ _ _ _ _ Hinv Hit)|].
      split; [reflexivity|discriminate].
    + split; [reflexivity|discriminate].
    + exfalso. apply Hfin. reflexivity.
  - destruct (negb (is_running e) || engine_force_stop e || force_stop p);
      [split; [reflexivity|discriminate]|].
    destruct (it_engine_stop it1); [split; [reflexivity|discriminate]|].
    pose proof (finishes_capture_iteration p l start interval it1 e w ls) as Hfin.
    destruct (capture_iteration p l start interval it1 e w ls)
      as [[[go w1] ls1]| |] eqn:Hit; cbn [bind].
    + destruct go; [|split; [reflexivity|discriminate]].
      apply IH. exact (Hkeep _ _ _ _ _ _ Hit1 Hinv Hit).
    + split; [reflexivity|discriminate].
    + exfalso. apply Hfin. reflexivity.
Qed.

(** What the video slot does to the locals of the loop. *)
Lemma capture_video_locals p start interval now it e w ls w' ls' :
  capture_video p start interval now it e w ls = Ret (w', ls') ->
  consecutive_audio_failures ls' = consecutive_audio_failures ls
  /\ next_emergency_check ls' = next_emergency_check ls
  /\ loop_iterations ls' = loop_iterations ls
  /\ slept ls' = slept ls
  /\ (ls' = ls
      \/ next_frame_time ls <= now
         /\ next_frame_time ls' = u32 (next_frame_time ls + interval)
         /\ frame_count ls' + failed_frame_attempts ls'
            = frame_count ls + failed_frame_attempts ls + 1
         /\ frame_count ls <= frame_count ls'
         /\ failed_frame_attempts ls <= failed_frame_attempts ls').
Proof.
  intros H. unfold capture_video in H.
  destruct (negb (audio_only_mode p)); cbn [andb] in H;
    [|inv H; repeat split; auto].
  destruct (Z.leb_spec (next_frame_time ls) now) as [Hdue|_];
    [|inv H; repeat split; auto].
  match type of H with
  | bind ?m _ = _ => destruct m as [[[[r fd] fs] w1]| |]; try discriminate
  end.
  cbn [bind] in H.
  destruct fd as [data|];
    [destruct (r =? 0);
     [match type of H with
      | context [w_encoder_add_video_frame ?a ?b ?c ?d ?f] =>
        destruct (w_encoder_add_video_frame a b c d f) as [[ret w2]| |];
          try discriminate
      end;
      cbn [bind] in H;
      match type of H with
      | context [progress ?a ?b ?c ?d] =>
        destruct (progress a b c d) as [w3| |]; try discriminate
      end|]|];
    cbn [bind] in H; inv H; cbn; repeat split; right; repeat split;
    try assumption; lia.
Qed.

(** The test at the top of an iteration: the emergency check and the
    duration limit. *)
Definition loop_gate (p : capture_params_t) (start_time : Z) (it : iteration_os)
    (ls : loop_state) : bool * loop_state :=
  let current_time := it_tick it in
  let ls := set_loop_iterations (loop_iterations ls + 1) ls in
  if next_emergency_check ls <=? current_time then
    if MAX_LOOP_ITERATIONS_PER_SECOND <? loop_iterations ls then (false, ls)
    else
      let ls := set_next_emergency_check (u32 (current_time + 1000))
                  (set_loop_iterations 0 ls) in
      if (duration p =? 0) && (60 * 1000 <? u32 (current_time - start_time))
      then (false, ls)
      else (negb ((0 <? duration p)
                  && (u32 (duration p * 1000) <=? u32 (current_time - start_time))), ls)
  else (negb ((0 <? duration p)
              && (u32 (duration p * 1000) <=? u32 (current_time - start_time))), ls).

Lemma say_encoder e text w w' : say e text w = Ret w' -> encoder w' = encoder w.
Proof.
  unfold say, status. destruct (status_callback e); [|discriminate].
  intros H. inv H. reflexivity.
Qed.

(** Two states of the locals that differ at most in the audio failure
    count and in the record of the sleeps. *)
Definition same_pacing (a b : loop_state) : Prop :=
  next_frame_time a = next_frame_time b
  /\ frame_count a = frame_count b
  /\ failed_frame_attempts a = failed_frame_attempts b
  /\ next_emergency_check a = next_emergency_check b
  /\ loop_iterations a = loop_iterations b.

(** An iteration that returns either stopped at the gate, with the locals
    the gate left, or ran the video slot on them; the audio poll and the
    sleep that follow write none of the pacing locals. *)
Lemma capture_iteration_cases p l start interval it e w ls go w' ls' :
  capture_iteration p l start interval it e w ls = Ret (go, w', ls') ->
  exists ls1,
    (loop_gate p start it ls = (false, ls1) /\ go = false /\ ls' = ls1
     /\ encoder w' = encoder w)
    \/ (loop_gate p start it ls = (true, ls1)
        /\ exists w1 ls2,
             capture_video p start interval (it_tick it) it e w ls1 = Ret (w1, ls2)
             /\ same_pacing ls' ls2).
Proof.
  intros H. unfold capture_iteration in H. cbv zeta in H.
  unfold loop_gate. cbv zeta.
  destruct (next_emergency_check (set_loop_iterations (loop_iterations ls + 1) ls)
            <=? it_tick it);
    [destruct (MAX_LOOP_ITERATIONS_PER_SECOND
               <? loop_iterations (set_loop_iterations (loop_iterations ls + 1) ls));
      [|destruct ((duration p =? 0) && (60 * 1000 <? u32 (it_tick it - start)))]|].
  1, 2: match type of H with
        | context [say ?a ?b ?c] =>
          destruct (say a b c) eqn:Hsay; try discriminate
        end; cbn [bind negb] in H; inv H; eexists; left; repeat split;
        exact (say_encoder _ _ _ _ Hsay).
  all: cbn [bind negb] in H;
    destruct ((0 <? duration p)
              && (u32 (duration p * 1000) <=? u32 (it_tick it - start)));
    cbn [negb]; [inv H; eexists; left; repeat split|];
    eexists; right; (split; [reflexivity|]);
    match type of H with
    | context [capture_video ?a ?b ?c ?d ?f ?g ?h ?i] =>
      destruct (capture_video a b c d f g h i) as [[w1 ls2]| |]; try discriminate
    end;
    cbn [bind] in H; exists w1, ls2; (split; [reflexivity|]);
    destruct (audio_available l);
    [match type of H with
     | context [poll_audio ?a ?b ?c ?d] =>
       destruct (poll_audio a b c d) as [[ok w2]| |]; try discriminate
     end;
     cbn [bind] in H; destruct ok;
     [|match type of H with
       | context [if ?b then _ else _] => destruct b
       end;
       [match type of H with
        | context [say ?a ?b ?c] => destruct (say a b c); try discriminate
        end|]]
    |];
    cbn [bind negb] in H; inv H; repeat split.
Qed.

(** The gate writes only the iteration counter and the time of the next
    emergency check. *)
Lemma loop_gate_pacing p start it ls pass ls1 :
  loop_gate p start it ls = (pass, ls1) ->
  next_frame_time ls1 = next_frame_time ls
  /\ frame_count ls1 = frame_count ls
  /\ failed_frame_attempts ls1 = failed_frame_attempts ls.
Proof.
  unfold loop_gate. cbv zeta. intros H.
  repeat break_if_in H; inv H; repeat split.
Qed.

(** At or after its duration a timed recording does not pass the gate. *)
Lemma loop_gate_duration p start it ls :
  0 < duration p -> duration p * 1000 < 2 ^ 31 ->
  0 <= start <= it_tick it -> it_tick it < 2 ^ 32 ->
  duration p * 1000 <= it_tick it - start ->
  fst (loop_gate p start it ls) = false.
Proof.
  intros Hd Hmax Hstart Htick Hlimit. unfold loop_gate. cbv zeta.
  assert (Hcond : (0 <? duration p)
                  && (u32 (duration p * 1000) <=? u32 (it_tick it - start)) = true).
  { rewrite !u32_small by lia. apply andb_true_intro.
    split; [apply Z.ltb_lt|apply Z.leb_le]; lia. }
  rewrite Hcond. repeat break_if; reflexivity.
Qed.

(** The time of the next emergency check while no limit was given: at
    most 61 s after the start. *)
Lemma loop_gate_check p start it ls ls1 :
  duration p = 0 -> 0 <= start ->
  start <= it_tick it < 2 ^ 32 - 1000 ->
  next_emergency_check ls <= start + 61000 ->
  loop_gate p start it ls = (true, ls1) ->
  next_emergency_check ls1 <= start + 61000.
Proof.
  intros Hd Hstart Htick Hinv. unfold loop_gate. cbv zeta. rewrite Hd.
  cbn [Z.eqb Z.ltb Z.compare andb negb].
  rewrite (u32_small (it_tick it - start)) by lia.
  rewrite (u32_small (it_tick it + 1000)) by lia.
  destruct (next_emergency_check (set_loop_iterations (loop_iterations ls + 1) ls)
            <=? it_tick it).
  - destruct (MAX_LOOP_ITERATIONS_PER_SECOND
              <? loop_iterations (set_loop_iterations (loop_iterations ls + 1) ls));
      [discriminate|].
    destruct (Z.ltb_spec (60 * 1000) (it_tick it - start)) as [Hlate|Hearly];
      [discriminate|].
    intros Hg. inv Hg. cbn. lia.
  - intros Hg. inv Hg. exact Hinv.
Qed.

(** More than 61 s after the start, a recording without limit does not
    pass the gate. *)
Lemma loop_gate_minute p start it ls :
  duration p = 0 -> 0 <= start ->
  start + 61000 <= it_tick it < 2 ^ 32 ->
  next_emergency_check ls <= start + 61000 ->
  fst (loop_gate p start it ls) = false.
Proof.
  intros Hd Hstart Htick Hinv. unfold loop_gate. cbv zeta. rewrite Hd.
  cbn [Z.eqb Z.ltb Z.compare andb negb].
  rewrite (u32_small (it_tick it - start)) by lia.
  cbn [next_emergency_check set_loop_iterations].
  destruct (Z.leb_spec (next_emergency_check ls) (it_tick it)) as [Hdue|Hnot]; [|lia].
  break_if; [reflexivity|].
  destruct (Z.ltb_spec (60 * 1000) (it_tick it - start)) as [Hlate|Hearly];
    [reflexivity|lia].
Qed.

(** An iteration that does not pass the gate breaks the loop and leaves
    the counters and the muxer as they are. *)
Lemma capture_iteration_stopped p l start interval it e w ls go w' ls' :
  fst (loop_gate p start it ls) = false ->
  capture_iteration p l start interval it e w ls = Ret (go, w', ls') ->
  go = false /\ encoder w' = encoder w
  /\ frame_count ls' = frame_count ls
  /\ failed_frame_attempts ls' = failed_frame_attempts ls.
Proof.
  intros Hgate H.
  destruct (capture_iteration_cases _ _ _ _ _ _ _ _ _ _ _ H)
    as (ls1 & [(Hg & -> & -> & Hw) | (Hg & _)]).
  - destruct (loop_gate_pacing _ _ _ _ _ _ Hg) as (_ & Hf & Hff). auto.
  - rewrite Hg in Hgate. discriminate.
Qed.

Lemma Forall_True {A} (l : list A) : Forall (fun _ => True) l.
Proof. induction l; constructor; auto. Qed.

(** X24.  A recording with a duration limit (of less than 2^31 ms, so
    that duration * 1000 does not overflow) ends at the first iteration
    whose GetTickCount is at least duration * 1000 ms after the start:
    that iteration captures no frame, polls no audio and hands nothing to
    the muxer, and no later iteration runs. *)
Theorem timed_recording_ends_at_duration (p : capture_params_t) (l : start_locals)
    (start interval : Z) (its1 its2 : list iteration_os) (it : iteration_os)
    (e : capture_engine_t) (w : world) (ls : loop_state) :
  0 < duration p -> duration p * 1000 < 2 ^ 31 ->
  0 <= start <= it_tick it -> it_tick it < 2 ^ 32 ->
  duration p * 1000 <= it_tick it - start ->
  capture_loop p l start interval (its1 ++ it :: its2) e w ls
  = capture_loop p l start interval (its1 ++ [it]) e w ls
  /\ finishes (capture_loop p l start interval (its1 ++ [it]) e w ls)
  /\ forall e1 w1 ls1 go w' ls',
       capture_iteration p l start interval it e1 w1 ls1 = Ret (go, w', ls') ->
       go = false /\ encoder w' = encoder w1
       /\ frame_count ls' = frame_count ls1
       /\ failed_frame_attempts ls' = failed_frame_attempts ls1.
Proof.
  intros Hd Hmax Hstart Htick Hlimit.
  assert (Hstop : forall e1 w1 ls1 go w' ls',
             capture_iteration p l start interval it e1 w1 ls1 = Ret (go, w', ls') ->
             go = false /\ encoder w' = encoder w1
             /\ frame_count ls' = frame_count ls1
             /\ failed_frame_attempts ls' = failed_frame_attempts ls1).
  { intros e1 w1 ls1 go w' ls'. apply capture_iteration_stopped.
    apply loop_gate_duration; assumption. }
  destruct (capture_loop_cut (fun _ => True) (fun _ => True) p l start interval it)
    with (its1 := its1) (its2 := its2) (e := e) (w := w) (ls := ls) as [Hcut Hfin];
    auto using Forall_True.
  intros e1 w1 ls1 w' ls' _ H. apply Hstop in H. destruct H as [H _]. discriminate.
Qed.

(** One second of recording at 30 frames per second: the tick 2000 is
    1000 ms after the start. *)
Definition demo_running_engine : capture_engine_t := set_is_running true demo_engine.

Definition demo_first_locals : loop_state :=
  {| next_frame_time := 1000; frame_count := 0; failed_frame_attempts := 0;
     consecutive_audio_failures := 0; next_emergency_check := 2000;
     loop_iterations := 0; slept := [] |}.

Lemma timed_recording_ends_at_duration_witness :
  capture_loop (demo_params true false false)
    (declare_locals false (demo_params true false false)) 1000 33
    ([demo_iteration 1000] ++ demo_iteration 2000 :: [demo_iteration 2010])
    demo_running_engine demo_capturing_world demo_first_locals
  = capture_loop (demo_params true false false)
      (declare_locals false (demo_params true false false)) 1000 33
      ([demo_iteration 1000] ++ [demo_iteration 2000])
      demo_running_engine demo_capturing_world demo_first_locals.
Proof.
  apply (timed_recording_ends_at_duration (demo_params true false false)
           (declare_locals false (demo_params true false false)) 1000 33
           [demo_iteration 1000] [demo_iteration 2010] (demo_iteration 2000)
           demo_running_engine demo_capturing_world demo_first_locals);
    simpl; lia.
Defined.

(** X25.  A recording without a duration limit (duration 0, the default
    of the command line) is cut off about a minute after it started:
    when the ticks stay clear of the wrap of GetTickCount, the first
    iteration that starts 61 s or more after the start breaks the loop at
    the emergency check, with no frame captured, no audio polled and
    nothing handed to the muxer, and no later iteration runs. *)
Theorem unlimited_recording_ends_after_a_minute (p : capture_params_t)
    (l : start_locals) (start interval : Z) (its1 its2 : list iteration_os)
    (it : iteration_os) (e : capture_engine_t) (w : world) (ls : loop_state) :
  duration p = 0 -> 0 <= start ->
  Forall (fun it1 => start <= it_tick it1 < 2 ^ 32 - 1000) its1 ->
  start + 61000 <= it_tick it < 2 ^ 32 ->
  next_emergency_check ls <= start + 61000 ->
  capture_loop p l start interval (its1 ++ it :: its2) e w ls
  = capture_loop p l start interval (its1 ++ [it]) e w ls
  /\ finishes (capture_loop p l start interval (its1 ++ [it]) e w ls)
  /\ forall e1 w1 ls1 go w' ls',
       next_emergency_check ls1 <= start + 61000 ->
       capture_iteration p l start interval it e1 w1 ls1 = Ret (go, w', ls') ->
       go = false /\ encoder w' = encoder w1
       /\ frame_count ls' = frame_count ls1
       /\ failed_frame_attempts ls' = failed_frame_attempts ls1.
Proof.
  intros Hd Hstart Hgood Htick Hinv.
  assert (Hstop : forall e1 w1 ls1 go w' ls',
             next_emergency_check ls1 <= start + 61000 ->
             capture_iteration p l start interval it e1 w1 ls1 = Ret (go, w', ls') ->
             go = false /\ encoder w' = encoder w1
             /\ frame_count ls' = frame_count ls1
             /\ failed_frame_attempts ls' = failed_frame_attempts ls1).
  { intros e1 w1 ls1 go w' ls' Hls1. apply capture_iteration_stopped.
    apply loop_gate_minute; assumption. }
  destruct (capture_loop_cut (fun ls0 => next_emergency_check ls0 <= start + 61000)
              (fun it1 => start <= it_tick it1 < 2 ^ 32 - 1000) p l start interval it)
    with (its1 := its1) (its2 := its2) (e := e) (w := w) (ls := ls) as [Hcut Hfin];
    auto.
  - intros it1 e1 w1 ls1 w' ls' Hit1 Hls1 H.
    destruct (capture_iteration_cases _ _ _ _ _ _ _ _ _ _ _ H)
      as (lsg & [(_ & Hgo & _) | (Hg & w2 & ls2 & Hvideo & Hsame)]);
      [discriminate|].
    apply capture_video_locals in Hvideo. destruct Hvideo as (_ & Hcheck & _).
    destruct Hsame as (_ & _ & _ & Hsame & _). rewrite Hsame, Hcheck.
    exact (loop_gate_check _ _ _ _ _ Hd Hstart Hit1 Hls1 Hg).
  - intros e1 w1 ls1 w' ls' Hls1 H. apply (Hstop _ _ _ _ _ _ Hls1) in H.
    destruct H as [H _]. discriminate.
Qed.

Lemma unlimited_recording_ends_after_a_minute_witness :
  capture_loop (set_duration 0 (demo_params true false false))
    (declare_locals false (demo_params true false false)) 1000 33
    ([demo_iteration 1000; demo_iteration 31000] ++ demo_iteration 62000
       :: [demo_iteration 62010])
    demo_running_engine demo_capturing_world demo_first_locals
  = capture_loop (set_duration 0 (demo_params true false false))
      (declare_locals false (demo_params true false false)) 1000 33
      ([demo_iteration 1000; demo_iteration 31000] ++ [demo_iteration 62000])
      demo_running_engine demo_capturing_world demo_first_locals.
Proof.
  apply (unlimited_recording_ends_after_a_minute
           (set_duration 0 (demo_params true false false))
           (declare_locals false (demo_params true false false)) 1000 33
           [demo_iteration 1000; demo_iteration 31000] [demo_iteration 62010]
           (demo_iteration 62000) demo_running_engine demo_capturing_world
           demo_first_locals);
    try reflexivity; try (repeat constructor; simpl; lia); simpl; lia.
Defined.

(** The video slots used so far account for the frame clock, and the
    clock is at most one interval past [T]. *)
Definition paced (start interval T : Z) (ls : loop_state) : Prop :=
  next_frame_time ls
  = start + interval * (frame_count ls + failed_frame_attempts ls)
  /\ 0 <= next_frame_time ls <= T + interval.

Lemma capture_iteration_paced p l start interval T it e w ls go w' ls' :
  0 < interval -> T + interval < 2 ^ 32 -> it_tick it <= T ->
  paced start interval T ls ->
  capture_iteration p l start interval it e w ls = Ret (go, w', ls') ->
  paced start interval T ls'
  /\ frame_count ls <= frame_count ls'
  /\ failed_frame_attempts ls <= failed_frame_attempts ls'.
Proof.
  intros Hiv HT Htick (Hclock & Hrange) H.
  destruct (capture_iteration_cases _ _ _ _ _ _ _ _ _ _ _ H)
    as (ls1 & [(Hg & _ & -> & _) | (Hg & w2 & ls2 & Hvideo & Hsame)]);
    destruct (loop_gate_pacing _ _ _ _ _ _ Hg) as (Hn & Hf & Hff).
  - unfold paced. rewrite Hn, Hf, Hff. repeat split; try lia.
  - destruct Hsame as (Sn & Sf & Sff & _).
    apply capture_video_locals in Hvideo.
    destruct Hvideo as (_ & _ & _ & _ & [-> | (Hdue & Hnext & Hsum & Hmf & Hmff)]).
    + unfold paced. rewrite Sn, Sf, Sff, Hn, Hf, Hff. repeat split; try lia.
    + rewrite Hn in Hdue, Hnext. rewrite Hf in Hmf. rewrite Hff in Hmff.
      rewrite Hf, Hff in Hsum.
      rewrite u32_small in Hnext by lia.
      unfold paced. rewrite Sn, Sf, Sff, Hnext. repeat split; try lia.
Qed.

(** X26.  The capture loop takes video slots no faster than the frame
    interval allows.  As long as the frame clock does not wrap, it stands
    at start + interval * (frames + failed attempts) and is at most one
    interval past T, a tick that no iteration so far exceeded; so the
    frames and the failed attempts that end up in the statistics number
    at most (T - start) / interval + 1 together, and neither counter
    ever decreases. *)
Theorem capture_loop_frame_rate (p : capture_params_t) (l : start_locals)
    (start interval T : Z) (its : list iteration_os)
    (e e' : capture_engine_t) (w w' : world) (ls ls' : loop_state) :
  0 < interval -> T + interval < 2 ^ 32 ->
  Forall (fun it => it_tick it <= T) its ->
  paced start interval T ls ->
  capture_loop p l start interval its e w ls = Ret (e', w', ls') ->
  paced start interval T ls'
  /\ frame_count ls' + failed_frame_attempts ls' <= (T - start) / interval + 1
  /\ frame_count ls <= frame_count ls'
  /\ failed_frame_attempts ls <= failed_frame_attempts ls'.
Proof.
  intros Hiv HT Hticks Hpaced H.
  assert (Hloop : paced start interval T ls'
                  /\ frame_count ls <= frame_count ls'
                  /\ failed_frame_attempts ls <= failed_frame_attempts ls').
  { revert e w ls Hpaced H.
    induction Hticks as [|it its Hit _ IH]; intros e w ls Hpaced H.
    - cbn [capture_loop] in H. break_if_in H; [|discriminate].
      inv H. repeat split; try lia; apply Hpaced.
    - rewrite capture_loop_cons in H.
      break_if_in H; [inv H; repeat split; try lia; apply Hpaced|].
      break_if_in H; [inv H; repeat split; try lia; apply Hpaced|].
      destruct (capture_iteration p l start interval it e w ls)
        as [[[go w1] ls1]| |] eqn:Hiter; try discriminate.
      cbn [bind] in H.
      destruct (capture_iteration_paced _ _ _ _ _ _ _ _ _ _ _ _ Hiv HT Hit Hpaced Hiter)
        as (Hp1 & Hf1 & Hff1).
      destruct go.
      + destruct (IH _ _ _ Hp1 H) as (Hp' & Hf' & Hff'). repeat split; try lia;
          apply Hp'.
      + inv H. repeat split; try lia; apply Hp1. }
  destruct Hloop as (Hp' & Hf' & Hff'). split; [exact Hp'|]. split; [|auto].
  destruct Hp' as (Hclock & Hrange).
  replace ((T - start) / interval + 1) with ((T - start + 1 * interval) / interval)
    by (apply Z.div_add; lia).
  apply Z.div_le_lower_bound; lia.
Qed.

(** Three polls within 40 ms of the start at an interval of 33 ms, then
    [engine_stop] from another thread. *)
Definition demo_stop_iteration (now : Z) : iteration_os :=
  {| it_engine_stop := true; it_tick := now; it_frame := demo_frame_os;
     it_video_sample := always; it_system_buffer := demo_packet_os now;
     it_system_sample := always; it_microphone_buffer := demo_packet_os now;
     it_microphone_sample := always |}.

Definition demo_short_trace : list iteration_os :=
  map demo_iteration [1000; 1010; 1040] ++ [demo_stop_iteration 1050].

Definition demo_loop_result : capture_engine_t * world * loop_state :=
  match capture_loop (demo_params true false false)
          (declare_locals false (demo_params true false false)) 1000 33
          demo_short_trace
          demo_running_engine demo_capturing_world demo_first_locals with
  | Ret x => x
  | _ => (demo_running_engine, demo_capturing_world, demo_first_locals)
  end.

Lemma capture_loop_frame_rate_witness :
  frame_count (snd demo_loop_result) + failed_frame_attempts (snd demo_loop_result)
  <= (1050 - 1000) / 33 + 1.
Proof.
  refine (proj1 (proj2 (capture_loop_frame_rate (demo_params true false false)
            (declare_locals false (demo_params true false false)) 1000 33 1050
            demo_short_trace
            demo_running_engine (fst (fst demo_loop_result))
            demo_capturing_world (snd (fst demo_loop_result))
            demo_first_locals (snd demo_loop_result) _ _ _ _ _))).
  - lia.
  - lia.
  - repeat constructor; simpl; lia.
  - unfold paced. simpl. lia.
  - vm_compute. reflexivity.
Defined.

(** X27.  Whenever [engine_start] returns on an engine that was not
    running, it has returned 0 or -1 and the engine is not running: the
    flag that [engine_is_running] reads and that [engine_stop] waits for
    is cleared on every path out of the function. *)
Theorem engine_start_leaves_engine_stopped (audio_build : bool)
    (e : capture_engine_t) (p : capture_params_t) (os : engine_os) (w w' : world)
    (r : Z) (o : option capture_engine_t) :
  is_running e = false ->
  engine_start audio_build (Some e) (Some p) os w = Ret (r, o, w') ->
  (r = 0 \/ r = -1)
  /\ exists e', o = Some e' /\ is_running e' = false
                /\ engine_is_running o = false.
Proof.
  intros Hrun H.
  destruct (engine_start_result _ _ _ _ _ _ _ _ Hrun H) as (Hr & e' & -> & He').
  split; [exact Hr|]. exists e'. repeat split; assumption.
Qed.

(** A one-second video recording in a build without audio. *)
Definition demo_start_result : Z * option capture_engine_t * world :=
  match engine_start false (Some demo_engine) (Some (demo_params true false false))
          (demo_engine_os [1000; 2000]) initial_world with
  | Ret x => x
  | _ => (-1, None, initial_world)
  end.

Lemma engine_start_leaves_engine_stopped_witness :
  fst (fst demo_start_result) = 0
  /\ engine_is_running (snd (fst demo_start_result)) = false.
Proof.
  assert (H : engine_start false (Some demo_engine) (Some (demo_params true false false))
                (demo_engine_os [1000; 2000]) initial_world
              = Ret (fst (fst demo_start_result), snd (fst demo_start_result),
                     snd demo_start_result))
    by (vm_compute; reflexivity).
  destruct (engine_start_leaves_engine_stopped false demo_engine
              (demo_params true false false) (demo_engine_os [1000; 2000])
              initial_world _ _ _ eq_refl H) as (_ & e' & _ & _ & Hstopped).
  split; [vm_compute; reflexivity|exact Hstopped].
Defined.
